(** * EV info display: the OBD-II request/response core

    A shallow embedding of the firmware's CAN manager (ISO-TP reassembly),
    vehicle manager (response matching), VW MEB request evaluator, data
    broker and ELM327 adapter driver, with the properties of the
    specification stated and settled against it.

    Further parts embed the rest of the vehicle manager (vehicle
    selection, the one-place response buffer, evaluation) and the response
    decoders of the VW MEB and Nissan Leaf ZE1 vehicles, with properties
    read off the code.

    C integers are modelled as [Z]; arrays as lists indexed through stdpp's
    lookup and insert; module-level C variables as record fields that are
    threaded through the functions; calls that leave a module as a list of
    actions returned next to the new state. *)

From Stdlib Require Import ZArith Lia Bool String Ascii.
From Stdlib Require QArith.
From stdpp Require Import list.

Local Open Scope Z_scope.

(** Reading [a[i]] from a C array modelled as a list. *)
Definition rd (a : list Z) (i : Z) : Z := default 0 (a !! Z.to_nat i).

(** Writing [a[i] = v]. *)
Definition wr (a : list Z) (i : Z) (v : Z) : list Z := <[Z.to_nat i := v]> a.

Definition is_byte (b : Z) : bool := (0 <=? b) && (b <? 256).

(* ===================================================================== *)
(** ** CAN manager: can_manager.c                                         *)
(* ===================================================================== *)

Module CanManager.

(** [cur_req_id], [cur_rsp_id], [data_buf] and the function-static
    variables [num_rx_bytes], [data_index], [seq_num] of [can_rx_packet]. *)
Record can_state := mk_can_state {
  cur_req_id : Z;
  cur_rsp_id : Z;
  data_buf : list Z;
  num_rx_bytes : Z;
  data_index : Z;
  seq_num : Z
}.

Definition flow_control_data : list Z :=
  [0x30; 0x00; 0x00; 0x00; 0x00; 0x00; 0x00; 0x00].

(** Calls made by [can_rx_packet] into the driver and the vehicle manager.
    [Vm_rx_data id len payload] carries the [len] bytes of [data_buf] that
    [vm_rx_data] copies. *)
Inductive can_action :=
| Fcn_response_complete
| Vm_rx_data (id : Z) (len : Z) (payload : list Z)
| Fcn_tx_fc_packet (req_id : Z) (len : Z) (data : list Z).

Definition set_single (s : can_state) (n : Z) : can_state :=
  mk_can_state (cur_req_id s) (cur_rsp_id s) (data_buf s) n 0 0xFF.

Definition set_first (s : can_state) (n : Z) : can_state :=
  mk_can_state (cur_req_id s) (cur_rsp_id s) (data_buf s) n 0 0.

Definition set_seq_num (s : can_state) (q : Z) : can_state :=
  mk_can_state (cur_req_id s) (cur_rsp_id s) (data_buf s)
               (num_rx_bytes s) (data_index s) q.

(** [data_buf[data_index++] = b] *)
Definition push_byte (s : can_state) (b : Z) : can_state :=
  mk_can_state (cur_req_id s) (cur_rsp_id s)
               (wr (data_buf s) (data_index s) b)
               (num_rx_bytes s) (data_index s + 1) (seq_num s).

(** The copy loop
    [while ((rx_data_index < len) && (data_index < num_rx_bytes))].
    It runs at most [len - rx_data_index] times, which is the fuel the
    caller passes. *)
Fixpoint copy_loop (fuel : nat) (data : list Z) (len rx_data_index : Z)
         (s : can_state) : can_state :=
  match fuel with
  | O => s
  | S fuel' =>
      if (rx_data_index <? len) && (data_index s <? num_rx_bytes s)
      then copy_loop fuel' data len (rx_data_index + 1)
                     (push_byte s (rd data rx_data_index))
      else s
  end.

(** The locals set by the [switch] on the PCI type. *)
Record rx_locals := mk_rx_locals {
  is_singleframe : bool;
  is_firstframe : bool;
  is_consecutiveframe : bool;
  rx_data_index : Z
}.

Definition no_frame : rx_locals := mk_rx_locals false false false 0.

Definition classify (len : Z) (data : list Z) (s : can_state)
  : rx_locals * can_state :=
  if len >? 0 then
    let pci := Z.land (rd data 0) 0xF0 in
    if pci =? 0x00 then
      (mk_rx_locals true false false 1,
       set_single s (Z.land (rd data 0) 0x0F))
    else if pci =? 0x10 then
      if len >? 1 then
        (mk_rx_locals false true false 2,
         set_first s (Z.lor (Z.shiftl (Z.land (rd data 0) 0x0F) 8) (rd data 1)))
      else (no_frame, set_seq_num s 0xFF)
    else if pci =? 0x20 then
      (mk_rx_locals false false true 1, s)
    else (no_frame, s)
  else (no_frame, s).

(** The condition of the copy block: a single frame, a first frame, or a
    consecutive frame carrying the expected sequence number. *)
Definition accepted (l : rx_locals) (data : list Z) (s1 : can_state) : bool :=
  is_singleframe l || is_firstframe l
  || (is_consecutiveframe l && (Z.land (rd data 0) 0x0F =? seq_num s1)).

(** The copy block: copy, advance the sequence number, and hand a complete
    response to the driver and the vehicle manager. *)
Definition copy_and_deliver (rsp_id len : Z) (data : list Z) (rdi : Z)
           (s1 : can_state) : can_state * list can_action :=
  let s2 := copy_loop (Z.to_nat (len - rdi)) data len rdi s1 in
  let s3 := set_seq_num s2 (Z.land (seq_num s2 + 1) 0x0F) in
  if data_index s3 =? num_rx_bytes s3
  then (s3, [Fcn_response_complete;
             Vm_rx_data rsp_id (num_rx_bytes s3)
                        (take (Z.to_nat (num_rx_bytes s3)) (data_buf s3))])
  else (s3, []).

(** The flow-control block at the end of [can_rx_packet]. *)
Definition send_flow_control (l : rx_locals) (s : can_state) : list can_action :=
  if is_firstframe l && negb (cur_req_id s =? 0)
  then [Fcn_tx_fc_packet (cur_req_id s) 8 flow_control_data]
  else [].

Definition can_rx_packet (rsp_id len : Z) (data : list Z) (s : can_state)
  : can_state * list can_action :=
  if rsp_id =? cur_rsp_id s then
    let cl := classify len data s in
    let r := if accepted (fst cl) data (snd cl)
             then copy_and_deliver rsp_id len data (rx_data_index (fst cl)) (snd cl)
             else (snd cl, []) in
    (fst r, snd r ++ send_flow_control (fst cl) s)
  else (s, []).

(** [can_tx_packet] records the pair of ids; the driver call is the
    caller's concern. *)
Definition can_tx_packet_ids (req_id rsp_id : Z) (s : can_state) : can_state :=
  mk_can_state req_id rsp_id (data_buf s) (num_rx_bytes s) (data_index s)
               (seq_num s).

(** A received frame: identifier and the [len] data bytes. *)
Record frame := mk_frame { f_id : Z; f_data : list Z }.

Definition f_len (f : frame) : Z := Z.of_nat (length (f_data f)).

Definition rx_frame (f : frame) (s : can_state) : can_state * list can_action :=
  can_rx_packet (f_id f) (f_len f) (f_data f) s.

(** Feeding a sequence of frames; the result keeps the actions of each
    frame apart. *)
Fixpoint can_rx_run (fs : list frame) (s : can_state)
  : can_state * list (list can_action) :=
  match fs with
  | [] => (s, [])
  | f :: fs' =>
      let '(s1, a) := rx_frame f s in
      let '(s2, tr) := can_rx_run fs' s1 in
      (s2, a :: tr)
  end.

Definition deliveries (acts : list can_action) : list (Z * Z * list Z) :=
  flat_map (fun a => match a with
                     | Vm_rx_data id len p => [(id, len, p)]
                     | _ => []
                     end) acts.

Definition is_completion (a : can_action) : bool :=
  match a with Fcn_response_complete => true | _ => false end.

Definition completions (acts : list can_action) : nat :=
  length (List.filter is_completion acts).

Definition flow_controls (acts : list can_action) : list (Z * Z * list Z) :=
  flat_map (fun a => match a with
                     | Fcn_tx_fc_packet id len d => [(id, len, d)]
                     | _ => []
                     end) acts.

Definition init_state (req rsp : Z) : can_state :=
  mk_can_state req rsp (replicate 4096 0) 0 0 0.

(** *** Frame patterns, as the ISO-TP rules of the specification word them *)

Definition relevant (id : Z) (f : frame) : bool := f_id f =? id.

Definition frame_wf (f : frame) : bool := forallb is_byte (f_data f).

Definition pci (f : frame) : Z := Z.land (rd (f_data f) 0) 0xF0.

Definition low_nibble (f : frame) : Z := Z.land (rd (f_data f) 0) 0x0F.

Definition is_single (f : frame) : bool :=
  frame_wf f && (0 <? f_len f) && (pci f =? 0x00).

Definition is_first (f : frame) : bool :=
  frame_wf f && (1 <? f_len f) && (pci f =? 0x10).

Definition is_consecutive (k : Z) (f : frame) : bool :=
  frame_wf f && (0 <? f_len f) && (pci f =? 0x20) && (low_nibble f =? k mod 16).

(** Data bytes of a frame: from byte 2 in a first frame, from byte 1 in a
    single or consecutive frame. *)
Definition frame_bytes (f : frame) : list Z :=
  if pci f =? 0x10 then drop 2 (f_data f) else drop 1 (f_data f).

(** Total declared by the head frame. *)
Definition frame_total (f : frame) : Z :=
  if pci f =? 0x10
  then Z.lor (Z.shiftl (low_nibble f) 8) (rd (f_data f) 1)
  else low_nibble f.

Definition all_other (id : Z) (fs : list frame) : bool :=
  forallb (fun f => negb (relevant id f)) fs.

(** Consecutive frames on [id] numbered [k], [k+1], ... modulo 16, with
    frames on other ids in between. *)
Fixpoint in_order (id k : Z) (fs : list frame) : bool :=
  match fs with
  | [] => true
  | f :: r =>
      if relevant id f then is_consecutive k f && in_order id (k + 1) r
      else in_order id k r
  end.

(** A single frame, or a first frame followed by in-order consecutive
    frames, interleaved with frames on other ids. *)
Fixpoint valid_pattern (id : Z) (fs : list frame) : bool :=
  match fs with
  | [] => true
  | f :: r =>
      if relevant id f
      then (is_single f && all_other id r) || (is_first f && in_order id 1 r)
      else valid_pattern id r
  end.

Definition message_bytes (id : Z) (fs : list frame) : list Z :=
  flat_map frame_bytes (List.filter (relevant id) fs).

Definition declared_total (id : Z) (fs : list frame) : Z :=
  match List.filter (relevant id) fs with
  | [] => 0
  | f :: _ => frame_total f
  end.

End CanManager.

(* ===================================================================== *)
(** ** Vehicle manager: response matching                                 *)
(* ===================================================================== *)

Module VehicleManager.

(** [can_request_t] *)
Record can_request_t := mk_can_request {
  req_id : Z;
  rsp_id : Z;
  req_len : Z;
  data : list Z
}.

(** The inner loop
    [while (n--) { match &= (resp_data[j-1] == req->data[j]); j += 1; }]
    for a count [n] that is not negative. *)
Fixpoint check_bytes (n : nat) (resp_data req_data : list Z) (j : Z)
         (match_ : bool) : bool :=
  match n with
  | O => match_
  | S n' =>
      check_bytes n' resp_data req_data (j + 1)
                  (match_ && (rd resp_data (j - 1) =? rd req_data j))
  end.

(** The body of the [for] loop for one entry. [None] stands for the case
    [n = req->data[0] - 1 < 0], in which [while (n--)] counts down from a
    negative number and reads past both arrays. *)
Definition entry_match (resp_can_id resp_data_len : Z) (resp_data : list Z)
           (e : can_request_t) : option bool :=
  if (resp_can_id =? rsp_id e) && (rd resp_data 0 =? rd (data e) 1 + 0x40) then
    if resp_data_len <=? rd (data e) 0 then Some false
    else
      let n := rd (data e) 0 - 1 in
      if n <? 0 then None
      else Some (check_bytes (Z.to_nat n) resp_data (data e) 2 true)
  else Some false.

(** The [for] loop over the request list, from index [i]. *)
Fixpoint scan (resp_can_id resp_data_len : Z) (resp_data : list Z)
         (req_list : list can_request_t) (i : Z) : option Z :=
  match req_list with
  | [] => Some (-1)
  | e :: rest =>
      match entry_match resp_can_id resp_data_len resp_data e with
      | None => None
      | Some true => Some i
      | Some false => scan resp_can_id resp_data_len resp_data rest (i + 1)
      end
  end.

Definition vm_get_resp_index (resp_can_id resp_data_len : Z) (resp_data : list Z)
           (req_list_len : Z) (req_list : list can_request_t) : option Z :=
  if resp_data_len <? 2 then Some (-1)
  else if rd resp_data 0 =? 0x7F then Some (-1)
  else scan resp_can_id resp_data_len resp_data
            (take (Z.to_nat req_list_len) req_list) 0.

Definition vm_mask_check (req_mask mask_list : Z) : bool :=
  negb (Z.land req_mask mask_list =? 0).

(** The matching conditions in the specification's words. *)
Definition entry_matches (resp_can_id len : Z) (resp_data : list Z)
           (e : can_request_t) : Prop :=
  resp_can_id = rsp_id e /\
  rd resp_data 0 = rd (data e) 1 + 0x40 /\
  len > rd (data e) 0 /\
  forall k, 0 <= k < rd (data e) 0 - 1 ->
            rd resp_data (1 + k) = rd (data e) (2 + k).

(** Request descriptors carry a single-frame PCI: at least the SID. *)
Definition catalogue_wf (cat : list can_request_t) : bool :=
  forallb (fun e => 1 <=? rd (data e) 0) cat.

End VehicleManager.

(* ===================================================================== *)
(** ** Data item masks: data_broker.h                                     *)
(* ===================================================================== *)

Definition DB_ITEM_HV_BATT_V : Z := 0x00000001.
Definition DB_ITEM_HV_BATT_I : Z := 0x00000002.
Definition DB_ITEM_HV_BATT_MIN_T : Z := 0x00000004.
Definition DB_ITEM_HV_BATT_MAX_T : Z := 0x00000008.
Definition DB_ITEM_LV_BATT_V : Z := 0x00000010.
Definition DB_ITEM_LV_BATT_I : Z := 0x00000020.
Definition DB_ITEM_LV_BATT_T : Z := 0x00000040.
Definition DB_ITEM_AUX_KW : Z := 0x00000100.
Definition DB_ITEM_FRONT_TORQUE : Z := 0x00001000.
Definition DB_ITEM_REAR_TORQUE : Z := 0x00002000.
Definition DB_ITEM_SPEED : Z := 0x00010000.
Definition DB_ITEM_GPS_ELEVATION : Z := 0x00100000.
Definition DB_MAX_ITEMS : Z := 32.

Definition CAN_ERRNO_NONE : Z := 0.
Definition CAN_ERRNO_TIMEOUT : Z := 1.

(* ===================================================================== *)
(** ** VW MEB decoder: request management                                 *)
(* ===================================================================== *)

Module VwMeb.
Import VehicleManager.

Definition NUM_UDS_REQ_ITEMS : Z := 11.

Definition req_12v_batt_info := mk_can_request 0x710 0x77A 8 [0x03; 0x22; 0x2A; 0xF7; 0x00; 0x00; 0x00; 0x00].
Definition req_gps_info := mk_can_request 0x767 0x7D1 8 [0x03; 0x22; 0x24; 0x30; 0x00; 0x00; 0x00; 0x00].
Definition req_aux_power := mk_can_request 0x17fc0076 0x17fe0076 8 [0x03; 0x22; 0x03; 0x64; 0x00; 0x00; 0x00; 0x00].
Definition req_hv_batt_current := mk_can_request 0x17fc007b 0x17fe007b 8 [0x03; 0x22; 0x1E; 0x3D; 0x00; 0x00; 0x00; 0x00].
Definition req_hv_batt_min_t := mk_can_request 0x17fc007b 0x17fe007b 8 [0x03; 0x22; 0x1E; 0x0F; 0x00; 0x00; 0x00; 0x00].
Definition req_hv_batt_max_t := mk_can_request 0x17fc007b 0x17fe007b 8 [0x03; 0x22; 0x1E; 0x0E; 0x00; 0x00; 0x00; 0x00].
Definition req_hv_batt_volt := mk_can_request 0x17fc007b 0x17fe007b 8 [0x03; 0x22; 0x1E; 0x3B; 0x00; 0x00; 0x00; 0x00].
Definition req_front_torque := mk_can_request 0x17fc0076 0x17fe0076 8 [0x03; 0x22; 0x03; 0x35; 0x00; 0x00; 0x00; 0x00].
Definition req_rear_torque := mk_can_request 0x17fc0076 0x17fe0076 8 [0x03; 0x22; 0x03; 0x3B; 0x00; 0x00; 0x00; 0x00].
Definition req_gear_pos := mk_can_request 0x17fc0076 0x17fe0076 8 [0x03; 0x22; 0x21; 0x0E; 0x00; 0x00; 0x00; 0x00].
Definition req_speed := mk_can_request 0x18DB33F1 0x18DAF101 8 [0x02; 0x01; 0x0D; 0x00; 0x00; 0x00; 0x00; 0x00].

Definition req_full_listP : list can_request_t :=
  [req_12v_batt_info; req_gps_info; req_aux_power; req_hv_batt_current;
   req_hv_batt_min_t; req_hv_batt_max_t; req_hv_batt_volt; req_front_torque;
   req_rear_torque; req_gear_pos; req_speed].

(** The variables under "OBD2 Request management". [req_listP] is an array
    of pointers: [None] is a NULL entry. *)
Record meb_state := mk_meb_state {
  req_listP : list (option can_request_t);
  req_in_process : bool;
  req_timeout : bool;
  saw_error : bool;
  saw_response : bool;
  req_index : Z;
  num_req_entries : Z
}.

Definition meb_init : meb_state :=
  mk_meb_state (replicate 11 None) false false false false 0 0.

(** The first block of [_vw_meb_eval]: handle any response or timeout. *)
Definition handle_completion (s : meb_state) : meb_state :=
  if req_in_process s then
    if saw_error s || saw_response s || req_timeout s then
      mk_meb_state (req_listP s) false
                   (if req_timeout s then false else req_timeout s)
                   (saw_error s) (saw_response s) (req_index s) (num_req_entries s)
    else s
  else s.

(** What a call of [can_tx_packet] does as seen from the evaluator: its
    boolean result, and the error codes it reports through
    [can_if_error] -> [vm_note_error] -> [_vw_meb_error] before it returns
    (the ELM327 driver reports its line timeouts this way). *)
Record tx_outcome := mk_tx_outcome { tx_ok : bool; tx_errors : list Z }.

Definition _vw_meb_error (errno : Z) (s : meb_state) : meb_state :=
  if errno =? CAN_ERRNO_TIMEOUT then
    mk_meb_state (req_listP s) (req_in_process s) true (saw_error s)
                 (saw_response s) (req_index s) (num_req_entries s)
  else s.

(** [_vw_meb_eval]. The second component of the result is the descriptor
    handed to [can_tx_packet], if any. [None] stands for dereferencing a
    NULL or out-of-range entry of [req_listP]. *)
Definition _vw_meb_eval (tx : tx_outcome) (s : meb_state)
  : option (meb_state * option can_request_t) :=
  let s1 := handle_completion s in
  if negb (req_in_process s1) && (num_req_entries s1 >? 0) then
    match req_listP s1 !! Z.to_nat (req_index s1) with
    | Some (Some r) =>
        let s2 := mk_meb_state (req_listP s1) true false (saw_error s1) false
                               (req_index s1) (num_req_entries s1) in
        let s3 := fold_left (fun st e => _vw_meb_error e st) (tx_errors tx) s2 in
        Some (mk_meb_state (req_listP s3) (req_in_process s3) (req_timeout s3)
                (negb (tx_ok tx)) (saw_response s3)
                (if req_index s3 + 1 >=? num_req_entries s3 then 0
                 else req_index s3 + 1)
                (num_req_entries s3),
              Some r)
    | _ => None
    end
  else Some (s1, None).

Definition required_req (mask : Z) : list bool :=
  [vm_mask_check mask (Z.lor DB_ITEM_LV_BATT_V DB_ITEM_LV_BATT_I);
   vm_mask_check mask DB_ITEM_GPS_ELEVATION;
   vm_mask_check mask DB_ITEM_AUX_KW;
   vm_mask_check mask DB_ITEM_HV_BATT_I;
   vm_mask_check mask DB_ITEM_HV_BATT_MIN_T;
   vm_mask_check mask DB_ITEM_HV_BATT_MAX_T;
   vm_mask_check mask (Z.lor DB_ITEM_HV_BATT_V DB_ITEM_AUX_KW);
   vm_mask_check mask DB_ITEM_FRONT_TORQUE;
   vm_mask_check mask DB_ITEM_REAR_TORQUE;
   vm_mask_check mask (Z.lor DB_ITEM_FRONT_TORQUE DB_ITEM_REAR_TORQUE);
   vm_mask_check mask DB_ITEM_SPEED].

(** The loop over [i] that compacts the required requests:
    [if (required_req[i]) { num_req_entries += 1; req_listP[n++] = req_full_listP[i]; }] *)
Fixpoint build_list (reqs : list (bool * can_request_t)) (n : Z)
         (lst : list (option can_request_t)) (num : Z)
  : list (option can_request_t) * Z :=
  match reqs with
  | [] => (lst, num)
  | (b, r) :: rest =>
      if b : bool then build_list rest (n + 1) (<[Z.to_nat n := Some r]> lst) (num + 1)
      else build_list rest n lst num
  end.

Definition _vw_meb_set_req_mask (mask : Z) (s : meb_state) : meb_state :=
  let '(lst, num) :=
    build_list (zip (required_req mask) req_full_listP) 0 (req_listP s) 0 in
  mk_meb_state lst (req_in_process s) (req_timeout s) (saw_error s)
               (saw_response s) 0 num.

(** The effect of [_vw_meb_rx_data] on the request management variables:
    [saw_response = true]. The numeric decoding and publishing that follow
    do not touch them. *)
Definition _vw_meb_rx_data (s : meb_state) : meb_state :=
  mk_meb_state (req_listP s) (req_in_process s) (req_timeout s) (saw_error s)
               true (req_index s) (num_req_entries s).

(** The calls the vehicle manager makes into the decoder. *)
Inductive meb_event :=
| EvEval (tx : tx_outcome)
| EvSetReqMask (mask : Z)
| EvRxData
| EvError (errno : Z).

Definition meb_step (ev : meb_event) (s : meb_state)
  : option (meb_state * option can_request_t) :=
  match ev with
  | EvEval tx => _vw_meb_eval tx s
  | EvSetReqMask mask => Some (_vw_meb_set_req_mask mask s, None)
  | EvRxData => Some (_vw_meb_rx_data s, None)
  | EvError errno => Some (_vw_meb_error errno s, None)
  end.

(** Running a sequence of calls; the trace lists, per call, the request
    handed to [can_tx_packet]. *)
Fixpoint meb_run (evs : list meb_event) (s : meb_state)
  : option (meb_state * list (option can_request_t)) :=
  match evs with
  | [] => Some (s, [])
  | ev :: rest =>
      match meb_step ev s with
      | None => None
      | Some (s1, out) =>
          match meb_run rest s1 with
          | None => None
          | Some (s2, tr) => Some (s2, out :: tr)
          end
      end
  end.

Definition reachable (s : meb_state) : Prop :=
  exists evs tr, meb_run evs meb_init = Some (s, tr).

(** A call that makes the previous request complete, error or time out as
    far as the evaluator can observe. *)
Definition completes (ev : meb_event) : bool :=
  match ev with
  | EvRxData => true
  | EvError errno => errno =? CAN_ERRNO_TIMEOUT
  | _ => false
  end.

(** A transmit that the evaluator will see as already failed or timed
    out: [can_tx_packet] returned false or reported a timeout. *)
Definition tx_unanswered (tx : tx_outcome) : bool :=
  negb (tx_ok tx) || existsb (fun e => e =? CAN_ERRNO_TIMEOUT) (tx_errors tx).

(** A request is in flight: the marker is set and none of the three flags
    has been raised. *)
Definition in_flight (s : meb_state) : bool :=
  req_in_process s && negb (saw_error s || saw_response s || req_timeout s).

Definition next_cursor (s : meb_state) : Z :=
  if req_index s + 1 >=? num_req_entries s then 0 else req_index s + 1.

End VwMeb.

(* ===================================================================== *)
(** ** Data broker: data_broker.c                                         *)
(* ===================================================================== *)

Module DataBroker.

Section Broker.

(** Values are C [float]s. The embedding keeps them abstract: [vzero] is
    [0] and [half_sum a b] is [(a + b)/2.0]. Handlers are function
    pointers; [handler] names them and [None] is [NULL]. *)
Variable V : Type.
Variable vzero : V.
Variable half_sum : V -> V -> V.
Variable handler : Type.

Record db_state := mk_db_state {
  gui_item_fast_average : bool;
  gui_handler_list : list (option handler);
  gui_item_value_list0 : list V;
  gui_item_value_list1 : list V;
  gui_item_updated_mask : Z
}.

(** Static storage before [db_init] runs. *)
Definition db_boot : db_state :=
  mk_db_state false (replicate 32 None) (replicate 32 vzero)
              (replicate 32 vzero) 0.

Definition db_init (s : db_state) : db_state :=
  mk_db_state (gui_item_fast_average s) (replicate 32 None)
              (replicate 32 vzero) (gui_item_value_list1 s)
              (gui_item_updated_mask s).

Definition db_enable_fast_average (en : bool) (s : db_state) : db_state :=
  mk_db_state true (gui_handler_list s) (gui_item_value_list0 s)
              (gui_item_value_list1 s) (gui_item_updated_mask s).

(** The loop of [_db_mask_to_index]; [shift_mask] is a [uint32_t]. *)
Fixpoint mask_to_index_loop (fuel : nat) (mask n shift_mask : Z) : Z :=
  match fuel with
  | O => -1
  | S fuel' =>
      if negb (Z.land mask shift_mask =? 0) then n
      else mask_to_index_loop fuel' mask (n + 1)
                              (Z.shiftl shift_mask 1 mod 2 ^ 32)
  end.

Definition _db_mask_to_index (mask : Z) : Z :=
  mask_to_index_loop (Z.to_nat DB_MAX_ITEMS) mask 0 0x00000001.

Definition db_register_gui_callback (mask : Z) (fcn : option handler)
           (s : db_state) : db_state :=
  let n := _db_mask_to_index mask in
  if n >=? 0 then
    mk_db_state (gui_item_fast_average s)
                (<[Z.to_nat n := fcn]> (gui_handler_list s))
                (<[Z.to_nat n := vzero]> (gui_item_value_list0 s))
                (gui_item_value_list1 s)
                (Z.land (gui_item_updated_mask s) (Z.lnot (Z.shiftl 1 n)))
  else s.

Definition db_set_data_item_value (mask : Z) (val : V) (s : db_state) : db_state :=
  let n := _db_mask_to_index mask in
  if n >=? 0 then
    mk_db_state (gui_item_fast_average s) (gui_handler_list s)
                (<[Z.to_nat n := val]> (gui_item_value_list0 s))
                (<[Z.to_nat n := default vzero (gui_item_value_list0 s !! Z.to_nat n)]>
                   (gui_item_value_list1 s))
                (Z.lor (gui_item_updated_mask s) (Z.shiftl 1 n))
  else s.

(** One iteration of the loop of [db_gui_eval]: the handler called for
    index [i], with its argument, if any. *)
Definition eval_item (s : db_state) (i : nat) : list (handler * V) :=
  if negb (Z.land (gui_item_updated_mask s) (Z.shiftl 1 (Z.of_nat i)) =? 0) then
    match gui_handler_list s !! i with
    | Some (Some h) =>
        let v0 := default vzero (gui_item_value_list0 s !! i) in
        let v1 := default vzero (gui_item_value_list1 s !! i) in
        if gui_item_fast_average s then [(h, half_sum v0 v1)] else [(h, v0)]
    | _ => []
    end
  else [].

(** [db_gui_eval]: the handler calls in the order made, and the state with
    the updated mask cleared. *)
Definition db_gui_eval (s : db_state) : db_state * list (handler * V) :=
  (mk_db_state (gui_item_fast_average s) (gui_handler_list s)
               (gui_item_value_list0 s) (gui_item_value_list1 s) 0,
   flat_map (eval_item s) (seq 0 (Z.to_nat DB_MAX_ITEMS))).

End Broker.

Arguments mk_db_state {V handler}.
Arguments gui_item_fast_average {V handler} _.
Arguments gui_handler_list {V handler} _.
Arguments gui_item_value_list0 {V handler} _.
Arguments gui_item_value_list1 {V handler} _.
Arguments gui_item_updated_mask {V handler} _.
Arguments db_boot {V} vzero handler.
Arguments db_init {V} vzero {handler} s.
Arguments db_enable_fast_average {V handler} en s.
Arguments db_register_gui_callback {V} vzero {handler} mask fcn s.
Arguments db_set_data_item_value {V} vzero {handler} mask val s.
Arguments eval_item {V} vzero half_sum {handler} s i.
Arguments db_gui_eval {V} vzero half_sum {handler} s.

End DataBroker.

(* ===================================================================== *)
(** ** ELM327 driver: can_driver_elm327.c                                 *)
(* ===================================================================== *)

Module Elm327.

(** Operational state *)
Definition OP_ST_DISCONNECTED : Z := 0.
Definition OP_ST_INIT_ELM327 : Z := 1.
Definition OP_ST_CONNECTED : Z := 2.

(** Transmit string state *)
Definition TX_ST_IDLE : Z := 0.
Definition TX_ST_AT_CMD : Z := 1.
Definition TX_ST_REQ_PKT : Z := 2.
Definition TX_ST_TIMEOUT : Z := 3.
Definition TX_ST_ERROR : Z := 4.

(** Previous packet size *)
Definition HEADER_SIZE_UNDEF : Z := 0.
Definition HEADER_SIZE_11 : Z := 1.
Definition HEADER_SIZE_29 : Z := 2.

Definition RX_BUFF_LEN : Z := 1024.
Definition MAX_ELM327_VER_LEN : Z := 6.

Definition elm327_init_cmd : list string :=
  ["ATZ"; "ATE0"; "ATCAF0"; "ATCFC1"; "ATM0"; "ATL0"; "ATH0"; "ATS1";
   "ATST7D"; "ATFCSH710"; "ATFCSD300000"; "ATFCSM1"]%string.

(** A C [char] as its code. *)
Definition ch (c : ascii) : Z := Z.of_N (N_of_ascii c).

Fixpoint chars (s : string) : list Z :=
  match s with
  | EmptyString => []
  | String c r => ch c :: chars r
  end.

(** What the driver does that is visible outside it: a line handed to the
    stream interface ([fcn_tx_line]), an error reported upward
    ([can_if_error]), a frame handed to the ISO-TP layer
    ([can_rx_packet]), and a payload that layer hands on ([vm_rx_data]). *)
Inductive event :=
| TxLine (s : string)
| IfError (errno : Z)
| CanRx (id len : Z) (data : list Z)
| VmRx (id len : Z) (payload : list Z).

(** The module variables of the driver, the statics of
    [_can_driver_elm327_proc_version_info], the ISO-TP layer the parser
    calls into, a count of elapsed 10 ms delays, and the events so far. *)
Record world := mk_world {
  driver_ok : bool;
  can_500k : bool;
  timeout_msec : Z;
  op_state : Z;
  tx_state : Z;
  prev_header_size : Z;
  prev_req_id : Z;
  prev_rsp_id : Z;
  rx_buf : list Z;
  rx_buf_push_index : Z;
  rx_buf_pop_index : Z;
  elm327_version_string : list Z;
  elm327_is_v15 : bool;
  parse_state : Z;
  ver_index : Z;
  can : CanManager.can_state;
  clock : nat;
  log : list event
}.

Definition set_timeout_msec (v : Z) (w : world) : world :=
  mk_world (driver_ok w) (can_500k w) v (op_state w) (tx_state w)
           (prev_header_size w) (prev_req_id w) (prev_rsp_id w) (rx_buf w)
           (rx_buf_push_index w) (rx_buf_pop_index w) (elm327_version_string
           w) (elm327_is_v15 w) (parse_state w) (ver_index w) (can w) (clock
           w) (log w).

Definition set_op_state (v : Z) (w : world) : world :=
  mk_world (driver_ok w) (can_500k w) (timeout_msec w) v (tx_state w)
           (prev_header_size w) (prev_req_id w) (prev_rsp_id w) (rx_buf w)
           (rx_buf_push_index w) (rx_buf_pop_index w) (elm327_version_string
           w) (elm327_is_v15 w) (parse_state w) (ver_index w) (can w) (clock
           w) (log w).

Definition set_tx_state (v : Z) (w : world) : world :=
  mk_world (driver_ok w) (can_500k w) (timeout_msec w) (op_state w) v
           (prev_header_size w) (prev_req_id w) (prev_rsp_id w) (rx_buf w)
           (rx_buf_push_index w) (rx_buf_pop_index w) (elm327_version_string
           w) (elm327_is_v15 w) (parse_state w) (ver_index w) (can w) (clock
           w) (log w).

Definition set_prev_header_size (v : Z) (w : world) : world :=
  mk_world (driver_ok w) (can_500k w) (timeout_msec w) (op_state w)
           (tx_state w) v (prev_req_id w) (prev_rsp_id w) (rx_buf w)
           (rx_buf_push_index w) (rx_buf_pop_index w) (elm327_version_string
           w) (elm327_is_v15 w) (parse_state w) (ver_index w) (can w) (clock
           w) (log w).

Definition set_prev_req_id (v : Z) (w : world) : world :=
  mk_world (driver_ok w) (can_500k w) (timeout_msec w) (op_state w)
           (tx_state w) (prev_header_size w) v (prev_rsp_id w) (rx_buf w)
           (rx_buf_push_index w) (rx_buf_pop_index w) (elm327_version_string
           w) (elm327_is_v15 w) (parse_state w) (ver_index w) (can w) (clock
           w) (log w).

Definition set_prev_rsp_id (v : Z) (w : world) : world :=
  mk_world (driver_ok w) (can_500k w) (timeout_msec w) (op_state w)
           (tx_state w) (prev_header_size w) (prev_req_id w) v (rx_buf w)
           (rx_buf_push_index w) (rx_buf_pop_index w) (elm327_version_string
           w) (elm327_is_v15 w) (parse_state w) (ver_index w) (can w) (clock
           w) (log w).

Definition set_rx_buf (v : list Z) (w : world) : world :=
  mk_world (driver_ok w) (can_500k w) (timeout_msec w) (op_state w)
           (tx_state w) (prev_header_size w) (prev_req_id w) (prev_rsp_id w)
           v (rx_buf_push_index w) (rx_buf_pop_index w)
           (elm327_version_string w) (elm327_is_v15 w) (parse_state w)
           (ver_index w) (can w) (clock w) (log w).

Definition set_rx_buf_push_index (v : Z) (w : world) : world :=
  mk_world (driver_ok w) (can_500k w) (timeout_msec w) (op_state w)
           (tx_state w) (prev_header_size w) (prev_req_id w) (prev_rsp_id w)
           (rx_buf w) v (rx_buf_pop_index w) (elm327_version_string w)
           (elm327_is_v15 w) (parse_state w) (ver_index w) (can w) (clock w)
           (log w).

Definition set_rx_buf_pop_index (v : Z) (w : world) : world :=
  mk_world (driver_ok w) (can_500k w) (timeout_msec w) (op_state w)
           (tx_state w) (prev_header_size w) (prev_req_id w) (prev_rsp_id w)
           (rx_buf w) (rx_buf_push_index w) v (elm327_version_string w)
           (elm327_is_v15 w) (parse_state w) (ver_index w) (can w) (clock w)
           (log w).

Definition set_elm327_version_string (v : list Z) (w : world) : world :=
  mk_world (driver_ok w) (can_500k w) (timeout_msec w) (op_state w)
           (tx_state w) (prev_header_size w) (prev_req_id w) (prev_rsp_id w)
           (rx_buf w) (rx_buf_push_index w) (rx_buf_pop_index w) v
           (elm327_is_v15 w) (parse_state w) (ver_index w) (can w) (clock w)
           (log w).

Definition set_elm327_is_v15 (v : bool) (w : world) : world :=
  mk_world (driver_ok w) (can_500k w) (timeout_msec w) (op_state w)
           (tx_state w) (prev_header_size w) (prev_req_id w) (prev_rsp_id w)
           (rx_buf w) (rx_buf_push_index w) (rx_buf_pop_index w)
           (elm327_version_string w) v (parse_state w) (ver_index w) (can w)
           (clock w) (log w).

Definition set_parse_state (v : Z) (w : world) : world :=
  mk_world (driver_ok w) (can_500k w) (timeout_msec w) (op_state w)
           (tx_state w) (prev_header_size w) (prev_req_id w) (prev_rsp_id w)
           (rx_buf w) (rx_buf_push_index w) (rx_buf_pop_index w)
           (elm327_version_string w) (elm327_is_v15 w) v (ver_index w) (can
           w) (clock w) (log w).

Definition set_ver_index (v : Z) (w : world) : world :=
  mk_world (driver_ok w) (can_500k w) (timeout_msec w) (op_state w)
           (tx_state w) (prev_header_size w) (prev_req_id w) (prev_rsp_id w)
           (rx_buf w) (rx_buf_push_index w) (rx_buf_pop_index w)
           (elm327_version_string w) (elm327_is_v15 w) (parse_state w) v
           (can w) (clock w) (log w).

Definition set_can (v : CanManager.can_state) (w : world) : world :=
  mk_world (driver_ok w) (can_500k w) (timeout_msec w) (op_state w)
           (tx_state w) (prev_header_size w) (prev_req_id w) (prev_rsp_id w)
           (rx_buf w) (rx_buf_push_index w) (rx_buf_pop_index w)
           (elm327_version_string w) (elm327_is_v15 w) (parse_state w)
           (ver_index w) v (clock w) (log w).

Definition set_clock (v : nat) (w : world) : world :=
  mk_world (driver_ok w) (can_500k w) (timeout_msec w) (op_state w)
           (tx_state w) (prev_header_size w) (prev_req_id w) (prev_rsp_id w)
           (rx_buf w) (rx_buf_push_index w) (rx_buf_pop_index w)
           (elm327_version_string w) (elm327_is_v15 w) (parse_state w)
           (ver_index w) (can w) v (log w).

Definition set_log (v : list event) (w : world) : world :=
  mk_world (driver_ok w) (can_500k w) (timeout_msec w) (op_state w)
           (tx_state w) (prev_header_size w) (prev_req_id w) (prev_rsp_id w)
           (rx_buf w) (rx_buf_push_index w) (rx_buf_pop_index w)
           (elm327_version_string w) (elm327_is_v15 w) (parse_state w)
           (ver_index w) (can w) (clock w) v.

Definition add_log (e : event) (w : world) : world := set_log (log w ++ [e]) w.

(** Array accesses that note an index outside the array, and loops that
    note that they do not come to an end. *)
Inductive fault := ArrayBounds | NoPrompt | SpinsForever.

Inductive res (A : Type) := Done (a : A) | Fault (f : fault).
Arguments Done {A} a.
Arguments Fault {A} f.

Definition bind {A B : Type} (m : res A) (k : A -> res B) : res B :=
  match m with
  | Done a => k a
  | Fault f => Fault f
  end.

Notation "'do' X <- A ; B" := (bind A (fun X => B))
  (at level 10, X name, A at level 100, B at level 200).

Definition in_bounds (a : list Z) (i : Z) : bool :=
  (0 <=? i) && (i <? Z.of_nat (length a)).

Definition rd_chk (a : list Z) (i : Z) : res Z :=
  if in_bounds a i then Done (rd a i) else Fault ArrayBounds.

Definition wr_chk (a : list Z) (i v : Z) : res (list Z) :=
  if in_bounds a i then Done (wr a i v) else Fault ArrayBounds.

(** *** Character helpers *)

Definition _can_driver_elm327_nibble_2_ascii (nibble : Z) : ascii :=
  let nibble := Z.land nibble 0x0F in
  if nibble <=? 9 then ascii_of_N (Z.to_N (ch "0" + nibble))
  else ascii_of_N (Z.to_N (ch "A" + (nibble - 10))).

Definition _can_driver_elm327_ascii_to_nibble (c : Z) : Z :=
  if (c >=? ch "0") && (c <=? ch "9") then c - ch "0"
  else if (c >=? ch "a") && (c <=? ch "f") then 10 + (c - ch "a")
  else if (c >=? ch "A") && (c <=? ch "F") then 10 + (c - ch "A")
  else 0.

Definition _can_driver_elm327_is_hex_char (c : Z) : bool :=
  ((c >=? ch "0") && (c <=? ch "9"))
  || ((c >=? ch "a") && (c <=? ch "f"))
  || ((c >=? ch "A") && (c <=? ch "F")).

(** [sprintf("%lx", x)] for a 32-bit value: lower-case hex digits without
    leading zeros. *)
Definition lower_hex_digit (d : Z) : ascii :=
  if d <=? 9 then ascii_of_N (Z.to_N (ch "0" + d))
  else ascii_of_N (Z.to_N (ch "a" + (d - 10))).

Fixpoint hex_digits (fuel : nat) (x : Z) (acc : string) : string :=
  match fuel with
  | O => acc
  | S fuel' =>
      let acc' := String (lower_hex_digit (x mod 16)) acc in
      if x / 16 =? 0 then acc' else hex_digits fuel' (x / 16) acc'
  end.

Definition sprintf_lx (x : Z) : string := hex_digits 8 x ""%string.

(** *** The version string state machine *)

Definition is_digit (c : Z) : bool := (c >=? ch "0") && (c <=? ch "9").

(** [if (ver_index < MAX_ELM327_VER_LEN-1) elm327_version_string[ver_index++] = c;] *)
Definition store_version_char (c : Z) (w : world) : res world :=
  if ver_index w <? MAX_ELM327_VER_LEN - 1 then
    do v <- wr_chk (elm327_version_string w) (ver_index w) c;
    Done (set_ver_index (ver_index w + 1) (set_elm327_version_string v w))
  else Done w.

Definition _can_driver_elm327_proc_version_info (c : Z) (init : bool) (w : world)
  : res world :=
  if init then Done (set_ver_index 0 (set_parse_state 0 w))
  else
    do w1 <-
      (if parse_state w =? 0 then
         if c =? ch "v" then Done (set_parse_state 1 w) else Done w
       else if parse_state w =? 1 then
         if is_digit c then store_version_char c w
         else if c =? ch "." then
           do w' <- store_version_char c w; Done (set_parse_state 2 w')
         else Done w
       else if parse_state w =? 2 then
         if is_digit c then store_version_char c w else Done w
       else Done w);
    do v <- wr_chk (elm327_version_string w1) (ver_index w1) 0;
    Done (set_elm327_version_string v w1).

(** *** The line parser *)

(** The locals of [_can_driver_elm327_process_rx_buf]. *)
Record parse_locals := mk_parse_locals {
  first_char : bool;
  high_nibble : bool;
  has_version : bool;
  saw_data : bool;
  success : bool;
  n : Z;
  data : list Z
}.

Definition init_locals : parse_locals :=
  mk_parse_locals true true false false false 0 (replicate 8 0).

(** [_can_driver_elm327_response_complete] *)
Definition _can_driver_elm327_response_complete (w : world) : world :=
  set_tx_state TX_ST_IDLE w.

(** The driver's side of the calls [can_rx_packet] makes: completion
    frees the transmit state, the payload goes on to the vehicle manager,
    and flow-control packets are skipped by this driver. *)
Definition apply_can_action (w : world) (a : CanManager.can_action) : world :=
  match a with
  | CanManager.Fcn_response_complete => _can_driver_elm327_response_complete w
  | CanManager.Vm_rx_data id len p => add_log (VmRx id len p) w
  | CanManager.Fcn_tx_fc_packet _ _ _ => w
  end.

(** [can_rx_packet(prev_rsp_id, n, data)] as called by the parser. *)
Definition deliver_frame (len : Z) (d : list Z) (w : world) : world :=
  let w1 := add_log (CanRx (prev_rsp_id w) len (take (Z.to_nat len) d)) w in
  let '(c', acts) := CanManager.can_rx_packet (prev_rsp_id w) len d (can w) in
  fold_left apply_can_action acts (set_can c' w1).

(** Storing one hex digit: the block under [if (n < 8)]. *)
Definition store_nibble (c : Z) (l : parse_locals) : res parse_locals :=
  if n l <? 8 then
    if high_nibble l then
      do d <- wr_chk (data l) (n l) (_can_driver_elm327_ascii_to_nibble c);
      Done (mk_parse_locals (first_char l) false (has_version l) (saw_data l)
              (success l) (n l) d)
    else
      do old <- rd_chk (data l) (n l);
      do d <- wr_chk (data l) (n l)
                (Z.lor (Z.shiftl old 4) (_can_driver_elm327_ascii_to_nibble c)
                 mod 256);
      Done (mk_parse_locals (first_char l) true (has_version l) (saw_data l)
              (success l) (n l + 1) d)
  else Done l.

Definition set_success (b : bool) (l : parse_locals) : parse_locals :=
  mk_parse_locals (first_char l) (high_nibble l) (has_version l) (saw_data l)
                  b (n l) (data l).

Definition set_first_char (b : bool) (l : parse_locals) : parse_locals :=
  mk_parse_locals b (high_nibble l) (has_version l) (saw_data l)
                  (success l) (n l) (data l).

(** The body of the parse loop for a character other than ['>']. *)
Definition parse_char (c : Z) (w : world) (l : parse_locals)
  : res (world * parse_locals) :=
  if (c =? 0x0D) || (c =? 0x0A) then
    let w1 := if saw_data l then deliver_frame (n l) (data l) w else w in
    Done (w1, mk_parse_locals true true false false (success l) 0 (data l))
  else
    do r <-
      (if tx_state w =? TX_ST_AT_CMD then
         if first_char l then
           if (c =? ch "O") || (c =? ch "E") then
             let l1 := set_success true l in
             if c =? ch "E" then
               do w1 <- _can_driver_elm327_proc_version_info c true w;
               Done (w1, mk_parse_locals (first_char l1) (high_nibble l1) true
                           (saw_data l1) (success l1) (n l1) (data l1))
             else Done (w, l1)
           else if c =? ch "?" then Done (w, set_success false l)
           else Done (w, l)
         else if has_version l then
           do w1 <- _can_driver_elm327_proc_version_info c false w;
           Done (w1, l)
         else Done (w, l)
       else if tx_state w =? TX_ST_REQ_PKT then
         if _can_driver_elm327_is_hex_char c then
           let l1 := if first_char l
                     then mk_parse_locals (first_char l) (high_nibble l)
                            (has_version l) true true (n l) (data l)
                     else l in
           do l2 <- store_nibble c l1; Done (w, l2)
         else if c =? ch " " then
           if negb (high_nibble l)
           then Done (w, mk_parse_locals (first_char l) true (has_version l)
                           (saw_data l) (success l) (n l + 1) (data l))
           else Done (w, l)
         else if first_char l then Done (w, set_success false l)
         else Done (w, l)
       else Done (w, l));
    Done (fst r, set_first_char false (snd r)).

(** [rx_buf_pop_index += 1; if (rx_buf_pop_index >= RX_BUFF_LEN) rx_buf_pop_index = 0;] *)
Definition advance_pop (w : world) : world :=
  let p := rx_buf_pop_index w + 1 in
  set_rx_buf_pop_index (if p >=? RX_BUFF_LEN then 0 else p) w.

(** After the loop: skip the ['>'] and note whether the response was
    successful. *)
Definition finish_parse (w : world) (l : parse_locals) : world :=
  let w1 := advance_pop w in
  if tx_state w1 =? TX_ST_AT_CMD then
    set_tx_state (if success l then TX_ST_IDLE else TX_ST_ERROR) w1
  else if tx_state w1 =? TX_ST_REQ_PKT then
    if negb (success l) then set_tx_state TX_ST_ERROR w1 else w1
  else w1.

(** [while ((c = rx_buf[rx_buf_pop_index]) != '>')]. The loop ends only
    on a ['>']; a buffer of [RX_BUFF_LEN] characters holding one is walked
    in at most that many steps. *)
Fixpoint parse_loop (fuel : nat) (w : world) (l : parse_locals) : res world :=
  match fuel with
  | O => Fault NoPrompt
  | S fuel' =>
      do c <- rd_chk (rx_buf w) (rx_buf_pop_index w);
      if c =? ch ">" then Done (finish_parse w l)
      else
        do r <- parse_char c (advance_pop w) l;
        parse_loop fuel' (fst r) (snd r)
  end.

Definition _can_driver_elm327_process_rx_buf (w : world) : res world :=
  parse_loop (Z.to_nat RX_BUFF_LEN) w init_locals.

(** One character of [can_driver_elm327_rx_data]. *)
Definition push_char (c : Z) (w : world) : res world :=
  do b <- wr_chk (rx_buf w) (rx_buf_push_index w) c;
  let p := rx_buf_push_index w + 1 in
  let w1 := set_rx_buf_push_index (if p >=? RX_BUFF_LEN then 0 else p)
                                  (set_rx_buf b w) in
  if c =? ch ">" then _can_driver_elm327_process_rx_buf w1 else Done w1.

Fixpoint can_driver_elm327_rx_data (s : list Z) (w : world) : res world :=
  match s with
  | [] => Done w
  | c :: rest => do w1 <- push_char c w; can_driver_elm327_rx_data rest w1
  end.

Definition can_driver_elm327_set_connected (connected : bool) (w : world) : world :=
  if connected then
    if op_state w =? OP_ST_DISCONNECTED then set_op_state OP_ST_INIT_ELM327 w
    else w
  else set_op_state OP_ST_DISCONNECTED w.

Definition can_driver_elm327_tx_failed (w : world) : world :=
  if (tx_state w =? TX_ST_AT_CMD) || (tx_state w =? TX_ST_REQ_PKT)
  then set_tx_state TX_ST_ERROR w
  else w.

(** *** The sending side *)

(** Calls made by the stream interface's own task. *)
Inductive async_ev :=
| RxData (s : list Z)
| TxFailed
| SetConnected (connected : bool).

Definition run_async (ev : async_ev) (w : world) : res world :=
  match ev with
  | RxData s => can_driver_elm327_rx_data s w
  | TxFailed => Done (can_driver_elm327_tx_failed w)
  | SetConnected b => Done (can_driver_elm327_set_connected b w)
  end.

Fixpoint run_asyncs (evs : list async_ev) (w : world) : res world :=
  match evs with
  | [] => Done w
  | ev :: rest => do w1 <- run_async ev w; run_asyncs rest w1
  end.

(** The surroundings of the driver: what the interface task does during
    each 10 ms delay of the sending task, and whether [fcn_tx_line]
    accepts a line handed to it at a given time. The interface task is
    taken to run only while the sending task sleeps. *)
Record env := mk_env {
  async : nat -> list async_ev;
  tx_line_ok : nat -> bool
}.

Section Driver.

Variable E : env.

(** [vTaskDelay(pdMS_TO_TICKS(10))] *)
Definition delay_tick (w : world) : res world :=
  do w1 <- run_asyncs (async E (clock w)) w;
  Done (set_clock (S (clock w1)) w1).

Fixpoint delay_ticks (k : nat) (w : world) : res world :=
  match k with
  | O => Done w
  | S k' => do w1 <- delay_tick w; delay_ticks k' w1
  end.

(** [while (tx_state == pkt_state) { vTaskDelay(10 ms); to_count -= 10;
    if (to_count <= 0) tx_state = TX_ST_TIMEOUT; }] *)
Fixpoint spin (fuel : nat) (pkt_state to_count : Z) (w : world) : res world :=
  match fuel with
  | O => Fault SpinsForever
  | S fuel' =>
      if tx_state w =? pkt_state then
        do w1 <- delay_tick w;
        let to_count' := to_count - 10 in
        spin fuel' pkt_state to_count'
             (if to_count' <=? 0 then set_tx_state TX_ST_TIMEOUT w1 else w1)
      else Done w
  end.

Definition spin_fuel (to_count : Z) : nat := Z.to_nat (to_count / 10) + 2.

Definition _can_driver_elm327_tx_string (pkt_state : Z) (s : string) (w : world)
  : res (world * bool) :=
  if negb (driver_ok w) then Done (set_tx_state TX_ST_IDLE w, false)
  else
    let w0 := add_log (TxLine s) w in
    if negb (tx_line_ok E (clock w)) then Done (set_tx_state TX_ST_IDLE w0, false)
    else
      do w2 <- spin (spin_fuel (timeout_msec w)) pkt_state (timeout_msec w)
                    (set_tx_state pkt_state w0);
      if tx_state w2 =? TX_ST_TIMEOUT then
        Done (set_tx_state TX_ST_IDLE (add_log (IfError CAN_ERRNO_TIMEOUT) w2), true)
      else if tx_state w2 =? TX_ST_ERROR then
        Done (set_tx_state TX_ST_IDLE w2, false)
      else Done (set_tx_state TX_ST_IDLE w2, true).

(** Sending a list of AT commands, stopping at the first that fails. *)
Fixpoint tx_at_cmds (cmds : list string) (w : world) : res (world * bool) :=
  match cmds with
  | [] => Done (w, true)
  | c :: rest =>
      do r <- _can_driver_elm327_tx_string TX_ST_AT_CMD c w;
      if snd r then tx_at_cmds rest (fst r) else Done (fst r, false)
  end.

(** The protocol switch, sent when the header size of the request id
    differs from the previous one. *)
Definition attp_cmd (cur_header_size : Z) (w : world) : string :=
  if cur_header_size =? HEADER_SIZE_11 then
    if can_500k w then "ATTP6"%string else "ATTP8"%string
  else
    if can_500k w then "ATTP7"%string else "ATTP9"%string.

(** The header commands, sent when the request id differs from the
    previous one. *)
Definition header_cmds (req_id cur_header_size : Z) (w : world) : list string :=
  (if elm327_is_v15 w then
     (if cur_header_size =? HEADER_SIZE_29
      then [String.append "ATCP" (sprintf_lx (Z.shiftr req_id 24))] else [])
     ++ [String.append "ATSH" (sprintf_lx (Z.land req_id 0xFFFFFF))]
   else [String.append "ATSH" (sprintf_lx req_id)])
  ++ [String.append "ATFCSH" (sprintf_lx req_id)].

(** [for (i = len-1; i >= 0; i--) if (data[i] != 0) break;] *)
Fixpoint strip_index (fuel : nat) (d : list Z) (i : Z) : Z :=
  match fuel with
  | O => i
  | S fuel' =>
      if i >=? 0 then
        if negb (rd d i =? 0) then i else strip_index fuel' d (i - 1)
      else i
  end.

(** The request line: two upper-case hex digits per byte. *)
Fixpoint hex_line (len : nat) (d : list Z) (i : Z) : string :=
  match len with
  | O => ""%string
  | S len' =>
      String (_can_driver_elm327_nibble_2_ascii (Z.shiftr (rd d i) 4))
        (String (_can_driver_elm327_nibble_2_ascii (Z.land (rd d i) 0x0F))
           (hex_line len' d (i + 1)))
  end.

Definition request_line (len : Z) (d : list Z) (w : world) : string :=
  let len' := if elm327_is_v15 w
              then strip_index (Z.to_nat len) d (len - 1) + 1
              else len in
  hex_line (Z.to_nat len') d 0.

(** [_can_driver_elm327_tx_packet]. The request line is built in
    [tx_str[32]], two characters per byte and a terminator: a length
    outside 0..15 runs past it. *)
Definition _can_driver_elm327_tx_packet (req_id rsp_id len : Z) (d : list Z)
           (w : world) : res (world * bool) :=
  if negb (driver_ok w) || negb (op_state w =? OP_ST_CONNECTED) then Done (w, false)
  else if (len <? 0) || (15 <? len) then Fault ArrayBounds
  else
    let cur_header_size :=
      if req_id >? 0x7FF then HEADER_SIZE_29 else HEADER_SIZE_11 in
    do r1 <-
      (if (prev_header_size w =? HEADER_SIZE_UNDEF)
          || negb (prev_header_size w =? cur_header_size)
       then
         let w1 := set_prev_header_size cur_header_size w in
         tx_at_cmds [attp_cmd cur_header_size w1] w1
       else Done (w, true));
    if negb (snd r1) then Done (fst r1, false) else
    do r2 <-
      (if negb (req_id =? prev_req_id (fst r1)) then
         do r <- tx_at_cmds (header_cmds req_id cur_header_size (fst r1)) (fst r1);
         if snd r then Done (set_prev_req_id req_id (fst r), true)
         else Done (fst r, false)
       else Done (fst r1, true));
    if negb (snd r2) then Done (fst r2, false) else
    do r3 <-
      (if negb (rsp_id =? prev_rsp_id (fst r2)) then
         do r <- tx_at_cmds [String.append "ATCRA" (sprintf_lx rsp_id)] (fst r2);
         if snd r then Done (set_prev_rsp_id rsp_id (fst r), true)
         else Done (fst r, false)
       else Done (fst r2, true));
    if negb (snd r3) then Done (fst r3, false) else
    _can_driver_elm327_tx_string TX_ST_REQ_PKT (request_line len d (fst r3)) (fst r3).

(** [strcmp(elm327_version_string, "1.5") == 0] *)
Definition version_is_1_5 (v : list Z) : bool :=
  (rd v 0 =? ch "1") && (rd v 1 =? ch ".") && (rd v 2 =? ch "5") && (rd v 3 =? 0).

(** One pass of the body of [while (op_state == OP_ST_INIT_ELM327)]. *)
Definition init_pass (w : world) : res world :=
  do v <- wr_chk (elm327_version_string w) 0 0;
  do r <- tx_at_cmds elm327_init_cmd (set_elm327_version_string v w);
  if snd r then
    let w1 := set_op_state OP_ST_CONNECTED (fst r) in
    Done (set_elm327_is_v15 (version_is_1_5 (elm327_version_string w1)) w1)
  else delay_ticks 100 (fst r).

(** One turn of [_can_driver_elm327_task]: the loop
    [while (1) { while (op_state == OP_ST_INIT_ELM327) { pass }
    vTaskDelay(50 ms); }] runs a pass while initialising and sleeps
    otherwise. *)
Definition task_turn (w : world) : res world :=
  if op_state w =? OP_ST_INIT_ELM327 then init_pass w else delay_ticks 5 w.

End Driver.

(** [_can_driver_elm327_init], with the interface's [fcn_init] and the
    allocation of [rx_buf] taken to succeed; [garbage] is what the fresh
    buffer holds. *)
Definition _can_driver_elm327_init (req_timeout : Z) (can_is_500k : bool)
           (garbage : list Z) (c : CanManager.can_state) : world :=
  mk_world true can_is_500k (req_timeout * 10) OP_ST_DISCONNECTED TX_ST_IDLE
           HEADER_SIZE_UNDEF 0 0 garbage 0 0 (replicate 6 0) false 0 0 c 0%nat [].

(** [can_tx_packet] of the CAN manager over this driver. *)
Definition can_tx_packet (E : env) (req_id rsp_id len : Z) (d : list Z) (w : world)
  : res (world * bool) :=
  _can_driver_elm327_tx_packet E req_id rsp_id len d
    (set_can (CanManager.can_tx_packet_ids req_id rsp_id (can w)) w).

Definition lines_of (l : list event) : list string :=
  flat_map (fun e => match e with TxLine s => [s] | _ => [] end) l.

Definition errors_of (l : list event) : list Z :=
  flat_map (fun e => match e with IfError n => [n] | _ => [] end) l.

Definition frames_of (l : list event) : list (Z * Z * list Z) :=
  flat_map (fun e => match e with CanRx i n d => [(i, n, d)] | _ => [] end) l.

Definition payloads_of (l : list event) : list (Z * Z * list Z) :=
  flat_map (fun e => match e with VmRx i n d => [(i, n, d)] | _ => [] end) l.

End Elm327.

(* ===================================================================== *)
(** ** Vehicle manager: selection, mailbox and evaluation                 *)
(* ===================================================================== *)

Module VmDispatch.

(** The two sets of functions a [vehicle_config_t] can point to. *)
Inductive vehicle_fcns := Leaf_ze1_fcns | Vw_meb_fcns.

(** [vehicle_config_t], without the display ranges. *)
Record vehicle_config_t := mk_vehicle_config {
  name : string;
  supported_item_mask : Z;
  can_is_500k : bool;
  req_timeout_msec : Z;
  fcns : vehicle_fcns
}.

Definition vehicle_leaf_ze1 : vehicle_config_t :=
  mk_vehicle_config "Leaf ZE1"
    (Z.lor DB_ITEM_HV_BATT_V (Z.lor DB_ITEM_HV_BATT_I (Z.lor DB_ITEM_HV_BATT_MIN_T
     (Z.lor DB_ITEM_HV_BATT_MAX_T (Z.lor DB_ITEM_LV_BATT_V (Z.lor DB_ITEM_LV_BATT_I
     (Z.lor DB_ITEM_AUX_KW (Z.lor DB_ITEM_FRONT_TORQUE DB_ITEM_SPEED))))))))
    true 500 Leaf_ze1_fcns.

Definition vehicle_vw_meb_rwd : vehicle_config_t :=
  mk_vehicle_config "VW MEB RWD"
    (Z.lor DB_ITEM_HV_BATT_V (Z.lor DB_ITEM_HV_BATT_I (Z.lor DB_ITEM_HV_BATT_MIN_T
     (Z.lor DB_ITEM_HV_BATT_MAX_T (Z.lor DB_ITEM_LV_BATT_V (Z.lor DB_ITEM_LV_BATT_I
     (Z.lor DB_ITEM_AUX_KW (Z.lor DB_ITEM_REAR_TORQUE
     (Z.lor DB_ITEM_SPEED DB_ITEM_GPS_ELEVATION)))))))))
    true 500 Vw_meb_fcns.

Definition vehicle_vw_meb_awd : vehicle_config_t :=
  mk_vehicle_config "VW MEB AWD"
    (Z.lor DB_ITEM_HV_BATT_V (Z.lor DB_ITEM_HV_BATT_I (Z.lor DB_ITEM_HV_BATT_MIN_T
     (Z.lor DB_ITEM_HV_BATT_MAX_T (Z.lor DB_ITEM_LV_BATT_V (Z.lor DB_ITEM_LV_BATT_I
     (Z.lor DB_ITEM_AUX_KW (Z.lor DB_ITEM_FRONT_TORQUE (Z.lor DB_ITEM_REAR_TORQUE
     (Z.lor DB_ITEM_SPEED DB_ITEM_GPS_ELEVATION))))))))))
    true 500 Vw_meb_fcns.

Definition NUM_VEHICLES : Z := 3.

Definition vehicle_listP : list vehicle_config_t :=
  [vehicle_leaf_ze1; vehicle_vw_meb_awd; vehicle_vw_meb_rwd].

(** The module variables. [cur_vehicleP] is a pointer: [None] is NULL. *)
Record vm_state := mk_vm_state {
  cur_vehicleP : option vehicle_config_t;
  update_req_mask_flag : bool;
  new_req_mask : Z;
  rx_data_valid : bool;
  rx_data_len : Z;
  rx_data_buf : list Z;
  rx_id : Z
}.

Definition vm_boot : vm_state :=
  mk_vm_state None false 0 false 0 (replicate 4096 0) 0.

(** Calls that leave the module: into the CAN manager and through the
    function pointers of the selected vehicle. [Fcn_rx_data] carries the
    [len] bytes of [rx_data_buf] that are the response. *)
Inductive vm_call :=
| Can_init (if_type req_timeout : Z) (can_is_500k : bool)
| Fcn_init (v : vehicle_config_t)
| Fcn_eval (v : vehicle_config_t)
| Fcn_set_req_mask (v : vehicle_config_t) (mask : Z)
| Fcn_rx_data (v : vehicle_config_t) (id len : Z) (data : list Z)
| Fcn_note_can_error (v : vehicle_config_t) (errno : Z).

Definition set_cur_vehicleP (v : option vehicle_config_t) (s : vm_state) : vm_state :=
  mk_vm_state v (update_req_mask_flag s) (new_req_mask s) (rx_data_valid s)
              (rx_data_len s) (rx_data_buf s) (rx_id s).

(** The loop of [vm_init] over [vehicle_listP], from some entry on.
    [can_init] stands for the CAN manager's function of that name: what it
    answers for an interface type, a timeout and a bit rate. *)
Fixpoint vm_init_loop (can_init : Z -> Z -> bool -> bool)
         (l : list vehicle_config_t) (vehicle_name : string) (if_type : Z)
         (s : vm_state) : vm_state * list vm_call * bool :=
  match l with
  | [] => (s, [], false)
  | v :: rest =>
      if String.eqb (name v) vehicle_name then
        let s1 := set_cur_vehicleP (Some v) s in
        if can_init if_type (req_timeout_msec v) (can_is_500k v)
        then (s1, [Can_init if_type (req_timeout_msec v) (can_is_500k v); Fcn_init v],
              true)
        else (s1, [Can_init if_type (req_timeout_msec v) (can_is_500k v)], false)
      else vm_init_loop can_init rest vehicle_name if_type s
  end.

Definition vm_init (can_init : Z -> Z -> bool -> bool) (vehicle_name : string)
           (if_type : Z) (s : vm_state) : vm_state * list vm_call * bool :=
  vm_init_loop can_init vehicle_listP vehicle_name if_type s.

(** [vm_eval]: a waiting response first, then a waiting request mask,
    then the vehicle's own evaluation. *)
Definition vm_eval (s : vm_state) : vm_state * list vm_call :=
  match cur_vehicleP s with
  | None => (s, [])
  | Some v =>
      let r1 :=
        if rx_data_valid s
        then (mk_vm_state (cur_vehicleP s) (update_req_mask_flag s) (new_req_mask s)
                          false (rx_data_len s) (rx_data_buf s) (rx_id s),
              [Fcn_rx_data v (rx_id s) (rx_data_len s)
                           (take (Z.to_nat (rx_data_len s)) (rx_data_buf s))])
        else (s, []) in
      let r2 :=
        if update_req_mask_flag (fst r1)
        then (mk_vm_state (cur_vehicleP (fst r1)) false (new_req_mask (fst r1))
                          (rx_data_valid (fst r1)) (rx_data_len (fst r1))
                          (rx_data_buf (fst r1)) (rx_id (fst r1)),
              [Fcn_set_req_mask v (new_req_mask (fst r1))])
        else (fst r1, []) in
      (fst r2, snd r1 ++ snd r2 ++ [Fcn_eval v])
  end.

(** [memcpy(dst, src, n)]: [None] when [n] bytes are not there to be read
    or do not fit. *)
Definition memcpy (dst src : list Z) (n : Z) : option (list Z) :=
  if (0 <=? n) && (n <=? Z.of_nat (length src)) && (n <=? Z.of_nat (length dst))
  then Some (take (Z.to_nat n) src ++ drop (Z.to_nat n) dst)
  else None.

(** [vm_rx_data]: the response is kept only when a vehicle is selected and
    the one-place buffer is free. *)
Definition vm_rx_data (id len : Z) (data : list Z) (s : vm_state) : option vm_state :=
  match cur_vehicleP s with
  | Some _ =>
      if negb (rx_data_valid s) then
        match memcpy (rx_data_buf s) data len with
        | Some b => Some (mk_vm_state (cur_vehicleP s) (update_req_mask_flag s)
                                      (new_req_mask s) true len b id)
        | None => None
        end
      else Some s
  | None => Some s
  end.

Definition vm_note_error (errno : Z) (s : vm_state) : list vm_call :=
  match cur_vehicleP s with
  | Some v => [Fcn_note_can_error v errno]
  | None => []
  end.

Definition vm_get_num_vehicles : Z := NUM_VEHICLES.

(** [vm_get_vehicle_name]: [None] is NULL. *)
Definition vm_get_vehicle_name (n : Z) : option string :=
  if (n >=? 0) && (n <? NUM_VEHICLES)
  then option_map name (vehicle_listP !! Z.to_nat n)
  else None.

Definition vm_get_supported_item_mask (s : vm_state) : Z :=
  match cur_vehicleP s with
  | Some v => supported_item_mask v
  | None => 0
  end.

Definition vm_set_request_item_mask (mask : Z) (s : vm_state) : vm_state :=
  mk_vm_state (cur_vehicleP s) true mask (rx_data_valid s) (rx_data_len s)
              (rx_data_buf s) (rx_id s).

(** What reaches the vehicle manager between two evaluations: from the
    CAN manager (possibly in interrupt context) and from the GUI. *)
Inductive vm_input :=
| In_rx_data (id len : Z) (data : list Z)
| In_note_error (errno : Z)
| In_set_request_item_mask (mask : Z).

Definition vm_input_step (i : vm_input) (s : vm_state)
  : option (vm_state * list vm_call) :=
  match i with
  | In_rx_data id len data =>
      match vm_rx_data id len data s with
      | Some s' => Some (s', [])
      | None => None
      end
  | In_note_error errno => Some (s, vm_note_error errno s)
  | In_set_request_item_mask mask => Some (vm_set_request_item_mask mask s, [])
  end.

Fixpoint vm_feed (ins : list vm_input) (s : vm_state)
  : option (vm_state * list vm_call) :=
  match ins with
  | [] => Some (s, [])
  | i :: rest =>
      match vm_input_step i s with
      | None => None
      | Some (s1, c1) =>
          match vm_feed rest s1 with
          | None => None
          | Some (s2, c2) => Some (s2, c1 ++ c2)
          end
      end
  end.

End VmDispatch.

(* ===================================================================== *)
(** ** Response decoding: the values the vehicles publish                 *)
(* ===================================================================== *)

Module Decode.

(** Published values are C [float]s, computed from integers with decimal
    constants. The embedding keeps the floating-point operations abstract:
    [of_int] is the conversion of an integer value, [lit] a decimal
    constant, and the rest are the C operators of the same meaning. What
    is modelled exactly is everything around them: which bytes are read,
    the integer conversions, which item is published and when. *)
Class FloatOps (V : Type) := {
  of_int : Z -> V;
  lit : QArith_base.Q -> V;
  fadd : V -> V -> V;
  fsub : V -> V -> V;
  fmul : V -> V -> V;
  fdiv : V -> V -> V;
  fneg : V -> V;
  flt : V -> V -> bool
}.

(** A decimal constant as a fraction: [dec 426 100] is [4.26]. *)
Definition dec (n : Z) (d : positive) : QArith_base.Q := QArith_base.Qmake n d.

(** Conversions to [uint16_t], [int16_t] and [int32_t]. *)
Definition to_uint16 (x : Z) : Z := x mod 2 ^ 16.
Definition to_int16 (x : Z) : Z := (x + 2 ^ 15) mod 2 ^ 16 - 2 ^ 15.
Definition to_int32 (x : Z) : Z := (x + 2 ^ 31) mod 2 ^ 32 - 2 ^ 31.

(** [(data[i] << 8) | data[i+1]] *)
Definition be16 (data : list Z) (i : Z) : Z :=
  Z.lor (Z.shiftl (rd data i) 8) (rd data (i + 1)).

(** [(data[i] << 24) | (data[i+1] << 16) | (data[i+2] << 8) | data[i+3]]
    stored in an [int32_t]. *)
Definition be32 (data : list Z) (i : Z) : Z :=
  to_int32 (Z.lor (Z.lor (Z.lor (Z.shiftl (rd data i) 24)
                                (Z.shiftl (rd data (i + 1)) 16))
                         (Z.shiftl (rd data (i + 2)) 8))
                  (rd data (i + 3))).

End Decode.

(* ===================================================================== *)
(** ** VW MEB response decoding: vehicle_vw_meb.c                         *)
(* ===================================================================== *)

Module VwMebRx.
Import VehicleManager VwMeb Decode.

Definition UDS_12V_BATT_INFO : Z := 0.
Definition UDS_GPS_INFO : Z := 1.
Definition UDS_HV_AUX_PWR : Z := 2.
Definition UDS_HV_BATT_CUR : Z := 3.
Definition UDS_HV_BATT_MIN_T : Z := 4.
Definition UDS_HV_BATT_MAX_T : Z := 5.
Definition UDS_HV_BATT_VOLT : Z := 6.
Definition UDS_FRONT_TORQUE : Z := 7.
Definition UDS_REAR_TORQUE : Z := 8.
Definition UDS_GEAR_POSITION : Z := 9.
Definition UDS_SPEED : Z := 10.

Definition GEAR_REVERSE : Z := 0x07.

Section Rx.

Context {V : Type} `{FloatOps V}.

(** The request management variables and the partial data value
    [in_reverse]. *)
Record rx_state := mk_rx_state {
  mgmt : meb_state;
  in_reverse : bool
}.

(** [f = (float) i16; if (in_reverse) f = -f;] *)
Definition torque (rev : bool) (i16 : Z) : V :=
  if rev then fneg (of_int i16) else of_int i16.

(** The [switch (n)] of [_vw_meb_rx_data]: the new state and the calls of
    [vm_update_data_item], in order. *)
Definition decode_response (n len : Z) (data : list Z) (s1 : rx_state)
  : rx_state * list (Z * V) :=
  if n =? UDS_12V_BATT_INFO then
    if len =? 26 then
      (s1, [(DB_ITEM_LV_BATT_V,
             fadd (fdiv (of_int (to_uint16 (be16 data 3))) (lit (dec 1024 1)))
                  (lit (dec 426 100)));
            (DB_ITEM_LV_BATT_I,
             fdiv (of_int (be32 data 5)) (lit (dec 1024 1)))])
    else (s1, [])
  else if n =? UDS_GPS_INFO then
    if len =? 33 then
      (s1, [(DB_ITEM_GPS_ELEVATION,
             fsub (of_int (to_int16 (Z.shiftl (rd data 31) 8 + rd data 32)))
                  (lit (dec 501 1)))])
    else (s1, [])
  else if n =? UDS_HV_AUX_PWR then
    if len =? 5 then
      (s1, [(DB_ITEM_AUX_KW,
             fdiv (of_int (to_int16 (be16 data 3))) (lit (dec 10 1)))])
    else (s1, [])
  else if n =? UDS_HV_BATT_CUR then
    if len =? 8 then
      (s1, [(DB_ITEM_HV_BATT_I,
             fdiv (of_int (to_int32 (be32 data 3 - 150000)))
                  (lit (dec 100 1)))])
    else (s1, [])
  else if n =? UDS_HV_BATT_MIN_T then
    if len =? 7 then
      (s1, [(DB_ITEM_HV_BATT_MIN_T,
             of_int (to_int16 (Z.quot (to_int16 (be16 data 3)) 64)))])
    else (s1, [])
  else if n =? UDS_HV_BATT_MAX_T then
    if len =? 7 then
      (s1, [(DB_ITEM_HV_BATT_MAX_T,
             of_int (to_int16 (Z.quot (to_int16 (be16 data 3)) 64)))])
    else (s1, [])
  else if n =? UDS_HV_BATT_VOLT then
    if len =? 5 then
      (s1, [(DB_ITEM_HV_BATT_V,
             fdiv (of_int (to_int16 (be16 data 3))) (lit (dec 4 1)))])
    else (s1, [])
  else if n =? UDS_FRONT_TORQUE then
    if len =? 5 then
      (s1, [(DB_ITEM_FRONT_TORQUE,
             torque (in_reverse s1) (to_int16 (be16 data 3)))])
    else (s1, [])
  else if n =? UDS_REAR_TORQUE then
    if len =? 5 then
      (s1, [(DB_ITEM_REAR_TORQUE,
             torque (in_reverse s1) (to_int16 (be16 data 3)))])
    else (s1, [])
  else if n =? UDS_GEAR_POSITION then
    if len =? 5 then
      (mk_rx_state (mgmt s1) (rd data 4 =? GEAR_REVERSE), [])
    else (s1, [])
  else if n =? UDS_SPEED then
    if len =? 3 then (s1, [(DB_ITEM_SPEED, of_int (rd data 2))])
    else (s1, [])
  else (s1, []).

(** [_vw_meb_rx_data]. [None] stands for a fault inside
    [vm_get_resp_index]. *)
Definition _vw_meb_rx_data (id len : Z) (data : list Z) (s : rx_state)
  : option (rx_state * list (Z * V)) :=
  let s1 := mk_rx_state (VwMeb._vw_meb_rx_data (mgmt s)) (in_reverse s) in
  match vm_get_resp_index id len data NUM_UDS_REQ_ITEMS req_full_listP with
  | None => None
  | Some n => Some (decode_response n len data s1)
  end.

(** A sequence of responses handed over one after the other; the items
    published are listed per response. *)
Fixpoint rx_run (rs : list (Z * Z * list Z)) (s : rx_state)
  : option (rx_state * list (list (Z * V))) :=
  match rs with
  | [] => Some (s, [])
  | (id, len, data) :: rest =>
      match _vw_meb_rx_data id len data s with
      | None => None
      | Some (s1, out) =>
          match rx_run rest s1 with
          | None => None
          | Some (s2, outs) => Some (s2, out :: outs)
          end
      end
  end.

End Rx.

End VwMebRx.

(* ===================================================================== *)
(** ** Nissan Leaf ZE1: vehicle_leaf_ze1.c                                *)
(* ===================================================================== *)

Module LeafZe1.
Import VehicleManager Decode.

Definition UDS_GEAR_POSITION : Z := 0.
Definition UDS_12V_BATT_V : Z := 1.
Definition UDS_12V_BATT_I : Z := 2.
Definition UDS_LV_AUX_PWR : Z := 3.
Definition UDS_AC_AUX_PWR : Z := 4.
Definition UDS_SPEED : Z := 5.
Definition UDS_HV_BATT_INFO : Z := 6.
Definition UDS_HV_BATT_TEMP : Z := 7.
Definition UDS_TORQUE : Z := 8.

Definition NUM_UDS_REQ_ITEMS : Z := 9.

Definition GEAR_REVERSE : Z := 2.

Definition req_gear_position := mk_can_request 0x797 0x79A 8 [0x03; 0x22; 0x11; 0x56; 0x00; 0x00; 0x00; 0x00].
Definition req_12v_batt_v := mk_can_request 0x797 0x79A 8 [0x03; 0x22; 0x11; 0x03; 0x00; 0x00; 0x00; 0x00].
Definition req_12v_batt_i := mk_can_request 0x797 0x79A 8 [0x03; 0x22; 0x11; 0x83; 0x00; 0x00; 0x00; 0x00].
Definition req_lv_aux_pwr := mk_can_request 0x797 0x79A 8 [0x03; 0x22; 0x11; 0x52; 0x00; 0x00; 0x00; 0x00].
Definition req_ac_aux_pwr := mk_can_request 0x797 0x79A 8 [0x03; 0x22; 0x11; 0x51; 0x00; 0x00; 0x00; 0x00].
Definition req_speed := mk_can_request 0x797 0x79A 8 [0x03; 0x22; 0x12; 0x1A; 0x00; 0x00; 0x00; 0x00].
Definition req_hv_batt_info := mk_can_request 0x79B 0x7BB 8 [0x02; 0x21; 0x01; 0x00; 0x00; 0x00; 0x00; 0x00].
Definition req_hv_batt_temp := mk_can_request 0x79B 0x7BB 8 [0x02; 0x21; 0x04; 0x00; 0x00; 0x00; 0x00; 0x00].
Definition req_torque := mk_can_request 0x784 0x78C 8 [0x03; 0x22; 0x12; 0x25; 0x00; 0x00; 0x00; 0x00].

Definition req_full_listP : list can_request_t :=
  [req_gear_position; req_12v_batt_v; req_12v_batt_i; req_lv_aux_pwr;
   req_ac_aux_pwr; req_speed; req_hv_batt_info; req_hv_batt_temp; req_torque].

Definition required_req (mask : Z) : list bool :=
  [vm_mask_check mask DB_ITEM_FRONT_TORQUE;
   vm_mask_check mask DB_ITEM_LV_BATT_V;
   vm_mask_check mask DB_ITEM_LV_BATT_I;
   vm_mask_check mask DB_ITEM_AUX_KW;
   vm_mask_check mask DB_ITEM_AUX_KW;
   vm_mask_check mask DB_ITEM_SPEED;
   vm_mask_check mask (Z.lor DB_ITEM_HV_BATT_V DB_ITEM_HV_BATT_I);
   vm_mask_check mask (Z.lor DB_ITEM_HV_BATT_MIN_T DB_ITEM_HV_BATT_MAX_T);
   vm_mask_check mask DB_ITEM_FRONT_TORQUE].

Section Leaf.

Context {V : Type} `{FloatOps V}.

(** The variables under "OBD2 Request management" and "Partial data
    values". *)
Record leaf_state := mk_leaf_state {
  req_listP : list (option can_request_t);
  req_in_process : bool;
  req_timeout : bool;
  saw_error : bool;
  saw_response : bool;
  req_index : Z;
  num_req_entries : Z;
  in_reverse : bool;
  lv_aux_kw : V;
  ac_aux_kw : V;
  hv_batt_t : list V
}.

Definition leaf_boot : leaf_state :=
  mk_leaf_state (replicate 9 None) false false false false 0 0 false
                (lit (dec 0 1)) (lit (dec 0 1)) (replicate 4 (lit (dec 0 1))).

(** [_leaf_ze1_set_req_mask]; the compacting loop is that of
    [_vw_meb_set_req_mask]. *)
Definition _leaf_ze1_set_req_mask (mask : Z) (s : leaf_state) : leaf_state :=
  let '(lst, num) :=
    VwMeb.build_list (zip (required_req mask) req_full_listP) 0 (req_listP s) 0 in
  mk_leaf_state lst (req_in_process s) (req_timeout s) (saw_error s)
                (saw_response s) 0 num (in_reverse s) (lv_aux_kw s) (ac_aux_kw s)
                (hv_batt_t s).

(** [_leaf_ze1_hv_batt_raw_to_f]: thermistor reading to degrees
    Fahrenheit. *)
Definition _leaf_ze1_hv_batt_raw_to_f (raw : Z) : V :=
  if raw =? 1021 then lit (dec 1 1)
  else if raw >=? 589 then
    fsub (lit (dec 162 1)) (fmul (of_int raw) (lit (dec 181 1000)))
  else if raw >=? 569 then
    fadd (lit (dec 572 10)) (fmul (of_int (579 - raw)) (lit (dec 18 100)))
  else if raw >=? 558 then
    fadd (lit (dec 608 10))
         (fmul (of_int (558 - raw)) (lit (dec 16363636363636364 100000000000000000)))
  else if raw >=? 548 then
    fadd (lit (dec 626 10)) (fmul (of_int (548 - raw)) (lit (dec 18 100)))
  else if raw >=? 537 then
    fadd (lit (dec 644 10))
         (fmul (of_int (537 - raw)) (lit (dec 16363636363636364 100000000000000000)))
  else if raw >=? 447 then
    fadd (lit (dec 662 10)) (fmul (of_int (527 - raw)) (lit (dec 18 100)))
  else if raw >=? 438 then
    fadd (lit (dec 824 10)) (fmul (of_int (438 - raw)) (lit (dec 2 10)))
  else if raw >=? 428 then
    fadd (lit (dec 842 10)) (fmul (of_int (428 - raw)) (lit (dec 18 100)))
  else if raw >=? 365 then
    fadd (lit (dec 86 1)) (fmul (of_int (419 - raw)) (lit (dec 2 10)))
  else if raw >=? 357 then
    fadd (lit (dec 986 10)) (fmul (of_int (357 - raw)) (lit (dec 225 1000)))
  else if raw >=? 348 then
    fadd (lit (dec 1004 10)) (fmul (of_int (348 - raw)) (lit (dec 2 10)))
  else if raw >=? 316 then
    fadd (lit (dec 1022 10)) (fmul (of_int (340 - raw)) (lit (dec 225 1000)))
  else
    fadd (lit (dec 1094 10))
         (fmul (of_int (309 - raw)) (lit (dec 2571428571428572 10000000000000000))).

(** [((_leaf_ze1_hv_batt_raw_to_f(i16) - 32.0) * 5.0) / 9.0] *)
Definition batt_temp_c (data : list Z) (i : Z) : V :=
  fdiv (fmul (fsub (_leaf_ze1_hv_batt_raw_to_f (to_int16 (be16 data i)))
                   (lit (dec 32 1)))
             (lit (dec 5 1)))
       (lit (dec 9 1)).

(** [hv_batt_t[i]] *)
Definition temp_at (t : list V) (i : nat) : V := default (lit (dec 0 1)) (t !! i).

(** The block under "Find min". *)
Definition find_min (t : list V) : V :=
  if flt (temp_at t 1) (temp_at t 0) then
    if flt (temp_at t 3) (temp_at t 1) then temp_at t 3 else temp_at t 1
  else
    if flt (temp_at t 3) (temp_at t 0) then temp_at t 3 else temp_at t 0.

(** The block under "Find max"; [a > b] is [b < a]. *)
Definition find_max (t : list V) : V :=
  if flt (temp_at t 0) (temp_at t 1) then
    if flt (temp_at t 1) (temp_at t 3) then temp_at t 3 else temp_at t 1
  else
    if flt (temp_at t 0) (temp_at t 3) then temp_at t 3 else temp_at t 0.

Definition set_saw_response (s : leaf_state) : leaf_state :=
  mk_leaf_state (req_listP s) (req_in_process s) (req_timeout s) (saw_error s)
                true (req_index s) (num_req_entries s) (in_reverse s)
                (lv_aux_kw s) (ac_aux_kw s) (hv_batt_t s).

Definition set_in_reverse (b : bool) (s : leaf_state) : leaf_state :=
  mk_leaf_state (req_listP s) (req_in_process s) (req_timeout s) (saw_error s)
                (saw_response s) (req_index s) (num_req_entries s) b
                (lv_aux_kw s) (ac_aux_kw s) (hv_batt_t s).

Definition set_lv_aux_kw (v : V) (s : leaf_state) : leaf_state :=
  mk_leaf_state (req_listP s) (req_in_process s) (req_timeout s) (saw_error s)
                (saw_response s) (req_index s) (num_req_entries s) (in_reverse s)
                v (ac_aux_kw s) (hv_batt_t s).

Definition set_ac_aux_kw (v : V) (s : leaf_state) : leaf_state :=
  mk_leaf_state (req_listP s) (req_in_process s) (req_timeout s) (saw_error s)
                (saw_response s) (req_index s) (num_req_entries s) (in_reverse s)
                (lv_aux_kw s) v (hv_batt_t s).

Definition set_hv_batt_t (t : list V) (s : leaf_state) : leaf_state :=
  mk_leaf_state (req_listP s) (req_in_process s) (req_timeout s) (saw_error s)
                (saw_response s) (req_index s) (num_req_entries s) (in_reverse s)
                (lv_aux_kw s) (ac_aux_kw s) t.

(** The [switch (n)] of [_leaf_ze1_rx_data]: the new state and the calls
    of [vm_update_data_item], in order. *)
Definition decode_response (n len : Z) (data : list Z) (s1 : leaf_state)
  : leaf_state * list (Z * V) :=
  if n =? UDS_GEAR_POSITION then
    if len =? 4 then (set_in_reverse (rd data 3 =? GEAR_REVERSE) s1, [])
    else (s1, [])
  else if n =? UDS_12V_BATT_V then
    if len =? 4 then
      (s1, [(DB_ITEM_LV_BATT_V, fmul (of_int (rd data 3)) (lit (dec 8 100)))])
    else (s1, [])
  else if n =? UDS_12V_BATT_I then
    if len =? 5 then
      (s1, [(DB_ITEM_LV_BATT_I,
             fdiv (of_int (to_int16 (be16 data 3))) (lit (dec 256 1)))])
    else (s1, [])
  else if n =? UDS_LV_AUX_PWR then
    if len =? 4 then
      let s2 := set_lv_aux_kw (fmul (of_int (rd data 3)) (lit (dec 1 10))) s1 in
      (s2, [(DB_ITEM_AUX_KW, fadd (lv_aux_kw s2) (ac_aux_kw s2))])
    else (s1, [])
  else if n =? UDS_AC_AUX_PWR then
    if len =? 4 then
      let s2 := set_ac_aux_kw (fmul (of_int (rd data 3)) (lit (dec 250 1000))) s1 in
      (s2, [(DB_ITEM_AUX_KW, fadd (lv_aux_kw s2) (ac_aux_kw s2))])
    else (s1, [])
  else if n =? UDS_SPEED then
    if len =? 5 then
      (s1, [(DB_ITEM_SPEED,
             fdiv (of_int (to_uint16 (be16 data 3))) (lit (dec 10 1)))])
    else (s1, [])
  else if n =? UDS_HV_BATT_INFO then
    if len =? 53 then
      (s1, [(DB_ITEM_HV_BATT_I,
             fdiv (of_int (be32 data 8)) (lit (dec 1024 1)));
            (DB_ITEM_HV_BATT_V,
             fdiv (of_int (to_uint16 (be16 data 20))) (lit (dec 100 1)))])
    else (s1, [])
  else if n =? UDS_HV_BATT_TEMP then
    if len =? 31 then
      let t := <[3%nat := batt_temp_c data 11]>
                 (<[1%nat := batt_temp_c data 5]>
                    (<[0%nat := batt_temp_c data 2]> (hv_batt_t s1))) in
      (set_hv_batt_t t s1,
       [(DB_ITEM_HV_BATT_MIN_T, find_min t);
        (DB_ITEM_HV_BATT_MAX_T, find_max t)])
    else (s1, [])
  else if n =? UDS_TORQUE then
    if len =? 5 then
      let f := fdiv (of_int (to_int16 (be16 data 3))) (lit (dec 64 1)) in
      (s1, [(DB_ITEM_FRONT_TORQUE, if in_reverse s1 then fneg f else f)])
    else (s1, [])
  else (s1, []).

(** [_leaf_ze1_rx_data]. [None] stands for a fault inside
    [vm_get_resp_index]. *)
Definition _leaf_ze1_rx_data (id len : Z) (data : list Z) (s : leaf_state)
  : option (leaf_state * list (Z * V)) :=
  match vm_get_resp_index id len data NUM_UDS_REQ_ITEMS req_full_listP with
  | None => None
  | Some n => Some (decode_response n len data (set_saw_response s))
  end.

(** A sequence of responses handed over one after the other. *)
Fixpoint rx_run (rs : list (Z * Z * list Z)) (s : leaf_state)
  : option (leaf_state * list (list (Z * V))) :=
  match rs with
  | [] => Some (s, [])
  | (id, len, data) :: rest =>
      match _leaf_ze1_rx_data id len data s with
      | None => None
      | Some (s1, out) =>
          match rx_run rest s1 with
          | None => None
          | Some (s2, outs) => Some (s2, out :: outs)
          end
      end
  end.

End Leaf.

Arguments leaf_state V : clear implicits.

End LeafZe1.

(* ===================================================================== *)
(** * Properties                                                          *)
(* ===================================================================== *)

Module CanManagerFacts.
Import CanManager.

Definition f_single : frame := mk_frame 0x79A [0x04; 0x62; 0x11; 0x03; 0xB4].

Lemma rd_in_range (a : list Z) (i : Z) :
  0 <= i < Z.of_nat (length a) -> a !! Z.to_nat i = Some (rd a i).
Proof.
  intros H. unfold rd.
  destruct (a !! Z.to_nat i) eqn:E; [reflexivity|].
  apply lookup_ge_None in E. lia.
Qed.

Lemma copy_loop_spec (fuel : nat) (data : list Z) :
  forall (len rdi : Z) (s : can_state),
    len = Z.of_nat (length data) ->
    0 <= rdi <= len ->
    fuel = Z.to_nat (len - rdi) ->
    0 <= data_index s <= num_rx_bytes s ->
    num_rx_bytes s <= Z.of_nat (length (data_buf s)) ->
    let m := Z.min (len - rdi) (num_rx_bytes s - data_index s) in
    let s' := copy_loop fuel data len rdi s in
    data_index s' = data_index s + m /\
    num_rx_bytes s' = num_rx_bytes s /\
    seq_num s' = seq_num s /\
    cur_rsp_id s' = cur_rsp_id s /\
    cur_req_id s' = cur_req_id s /\
    length (data_buf s') = length (data_buf s) /\
    take (Z.to_nat (data_index s')) (data_buf s') =
      take (Z.to_nat (data_index s)) (data_buf s)
      ++ take (Z.to_nat m) (drop (Z.to_nat rdi) data).
Proof.
  induction fuel as [|fuel IH]; intros len rdi s Hlen Hrdi Hfuel Hdi Hnum m s'.
  - assert (m = 0) by lia. subst s'. simpl. rewrite H. simpl.
    rewrite Z.add_0_r, app_nil_r. repeat split; reflexivity.
  - subst s'. simpl.
    destruct (rdi <? len) eqn:E1; [|lia].
    destruct (data_index s <? num_rx_bytes s) eqn:E2; simpl.
    + apply Z.ltb_lt in E1, E2.
      specialize (IH len (rdi + 1) (push_byte s (rd data rdi)) Hlen).
      simpl in IH. unfold wr in IH. rewrite length_insert in IH.
      destruct IH as (I1 & I2 & I3 & I4 & I5 & I6 & I7); try lia.
      rewrite I7, I1, I2, I3, I4, I5, I6.
      repeat split; try reflexivity; try lia.
      replace (Z.to_nat (data_index s + 1)) with (S (Z.to_nat (data_index s))) by lia.
      rewrite (take_S_r _ _ (rd data rdi)).
      2:{ apply list_lookup_insert_eq. lia. }
      rewrite take_insert_ge by lia.
      rewrite <- app_assoc. f_equal. simpl.
      replace (Z.to_nat m) with (S (Z.to_nat (Z.min (len - (rdi + 1))
                 (num_rx_bytes s - (data_index s + 1))))) by lia.
      rewrite (drop_S data (rd data rdi) (Z.to_nat rdi)).
      2:{ apply rd_in_range. lia. }
      simpl. replace (Z.to_nat (rdi + 1)) with (S (Z.to_nat rdi)) by lia.
      reflexivity.
    + apply Z.ltb_ge in E2. assert (m = 0) by lia. rewrite H. simpl.
      rewrite Z.add_0_r, app_nil_r. repeat split; reflexivity.
Qed.

Example single_frame_delivery :
  snd (rx_frame f_single (init_state 0x797 0x79A)) =
  [Fcn_response_complete; Vm_rx_data 0x79A 4 [0x62; 0x11; 0x03; 0xB4]].
Proof. vm_compute. reflexivity. Qed.

(** The state while a message declared with [total] bytes is being
    assembled: [acc] is what the frames accepted so far carried and [k] the
    number of the consecutive frame expected next. *)
Definition assembling (s : can_state) (id total : Z) (acc : list Z) (k : Z) : Prop :=
  cur_rsp_id s = id /\
  length (data_buf s) = 4096%nat /\
  num_rx_bytes s = total /\
  0 <= total <= 4095 /\
  data_index s = Z.min total (Z.of_nat (length acc)) /\
  take (Z.to_nat (data_index s)) (data_buf s) = take (Z.to_nat total) acc /\
  seq_num s = k mod 16.

Definition delivered (id total : Z) (acc : list Z) : list (Z * Z * list Z) :=
  if total <=? Z.of_nat (length acc)
  then [(id, total, take (Z.to_nat total) acc)]
  else [].

Lemma land_15 (x : Z) : Z.land x 0x0F = x mod 16.
Proof. change 0x0F with (Z.ones 4). rewrite Z.land_ones by lia. reflexivity. Qed.

Lemma forallb_is_byte_rd (d : list Z) (i : Z) :
  forallb is_byte d = true -> 0 <= rd d i < 256.
Proof.
  intros H. unfold rd.
  destruct (d !! Z.to_nat i) as [x|] eqn:E; simpl; [|lia].
  rewrite forallb_forall in H.
  assert (Hin : In x d) by (apply list_elem_of_In; eapply list_elem_of_lookup_2; eauto).
  apply H in Hin. unfold is_byte in Hin. lia.
Qed.

Lemma first_total_range (d0 d1 : Z) :
  0 <= d1 < 256 ->
  0 <= Z.lor (Z.shiftl (Z.land d0 0x0F) 8) d1 <= 4095.
Proof.
  intros H1. rewrite land_15.
  assert (H0 : 0 <= d0 mod 16 < 16) by (apply Z.mod_pos_bound; lia).
  rewrite Z.shiftl_mul_pow2 by lia. change (2 ^ 8) with 256.
  set (a := d0 mod 16 * 256).
  assert (Ha : 0 <= a < 4096) by (unfold a; lia).
  split; [apply Z.lor_nonneg; lia|].
  destruct (Z.eq_dec (Z.lor a d1) 0) as [->|Hnz]; [lia|].
  assert (Hpos : 0 < Z.lor a d1).
  { assert (0 <= Z.lor a d1) by (apply Z.lor_nonneg; lia). lia. }
  assert (Z.lor a d1 < 2 ^ 12); [|change (2 ^ 12) with 4096 in *; lia].
  apply Z.log2_lt_pow2; [exact Hpos|].
  rewrite Z.log2_lor by lia.
  apply Z.max_lub_lt.
  - destruct (Z.eq_dec a 0) as [->|]; [simpl; lia|].
    apply Z.log2_lt_pow2; [lia|]. change (2 ^ 12) with 4096. lia.
  - destruct (Z.eq_dec d1 0) as [->|]; [simpl; lia|].
    apply Z.log2_lt_pow2; [lia|]. change (2 ^ 12) with 4096. lia.
Qed.

Lemma take_app_capped (n : nat) (m : Z) (a b : list Z) :
  m = Z.min (Z.of_nat (length b))
            (Z.of_nat n - Z.min (Z.of_nat n) (Z.of_nat (length a))) ->
  take n a ++ take (Z.to_nat m) b = take n (a ++ b).
Proof.
  intros Hm. rewrite take_app. f_equal.
  destruct (Nat.le_gt_cases n (length a)) as [Hle|Hgt].
  - replace (n - length a)%nat with 0%nat by lia.
    replace (Z.to_nat m) with 0%nat by lia. reflexivity.
  - destruct (Nat.le_gt_cases (length b) (n - length a)) as [Hb|Hb].
    + rewrite !take_ge by lia. reflexivity.
    + f_equal. lia.
Qed.

Lemma other_id_ignored (f : frame) (s : can_state) :
  relevant (cur_rsp_id s) f = false -> rx_frame f s = (s, []).
Proof.
  unfold relevant, rx_frame, can_rx_packet. intros ->. reflexivity.
Qed.

Lemma drop_length_Z (n : nat) (d : list Z) :
  Z.of_nat (length (drop n d)) = Z.max 0 (Z.of_nat (length d) - Z.of_nat n).
Proof. rewrite length_drop. lia. Qed.

(** What the copy block does to a state in which [acc] has been taken in
    so far. *)
Lemma copy_and_deliver_spec (id total k rdi : Z) (acc data : list Z) (s1 : can_state) :
  cur_rsp_id s1 = id ->
  length (data_buf s1) = 4096%nat ->
  num_rx_bytes s1 = total -> 0 <= total <= 4095 ->
  data_index s1 = Z.min total (Z.of_nat (length acc)) ->
  take (Z.to_nat (data_index s1)) (data_buf s1) = take (Z.to_nat total) acc ->
  0 <= rdi <= Z.of_nat (length data) ->
  (seq_num s1 + 1) mod 16 = (k + 1) mod 16 ->
  let r := copy_and_deliver id (Z.of_nat (length data)) data rdi s1 in
  let acc' := acc ++ drop (Z.to_nat rdi) data in
  assembling (fst r) id total acc' (k + 1) /\
  deliveries (snd r) = delivered id total acc'.
Proof.
  intros Hid Hbuf Hnum Htot Hdi Htake Hrdi Hseq r acc'.
  destruct (copy_loop_spec (Z.to_nat (Z.of_nat (length data) - rdi)) data
              (Z.of_nat (length data)) rdi s1) as (C1 & C2 & C3 & C4 & C5 & C6 & C7);
    try reflexivity; try lia.
  unfold copy_and_deliver in r.
  set (s2 := copy_loop _ _ _ _ _) in *.
  set (s3 := set_seq_num s2 _) in *.
  assert (Hlen' : Z.of_nat (length acc') =
                  Z.of_nat (length acc) + (Z.of_nat (length data) - rdi)).
  { unfold acc'. rewrite length_app, length_drop. lia. }
  assert (Hdi3 : data_index s3 = Z.min total (Z.of_nat (length acc'))).
  { simpl. rewrite C1. lia. }
  assert (Htake3 : take (Z.to_nat (data_index s3)) (data_buf s3)
                   = take (Z.to_nat total) acc').
  { simpl. rewrite C7, Htake. unfold acc'. apply take_app_capped.
    rewrite drop_length_Z. lia. }
  assert (Hn3 : num_rx_bytes s3 = total) by (simpl; lia).
  assert (Ha : assembling s3 id total acc' (k + 1)).
  { unfold assembling. simpl. rewrite C4, C6, C3, land_15.
    repeat split; try assumption; try lia. }
  unfold delivered. subst r. clearbody s3.
  destruct (Z.leb_spec total (Z.of_nat (length acc'))) as [Hle|Hgt].
  - replace (data_index s3 =? num_rx_bytes s3) with true
      by (symmetry; apply Z.eqb_eq; lia).
    split; [exact Ha|]. simpl fst. simpl snd.
    replace (data_index s3) with total in Htake3 by lia.
    cbn [deliveries flat_map app]. rewrite Hn3, Htake3. reflexivity.
  - replace (data_index s3 =? num_rx_bytes s3) with false
      by (symmetry; apply Z.eqb_neq; lia).
    split; [exact Ha|reflexivity].
Qed.

Lemma deliveries_app (a b : list can_action) :
  deliveries (a ++ b) = deliveries a ++ deliveries b.
Proof.
  unfold deliveries. rewrite !flat_map_concat_map, map_app, concat_app. reflexivity.
Qed.

Lemma deliveries_flow_control (l : rx_locals) (s : can_state) :
  deliveries (send_flow_control l s) = [].
Proof. unfold send_flow_control. destruct (_ && _); reflexivity. Qed.

Lemma classify_single (f : frame) (s : can_state) :
  is_single f = true ->
  classify (f_len f) (f_data f) s
  = (mk_rx_locals true false false 1, set_single s (frame_total f)).
Proof.
  unfold is_single, classify, frame_total, low_nibble, pci. intros H.
  apply andb_true_iff in H as [H Hp]. apply andb_true_iff in H as [_ Hl].
  replace (f_len f >? 0) with true by (symmetry; apply Z.gtb_lt; lia).
  rewrite Hp. apply Z.eqb_eq in Hp. rewrite Hp. reflexivity.
Qed.

Lemma classify_first (f : frame) (s : can_state) :
  is_first f = true ->
  classify (f_len f) (f_data f) s
  = (mk_rx_locals false true false 2, set_first s (frame_total f)).
Proof.
  unfold is_first, classify, frame_total, low_nibble, pci. intros H.
  apply andb_true_iff in H as [H Hp]. apply andb_true_iff in H as [_ Hl].
  replace (f_len f >? 0) with true by (symmetry; apply Z.gtb_lt; lia).
  replace (f_len f >? 1) with true by (symmetry; apply Z.gtb_lt; lia).
  rewrite Hp. apply Z.eqb_eq in Hp. rewrite Hp. reflexivity.
Qed.

Lemma classify_consecutive (k : Z) (f : frame) (s : can_state) :
  is_consecutive k f = true ->
  classify (f_len f) (f_data f) s = (mk_rx_locals false false true 1, s).
Proof.
  unfold is_consecutive, classify, pci. intros H.
  apply andb_true_iff in H as [H _]. apply andb_true_iff in H as [H Hp].
  apply andb_true_iff in H as [_ Hl].
  replace (f_len f >? 0) with true by (symmetry; apply Z.gtb_lt; lia).
  apply Z.eqb_eq in Hp. rewrite Hp. reflexivity.
Qed.

(** A single frame on the expected id. *)
Lemma single_step (f : frame) (s : can_state) :
  length (data_buf s) = 4096%nat ->
  relevant (cur_rsp_id s) f = true ->
  is_single f = true ->
  cur_rsp_id (fst (rx_frame f s)) = cur_rsp_id s /\
  deliveries (snd (rx_frame f s))
  = delivered (cur_rsp_id s) (frame_total f) (frame_bytes f).
Proof.
  intros Hbuf Hrel Hf.
  unfold rx_frame, can_rx_packet. unfold relevant in Hrel. rewrite Hrel.
  apply Z.eqb_eq in Hrel.
  rewrite classify_single by assumption. cbv zeta.
  cbn [fst snd accepted is_singleframe is_firstframe orb rx_data_index].
  rewrite deliveries_app, deliveries_flow_control, app_nil_r.
  assert (Hnib : 0 <= frame_total f <= 4095).
  { unfold frame_total, low_nibble, is_single in *.
    apply andb_true_iff in Hf as [_ Hp]. apply Z.eqb_eq in Hp.
    rewrite Hp, land_15. simpl.
    pose proof (Z.mod_pos_bound (rd (f_data f) 0) 16). lia. }
  destruct (copy_and_deliver_spec (cur_rsp_id s) (frame_total f) 255 1 []
              (f_data f) (set_single s (frame_total f)))
    as [A1 A2]; try (simpl; reflexivity); try (simpl; lia);
    try (simpl; rewrite take_nil; reflexivity).
  { unfold is_single, f_len in Hf. apply andb_true_iff in Hf as [Hf _].
    apply andb_true_iff in Hf as [_ Hl]. lia. }
  rewrite Hrel. fold (f_len f).
  replace (frame_bytes f) with (drop 1 (f_data f)).
  2:{ unfold frame_bytes, is_single in *. apply andb_true_iff in Hf as [_ Hp].
      apply Z.eqb_eq in Hp. rewrite Hp. reflexivity. }
  split; [apply A1 | exact A2].
Qed.

(** A first frame on the expected id starts a new assembly. *)
Lemma first_step (f : frame) (s : can_state) :
  length (data_buf s) = 4096%nat ->
  relevant (cur_rsp_id s) f = true ->
  is_first f = true ->
  assembling (fst (rx_frame f s)) (cur_rsp_id s) (frame_total f) (frame_bytes f) 1 /\
  deliveries (snd (rx_frame f s))
  = delivered (cur_rsp_id s) (frame_total f) (frame_bytes f).
Proof.
  intros Hbuf Hrel Hf.
  unfold rx_frame, can_rx_packet. unfold relevant in Hrel. rewrite Hrel.
  apply Z.eqb_eq in Hrel.
  rewrite classify_first by assumption. cbv zeta.
  cbn [fst snd accepted is_singleframe is_firstframe orb rx_data_index].
  rewrite deliveries_app, deliveries_flow_control, app_nil_r.
  unfold is_first in Hf.
  apply andb_true_iff in Hf as [Hf Hp]. apply andb_true_iff in Hf as [Hwf Hl].
  assert (Htot : 0 <= frame_total f <= 4095).
  { unfold frame_total, low_nibble. rewrite Hp.
    apply first_total_range. now apply forallb_is_byte_rd. }
  destruct (copy_and_deliver_spec (cur_rsp_id s) (frame_total f) 0 2 []
              (f_data f) (set_first s (frame_total f)))
    as [A1 A2]; try (simpl; reflexivity); try (simpl; lia);
    try (simpl; rewrite take_nil; reflexivity).
  { unfold f_len in Hl. lia. }
  rewrite Hrel. fold (f_len f).
  replace (frame_bytes f) with (drop 2 (f_data f)).
  2:{ unfold frame_bytes. rewrite Hp. reflexivity. }
  split; [exact A1 | exact A2].
Qed.

(** The consecutive frame numbered [k] on the expected id, while [k] is
    the number expected. *)
Lemma consecutive_step (f : frame) (s : can_state) (total k : Z) (acc : list Z) :
  assembling s (cur_rsp_id s) total acc k ->
  relevant (cur_rsp_id s) f = true ->
  is_consecutive k f = true ->
  assembling (fst (rx_frame f s)) (cur_rsp_id s) total (acc ++ frame_bytes f) (k + 1) /\
  deliveries (snd (rx_frame f s))
  = delivered (cur_rsp_id s) total (acc ++ frame_bytes f).
Proof.
  intros (_ & Hbuf & Hnum & Htot & Hdi & Htake & Hseq) Hrel Hf.
  unfold rx_frame, can_rx_packet. unfold relevant in Hrel. rewrite Hrel.
  apply Z.eqb_eq in Hrel.
  rewrite (classify_consecutive k) by assumption. cbv zeta.
  unfold is_consecutive in Hf.
  apply andb_true_iff in Hf as [Hf Hk]. apply andb_true_iff in Hf as [Hf Hp].
  apply andb_true_iff in Hf as [Hwf Hl].
  cbn [fst snd accepted is_singleframe is_firstframe is_consecutiveframe orb andb
       rx_data_index].
  unfold low_nibble in Hk. apply Z.eqb_eq in Hk. rewrite Hk, Hseq, Z.eqb_refl.
  rewrite deliveries_app, deliveries_flow_control, app_nil_r.
  destruct (copy_and_deliver_spec (cur_rsp_id s) total k 1 acc (f_data f) s)
    as [A1 A2]; try assumption; try reflexivity.
  { unfold f_len in Hl. lia. }
  { rewrite Hseq. apply Zplus_mod_idemp_l. }
  rewrite Hrel. fold (f_len f).
  replace (frame_bytes f) with (drop 1 (f_data f)).
  2:{ unfold frame_bytes. apply Z.eqb_eq in Hp. rewrite Hp. reflexivity. }
  split; [exact A1 | exact A2].
Qed.

Lemma copy_loop_rsp_id (fuel : nat) (data : list Z) (len rdi : Z) (s : can_state) :
  cur_rsp_id (copy_loop fuel data len rdi s) = cur_rsp_id s.
Proof.
  revert rdi s. induction fuel as [|fuel IH]; intros rdi s; simpl; [reflexivity|].
  destruct (_ && _); [rewrite IH|]; reflexivity.
Qed.

Lemma rx_frame_rsp_id (f : frame) (s : can_state) :
  cur_rsp_id (fst (rx_frame f s)) = cur_rsp_id s.
Proof.
  unfold rx_frame, can_rx_packet.
  destruct (f_id f =? cur_rsp_id s); [|reflexivity]. cbv zeta. simpl fst.
  assert (Hc : cur_rsp_id (snd (classify (f_len f) (f_data f) s)) = cur_rsp_id s).
  { unfold classify.
    repeat match goal with |- context [if ?c then _ else _] => destruct c end;
      reflexivity. }
  destruct (accepted _ _ _); [|exact Hc].
  unfold copy_and_deliver. cbv zeta.
  destruct (_ =? _); simpl; rewrite copy_loop_rsp_id; exact Hc.
Qed.

Lemma run_rsp_id (fs : list frame) (s : can_state) :
  cur_rsp_id (fst (can_rx_run fs s)) = cur_rsp_id s.
Proof.
  revert s. induction fs as [|f fs IH]; intros s; simpl; [reflexivity|].
  pose proof (rx_frame_rsp_id f s) as H.
  destruct (rx_frame f s) as [s1 a]. specialize (IH s1).
  destruct (can_rx_run fs s1) as [s2 tr]. simpl in *. congruence.
Qed.

Lemma run_cons (f : frame) (fs : list frame) (s : can_state) :
  fst (can_rx_run (f :: fs) s) = fst (can_rx_run fs (fst (rx_frame f s))).
Proof.
  simpl. destruct (rx_frame f s) as [s1 a]. simpl.
  destruct (can_rx_run fs s1). reflexivity.
Qed.

Lemma message_bytes_cons (id : Z) (f : frame) (fs : list frame) :
  message_bytes id (f :: fs)
  = if relevant id f then frame_bytes f ++ message_bytes id fs
    else message_bytes id fs.
Proof. unfold message_bytes. simpl. destruct (relevant id f); reflexivity. Qed.

Lemma message_bytes_app (id : Z) (a b : list frame) :
  message_bytes id (a ++ b) = message_bytes id a ++ message_bytes id b.
Proof.
  induction a as [|f a IH]; [reflexivity|].
  simpl app. rewrite !message_bytes_cons, IH.
  destruct (relevant id f); [rewrite app_assoc|]; reflexivity.
Qed.

Lemma delivered_app (id total : Z) (a b : list Z) :
  delivered id total a
  = if total <=? Z.of_nat (length a)
    then [(id, total, take (Z.to_nat total) (a ++ b))] else [].
Proof.
  unfold delivered. destruct (Z.leb_spec total (Z.of_nat (length a))); [|reflexivity].
  rewrite take_app_le by lia. reflexivity.
Qed.

(** Deliveries while consecutive frames arrive in order. *)
Lemma in_order_deliveries (id total : Z) (pre post : list frame) (f : frame) :
  forall (s : can_state) (acc : list Z) (k : Z),
    cur_rsp_id s = id ->
    assembling s id total acc k ->
    in_order id k (pre ++ f :: post) = true ->
    deliveries (snd (rx_frame f (fst (can_rx_run pre s))))
    = if relevant id f
      then delivered id total (acc ++ message_bytes id (pre ++ [f]))
      else [].
Proof.
  induction pre as [|g pre IH]; intros s acc k Hid Ha Hord.
  - simpl in Hord |- *. rewrite message_bytes_cons.
    destruct (relevant id f) eqn:Hrel.
    + apply andb_true_iff in Hord as [Hc _].
      unfold message_bytes at 1. simpl. rewrite app_nil_r.
      rewrite <- Hid in Hrel, Ha |- *.
      eapply consecutive_step; eassumption.
    + rewrite <- Hid in Hrel. rewrite other_id_ignored by assumption. reflexivity.
  - rewrite run_cons. simpl app in Hord |- *. simpl in Hord.
    rewrite message_bytes_cons.
    destruct (relevant id g) eqn:Hrel.
    + apply andb_true_iff in Hord as [Hc Hord].
      assert (Hrel' : relevant (cur_rsp_id s) g = true) by (rewrite Hid; exact Hrel).
      assert (Ha0 : assembling s (cur_rsp_id s) total acc k) by (rewrite Hid; exact Ha).
      destruct (consecutive_step g s total k acc Ha0 Hrel' Hc) as [Ha' _].
      rewrite Hid in Ha'.
      rewrite (IH (fst (rx_frame g s)) (acc ++ frame_bytes g) (k + 1)).
      * rewrite app_assoc. reflexivity.
      * rewrite rx_frame_rsp_id. exact Hid.
      * exact Ha'.
      * exact Hord.
    + rewrite <- Hid in Hrel. rewrite (other_id_ignored g s) by assumption.
      simpl fst. apply (IH s acc k Hid Ha Hord).
Qed.

Lemma declared_total_cons (id : Z) (f : frame) (fs : list frame) :
  declared_total id (f :: fs)
  = if relevant id f then frame_total f else declared_total id fs.
Proof. unfold declared_total. simpl. destruct (relevant id f); reflexivity. Qed.

Lemma all_other_app_cons (id : Z) (pre post : list frame) (f : frame) :
  all_other id (pre ++ f :: post) = true ->
  all_other id pre = true /\ relevant id f = false.
Proof.
  unfold all_other. rewrite forallb_app. simpl. intros H.
  apply andb_true_iff in H as [H1 H2]. apply andb_true_iff in H2 as [H2 _].
  split; [exact H1 | now apply negb_true_iff].
Qed.

(** C1. For every frame sequence that forms a valid single-frame or
    first-frame-plus-in-order-consecutive-frames pattern on the expected
    response id, interleaved with frames on other ids: a frame hands a
    payload to the vehicle manager exactly when it carries the expected id
    and the bytes assembled up to and including it reach the total declared
    by the head frame; the payload handed over is the concatenation of the
    frames' data bytes in arrival order cut to that total, with the total as
    its length. *)
Theorem can_rx_reassembly (s : can_state) (pre post : list frame) (f : frame) :
  length (data_buf s) = 4096%nat ->
  valid_pattern (cur_rsp_id s) (pre ++ f :: post) = true ->
  let id := cur_rsp_id s in
  let fs := pre ++ f :: post in
  deliveries (snd (rx_frame f (fst (can_rx_run pre s))))
  = if relevant id f
       && (declared_total id fs <=? Z.of_nat (length (message_bytes id (pre ++ [f]))))
    then [(id, declared_total id fs,
           take (Z.to_nat (declared_total id fs)) (message_bytes id fs))]
    else [].
Proof.
  intros Hbuf Hv id fs. subst fs. fold id in Hv.
  assert (Hid : cur_rsp_id s = id) by reflexivity. clearbody id.
  induction pre as [|g pre IH].
  - simpl in Hv |- *. rewrite declared_total_cons, !message_bytes_cons.
    destruct (relevant id f) eqn:Hrel; simpl andb.
    + rewrite <- Hid in Hrel |- *.
      change (message_bytes (cur_rsp_id s) []) with (@nil Z). rewrite app_nil_r.
      apply orb_true_iff in Hv as [Hv|Hv]; apply andb_true_iff in Hv as [Hh _].
      * destruct (single_step f s Hbuf Hrel Hh) as [_ ->]. apply delivered_app.
      * destruct (first_step f s Hbuf Hrel Hh) as [_ ->]. apply delivered_app.
    + rewrite <- Hid in Hrel. rewrite other_id_ignored by assumption. reflexivity.
  - rewrite run_cons. simpl app in Hv |- *. simpl in Hv.
    rewrite declared_total_cons, !message_bytes_cons.
    destruct (relevant id g) eqn:Hrel.
    + assert (Hrel' : relevant (cur_rsp_id s) g = true) by (rewrite Hid; exact Hrel).
      apply orb_true_iff in Hv as [Hv|Hv]; apply andb_true_iff in Hv as [Hh Hrest].
      * apply all_other_app_cons in Hrest as [_ Hf]. rewrite Hf. simpl andb.
        rewrite other_id_ignored; [reflexivity|].
        rewrite run_rsp_id, rx_frame_rsp_id, Hid. exact Hf.
      * destruct (first_step g s Hbuf Hrel' Hh) as [Ha _]. rewrite Hid in Ha.
        rewrite (in_order_deliveries id (frame_total g) pre post f
                   (fst (rx_frame g s)) (frame_bytes g) 1);
          [|rewrite rx_frame_rsp_id; exact Hid|exact Ha|exact Hrest].
        destruct (relevant id f); simpl andb; [|reflexivity].
        rewrite (delivered_app id (frame_total g) _ (message_bytes id post)).
        rewrite <- !app_assoc, <- message_bytes_app, <- app_assoc. reflexivity.
    + rewrite <- Hid in Hrel. rewrite (other_id_ignored g s) by assumption.
      simpl fst. apply IH. exact Hv.
Qed.

Definition f_first : frame :=
  mk_frame 0x7BB [0x10; 0x0A; 0x61; 0x01; 0xA1; 0xA2; 0xA3; 0xA4].
Definition f_noise : frame := mk_frame 0x123 [0x21; 0xEE; 0xEE].
Definition f_second : frame :=
  mk_frame 0x7BB [0x21; 0xB1; 0xB2; 0xB3; 0xB4; 0x00; 0x00; 0x00].

Lemma can_rx_reassembly_witness :
  length (data_buf (init_state 0x79B 0x7BB)) = 4096%nat /\
  valid_pattern 0x7BB [f_first; f_noise; f_second] = true /\
  deliveries (snd (rx_frame f_second
                     (fst (can_rx_run [f_first; f_noise] (init_state 0x79B 0x7BB)))))
  = [(0x7BB, 10, [0x61; 0x01; 0xA1; 0xA2; 0xA3; 0xA4; 0xB1; 0xB2; 0xB3; 0xB4])].
Proof.
  split; [reflexivity|]. split; [reflexivity|].
  exact (can_rx_reassembly (init_state 0x79B 0x7BB) [f_first; f_noise] [] f_second
           eq_refl eq_refl).
Defined.

Lemma flow_controls_app (a b : list can_action) :
  flow_controls (a ++ b) = flow_controls a ++ flow_controls b.
Proof.
  unfold flow_controls. rewrite !flat_map_concat_map, map_app, concat_app. reflexivity.
Qed.

Lemma flow_controls_copy_and_deliver (id len rdi : Z) (data : list Z) (s : can_state) :
  flow_controls (snd (copy_and_deliver id len data rdi s)) = [].
Proof. unfold copy_and_deliver. cbv zeta. destruct (_ =? _); reflexivity. Qed.

Lemma classify_is_firstframe (len : Z) (data : list Z) (s : can_state) :
  is_firstframe (fst (classify len data s))
  = (len >? 1) && (Z.land (rd data 0) 0xF0 =? 0x10).
Proof.
  unfold classify. set (p := Z.land (rd data 0) 0xF0).
  destruct (Z.gtb_spec len 0), (Z.gtb_spec len 1); try lia;
    destruct (Z.eqb_spec p 0), (Z.eqb_spec p 0x10), (Z.eqb_spec p 0x20);
    simpl; try reflexivity; lia.
Qed.

(** C7. Processing a received frame calls the driver's flow-control
    transmit exactly when the frame is on the expected response id, is a
    first frame (PCI high nibble 1) of at least two bytes, and the recorded
    request id is nonzero; the call is made once, to the recorded request
    id, with the eight bytes 30 00 00 00 00 00 00 00. Single frames,
    consecutive frames and frames on other ids cause no such call. *)
Theorem flow_control_iff_first_frame (rsp_id len : Z) (data : list Z) (s : can_state) :
  flow_controls (snd (can_rx_packet rsp_id len data s))
  = if (rsp_id =? cur_rsp_id s) && (len >? 1)
       && (Z.land (rd data 0) 0xF0 =? 0x10) && negb (cur_req_id s =? 0)
    then [(cur_req_id s, 8, [0x30; 0x00; 0x00; 0x00; 0x00; 0x00; 0x00; 0x00])]
    else [].
Proof.
  unfold can_rx_packet.
  destruct (rsp_id =? cur_rsp_id s); [|reflexivity]. cbv zeta. simpl snd.
  rewrite flow_controls_app.
  assert (Hacts : forall r : can_state * list can_action,
             r = (if accepted (fst (classify len data s)) data (snd (classify len data s))
                  then copy_and_deliver rsp_id len data
                         (rx_data_index (fst (classify len data s)))
                         (snd (classify len data s))
                  else (snd (classify len data s), [])) ->
             flow_controls (snd r) = []).
  { intros r ->. destruct (accepted _ _ _); [|reflexivity].
    apply flow_controls_copy_and_deliver. }
  rewrite (Hacts _ eq_refl). simpl app.
  unfold send_flow_control. rewrite classify_is_firstframe. simpl andb.
  destruct ((len >? 1) && (Z.land (rd data 0) 240 =? 16) && negb (cur_req_id s =? 0));
    reflexivity.
Qed.

(** C3 fails on the code. After a single frame has been delivered, a stray
    consecutive frame with sequence number 0 on the same id is accepted:
    the sentinel 0xFF written for the single frame is advanced to 0 by the
    copy block of the same call, and the unchanged byte count still equals
    the total, so the same buffer is handed over a second time and the
    driver's completion is called a second time. *)
Lemma stray_consecutive_after_single_delivers_again :
  let s0 := init_state 0x797 0x79A in
  let r1 := rx_frame f_single s0 in
  let r2 := rx_frame (mk_frame 0x79A [0x20]) (fst r1) in
  seq_num (fst r1) = 0 /\
  deliveries (snd r1) = [(0x79A, 4, [0x62; 0x11; 0x03; 0xB4])] /\
  deliveries (snd r2) = [(0x79A, 4, [0x62; 0x11; 0x03; 0xB4])] /\
  completions (snd r2) = 1%nat.
Proof. vm_compute. repeat split; reflexivity. Qed.

(** *** The reassembly buffer *)

(** The byte count declared by the head frame fits the buffer and the
    write cursor has not gone past it. *)
Definition buffer_ok (s : can_state) : Prop :=
  length (data_buf s) = 4096%nat /\
  0 <= data_index s <= num_rx_bytes s /\
  num_rx_bytes s <= 4095.

(** A payload handed to the vehicle manager: its length is the declared
    count and fits the vehicle manager's own 4096-byte buffer. *)
Definition action_ok (a : can_action) : Prop :=
  match a with
  | Vm_rx_data _ len p => 0 <= len <= 4095 /\ Z.of_nat (length p) = len
  | _ => True
  end.

Lemma copy_and_deliver_bounds (id rdi : Z) (d : list Z) (s : can_state) :
  buffer_ok s -> 0 <= rdi <= Z.of_nat (length d) ->
  let r := copy_and_deliver id (Z.of_nat (length d)) d rdi s in
  buffer_ok (fst r) /\ Forall action_ok (snd r).
Proof.
  intros (B1 & B2 & B3) Hr. unfold copy_and_deliver. cbv zeta.
  destruct (copy_loop_spec (Z.to_nat (Z.of_nat (length d) - rdi)) d
              (Z.of_nat (length d)) rdi s eq_refl Hr eq_refl B2 ltac:(lia))
    as (C1 & C2 & C3 & C4 & C5 & C6 & C7).
  set (s2 := copy_loop _ d _ rdi s) in *.
  assert (Hb : buffer_ok (set_seq_num s2 (Z.land (seq_num s2 + 1) 15))).
  { unfold buffer_ok. simpl. rewrite C6, C1, C2. split; [exact B1|]. lia. }
  destruct (_ =? _) eqn:Hd; simpl; (split; [exact Hb|]).
  - repeat constructor; simpl; rewrite C2; try lia.
    rewrite length_take, C6, B1. lia.
  - constructor.
Qed.

Lemma rx_frame_bounds (f : frame) (s : can_state) :
  frame_wf f = true -> buffer_ok s ->
  buffer_ok (fst (rx_frame f s)) /\ Forall action_ok (snd (rx_frame f s)).
Proof.
  intros Hwf Hb. pose proof Hb as (B1 & B2 & B3).
  unfold rx_frame, can_rx_packet.
  destruct (f_id f =? cur_rsp_id s); [|split; [exact Hb|constructor]].
  cbv zeta.
  assert (Hfc : Forall action_ok
                  (send_flow_control (fst (classify (f_len f) (f_data f) s)) s)).
  { unfold send_flow_control. destruct (_ && _); repeat constructor. }
  assert (Hgoal : forall l s1 rdi,
            buffer_ok s1 ->
            (accepted l (f_data f) s1 = true -> rx_data_index l = rdi) ->
            (accepted l (f_data f) s1 = true -> 0 <= rdi <= f_len f) ->
            let r := if accepted l (f_data f) s1
                     then copy_and_deliver (f_id f) (f_len f) (f_data f)
                            (rx_data_index l) s1
                     else (s1, []) in
            buffer_ok (fst r) /\ Forall action_ok (snd r)).
  { intros l s1 rdi Hb1 Hrdi Hrange. cbv zeta.
    destruct (accepted l (f_data f) s1); [|split; [exact Hb1|constructor]].
    rewrite (Hrdi eq_refl).
    apply (copy_and_deliver_bounds (f_id f) rdi (f_data f) s1 Hb1 (Hrange eq_refl)). }
  assert (Hd0 : 0 <= rd (f_data f) 0 < 256) by (now apply forallb_is_byte_rd).
  assert (Hd1 : 0 <= rd (f_data f) 1 < 256) by (now apply forallb_is_byte_rd).
  assert (Hn : 0 <= Z.land (rd (f_data f) 0) 15 < 16).
  { rewrite land_15. apply Z.mod_pos_bound. lia. }
  enough (H : buffer_ok (snd (classify (f_len f) (f_data f) s)) /\
              (accepted (fst (classify (f_len f) (f_data f) s)) (f_data f)
                        (snd (classify (f_len f) (f_data f) s)) = true ->
               0 <= rx_data_index (fst (classify (f_len f) (f_data f) s)) <= f_len f)).
  { destruct H as [H1 H2].
    destruct (Hgoal (fst (classify (f_len f) (f_data f) s))
                    (snd (classify (f_len f) (f_data f) s))
                    (rx_data_index (fst (classify (f_len f) (f_data f) s)))
                    H1 (fun _ => eq_refl) H2) as [G1 G2].
    split; [exact G1|]. apply Forall_app. split; [exact G2|exact Hfc]. }
  unfold classify.
  destruct (Z.gtb_spec (f_len f) 0) as [Hl|Hl]; [|split; [exact Hb|discriminate]].
  destruct (_ =? 0).
  { split; [|intros _; simpl; lia].
    unfold buffer_ok; simpl. split; [exact B1|lia]. }
  destruct (_ =? 16).
  { destruct (Z.gtb_spec (f_len f) 1) as [Hl1|Hl1].
    - split; [|intros _; simpl; lia].
      unfold buffer_ok; simpl. split; [exact B1|].
      pose proof (first_total_range (rd (f_data f) 0) (rd (f_data f) 1) Hd1). lia.
    - split; [exact Hb|discriminate]. }
  destruct (_ =? 32).
  - split; [exact Hb|intros _; simpl; lia].
  - split; [exact Hb|discriminate].
Qed.

(** X1. Whatever well-formed frames arrive, in whatever order, the write
    cursor stays at or below the declared byte count and that count stays
    below the size of [data_buf]: every store [data_buf[data_index++]] of
    the copy loop, which runs only while [data_index < num_rx_bytes], is
    inside the 4096-byte buffer, and every payload handed to the vehicle
    manager has its declared length, at most 4095. *)
Theorem reassembly_stays_in_buffer (fs : list frame) (s : can_state) :
  buffer_ok s -> forallb frame_wf fs = true ->
  buffer_ok (fst (can_rx_run fs s)) /\
  Forall (Forall action_ok) (snd (can_rx_run fs s)).
Proof.
  revert s. induction fs as [|f fs IH]; intros s Hb Hwf; simpl.
  - split; [exact Hb|constructor].
  - simpl in Hwf. apply andb_true_iff in Hwf as [Hf Hfs].
    destruct (rx_frame_bounds f s Hf Hb) as [H1 H2].
    destruct (rx_frame f s) as [s1 a]. simpl in H1, H2.
    destruct (IH s1 H1 Hfs) as [H3 H4].
    destruct (can_rx_run fs s1) as [s2 tr]. simpl in *.
    split; [exact H3|]. constructor; assumption.
Qed.

Lemma reassembly_stays_in_buffer_witness :
  buffer_ok (init_state 0x79B 0x7BB) /\
  forallb frame_wf [f_first; f_noise; f_second] = true /\
  buffer_ok (fst (can_rx_run [f_first; f_noise; f_second] (init_state 0x79B 0x7BB))).
Proof.
  assert (Hb : buffer_ok (init_state 0x79B 0x7BB)).
  { unfold buffer_ok. simpl. split; [reflexivity|lia]. }
  split; [exact Hb|]. split; [reflexivity|].
  exact (proj1 (reassembly_stays_in_buffer [f_first; f_noise; f_second]
                  (init_state 0x79B 0x7BB) Hb eq_refl)).
Defined.

(** *** Frames that are passed over *)

(** A frame on another id, a frame without data, a frame whose PCI type is
    none of single, first and consecutive (a flow-control frame, say), and
    a consecutive frame that does not carry the expected sequence
    number. *)
Definition passed_over (f : frame) (s : can_state) : bool :=
  negb (f_id f =? cur_rsp_id s)
  || (f_len f <=? 0)
  || (0x20 <? pci f)
  || ((pci f =? 0x20) && negb (low_nibble f =? seq_num s)).

Lemma passed_over_step (f : frame) (s : can_state) :
  passed_over f s = true -> rx_frame f s = (s, []).
Proof.
  unfold passed_over, rx_frame, can_rx_packet, pci, low_nibble. intros H.
  destruct (f_id f =? cur_rsp_id s); [|reflexivity]. simpl in H.
  unfold classify.
  destruct (Z.gtb_spec (f_len f) 0) as [Hl|Hl]; [|reflexivity].
  replace (f_len f <=? 0) with false in H by (symmetry; apply Z.leb_gt; lia).
  simpl in H.
  destruct (Z.eqb_spec (Z.land (rd (f_data f) 0) 240) 0) as [E0|E0].
  { rewrite E0 in H. discriminate. }
  destruct (Z.eqb_spec (Z.land (rd (f_data f) 0) 240) 16) as [E1|E1].
  { rewrite E1 in H. discriminate. }
  destruct (Z.eqb_spec (Z.land (rd (f_data f) 0) 240) 32) as [E2|E2].
  - rewrite E2 in H. simpl in H. apply negb_true_iff in H.
    unfold accepted. simpl. rewrite H. reflexivity.
  - reflexivity.
Qed.

(** X2. A frame that is passed over (one on another id, one without data, one
    of no known PCI type, or a consecutive frame with another sequence
    number than the expected one) changes nothing and causes no call: a
    duplicated or out-of-order consecutive frame does not disturb the
    message being assembled. *)
Theorem passed_over_frames_change_nothing (f : frame) (s : can_state) :
  passed_over f s = true -> rx_frame f s = (s, []).
Proof. exact (passed_over_step f s). Qed.

Lemma passed_over_frames_change_nothing_witness :
  passed_over (mk_frame 0x7BB [0x23; 0xC1; 0xC2]) (fst (rx_frame f_first (init_state 0x79B 0x7BB))) = true /\
  rx_frame (mk_frame 0x7BB [0x23; 0xC1; 0xC2])
           (fst (rx_frame f_first (init_state 0x79B 0x7BB)))
  = (fst (rx_frame f_first (init_state 0x79B 0x7BB)), []).
Proof.
  split; [reflexivity|].
  apply (passed_over_frames_change_nothing (mk_frame 0x7BB [0x23; 0xC1; 0xC2])).
  reflexivity.
Defined.

(** *** A first frame of one byte *)

Lemma low_nibble_range (f : frame) : 0 <= low_nibble f < 16.
Proof. unfold low_nibble. rewrite land_15. apply Z.mod_pos_bound. lia. Qed.

Lemma blocked_run (fs : list frame) :
  forall s, seq_num s = 0xFF ->
    forallb (fun g => negb (relevant (cur_rsp_id s) g) || (pci g =? 0x20)) fs = true ->
    can_rx_run fs s = (s, map (fun _ => []) fs).
Proof.
  induction fs as [|g fs IH]; intros s Hq Hfs; simpl; [reflexivity|].
  simpl in Hfs. apply andb_true_iff in Hfs as [Hg Hfs].
  rewrite (passed_over_step g s).
  - rewrite (IH s Hq Hfs). reflexivity.
  - unfold passed_over. unfold relevant in Hg.
    destruct (f_id g =? cur_rsp_id s); [|reflexivity]. simpl in Hg. simpl.
    rewrite Hg. simpl. rewrite Hq.
    pose proof (low_nibble_range g).
    replace (low_nibble g =? 255) with false by (symmetry; apply Z.eqb_neq; lia).
    simpl. now rewrite !orb_true_r.
Qed.

(** X3. A first frame that has only its PCI byte is invalid: it sets the
    sequence number to the sentinel 0xFF, sends no flow control, and every
    consecutive frame after it is passed over, whatever its number, until
    a single or first frame arrives. (After a single frame the sentinel
    does not last: the copy block advances it to 0.) *)
Theorem short_first_frame_blocks_consecutive (f : frame) (fs : list frame)
        (s : can_state) :
  relevant (cur_rsp_id s) f = true -> f_len f = 1 -> pci f = 0x10 ->
  forallb (fun g => negb (relevant (cur_rsp_id s) g) || (pci g =? 0x20)) fs = true ->
  can_rx_run (f :: fs) s = (set_seq_num s 0xFF, map (fun _ => []) (f :: fs)).
Proof.
  intros Hid Hlen Hpci Hfs.
  assert (H1 : rx_frame f s = (set_seq_num s 0xFF, [])).
  { unfold rx_frame, can_rx_packet, classify. unfold relevant in Hid. rewrite Hid.
    unfold pci in Hpci. rewrite Hlen, Hpci. reflexivity. }
  simpl. rewrite H1. rewrite (blocked_run fs (set_seq_num s 0xFF)); [reflexivity|reflexivity|].
  exact Hfs.
Qed.

Lemma short_first_frame_blocks_consecutive_witness :
  can_rx_run [mk_frame 0x7BB [0x10]; mk_frame 0x7BB [0x20; 1; 2]; mk_frame 0x7BB [0x21; 3]]
             (init_state 0x79B 0x7BB)
  = (set_seq_num (init_state 0x79B 0x7BB) 0xFF, [[]; []; []]).
Proof.
  apply (short_first_frame_blocks_consecutive (mk_frame 0x7BB [0x10])
           [mk_frame 0x7BB [0x20; 1; 2]; mk_frame 0x7BB [0x21; 3]]
           (init_state 0x79B 0x7BB)); reflexivity.
Defined.

(** *** Frames handed over in a longer array *)

Lemma rd_take (d : list Z) (n : nat) (i : Z) :
  0 <= i < Z.of_nat n -> rd (take n d) i = rd d i.
Proof. intros H. unfold rd. rewrite lookup_take_lt by lia. reflexivity. Qed.

Lemma copy_loop_take (fuel : nat) (d : list Z) (len : Z) :
  forall rdi s,
    0 <= rdi ->
    copy_loop fuel (take (Z.to_nat len) d) len rdi s = copy_loop fuel d len rdi s.
Proof.
  induction fuel as [|fuel IH]; intros rdi s Hr; [reflexivity|]. simpl.
  destruct (Z.ltb_spec rdi len) as [Hlt|Hge]; [|reflexivity].
  destruct (data_index s <? num_rx_bytes s); [|reflexivity]. simpl.
  rewrite rd_take by lia. apply IH. lia.
Qed.

(** [can_rx_packet] looks at the first [len] bytes of the array it is
    given and at no other. *)
Lemma can_rx_packet_take (id len : Z) (d : list Z) (s : can_state) :
  can_rx_packet id len (take (Z.to_nat len) d) s = can_rx_packet id len d s.
Proof.
  unfold can_rx_packet. destruct (id =? cur_rsp_id s); [|reflexivity].
  assert (Hc : classify len (take (Z.to_nat len) d) s = classify len d s).
  { unfold classify. destruct (Z.gtb_spec len 0) as [H0|H0]; [|reflexivity].
    rewrite (rd_take d _ 0) by lia.
    destruct (_ =? 0); [reflexivity|]. destruct (_ =? 16); [|reflexivity].
    destruct (Z.gtb_spec len 1) as [H1|H1]; [|reflexivity].
    rewrite (rd_take d _ 1) by lia. reflexivity. }
  rewrite Hc. cbv zeta.
  assert (Ha : accepted (fst (classify len d s)) (take (Z.to_nat len) d)
                        (snd (classify len d s))
               = accepted (fst (classify len d s)) d (snd (classify len d s))).
  { unfold accepted, classify. destruct (Z.gtb_spec len 0) as [H0|H0]; [|reflexivity].
    rewrite (rd_take d _ 0) by lia. reflexivity. }
  rewrite Ha. clear Ha Hc.
  destruct (accepted (fst (classify len d s)) d (snd (classify len d s)));
    [|reflexivity].
  unfold copy_and_deliver. cbv zeta.
  assert (Hr : 0 <= rx_data_index (fst (classify len d s))).
  { unfold classify. destruct (len >? 0); [|simpl; lia].
    destruct (_ =? 0); [simpl; lia|].
    destruct (_ =? 16); [destruct (len >? 1); simpl; lia|].
    destruct (_ =? 32); simpl; lia. }
  rewrite copy_loop_take by exact Hr. reflexivity.
Qed.

(** *** A single frame that is complete *)

Lemma single_frame_actions (f : frame) (s : can_state) :
  length (data_buf s) = 4096%nat ->
  relevant (cur_rsp_id s) f = true ->
  is_single f = true ->
  frame_total f <= Z.of_nat (length (frame_bytes f)) ->
  snd (rx_frame f s)
  = [Fcn_response_complete;
     Vm_rx_data (cur_rsp_id s) (frame_total f)
       (take (Z.to_nat (frame_total f)) (frame_bytes f))].
Proof.
  intros Hbuf Hrel Hf Htot.
  destruct (single_step f s Hbuf Hrel Hf) as [_ Hd].
  unfold delivered in Hd.
  replace (frame_total f <=? Z.of_nat (length (frame_bytes f))) with true in Hd
    by (symmetry; apply Z.leb_le; exact Htot).
  assert (Hid : f_id f = cur_rsp_id s) by (apply Z.eqb_eq; exact Hrel).
  revert Hd. unfold rx_frame, can_rx_packet. unfold relevant in Hrel. rewrite Hrel.
  rewrite classify_single by assumption. cbv zeta.
  cbn [fst snd accepted is_singleframe is_firstframe orb rx_data_index].
  unfold send_flow_control. cbn [is_firstframe andb]. rewrite app_nil_r.
  unfold copy_and_deliver. cbv zeta.
  match goal with
  | |- context [if ?c then (_, [Fcn_response_complete; _]) else _] => destruct c
  end; cbn [snd deliveries flat_map app]; intros Hd.
  - injection Hd as H1 H2 H3. cbn [snd].
    exact (f_equal (fun a => [Fcn_response_complete; a])
                   (f_equal3 Vm_rx_data Hid H2 H3)).
  - discriminate.
Qed.

End CanManagerFacts.

Module VehicleManagerFacts.
Import VehicleManager.

Lemma check_bytes_spec (n : nat) (resp_data req_data : list Z) :
  forall (j : Z) (m : bool),
    check_bytes n resp_data req_data j m = true <->
    m = true /\
    forall k, 0 <= k < Z.of_nat n -> rd resp_data (j - 1 + k) = rd req_data (j + k).
Proof.
  induction n as [|n IH]; intros j m; simpl check_bytes.
  - split; [intros ->; split; [reflexivity|intros; lia] | intros [-> _]; reflexivity].
  - rewrite IH. split.
    + intros [Hm Hk]. apply andb_true_iff in Hm as [-> He]. apply Z.eqb_eq in He.
      split; [reflexivity|]. intros k Hr.
      destruct (Z.eq_dec k 0) as [->|Hne].
      * rewrite !Z.add_0_r. exact He.
      * specialize (Hk (k - 1)).
        replace (j + 1 - 1 + (k - 1)) with (j - 1 + k) in Hk by lia.
        replace (j + 1 + (k - 1)) with (j + k) in Hk by lia. apply Hk. lia.
    + intros [-> Hk]. split.
      * simpl. apply Z.eqb_eq. specialize (Hk 0). rewrite !Z.add_0_r in Hk.
        apply Hk. lia.
      * intros k Hr. specialize (Hk (k + 1)).
        replace (j - 1 + (k + 1)) with (j + 1 - 1 + k) in Hk by lia.
        replace (j + (k + 1)) with (j + 1 + k) in Hk by lia. apply Hk. lia.
Qed.

Lemma entry_match_spec (id len : Z) (resp_data : list Z) (e : can_request_t) :
  1 <= rd (data e) 0 ->
  exists b, entry_match id len resp_data e = Some b /\
            (b = true <-> entry_matches id len resp_data e).
Proof.
  intros Hwf. unfold entry_match, entry_matches.
  destruct (Z.eqb_spec id (rsp_id e)) as [Hid|Hid]; simpl andb.
  2:{ exists false. split; [reflexivity|]. split; [discriminate|]. intros [? _]. contradiction. }
  destruct (Z.eqb_spec (rd resp_data 0) (rd (data e) 1 + 64)) as [Hs|Hs].
  2:{ exists false. split; [reflexivity|]. split; [discriminate|]. intros (_ & ? & _). contradiction. }
  destruct (Z.leb_spec len (rd (data e) 0)) as [Hl|Hl].
  { exists false. split; [reflexivity|]. split; [discriminate|]. intros (_ & _ & ? & _). lia. }
  destruct (Z.ltb_spec (rd (data e) 0 - 1) 0) as [Hn|Hn]; [lia|].
  eexists. split; [reflexivity|].
  rewrite check_bytes_spec. rewrite Z2Nat.id by lia. split.
  - intros [_ Hk]. split; [assumption|]. split; [assumption|]. split; [lia|].
    intros k Hr. specialize (Hk k Hr).
    replace (2 - 1 + k) with (1 + k) in Hk by lia. exact Hk.
  - intros (_ & _ & _ & Hk). split; [reflexivity|]. intros k Hr.
    replace (2 - 1 + k) with (1 + k) by lia. apply Hk. exact Hr.
Qed.

Lemma scan_spec (id len : Z) (resp_data : list Z) (cat : list can_request_t) :
  forall i, 0 <= i ->
    catalogue_wf cat = true ->
    exists r, scan id len resp_data cat i = Some r /\
      ((r = -1 /\ forall e, In e cat -> ~ entry_matches id len resp_data e) \/
       (i <= r /\
        exists e, cat !! Z.to_nat (r - i) = Some e /\
                  entry_matches id len resp_data e /\
                  forall (j : nat) e', (j < Z.to_nat (r - i))%nat ->
                                       cat !! j = Some e' ->
                                       ~ entry_matches id len resp_data e')).
Proof.
  induction cat as [|e cat IH]; intros i Hi Hwf.
  - exists (-1). split; [reflexivity|]. left. split; [reflexivity|]. intros e [].
  - simpl in Hwf. apply andb_true_iff in Hwf as [He Hwf]. apply Z.leb_le in He.
    destruct (entry_match_spec id len resp_data e He) as (b & Hb & Hiff).
    simpl scan. rewrite Hb. destruct b.
    + exists i. split; [reflexivity|]. right. split; [lia|].
      exists e. rewrite Z.sub_diag. simpl. split; [reflexivity|].
      split; [now apply Hiff|]. intros j e' Hj. lia.
    + destruct (IH (i + 1) ltac:(lia) Hwf) as (r & Hr & Hcase).
      exists r. split; [exact Hr|].
      assert (Hne : ~ entry_matches id len resp_data e).
      { intros Hm. apply Hiff in Hm. discriminate. }
      destruct Hcase as [[-> Hnone]|(Hle & e1 & Hlk & Hm & Hfirst)].
      * left. split; [reflexivity|]. intros e' [<-|Hin]; [exact Hne|now apply Hnone].
      * right. split; [lia|]. exists e1.
        replace (Z.to_nat (r - i)) with (S (Z.to_nat (r - (i + 1)))) by lia.
        split; [exact Hlk|]. split; [exact Hm|].
        intros [|j] e' Hj Hlk'.
        -- simpl in Hlk'. injection Hlk' as <-. exact Hne.
        -- simpl in Hlk'. apply (Hfirst j e'); [lia|exact Hlk'].
Qed.

(** C2. For a catalogue of request descriptors (each with a PCI byte of at
    least 1), [vm_get_resp_index] returns a result, and that result is
    either -1, when the response has fewer than 2 bytes, is a negative
    response (first byte 0x7F) or matches no entry, or the index of the
    first entry whose response id, SID echo (+0x40), length condition and
    sub-function/DID bytes all match. Being a function of its arguments,
    the result is the same on every invocation. *)
Theorem vm_get_resp_index_first_match (id len : Z) (resp_data : list Z)
        (cat : list can_request_t) :
  catalogue_wf cat = true ->
  exists r,
    vm_get_resp_index id len resp_data (Z.of_nat (length cat)) cat = Some r /\
    ((r = -1 /\
      (len < 2 \/ rd resp_data 0 = 0x7F \/
       forall e, In e cat -> ~ entry_matches id len resp_data e)) \/
     (0 <= r /\ 2 <= len /\ rd resp_data 0 <> 0x7F /\
      exists e, cat !! Z.to_nat r = Some e /\
                entry_matches id len resp_data e /\
                forall (j : nat) e', (j < Z.to_nat r)%nat ->
                                     cat !! j = Some e' ->
                                     ~ entry_matches id len resp_data e')).
Proof.
  intros Hwf. unfold vm_get_resp_index.
  destruct (Z.ltb_spec len 2) as [Hl|Hl].
  { exists (-1). split; [reflexivity|]. left. split; [reflexivity|]. left. exact Hl. }
  destruct (Z.eqb_spec (rd resp_data 0) 127) as [Hn|Hn].
  { exists (-1). split; [reflexivity|]. left. split; [reflexivity|]. right. left. exact Hn. }
  rewrite Nat2Z.id, firstn_all.
  destruct (scan_spec id len resp_data cat 0 ltac:(lia) Hwf) as (r & Hr & Hcase).
  exists r. split; [exact Hr|].
  destruct Hcase as [[-> Hnone]|(Hle & e & Hlk & Hm & Hfirst)].
  - left. split; [reflexivity|]. right. right. exact Hnone.
  - right. rewrite Z.sub_0_r in Hlk, Hfirst.
    split; [exact Hle|]. split; [exact Hl|]. split; [exact Hn|].
    exists e. split; [exact Hlk|]. split; [exact Hm|exact Hfirst].
Qed.

Definition req_scenario : can_request_t :=
  mk_can_request 0x797 0x79A 8 [0x03; 0x22; 0x11; 0x03; 0x00; 0x00; 0x00; 0x00].

Lemma vm_get_resp_index_first_match_witness :
  catalogue_wf [req_scenario] = true /\
  exists r,
    vm_get_resp_index 0x79A 4 [0x62; 0x11; 0x03; 0xB4] 1 [req_scenario] = Some r /\
    ((r = -1 /\
      (4 < 2 \/ rd [0x62; 0x11; 0x03; 0xB4] 0 = 0x7F \/
       forall e, In e [req_scenario] ->
                 ~ entry_matches 0x79A 4 [0x62; 0x11; 0x03; 0xB4] e)) \/
     (0 <= r /\ 2 <= 4 /\ rd [0x62; 0x11; 0x03; 0xB4] 0 <> 0x7F /\
      exists e, [req_scenario] !! Z.to_nat r = Some e /\
                entry_matches 0x79A 4 [0x62; 0x11; 0x03; 0xB4] e /\
                forall (j : nat) e', (j < Z.to_nat r)%nat ->
                                     [req_scenario] !! j = Some e' ->
                                     ~ entry_matches 0x79A 4 [0x62; 0x11; 0x03; 0xB4] e')).
Proof.
  split; [reflexivity|].
  exact (vm_get_resp_index_first_match 0x79A 4 [0x62; 0x11; 0x03; 0xB4]
           [req_scenario] eq_refl).
Defined.

Example scenario_single_frame_resolves :
  vm_get_resp_index 0x79A 4 [0x62; 0x11; 0x03; 0xB4] 1 [req_scenario] = Some 0.
Proof. reflexivity. Qed.

Example negative_response_resolves_to_none :
  vm_get_resp_index 0x79A 4 [0x7F; 0x22; 0x31; 0x00] 1
    [mk_can_request 0x797 0x79A 8 [0x03; 0x3F; 0x22; 0x31; 0; 0; 0; 0]] = Some (-1).
Proof. reflexivity. Qed.

(** *** Responses to the requests of the full list *)

(** The head of a positive response to a request: the service id plus
    0x40, then the sub-function or data-identifier bytes of the request. *)
Definition echo (r : can_request_t) : list Z :=
  (rd (data r) 1 + 0x40) :: take (Z.to_nat (rd (data r) 0 - 1)) (drop 2 (data r)).

(** The length of a response matters to the matching only up to the
    longest request head of the list. *)
Lemma scan_long_response (id len len' : Z) (d : list Z) (cat : list can_request_t) :
  forall i,
    Forall (fun e => rd (data e) 0 < len /\ rd (data e) 0 < len') cat ->
    scan id len d cat i = scan id len' d cat i.
Proof.
  induction cat as [|e cat IH]; intros i Hcat; [reflexivity|].
  inversion Hcat as [|? ? [H1 H2] Hrest]; subst. simpl.
  assert (He : entry_match id len d e = entry_match id len' d e).
  { unfold entry_match.
    replace (len <=? rd (data e) 0) with false by (symmetry; apply Z.leb_gt; lia).
    replace (len' <=? rd (data e) 0) with false by (symmetry; apply Z.leb_gt; lia).
    reflexivity. }
  rewrite He, (IH (i + 1) Hrest). reflexivity.
Qed.

(** Deciding the comparisons of a goal whose two sides are constants. *)
Ltac eval_eqb :=
  repeat match goal with
         | |- context [?a =? ?b] =>
             let v := eval vm_compute in (a =? b) in
             match v with
             | true => idtac
             | false => idtac
             end;
             change (a =? b) with v; cbv iota
         end.

(** A positive response to a request, as the vehicle manager hands it
    over: response id, length and bytes. *)
Definition response (r : can_request_t) (payload : list Z) : Z * Z * list Z :=
  (rsp_id r, Z.of_nat (length (echo r ++ payload)), echo r ++ payload).

(** A mask that holds a bit of a list of items passes [vm_mask_check]
    for that list. *)
Lemma mask_check_bit (mask m b : Z) :
  0 <= b -> Z.testbit mask b = true -> Z.testbit m b = true ->
  vm_mask_check mask m = true.
Proof.
  intros Hb H1 H2. unfold vm_mask_check. apply negb_true_iff, Z.eqb_neq.
  intros H0. pose proof (Z.land_spec mask m b) as Hl.
  rewrite H0, Z.bits_0, H1, H2 in Hl. discriminate.
Qed.

(** An entry that is required is among those packed. *)
Lemma required_is_packed {A : Type} (bs : list bool) :
  forall (rs : list A) (i : nat) (r : A),
    nth i bs false = true -> rs !! i = Some r ->
    In r (map snd (List.filter fst (zip bs rs))).
Proof.
  induction bs as [|b bs IH]; intros rs i r Hb Hr.
  - destruct i; discriminate.
  - destruct rs as [|r0 rs]; [discriminate|]. destruct i as [|i].
    + simpl in Hb, Hr. injection Hr as ->. subst b. simpl. auto.
    + simpl in Hb, Hr. simpl. destruct b; simpl; [right|]; apply (IH rs i r Hb Hr).
Qed.

(** The items of a vehicle sit below bit 21. *)
Lemma bit_cases (m b : Z) :
  0 <= m < 2 ^ 21 -> 0 <= b -> Z.testbit m b = true ->
  b = 0 \/ b = 1 \/ b = 2 \/ b = 3 \/ b = 4 \/ b = 5 \/ b = 6 \/ b = 7 \/ b = 8 \/
  b = 9 \/ b = 10 \/ b = 11 \/ b = 12 \/ b = 13 \/ b = 14 \/ b = 15 \/ b = 16 \/
  b = 17 \/ b = 18 \/ b = 19 \/ b = 20.
Proof.
  intros Hm Hb Ht.
  assert (b < 21); [|lia].
  destruct (Z.lt_ge_cases b 21) as [|Hge]; [assumption|].
  destruct (Z.eq_dec m 0) as [->|Hne]; [rewrite Z.bits_0 in Ht; discriminate|].
  rewrite Z.bits_above_log2 in Ht; [discriminate|lia|].
  apply Z.log2_lt_pow2; [lia|]. eapply Z.lt_le_trans; [apply Hm|].
  apply Z.pow_le_mono_r; lia.
Qed.

End VehicleManagerFacts.

Module VwMebFacts.
Import VehicleManager VwMeb.

(** The compiled list holds [num_req_entries] descriptors and the cursor
    points at one of them. *)
Definition meb_wf (s : meb_state) : Prop :=
  length (req_listP s) = 11%nat /\
  0 <= num_req_entries s <= 11 /\
  0 <= req_index s /\
  (req_index s < num_req_entries s \/ (num_req_entries s = 0 /\ req_index s = 0)) /\
  forall i : nat, (i < Z.to_nat (num_req_entries s))%nat ->
                  exists r, req_listP s !! i = Some (Some r).

Lemma fold_error_fields (errs : list Z) (s : meb_state) :
  let s' := fold_left (fun st e => _vw_meb_error e st) errs s in
  req_listP s' = req_listP s /\
  req_in_process s' = req_in_process s /\
  saw_error s' = saw_error s /\
  saw_response s' = saw_response s /\
  req_index s' = req_index s /\
  num_req_entries s' = num_req_entries s /\
  req_timeout s' = req_timeout s || existsb (fun e => e =? CAN_ERRNO_TIMEOUT) errs.
Proof.
  revert s. induction errs as [|e errs IH]; intros s; simpl.
  - rewrite orb_false_r. repeat split; reflexivity.
  - destruct (IH (_vw_meb_error e s)) as (I1 & I2 & I3 & I4 & I5 & I6 & I7).
    rewrite I1, I2, I3, I4, I5, I6, I7. unfold _vw_meb_error.
    destruct (e =? CAN_ERRNO_TIMEOUT); simpl; repeat split; try reflexivity.
    now rewrite orb_true_r.
Qed.

Lemma handle_completion_fields (s : meb_state) :
  req_listP (handle_completion s) = req_listP s /\
  req_index (handle_completion s) = req_index s /\
  num_req_entries (handle_completion s) = num_req_entries s.
Proof.
  unfold handle_completion.
  destruct (req_in_process s); [destruct (_ || _)|]; repeat split; reflexivity.
Qed.

Lemma build_list_wf (reqs : list (bool * can_request_t)) :
  forall (n : Z) (lst : list (option can_request_t)),
    0 <= n ->
    n + Z.of_nat (length reqs) <= Z.of_nat (length lst) ->
    (forall i : nat, (i < Z.to_nat n)%nat -> exists r, lst !! i = Some (Some r)) ->
    let res := build_list reqs n lst n in
    length (fst res) = length lst /\
    n <= snd res <= n + Z.of_nat (length reqs) /\
    forall i : nat, (i < Z.to_nat (snd res))%nat ->
                    exists r, fst res !! i = Some (Some r).
Proof.
  induction reqs as [|[b r] reqs IH]; intros n lst Hn Hlen Hpre; simpl.
  - split; [reflexivity|]. split; [lia|exact Hpre].
  - simpl length in Hlen. destruct b.
    + destruct (IH (n + 1) (<[Z.to_nat n := Some r]> lst)) as (I1 & I2 & I3).
      * lia.
      * rewrite length_insert. lia.
      * intros i Hi. destruct (Nat.eq_dec i (Z.to_nat n)) as [->|Hne].
        -- exists r. apply list_lookup_insert_eq. lia.
        -- rewrite list_lookup_insert_ne by lia. apply Hpre. lia.
      * rewrite length_insert in I1. split; [exact I1|]. split; [lia|exact I3].
    + destruct (IH n lst Hn ltac:(lia) Hpre) as (I1 & I2 & I3).
      split; [exact I1|]. split; [lia|exact I3].
Qed.

Lemma set_req_mask_wf (mask : Z) (s : meb_state) :
  meb_wf s -> meb_wf (_vw_meb_set_req_mask mask s).
Proof.
  intros (Hlen & _). unfold _vw_meb_set_req_mask.
  pose proof (build_list_wf (zip (required_req mask) req_full_listP) 0 (req_listP s)) as H.
  destruct H as (I1 & I2 & I3); [lia| |intros i Hi; simpl in Hi; lia|].
  { rewrite Hlen. simpl. lia. }
  destruct (build_list _ 0 (req_listP s) 0) as [lst num]. simpl in I1, I2, I3.
  unfold meb_wf. simpl. rewrite I1.
  split; [exact Hlen|]. split; [lia|]. split; [lia|]. split; [lia|exact I3].
Qed.

Lemma eval_wf (tx : tx_outcome) (s : meb_state) :
  meb_wf s ->
  exists s' out, _vw_meb_eval tx s = Some (s', out) /\ meb_wf s'.
Proof.
  intros (Hlen & Hnum & Hidx & Hcur & Hent). unfold _vw_meb_eval. cbv zeta.
  destruct (handle_completion_fields s) as (H1 & H2 & H3).
  assert (Hwf1 : meb_wf (handle_completion s)).
  { unfold meb_wf. rewrite H1, H2, H3. repeat split; try assumption; lia. }
  destruct (negb _ && _) eqn:Hc.
  - apply andb_true_iff in Hc as [_ Hpos]. apply Z.gtb_lt in Hpos.
    rewrite H1, H2, H3 in *.
    destruct (Hent (Z.to_nat (req_index s)) ltac:(lia)) as [r Hr]. rewrite Hr.
    eexists _, _. split; [reflexivity|].
    match goal with |- context [fold_left ?f ?l ?a] =>
      destruct (fold_error_fields l a) as (F1 & _ & _ & _ & F5 & F6 & _) end.
    unfold meb_wf. simpl. rewrite F1, F5, F6. simpl.
    split; [exact Hlen|]. split; [lia|].
    destruct (Z.geb_spec (req_index s + 1) (num_req_entries s)).
    + split; [lia|]. split; [left; lia|exact Hent].
    + split; [lia|]. split; [left; lia|exact Hent].
  - eexists _, _. split; [reflexivity|exact Hwf1].
Qed.

Lemma step_wf (ev : meb_event) (s : meb_state) :
  meb_wf s ->
  exists s' out, meb_step ev s = Some (s', out) /\ meb_wf s'.
Proof.
  intros Hwf. destruct ev as [tx|mask| |errno]; simpl.
  - now apply eval_wf.
  - eexists _, _. split; [reflexivity|now apply set_req_mask_wf].
  - eexists _, _. split; [reflexivity|exact Hwf].
  - eexists _, _. split; [reflexivity|].
    unfold _vw_meb_error. destruct (_ =? _); exact Hwf.
Qed.

Lemma run_wf (evs : list meb_event) :
  forall s, meb_wf s ->
    exists s' tr, meb_run evs s = Some (s', tr) /\ meb_wf s'.
Proof.
  induction evs as [|ev evs IH]; intros s Hwf; simpl.
  - eexists _, _. split; [reflexivity|exact Hwf].
  - destruct (step_wf ev s Hwf) as (s1 & out & -> & Hwf1).
    destruct (IH s1 Hwf1) as (s2 & tr & -> & Hwf2).
    eexists _, _. split; [reflexivity|exact Hwf2].
Qed.

Lemma meb_init_wf : meb_wf meb_init.
Proof.
  unfold meb_wf, meb_init. simpl.
  split; [reflexivity|]. split; [lia|]. split; [lia|]. split; [right; lia|].
  intros i Hi. lia.
Qed.

Lemma reachable_wf (s : meb_state) : reachable s -> meb_wf s.
Proof.
  intros (evs & tr & Hrun).
  destruct (run_wf evs meb_init meb_init_wf) as (s' & tr' & Hrun' & Hwf).
  rewrite Hrun in Hrun'. injection Hrun' as -> _. exact Hwf.
Qed.

Lemma in_flight_flags (s : meb_state) :
  in_flight s = true ->
  req_in_process s = true /\ saw_error s = false /\
  saw_response s = false /\ req_timeout s = false.
Proof.
  unfold in_flight. intros H. apply andb_true_iff in H as [H1 H2].
  apply negb_true_iff in H2. apply orb_false_iff in H2 as [H2 H3].
  apply orb_false_iff in H2 as [H2 H4]. auto.
Qed.

Lemma eval_in_flight (tx : tx_outcome) (s : meb_state) :
  in_flight s = true -> _vw_meb_eval tx s = Some (s, None).
Proof.
  intros H. apply in_flight_flags in H as (H1 & H2 & H3 & H4).
  unfold _vw_meb_eval, handle_completion. rewrite H1, H2, H3, H4. simpl.
  rewrite H1. reflexivity.
Qed.

Lemma handle_completion_idle (s : meb_state) :
  in_flight s = false -> req_in_process (handle_completion s) = false.
Proof.
  unfold in_flight, handle_completion. intros H.
  destruct (req_in_process s) eqn:Hp; [|exact Hp].
  destruct (saw_error s || saw_response s || req_timeout s); [reflexivity|].
  discriminate.
Qed.

Lemma eval_not_in_flight (tx : tx_outcome) (s : meb_state) :
  meb_wf s -> in_flight s = false -> num_req_entries s > 0 ->
  exists r s',
    _vw_meb_eval tx s = Some (s', Some r) /\
    req_listP s !! Z.to_nat (req_index s) = Some (Some r) /\
    req_in_process s' = true /\
    req_index s' = next_cursor s /\
    num_req_entries s' = num_req_entries s /\
    req_listP s' = req_listP s.
Proof.
  intros (Hlen & Hnum & Hidx & Hcur & Hent) Hidle Hpos.
  apply handle_completion_idle in Hidle.
  destruct (handle_completion_fields s) as (H1 & H2 & H3).
  unfold _vw_meb_eval. cbv zeta. rewrite Hidle, H1, H2, H3. simpl negb. simpl andb.
  replace (num_req_entries s >? 0) with true by (symmetry; apply Z.gtb_lt; lia).
  destruct (Hent (Z.to_nat (req_index s)) ltac:(lia)) as [r Hr]. rewrite Hr.
  exists r. eexists. split; [reflexivity|]. split; [reflexivity|].
  match goal with |- context [fold_left ?f ?l ?a] =>
    destruct (fold_error_fields l a) as (F1 & F2 & _ & _ & F5 & F6 & _) end.
  simpl. rewrite F1, F2, F5, F6. simpl. unfold next_cursor. auto.
Qed.

Lemma eval_issue (tx : tx_outcome) (s s' : meb_state) (r : can_request_t) :
  _vw_meb_eval tx s = Some (s', Some r) ->
  in_flight s = false /\ in_flight s' = negb (tx_unanswered tx).
Proof.
  unfold _vw_meb_eval. cbv zeta.
  destruct (negb (req_in_process (handle_completion s)) && _) eqn:Hc; [|discriminate].
  apply andb_true_iff in Hc as [Hc _]. apply negb_true_iff in Hc.
  destruct (req_listP _ !! _) as [[r'|]|]; try discriminate.
  intros H. injection H as <- _. split.
  - unfold handle_completion in Hc. unfold in_flight.
    destruct (req_in_process s) eqn:Hp; [|reflexivity].
    destruct (saw_error s || saw_response s || req_timeout s) eqn:Hfl; [reflexivity|].
    rewrite Hp in Hc. discriminate.
  - match goal with |- context [fold_left ?f ?l ?a] =>
      destruct (fold_error_fields l a) as (_ & F2 & _ & F4 & _ & _ & F7) end.
    unfold in_flight, tx_unanswered. simpl. rewrite F2, F4, F7. simpl.
    rewrite orb_false_r. reflexivity.
Qed.

Lemma quiet_step (ev : meb_event) (s s' : meb_state) (out : option can_request_t) :
  in_flight s = true -> completes ev = false ->
  meb_step ev s = Some (s', out) ->
  in_flight s' = true /\ out = None.
Proof.
  intros Hf Hq. destruct ev as [tx|mask| |errno]; simpl in *.
  - rewrite eval_in_flight by assumption. intros H. injection H as <- <-. auto.
  - intros H. injection H as <- <-. split; [|reflexivity].
    unfold _vw_meb_set_req_mask. destruct (build_list _ _ _ _). exact Hf.
  - discriminate.
  - unfold _vw_meb_error. rewrite Hq. intros H. injection H as <- <-. auto.
Qed.

Lemma quiet_run (mid : list meb_event) :
  forall (s s' : meb_state) (tr : list (option can_request_t)),
    in_flight s = true ->
    existsb completes mid = false ->
    meb_run mid s = Some (s', tr) ->
    in_flight s' = true /\ Forall (fun out => out = None) tr.
Proof.
  induction mid as [|ev mid IH]; intros s s' tr Hf Hq; simpl.
  - intros H. injection H as <- <-. auto.
  - simpl in Hq. apply orb_false_iff in Hq as [Hq1 Hq2].
    destruct (meb_step ev s) as [[s1 out]|] eqn:Hs; [|discriminate].
    destruct (quiet_step ev s s1 out Hf Hq1 Hs) as [Hf1 ->].
    destruct (meb_run mid s1) as [[s2 tr2]|] eqn:Hr; [|discriminate].
    intros H. injection H as <- <-.
    destruct (IH s1 s2 tr2 Hf1 Hq2 Hr) as [Hf2 Hall]. auto.
Qed.

Lemma in_process_cleared (ev : meb_event) (s s' : meb_state)
      (out : option can_request_t) :
  meb_step ev s = Some (s', out) ->
  req_in_process s = true -> req_in_process s' = false ->
  (exists tx, ev = EvEval tx) /\
  saw_error s || saw_response s || req_timeout s = true.
Proof.
  destruct ev as [tx|mask| |errno]; simpl.
  - intros H Hp Hc. split; [eauto|].
    destruct (in_flight s) eqn:Hf.
    + rewrite eval_in_flight in H by assumption. injection H as <- _. congruence.
    + unfold in_flight in Hf. rewrite Hp in Hf. simpl in Hf.
      now apply negb_false_iff in Hf.
  - unfold _vw_meb_set_req_mask. destruct (build_list _ _ _ _).
    intros H. injection H as <- _. simpl. congruence.
  - intros H. injection H as <- _. simpl. congruence.
  - unfold _vw_meb_error. destruct (_ =? _); intros H; injection H as <- _;
      simpl; congruence.
Qed.

(** C4. In every reachable state of the evaluator: a call of evaluate
    with no request in flight and a non-empty compiled list hands exactly
    the descriptor at the round-robin cursor to the transmit function,
    marks a request in flight and advances the cursor, wrapping at the end
    of the compiled list; a call while a request is in flight (the marker
    set and none of the response, error and timeout flags raised) issues
    nothing and changes nothing; a request is issued only from a state
    that is not in flight;
    once a request has been issued and its transmit neither failed nor
    reported a timeout, no later call issues another request until the
    response or a timeout has been reported; and the in-flight marker is
    cleared only by evaluate, on seeing one of the three flags. *)
Theorem evaluator_serialises_requests (s : meb_state) (tx : tx_outcome) :
  reachable s ->
  (in_flight s = false -> num_req_entries s > 0 ->
   exists r s',
     _vw_meb_eval tx s = Some (s', Some r) /\
     req_listP s !! Z.to_nat (req_index s) = Some (Some r) /\
     req_in_process s' = true /\
     req_index s' = next_cursor s) /\
  (in_flight s = true -> _vw_meb_eval tx s = Some (s, None)) /\
  (forall s' r, _vw_meb_eval tx s = Some (s', Some r) -> in_flight s = false) /\
  (forall s1 r mid s2 tr,
     _vw_meb_eval tx s = Some (s1, Some r) ->
     tx_unanswered tx = false ->
     existsb completes mid = false ->
     meb_run mid s1 = Some (s2, tr) ->
     Forall (fun out => out = None) tr /\ in_flight s2 = true) /\
  (forall ev s' out,
     meb_step ev s = Some (s', out) ->
     req_in_process s = true -> req_in_process s' = false ->
     (exists tx', ev = EvEval tx') /\
     saw_error s || saw_response s || req_timeout s = true).
Proof.
  intros Hreach. pose proof (reachable_wf s Hreach) as Hwf.
  split; [|split; [|split; [|split]]].
  - intros Hidle Hpos.
    destruct (eval_not_in_flight tx s Hwf Hidle Hpos) as (r & s' & H1 & H2 & H3 & H4 & _).
    exists r, s'. auto.
  - apply eval_in_flight.
  - intros s' r H. now destruct (eval_issue tx s s' r H).
  - intros s1 r mid s2 tr He Htx Hq Hrun.
    destruct (eval_issue tx s s1 r He) as [_ Hf1]. rewrite Htx in Hf1. simpl in Hf1.
    destruct (quiet_run mid s1 s2 tr Hf1 Hq Hrun). auto.
  - intros ev s' out. apply in_process_cleared.
Qed.

Definition mask_speed_state : meb_state :=
  _vw_meb_set_req_mask DB_ITEM_SPEED meb_init.

Lemma evaluator_serialises_requests_witness :
  reachable mask_speed_state /\
  exists r s',
    _vw_meb_eval (mk_tx_outcome true []) mask_speed_state = Some (s', Some r) /\
    req_listP mask_speed_state !! Z.to_nat (req_index mask_speed_state)
      = Some (Some r) /\
    req_in_process s' = true /\
    req_index s' = next_cursor mask_speed_state.
Proof.
  assert (Hr : reachable mask_speed_state).
  { exists [EvSetReqMask DB_ITEM_SPEED]. eexists. reflexivity. }
  split; [exact Hr|].
  apply (proj1 (evaluator_serialises_requests mask_speed_state
                  (mk_tx_outcome true []) Hr)).
  - reflexivity.
  - reflexivity.
Defined.

Example round_robin_two_requests :
  option_map snd
    (meb_run [EvSetReqMask (Z.lor DB_ITEM_SPEED DB_ITEM_GPS_ELEVATION);
              EvEval (mk_tx_outcome true []); EvEval (mk_tx_outcome true []);
              EvRxData; EvEval (mk_tx_outcome true []);
              EvError CAN_ERRNO_TIMEOUT; EvEval (mk_tx_outcome true [])]
             meb_init)
  = Some [None; Some req_gps_info; None; None; Some req_speed; None;
          Some req_gps_info].
Proof. reflexivity. Qed.

Import VehicleManagerFacts.

Lemma meb_heads_short : Forall (fun e => rd (data e) 0 <= 3) req_full_listP.
Proof. repeat constructor; vm_compute; discriminate. Qed.

Lemma meb_long_response (id len : Z) (d : list Z) :
  4 <= len ->
  vm_get_resp_index id len d NUM_UDS_REQ_ITEMS req_full_listP
  = vm_get_resp_index id 4 d NUM_UDS_REQ_ITEMS req_full_listP.
Proof.
  intros Hlen. unfold vm_get_resp_index.
  replace (len <? 2) with false by (symmetry; apply Z.ltb_ge; lia).
  change (4 <? 2) with false. cbv iota.
  destruct (rd d 0 =? 127); [reflexivity|].
  apply scan_long_response.
  change (take (Z.to_nat NUM_UDS_REQ_ITEMS) req_full_listP) with req_full_listP.
  eapply Forall_impl; [exact meb_heads_short|]. simpl. intros e He. lia.
Qed.

Lemma meb_resolves (i : nat) (r : can_request_t)
        (payload : list Z) (len : Z) :
  req_full_listP !! i = Some r ->
  rd (data r) 0 < len ->
  vm_get_resp_index (rsp_id r) len (echo r ++ payload) NUM_UDS_REQ_ITEMS
                    req_full_listP
  = Some (Z.of_nat i).
Proof.
  intros Hi Hlen.
  destruct (Z.le_gt_cases 4 len) as [Hlong|Hshort].
  - rewrite meb_long_response by exact Hlong.
    do 11 (destruct i as [|i]; [injection Hi as <-; vm_compute; reflexivity|]).
    destruct i; discriminate.
  - do 11 (destruct i as [|i];
           [injection Hi as <-;
            match type of Hlen with
            | ?b < _ => let v := eval vm_compute in b in change b with v in Hlen
            end;
            first [ exfalso; lia
                  | assert (len = 3) by lia; subst len; vm_compute; reflexivity ]|]).
    destruct i; discriminate.
Qed.

(** X4. No two requests of the full list can be confused: a positive response
    to the request at index [i], received on that request's response id
    and long enough to hold the echoed bytes and one more, resolves to
    [i], whatever data follows the echoed bytes. *)
Theorem meb_response_resolves_to_its_request (i : nat) (r : can_request_t)
        (payload : list Z) (len : Z) :
  req_full_listP !! i = Some r ->
  rd (data r) 0 < len ->
  vm_get_resp_index (rsp_id r) len (echo r ++ payload) NUM_UDS_REQ_ITEMS
                    req_full_listP
  = Some (Z.of_nat i).
Proof. exact (meb_resolves i r payload len). Qed.

Lemma meb_response_resolves_to_its_request_witness :
  vm_get_resp_index 0x17fe007b 5 [0x62; 0x1E; 0x3B; 0x05; 0xA0] NUM_UDS_REQ_ITEMS
                    req_full_listP
  = Some 6.
Proof.
  apply (meb_response_resolves_to_its_request 6 req_hv_batt_volt [0x05; 0xA0] 5 eq_refl).
  vm_compute. reflexivity.
Defined.

(** *** Compiling the request list *)

(** The requests a mask calls for, in the order of the full list. *)
Definition scheduled (mask : Z) : list can_request_t :=
  map snd (List.filter fst (zip (required_req mask) req_full_listP)).

Lemma build_list_spec (reqs : list (bool * can_request_t)) :
  forall (n : nat) (lst : list (option can_request_t)),
    (n + length reqs <= length lst)%nat ->
    let sel := map snd (List.filter fst reqs) in
    build_list reqs (Z.of_nat n) lst (Z.of_nat n)
    = (take n lst ++ map Some sel ++ drop (n + length sel) lst,
       Z.of_nat (n + length sel)).
Proof.
  induction reqs as [|[b r] reqs IH]; intros n lst Hlen; simpl.
  - rewrite Nat.add_0_r, take_drop. reflexivity.
  - simpl in Hlen. destruct b; simpl.
    + replace (Z.of_nat n + 1) with (Z.of_nat (S n)) by lia.
      rewrite Nat2Z.id.
      rewrite (IH (S n) (<[n := Some r]> lst)) by (rewrite length_insert; lia).
      cbv zeta. f_equal; [|f_equal; lia].
      rewrite (take_S_r _ _ (Some r)) by (apply list_lookup_insert_eq; lia).
      rewrite take_insert_ge by lia. rewrite <- app_assoc. simpl.
      f_equal. f_equal. f_equal.
      rewrite drop_insert_lt by lia. f_equal. lia.
    + apply IH. lia.
Qed.

Lemma set_req_mask_compiled (mask : Z) (s : meb_state) :
  length (req_listP s) = 11%nat ->
  num_req_entries (_vw_meb_set_req_mask mask s) = Z.of_nat (length (scheduled mask)) /\
  req_listP (_vw_meb_set_req_mask mask s)
  = map Some (scheduled mask) ++ drop (length (scheduled mask)) (req_listP s).
Proof.
  intros Hlen. unfold _vw_meb_set_req_mask.
  pose proof (build_list_spec (zip (required_req mask) req_full_listP) 0 (req_listP s))
    as H.
  change (Z.of_nat 0) with 0 in H. cbv zeta in H. rewrite H.
  2:{ rewrite Hlen. simpl. lia. }
  simpl. fold (scheduled mask). split; reflexivity.
Qed.

(** A request the mask calls for is an entry of the compiled list, below
    [num_req_entries]. *)
Lemma compiled_entry (mask : Z) (s : meb_state) (r : can_request_t) :
  length (req_listP s) = 11%nat -> In r (scheduled mask) ->
  exists j : nat,
    Z.of_nat j < num_req_entries (_vw_meb_set_req_mask mask s) /\
    req_listP (_vw_meb_set_req_mask mask s) !! j = Some (Some r).
Proof.
  intros Hlen Hin. destruct (set_req_mask_compiled mask s Hlen) as [Hn Hl].
  apply list_elem_of_In, list_elem_of_lookup_1 in Hin as [j Hj].
  exists j. pose proof (lookup_lt_Some _ _ _ Hj) as Hlt.
  split; [lia|]. rewrite Hl, lookup_app_l by (rewrite length_map; exact Hlt).
  rewrite list_lookup_fmap, Hj. reflexivity.
Qed.

(** X5. [_vw_meb_set_req_mask] packs the requests the mask calls for into the
    front of [req_listP], in the order of the full list, sets
    [num_req_entries] to their number and the cursor to 0. Entries behind
    them are left as they were, and the flags of a request in flight are
    not touched. *)
Theorem set_req_mask_packs_requests (mask : Z) (s : meb_state) :
  length (req_listP s) = 11%nat ->
  let s' := _vw_meb_set_req_mask mask s in
  let k := length (scheduled mask) in
  num_req_entries s' = Z.of_nat k /\ (k <= 11)%nat /\ req_index s' = 0 /\
  req_listP s' = map Some (scheduled mask) ++ drop k (req_listP s) /\
  req_in_process s' = req_in_process s /\ req_timeout s' = req_timeout s /\
  saw_error s' = saw_error s /\ saw_response s' = saw_response s.
Proof.
  intros Hlen. cbv zeta.
  destruct (set_req_mask_compiled mask s Hlen) as [Hn Hl].
  assert (Hk : (length (scheduled mask) <= 11)%nat).
  { unfold scheduled. rewrite length_map.
    etransitivity; [apply filter_length_le|]. simpl. lia. }
  split; [exact Hn|]. split; [exact Hk|]. split.
  { unfold _vw_meb_set_req_mask. destruct (build_list _ _ _ _). reflexivity. }
  split; [exact Hl|].
  unfold _vw_meb_set_req_mask. destruct (build_list _ _ _ _). repeat split.
Qed.

Lemma set_req_mask_packs_requests_witness :
  let s' := _vw_meb_set_req_mask (Z.lor DB_ITEM_AUX_KW DB_ITEM_SPEED) meb_init in
  num_req_entries s' = 3 /\
  req_listP s' = [Some req_aux_power; Some req_hv_batt_volt; Some req_speed]
                 ++ replicate 8 None.
Proof.
  destruct (set_req_mask_packs_requests (Z.lor DB_ITEM_AUX_KW DB_ITEM_SPEED) meb_init
              eq_refl) as (H1 & _ & _ & H4 & _).
  split; [exact H1|exact H4].
Defined.

(** *** The round robin *)

(** One round: a request is evaluated for, and its response arrives. *)
Definition round (tx : tx_outcome) : list meb_event := [EvEval tx; EvRxData].

(** The entry [j] places after the cursor, wrapping at the end of the
    compiled list. *)
Definition slot (s : meb_state) (j : nat) : option can_request_t :=
  default None
    (req_listP s !! Z.to_nat ((req_index s + Z.of_nat j) mod num_req_entries s)).

Lemma round_robin_from (txs : list tx_outcome) :
  forall s,
    meb_wf s -> in_flight s = false -> num_req_entries s > 0 ->
    exists s',
      meb_run (flat_map round txs) s
      = Some (s', flat_map (fun j => [slot s j; None]) (seq 0 (length txs))) /\
      meb_wf s' /\ in_flight s' = false /\
      num_req_entries s' = num_req_entries s /\ req_listP s' = req_listP s /\
      req_index s' = (req_index s + Z.of_nat (length txs)) mod num_req_entries s.
Proof.
  induction txs as [|tx txs IH]; intros s Hwf Hidle Hpos.
  - exists s. simpl. pose proof Hwf as (_ & _ & H3 & H4 & _).
    rewrite Z.add_0_r, Z.mod_small by lia. auto 10.
  - destruct (eval_not_in_flight tx s Hwf Hidle Hpos)
      as (r & s1 & E1 & L1 & P1 & I1 & N1 & Q1).
    destruct (eval_wf tx s Hwf) as (s1' & out & E1' & W1).
    rewrite E1 in E1'. injection E1' as <- _.
    set (s2 := _vw_meb_rx_data s1).
    assert (W2 : meb_wf s2) by exact W1.
    assert (F2 : in_flight s2 = false).
    { unfold in_flight, s2. simpl. rewrite orb_true_r, andb_false_r. reflexivity. }
    destruct (IH s2 W2 F2) as (s' & E' & W' & F' & N' & Q' & I').
    { unfold s2. simpl. lia. }
    pose proof Hwf as (_ & _ & H3 & H4 & _).
    assert (Hi2 : req_index s2 = (req_index s + 1) mod num_req_entries s).
    { unfold s2. simpl. rewrite I1. unfold next_cursor.
      destruct (Z.geb_spec (req_index s + 1) (num_req_entries s)).
      - replace (req_index s + 1) with (num_req_entries s) by lia.
        rewrite Z.mod_same by lia. reflexivity.
      - rewrite Z.mod_small by lia. reflexivity. }
    assert (Hslot : forall j, slot s2 j = slot s (S j)).
    { intros j. unfold slot.
      replace (req_listP s2) with (req_listP s) by (symmetry; exact Q1).
      replace (num_req_entries s2) with (num_req_entries s) by (symmetry; exact N1).
      rewrite Hi2, Zplus_mod_idemp_l.
      replace (req_index s + 1 + Z.of_nat j) with (req_index s + Z.of_nat (S j)) by lia.
      reflexivity. }
    exists s'. split.
    + change (flat_map round (tx :: txs)) with (EvEval tx :: EvRxData :: flat_map round txs).
      simpl meb_run. rewrite E1. simpl. fold s2. rewrite E'.
      do 2 f_equal. simpl length. simpl seq. rewrite <- seq_shift.
      cbn [flat_map app]. f_equal.
      * unfold slot. rewrite Z.add_0_r, Z.mod_small by lia.
        rewrite L1. reflexivity.
      * f_equal. rewrite (flat_map_concat_map _ (map S _)), map_map,
          <- flat_map_concat_map.
        apply flat_map_ext. intros j. rewrite Hslot. reflexivity.
    + split; [exact W'|]. split; [exact F'|].
      split; [rewrite N'; unfold s2; simpl; exact N1|].
      split; [rewrite Q'; unfold s2; simpl; exact Q1|].
      rewrite I', Hi2. unfold s2. simpl num_req_entries. rewrite N1.
      rewrite Zplus_mod_idemp_l. f_equal. simpl length. lia.
Qed.

(** X6. Round robin over the compiled list. From a state with no request in
    flight, over any number of rounds in each of which a request is
    issued and its response arrives, the requests issued are the entries
    of the compiled list taken in turn from the cursor, wrapping at its
    end, whatever the transmit outcomes: with [k] entries, every entry is
    issued once in every [k] consecutive rounds. *)
Theorem round_robin_visits_in_turn (txs : list tx_outcome) (s : meb_state) :
  reachable s -> in_flight s = false -> num_req_entries s > 0 ->
  exists s',
    meb_run (flat_map round txs) s
    = Some (s', flat_map (fun j => [slot s j; None]) (seq 0 (length txs))) /\
    req_index s' = (req_index s + Z.of_nat (length txs)) mod num_req_entries s /\
    (forall j, exists r, slot s j = Some r).
Proof.
  intros Hreach Hidle Hpos. pose proof (reachable_wf s Hreach) as Hwf.
  destruct (round_robin_from txs s Hwf Hidle Hpos) as (s' & E & _ & _ & _ & _ & I).
  exists s'. split; [exact E|]. split; [exact I|].
  intros j. destruct Hwf as (_ & _ & _ & _ & Hent). unfold slot.
  assert (Hm : 0 <= (req_index s + Z.of_nat j) mod num_req_entries s < num_req_entries s)
    by (apply Z.mod_pos_bound; lia).
  destruct (Hent (Z.to_nat ((req_index s + Z.of_nat j) mod num_req_entries s)))
    as [r Hr]; [lia|].
  exists r. rewrite Hr. reflexivity.
Qed.

(** A transmit that went out and reported nothing. *)
Definition tx_sent : tx_outcome := mk_tx_outcome true [].

Lemma round_robin_visits_in_turn_witness :
  exists s',
    meb_run (flat_map round [tx_sent; tx_sent; tx_sent; tx_sent])
            (_vw_meb_set_req_mask (Z.lor DB_ITEM_AUX_KW DB_ITEM_SPEED) meb_init)
    = Some (s', [Some req_aux_power; None; Some req_hv_batt_volt; None;
                 Some req_speed; None; Some req_aux_power; None]) /\
    req_index s' = 1.
Proof.
  destruct (round_robin_visits_in_turn [tx_sent; tx_sent; tx_sent; tx_sent]
              (_vw_meb_set_req_mask (Z.lor DB_ITEM_AUX_KW DB_ITEM_SPEED) meb_init))
    as (s' & E & I & _).
  - exists [EvSetReqMask (Z.lor DB_ITEM_AUX_KW DB_ITEM_SPEED)]. eexists. reflexivity.
  - reflexivity.
  - reflexivity.
  - exists s'. split; [exact E|exact I].
Defined.

(** *** An empty request list *)

Definition is_set_req_mask (ev : meb_event) : bool :=
  match ev with
  | EvSetReqMask _ => true
  | _ => false
  end.

Lemma idle_run (evs : list meb_event) :
  forall s,
    num_req_entries s = 0 -> existsb is_set_req_mask evs = false ->
    exists s', meb_run evs s = Some (s', map (fun _ => None) evs) /\
               num_req_entries s' = 0.
Proof.
  induction evs as [|ev evs IH]; intros s Hn Hq.
  - exists s. auto.
  - simpl in Hq. apply orb_false_iff in Hq as [Hq1 Hq2].
    assert (Hstep : exists s1, meb_step ev s = Some (s1, None) /\ num_req_entries s1 = 0).
    { destruct ev as [tx|mask| |errno]; simpl; try discriminate.
      - unfold _vw_meb_eval. cbv zeta.
        destruct (handle_completion_fields s) as (_ & _ & H3). rewrite H3, Hn.
        rewrite andb_false_r. eexists. split; [reflexivity|]. congruence.
      - eexists. split; [reflexivity|exact Hn].
      - eexists. split; [reflexivity|].
        unfold _vw_meb_error. destruct (_ =? _); exact Hn. }
    destruct Hstep as (s1 & E1 & N1).
    destruct (IH s1 N1 Hq2) as (s' & E' & N').
    exists s'. simpl. rewrite E1, E'. auto.
Qed.

(** The data items for which this vehicle has a request. *)
Definition meb_items : Z :=
  VmDispatch.supported_item_mask VmDispatch.vehicle_vw_meb_awd.

Lemma mask_check_outside (mask m : Z) :
  Z.land mask meb_items = 0 -> Z.land meb_items m = m ->
  vm_mask_check mask m = false.
Proof.
  intros H Hm. unfold vm_mask_check. rewrite <- Hm, Z.land_assoc, H, Z.land_0_l.
  reflexivity.
Qed.

(** X7. A request mask that names none of the vehicle's data items (the mask
    0 with which the settings tile stops the data flow, for one) leaves
    the compiled list empty, and from then on no call of the evaluator,
    whatever responses and errors come in, transmits a request, until a
    new mask is set. *)
Theorem empty_mask_stops_requests (mask : Z) (evs : list meb_event) (s : meb_state) :
  Z.land mask meb_items = 0 ->
  existsb is_set_req_mask evs = false ->
  exists s',
    meb_run (EvSetReqMask mask :: evs) s
    = Some (s', map (fun _ => None) (EvSetReqMask mask :: evs)) /\
    num_req_entries s' = 0.
Proof.
  intros Hm Hq.
  assert (Hreq : required_req mask = replicate 11 false).
  { unfold required_req.
    rewrite !(mask_check_outside mask _ Hm) by reflexivity. reflexivity. }
  assert (Hn : num_req_entries (_vw_meb_set_req_mask mask s) = 0).
  { unfold _vw_meb_set_req_mask. rewrite Hreq. reflexivity. }
  destruct (idle_run evs (_vw_meb_set_req_mask mask s) Hn Hq) as (s' & E & N).
  exists s'. simpl. rewrite E. auto.
Qed.

Lemma empty_mask_stops_requests_witness :
  exists s',
    meb_run [EvSetReqMask 0; EvEval tx_sent; EvRxData; EvEval tx_sent]
            (_vw_meb_set_req_mask DB_ITEM_SPEED meb_init)
    = Some (s', [None; None; None; None]) /\
    num_req_entries s' = 0.
Proof.
  exact (empty_mask_stops_requests 0 [EvEval tx_sent; EvRxData; EvEval tx_sent]
           (_vw_meb_set_req_mask DB_ITEM_SPEED meb_init) eq_refl eq_refl).
Defined.

End VwMebFacts.

Module DataBrokerFacts.
Import DataBroker.

Lemma mask_to_index_range (fuel : nat) (mask : Z) :
  forall n sm,
    mask_to_index_loop fuel mask n sm = -1 \/
    n <= mask_to_index_loop fuel mask n sm < n + Z.of_nat fuel.
Proof.
  induction fuel as [|fuel IH]; intros n sm; simpl mask_to_index_loop.
  - left. reflexivity.
  - destruct (negb _); [right; lia|].
    destruct (IH (n + 1) (Z.shiftl sm 1 mod 2 ^ 32)) as [H|H]; [left; exact H|right; lia].
Qed.

Lemma bit_of_other (n i : Z) :
  0 <= n -> 0 <= i -> n <> i -> Z.land (Z.shiftl 1 n) (Z.shiftl 1 i) = 0.
Proof.
  intros Hn Hi Hne. rewrite !Z.shiftl_1_l. apply Z.bits_inj'. intros k Hk.
  rewrite Z.land_spec, !Z.pow2_bits_eqb, Z.bits_0 by lia.
  destruct (Z.eqb_spec n k), (Z.eqb_spec i k); try reflexivity. lia.
Qed.

Lemma bit_of_self (n : Z) : 0 <= n -> Z.land (Z.shiftl 1 n) (Z.shiftl 1 n) <> 0.
Proof.
  intros Hn. rewrite Z.land_diag, Z.shiftl_1_l.
  pose proof (Z.pow_pos_nonneg 2 n). lia.
Qed.

Lemma flat_map_none {A : Type} (f : nat -> list A) (len : nat) :
  forall b, (forall i, (b <= i)%nat -> f i = []) -> flat_map f (seq b len) = [].
Proof.
  induction len as [|len IH]; intros b Hz; [reflexivity|].
  simpl. rewrite (Hz b) by lia. simpl. apply IH. intros i Hi. apply Hz. lia.
Qed.

Lemma flat_map_single {A : Type} (f : nat -> list A) (n : nat) (len : nat) :
  forall a,
    (a <= n < a + len)%nat ->
    (forall i, i <> n -> f i = []) ->
    flat_map f (seq a len) = f n.
Proof.
  induction len as [|len IH]; intros a Hr Hz; [lia|]. simpl.
  destruct (Nat.eq_dec a n) as [->|Hne].
  - rewrite flat_map_none; [apply app_nil_r|]. intros i Hi. apply Hz. lia.
  - rewrite (Hz a Hne). simpl. apply IH; [lia|exact Hz].
Qed.

Section BrokerFacts.

Variable V : Type.
Variable vzero : V.
Variable half_sum : V -> V -> V.
Variable handler : Type.

(** What [db_gui_eval] does after a value has been set for the item of
    [mask], from a state with no update pending: it calls the subscriber
    of that item, and no other, with the mean of the new and the previous
    value. This holds whatever argument [db_enable_fast_average] was given. *)
Lemma drain_after_set_value (s : db_state V handler) (en : bool) (mask : Z)
      (v : V) (h : handler) :
  length (gui_item_value_list0 s) = 32%nat ->
  length (gui_item_value_list1 s) = 32%nat ->
  gui_item_updated_mask s = 0 ->
  0 <= _db_mask_to_index mask ->
  gui_handler_list s !! Z.to_nat (_db_mask_to_index mask) = Some (Some h) ->
  snd (db_gui_eval vzero half_sum
         (db_set_data_item_value vzero mask v (db_enable_fast_average en s)))
  = [(h, half_sum v (default vzero
                       (gui_item_value_list0 s !! Z.to_nat (_db_mask_to_index mask))))].
Proof.
  intros L0 L1 Hm Hn Hh.
  assert (Hlt : _db_mask_to_index mask < 32).
  { destruct (mask_to_index_range (Z.to_nat DB_MAX_ITEMS) mask 0 1) as [H|H].
    - unfold _db_mask_to_index in Hn. lia.
    - unfold _db_mask_to_index. unfold DB_MAX_ITEMS in *. lia. }
  set (n := _db_mask_to_index mask) in *.
  unfold db_gui_eval, db_set_data_item_value. fold n.
  replace (n >=? 0) with true by (symmetry; apply Z.geb_le; lia).
  cbn [snd]. unfold DB_MAX_ITEMS.
  rewrite (flat_map_single _ (Z.to_nat n)) by
    (try (change (Z.to_nat 32) with 32%nat; lia);
     intros i Hi; unfold eval_item; cbn [gui_item_updated_mask db_enable_fast_average];
     rewrite Hm, Z.lor_0_l, bit_of_other by lia; reflexivity).
  unfold eval_item.
  cbn [gui_item_updated_mask gui_handler_list gui_item_value_list0
       gui_item_value_list1 gui_item_fast_average db_enable_fast_average].
  rewrite Hm, Z.lor_0_l, Z2Nat.id by lia.
  destruct (Z.eqb_spec (Z.land (Z.shiftl 1 n) (Z.shiftl 1 n)) 0) as [Hz|_].
  { exfalso. revert Hz. apply bit_of_self. lia. }
  cbn [negb]. rewrite Hh.
  rewrite !list_lookup_insert_eq by lia. reflexivity.
Qed.

End BrokerFacts.

(** Values as rationals, [(a + b)/2] in lowest terms. *)
Definition qhalf_sum (a b : QArith_base.Q) : QArith_base.Q :=
  Qreduction.Qred (QArith_base.Qdiv (QArith_base.Qplus a b) (QArith_base.Qmake 2 1)).

Definition qv (n : Z) : QArith_base.Q := QArith_base.Qmake n 1.

Definition q_boot : db_state QArith_base.Q nat :=
  db_init (qv 0) (db_boot (qv 0) nat).

(** The scenario of the specification: with fast averaging enabled, 360
    and then 362 are set for HV_V; the subscriber sees 361. *)
Example fast_average_scenario :
  let s1 := db_register_gui_callback (qv 0) DB_ITEM_HV_BATT_V (Some 7%nat) q_boot in
  let s2 := db_enable_fast_average true s1 in
  let s3 := db_set_data_item_value (qv 0) DB_ITEM_HV_BATT_V (qv 360) s2 in
  let s4 := db_set_data_item_value (qv 0) DB_ITEM_HV_BATT_V (qv 362) s3 in
  snd (db_gui_eval (qv 0) qhalf_sum s4) = [(7%nat, qv 361)].
Proof. vm_compute. reflexivity. Qed.

(** C5 fails on the code for [en = false]: [db_enable_fast_average] stores
    [true] whatever its argument, so after
    [db_enable_fast_average(false)] the subscriber of HV_V is called with
    the mean of the new and the previous value (here (360 + 0)/2 = 180),
    not with the value set (360). *)
Lemma fast_average_cannot_be_disabled :
  let s1 := db_register_gui_callback (qv 0) DB_ITEM_HV_BATT_V (Some 7%nat) q_boot in
  let s2 := db_enable_fast_average false s1 in
  let s3 := db_set_data_item_value (qv 0) DB_ITEM_HV_BATT_V (qv 360) s2 in
  gui_item_fast_average s2 = true /\
  snd (db_gui_eval (qv 0) qhalf_sum s3) = [(7%nat, qv 180)].
Proof. vm_compute. split; reflexivity. Qed.

(** *** The index of a mask *)

Lemma land_pow2_testbit (m n : Z) :
  0 <= n -> (Z.land m (2 ^ n) =? 0) = negb (Z.testbit m n).
Proof.
  intros Hn. destruct (Z.testbit m n) eqn:Hb; simpl.
  - apply Z.eqb_neq. intros H.
    apply (f_equal (fun x => Z.testbit x n)) in H.
    rewrite Z.land_spec, Hb, Z.pow2_bits_true, Z.bits_0 in H by lia. discriminate.
  - apply Z.eqb_eq. apply Z.bits_inj'. intros k Hk.
    rewrite Z.land_spec, Z.pow2_bits_eqb, Z.bits_0 by lia.
    destruct (Z.eqb_spec n k) as [->|]; [rewrite Hb|]; simpl; now rewrite ?andb_false_r.
Qed.

Lemma mask_to_index_loop_spec (fuel : nat) (mask : Z) :
  forall n,
    0 <= n -> n + Z.of_nat fuel <= 32 ->
    let r := mask_to_index_loop fuel mask n (2 ^ n) in
    (r = -1 /\ forall j, n <= j < n + Z.of_nat fuel -> Z.testbit mask j = false) \/
    (n <= r < n + Z.of_nat fuel /\ Z.testbit mask r = true /\
     forall j, n <= j < r -> Z.testbit mask j = false).
Proof.
  induction fuel as [|fuel IH]; intros n Hn Hle; cbv zeta.
  - left. simpl. split; [reflexivity|]. intros j Hj. lia.
  - simpl mask_to_index_loop. rewrite land_pow2_testbit by lia. rewrite negb_involutive.
    destruct (Z.testbit mask n) eqn:Hb.
    + right. split; [lia|]. split; [exact Hb|]. intros j Hj. lia.
    + replace (Z.shiftl (2 ^ n) 1 mod 2 ^ 32) with ((2 ^ (n + 1)) mod 2 ^ 32)
        by (rewrite Z.shiftl_mul_pow2, Z.pow_add_r by lia; reflexivity).
      assert (Hcase : n + 1 < 32 \/ (n + 1 = 32 /\ fuel = 0%nat)) by lia.
      destruct Hcase as [Hlt|[H32 ->]].
      * rewrite Z.mod_small
          by (split; [apply Z.pow_nonneg; lia|apply Z.pow_lt_mono_r; lia]).
        destruct (IH (n + 1) ltac:(lia) ltac:(lia)) as [[R1 R2]|(R1 & R2 & R3)].
        -- left. split; [exact R1|]. intros j Hj.
           destruct (Z.eq_dec j n) as [->|]; [exact Hb|apply R2; lia].
        -- right. split; [lia|]. split; [exact R2|]. intros j Hj.
           destruct (Z.eq_dec j n) as [->|]; [exact Hb|apply R3; lia].
      * left. simpl. split; [reflexivity|]. intros j Hj.
        replace j with n by lia. exact Hb.
Qed.

(** X8. [_db_mask_to_index] returns the position of the lowest set bit among
    bits 0 to 31 of the mask, and -1 when none of them is set: a mask
    that names several items stands for the lowest of them. *)
Theorem mask_to_index_is_lowest_set_bit (mask : Z) :
  let r := _db_mask_to_index mask in
  (r = -1 /\ forall j, 0 <= j < 32 -> Z.testbit mask j = false) \/
  (0 <= r < 32 /\ Z.testbit mask r = true /\
   forall j, 0 <= j < r -> Z.testbit mask j = false).
Proof.
  exact (mask_to_index_loop_spec (Z.to_nat DB_MAX_ITEMS) mask 0 ltac:(lia)
           ltac:(unfold DB_MAX_ITEMS; lia)).
Qed.

Lemma index_range (mask : Z) :
  0 <= _db_mask_to_index mask -> _db_mask_to_index mask < 32.
Proof.
  intros Hn.
  destruct (mask_to_index_range (Z.to_nat DB_MAX_ITEMS) mask 0 1) as [H|H];
    unfold _db_mask_to_index in *; unfold DB_MAX_ITEMS in *; lia.
Qed.

Lemma bit_test_shiftl (m n : Z) :
  0 <= n -> negb (Z.land m (Z.shiftl 1 n) =? 0) = Z.testbit m n.
Proof.
  intros Hn. rewrite Z.shiftl_1_l, land_pow2_testbit by lia. apply negb_involutive.
Qed.

Section BrokerUse.

Variable V : Type.
Variable vzero : V.
Variable half_sum : V -> V -> V.
Variable handler : Type.

(** [db_gui_eval] hands every waiting update over once: a second
    evaluation, with no value set in between, calls no handler. *)
Lemma second_eval_is_silent (s : db_state V handler) :
  snd (db_gui_eval vzero half_sum (fst (db_gui_eval vzero half_sum s))) = [].
Proof.
  unfold db_gui_eval. cbn [fst snd].
  apply flat_map_none. intros i _. unfold eval_item.
  cbn [gui_item_updated_mask]. rewrite Z.land_0_l. reflexivity.
Qed.

(** The calls of [db_gui_eval] for the items other than [n]. *)
Definition calls_without (n : Z) (s : db_state V handler) : list (handler * V) :=
  flat_map (fun i => if Z.of_nat i =? n then [] else eval_item vzero half_sum s i)
           (seq 0 (Z.to_nat DB_MAX_ITEMS)).

(** X9. Registering a handler for an item discards an update that was waiting
    for it: the next [db_gui_eval] makes the calls it would have made for
    the other items and none for this one, so a value published before
    the registration is not replayed to the new handler. *)
Theorem register_discards_waiting_update (mask : Z) (fcn : option handler)
        (s : db_state V handler) :
  0 <= _db_mask_to_index mask ->
  snd (db_gui_eval vzero half_sum (db_register_gui_callback vzero mask fcn s))
  = calls_without (_db_mask_to_index mask) s.
Proof.
  intros Hn. unfold db_gui_eval, calls_without, db_register_gui_callback.
  set (n := _db_mask_to_index mask) in *.
  replace (n >=? 0) with true by (symmetry; apply Z.geb_le; lia).
  cbn [snd]. apply flat_map_ext. intros i. unfold eval_item.
  cbn [gui_item_updated_mask gui_handler_list gui_item_value_list0
       gui_item_value_list1 gui_item_fast_average].
  rewrite !bit_test_shiftl by lia. rewrite Z.land_spec, Z.lnot_spec by lia.
  rewrite Z.shiftl_1_l, Z.pow2_bits_eqb by lia.
  destruct (Z.eqb_spec (Z.of_nat i) n) as [He|Hne].
  - rewrite <- He, Z.eqb_refl. simpl. now rewrite andb_false_r.
  - replace (n =? Z.of_nat i) with false by (symmetry; apply Z.eqb_neq; lia).
    simpl. rewrite andb_true_r.
    rewrite !list_lookup_insert_ne by lia. reflexivity.
Qed.

(** Setting the values [vs] for one item, one after the other. *)
Definition set_values (mask : Z) (vs : list V) (s : db_state V handler)
  : db_state V handler :=
  fold_left (fun st v => db_set_data_item_value vzero mask v st) vs s.

(** Only item [n] may have an update waiting. *)
Definition only_item (n : Z) (s : db_state V handler) : Prop :=
  length (gui_item_value_list0 s) = 32%nat /\
  length (gui_item_value_list1 s) = 32%nat /\
  forall i, 0 <= i -> i <> n -> Z.testbit (gui_item_updated_mask s) i = false.

Lemma set_value_only_item (mask : Z) (v : V) (s : db_state V handler) :
  0 <= _db_mask_to_index mask ->
  only_item (_db_mask_to_index mask) s ->
  let s' := db_set_data_item_value vzero mask v s in
  only_item (_db_mask_to_index mask) s' /\
  gui_item_fast_average s' = gui_item_fast_average s /\
  gui_handler_list s' = gui_handler_list s /\
  Z.testbit (gui_item_updated_mask s') (_db_mask_to_index mask) = true /\
  gui_item_value_list0 s' !! Z.to_nat (_db_mask_to_index mask) = Some v /\
  gui_item_value_list1 s' !! Z.to_nat (_db_mask_to_index mask)
  = gui_item_value_list0 s !! Z.to_nat (_db_mask_to_index mask).
Proof.
  intros Hn (L0 & L1 & Hm). pose proof (index_range mask Hn) as Hlt.
  unfold db_set_data_item_value. set (n := _db_mask_to_index mask) in *.
  replace (n >=? 0) with true by (symmetry; apply Z.geb_le; lia).
  cbv zeta. unfold only_item.
  cbn [gui_item_updated_mask gui_handler_list gui_item_value_list0
       gui_item_value_list1 gui_item_fast_average].
  rewrite !length_insert, !list_lookup_insert_eq by lia.
  rewrite Z.lor_spec, Z.shiftl_1_l, Z.pow2_bits_true, orb_true_r by lia.
  destruct (gui_item_value_list0 s !! Z.to_nat n) as [x|] eqn:Hx.
  2:{ apply lookup_ge_None in Hx. lia. }
  repeat split; try assumption; try reflexivity.
  intros i Hi Hne. rewrite Z.lor_spec, Z.pow2_bits_false, (Hm i Hi Hne) by lia.
  reflexivity.
Qed.

Lemma set_values_only_item (mask : Z) (vs : list V) :
  forall s : db_state V handler,
    0 <= _db_mask_to_index mask ->
    only_item (_db_mask_to_index mask) s ->
    only_item (_db_mask_to_index mask) (set_values mask vs s) /\
    gui_item_fast_average (set_values mask vs s) = gui_item_fast_average s /\
    gui_handler_list (set_values mask vs s) = gui_handler_list s.
Proof.
  induction vs as [|v vs IH]; intros s Hn Ho; simpl; [auto|].
  destruct (set_value_only_item mask v s Hn Ho) as (O1 & F1 & H1 & _).
  destruct (IH _ Hn O1) as (O2 & F2 & H2).
  split; [exact O2|]. split; congruence.
Qed.

(** X10. Of the values set for an item between two evaluations only the last
    two count. When the values [pre], then [a], then [b] have been set and
    nothing waits for another item, [db_gui_eval] calls the handler of the
    item once: with the mean of [b] and [a] under fast averaging, with [b]
    otherwise. The values in [pre] never reach the handler, and an
    evaluation that follows with no value set in between calls no
    handler. *)
Theorem last_two_values_reach_handler (mask : Z) (pre : list V) (a b : V)
        (h : handler) (s : db_state V handler) :
  0 <= _db_mask_to_index mask ->
  only_item (_db_mask_to_index mask) s ->
  gui_handler_list s !! Z.to_nat (_db_mask_to_index mask) = Some (Some h) ->
  snd (db_gui_eval vzero half_sum (set_values mask (pre ++ [a; b]) s))
  = [(h, if gui_item_fast_average s then half_sum b a else b)] /\
  snd (db_gui_eval vzero half_sum
         (fst (db_gui_eval vzero half_sum (set_values mask (pre ++ [a; b]) s))))
  = [].
Proof.
  intros Hn Ho Hh. split; [|apply second_eval_is_silent].
  pose proof (index_range mask Hn) as Hlt.
  unfold set_values. rewrite fold_left_app. fold (set_values mask pre s).
  destruct (set_values_only_item mask pre s Hn Ho) as (O1 & F1 & H1).
  set (s1 := set_values mask pre s) in *. simpl fold_left.
  destruct (set_value_only_item mask a s1 Hn O1) as (O2 & F2 & H2 & _ & A2 & _).
  set (s2 := db_set_data_item_value vzero mask a s1) in *.
  destruct (set_value_only_item mask b s2 Hn O2) as (O3 & F3 & H3 & B3 & A3 & C3).
  set (s3 := db_set_data_item_value vzero mask b s2) in *.
  cbv zeta in O3, F3, H3, B3, A3, C3.
  set (n := _db_mask_to_index mask) in *.
  unfold db_gui_eval. cbn [snd]. unfold DB_MAX_ITEMS.
  rewrite (flat_map_single _ (Z.to_nat n)).
  - unfold eval_item. rewrite bit_test_shiftl by lia.
    rewrite Z2Nat.id, B3 by lia. rewrite H3, H2, H1, Hh, A3, C3, A2.
    rewrite F3, F2, F1. simpl. destruct (gui_item_fast_average s); reflexivity.
  - change (Z.to_nat 32) with 32%nat. lia.
  - intros i Hi. unfold eval_item. rewrite bit_test_shiftl by lia.
    destruct O3 as (_ & _ & Hm). rewrite Hm by lia. reflexivity.
Qed.

End BrokerUse.

Lemma last_two_values_reach_handler_witness :
  let s1 := db_register_gui_callback (qv 0) DB_ITEM_SPEED (Some 3%nat) q_boot in
  let s2 := set_values QArith_base.Q (qv 0) nat DB_ITEM_SPEED
              ([qv 10; qv 20] ++ [qv 30; qv 50]) s1 in
  snd (db_gui_eval (qv 0) qhalf_sum s2) = [(3%nat, qv 50)] /\
  snd (db_gui_eval (qv 0) qhalf_sum (fst (db_gui_eval (qv 0) qhalf_sum s2))) = [].
Proof.
  apply (last_two_values_reach_handler QArith_base.Q (qv 0) qhalf_sum nat
           DB_ITEM_SPEED [qv 10; qv 20] (qv 30) (qv 50) 3%nat).
  - vm_compute. discriminate.
  - split; [reflexivity|]. split; [reflexivity|]. intros i _ _. apply Z.bits_0.
  - reflexivity.
Defined.

Lemma register_discards_waiting_update_witness :
  let s1 := db_set_data_item_value (qv 0) DB_ITEM_SPEED (qv 88) q_boot in
  snd (db_gui_eval (qv 0) qhalf_sum
         (db_register_gui_callback (qv 0) DB_ITEM_SPEED (Some 3%nat) s1))
  = [].
Proof.
  apply (register_discards_waiting_update QArith_base.Q (qv 0) qhalf_sum nat
           DB_ITEM_SPEED (Some 3%nat)
           (db_set_data_item_value (qv 0) DB_ITEM_SPEED (qv 88) q_boot)).
  vm_compute. discriminate.
Defined.

End DataBrokerFacts.

Module Elm327Facts.
Import Elm327.

(** The settings and the record of lines sent and errors reported, none of
    which the receiving side touches. *)
Definition cfg (w : world) : bool * bool * Z * Z * Z * Z * bool :=
  (driver_ok w, can_500k w, timeout_msec w, prev_header_size w,
   prev_req_id w, prev_rsp_id w, elm327_is_v15 w).

Definition sig (w : world)
  : (bool * bool * Z * Z * Z * Z * bool) * nat * list string * list Z * Z :=
  (cfg w, clock w, lines_of (log w), errors_of (log w), op_state w).

(** The receive ring as the parser finds it. *)
Definition ring (w : world) : list Z * Z :=
  (rx_buf w, rx_buf_push_index w).

Definition event_ok (e : event) : Prop :=
  match e with
  | CanRx _ len d => 0 <= len <= 8 /\ Z.of_nat (length d) = len
  | _ => True
  end.

(** Buffers have their declared sizes, indices are inside them, and every
    frame handed to the ISO-TP layer so far has at most 8 bytes. *)
Definition wf (w : world) : Prop :=
  length (rx_buf w) = 1024%nat /\
  0 <= rx_buf_push_index w < 1024 /\
  0 <= rx_buf_pop_index w < 1024 /\
  length (elm327_version_string w) = 6%nat /\
  0 <= ver_index w <= 5 /\
  Forall event_ok (log w).

(** The frame array has 8 bytes and [n] counts the bytes stored; while the
    low nibble of a byte is awaited there is room for that byte. *)
Definition lwf (l : parse_locals) : Prop :=
  length (data l) = 8%nat /\
  0 <= n l <= 8 /\
  (high_nibble l = false -> n l < 8).

Lemma wr_chk_done (a : list Z) (i v : Z) :
  0 <= i < Z.of_nat (length a) ->
  wr_chk a i v = Done (wr a i v).
Proof.
  intros H. unfold wr_chk, in_bounds.
  replace (0 <=? i) with true by (symmetry; apply Z.leb_le; lia).
  replace (i <? Z.of_nat (length a)) with true by (symmetry; apply Z.ltb_lt; lia).
  reflexivity.
Qed.

Lemma rd_chk_done (a : list Z) (i : Z) :
  0 <= i < Z.of_nat (length a) ->
  rd_chk a i = Done (rd a i).
Proof.
  intros H. unfold rd_chk, in_bounds.
  replace (0 <=? i) with true by (symmetry; apply Z.leb_le; lia).
  replace (i <? Z.of_nat (length a)) with true by (symmetry; apply Z.ltb_lt; lia).
  reflexivity.
Qed.

Lemma wr_length (a : list Z) (i v : Z) : length (wr a i v) = length a.
Proof. unfold wr. apply length_insert. Qed.

Lemma lines_of_app (a b : list event) : lines_of (a ++ b) = lines_of a ++ lines_of b.
Proof. unfold lines_of. rewrite !flat_map_concat_map, map_app, concat_app. reflexivity. Qed.

Lemma errors_of_app (a b : list event) : errors_of (a ++ b) = errors_of a ++ errors_of b.
Proof. unfold errors_of. rewrite !flat_map_concat_map, map_app, concat_app. reflexivity. Qed.

Lemma frames_of_app (a b : list event) : frames_of (a ++ b) = frames_of a ++ frames_of b.
Proof. unfold frames_of. rewrite !flat_map_concat_map, map_app, concat_app. reflexivity. Qed.

(** What a step on the receiving side guarantees. *)
Definition rx_ok (w w' : world) : Prop :=
  wf w' /\ sig w' = sig w /\ ring w' = ring w /\
  rx_buf_pop_index w' = rx_buf_pop_index w.

Lemma rx_ok_refl (w : world) : wf w -> rx_ok w w.
Proof. intros H. repeat split; try apply H. Qed.

Lemma rx_ok_trans (w1 w2 w3 : world) : rx_ok w1 w2 -> rx_ok w2 w3 -> rx_ok w1 w3.
Proof.
  intros (_ & S1 & R1 & P1) (W2 & S2 & R2 & P2).
  split; [exact W2|]. split; [congruence|]. split; congruence.
Qed.

Lemma store_version_char_ok (c : Z) (w : world) :
  wf w -> exists w', store_version_char c w = Done w' /\ rx_ok w w' /\
                     tx_state w' = tx_state w.
Proof.
  intros Hwf. pose proof Hwf as (H1 & H2 & H3 & H4 & H5 & H6).
  unfold store_version_char, MAX_ELM327_VER_LEN.
  destruct (Z.ltb_spec (ver_index w) (6 - 1)).
  - rewrite wr_chk_done by lia. simpl. eexists. split; [reflexivity|].
    split; [|reflexivity].
    unfold rx_ok, wf, sig, cfg, ring. simpl. rewrite wr_length.
    repeat split; try assumption; try lia.
  - eexists. split; [reflexivity|]. split; [now apply rx_ok_refl|reflexivity].
Qed.

Ltac use_ok H :=
  let w' := fresh "w" in
  let E := fresh "E" in
  let O := fresh "O" in
  let T := fresh "T" in
  destruct H as (w' & E & O & T); rewrite E; simpl bind.

Lemma terminate_version_ok (w : world) :
  wf w ->
  exists w', (do v <- wr_chk (elm327_version_string w) (ver_index w) 0;
              Done (set_elm327_version_string v w)) = Done w' /\
             rx_ok w w' /\ tx_state w' = tx_state w.
Proof.
  intros Hwf. pose proof Hwf as (H1 & H2 & H3 & H4 & H5 & H6).
  rewrite wr_chk_done by lia. simpl. eexists. split; [reflexivity|].
  split; [|reflexivity].
  unfold rx_ok, wf, sig, cfg, ring. simpl. rewrite wr_length.
  repeat split; try assumption; try lia.
Qed.

Lemma set_parse_state_ok (v : Z) (w : world) :
  wf w -> rx_ok w (set_parse_state v w) /\ wf (set_parse_state v w).
Proof.
  intros Hwf. assert (wf (set_parse_state v w)) by exact Hwf.
  split; [|assumption]. split; [assumption|]. repeat split.
Qed.

Lemma proc_version_info_ok (c : Z) (init : bool) (w : world) :
  wf w ->
  exists w', _can_driver_elm327_proc_version_info c init w = Done w' /\
             rx_ok w w' /\ tx_state w' = tx_state w.
Proof.
  intros Hwf. unfold _can_driver_elm327_proc_version_info.
  destruct init.
  { eexists. split; [reflexivity|]. split; [|reflexivity].
    pose proof Hwf as (H1 & H2 & H3 & H4 & H5 & H6).
    unfold rx_ok, wf, sig, cfg, ring. simpl.
    repeat split; try assumption; try lia. }
  assert (Hfin : forall w1, rx_ok w w1 -> tx_state w1 = tx_state w ->
     exists w', (do v <- wr_chk (elm327_version_string w1) (ver_index w1) 0;
                 Done (set_elm327_version_string v w1)) = Done w' /\
                rx_ok w w' /\ tx_state w' = tx_state w).
  { intros w1 Hok Ht. destruct (terminate_version_ok w1 (proj1 Hok)) as (w' & E & O & T).
    exists w'. split; [exact E|]. split; [eapply rx_ok_trans; eassumption|congruence]. }
  destruct (parse_state w =? 0).
  { destruct (c =? ch "v"); simpl bind.
    - apply (Hfin (set_parse_state 1 w));
        [exact (proj1 (set_parse_state_ok 1 w Hwf))|reflexivity].
    - apply Hfin; [now apply rx_ok_refl|reflexivity]. }
  destruct (parse_state w =? 1).
  { destruct (is_digit c).
    - use_ok (store_version_char_ok c w Hwf). now apply Hfin.
    - destruct (c =? ch ".").
      + use_ok (store_version_char_ok c w Hwf).
        apply (Hfin (set_parse_state 2 w0)); [|exact T].
        eapply rx_ok_trans; [exact O|].
        exact (proj1 (set_parse_state_ok 2 _ (proj1 O))).
      + simpl bind. apply Hfin; [now apply rx_ok_refl|reflexivity]. }
  destruct (parse_state w =? 2).
  { destruct (is_digit c).
    - use_ok (store_version_char_ok c w Hwf). now apply Hfin.
    - simpl bind. apply Hfin; [now apply rx_ok_refl|reflexivity]. }
  simpl bind. apply Hfin; [now apply rx_ok_refl|reflexivity].
Qed.

Lemma apply_can_action_ok (a : CanManager.can_action) (w : world) :
  wf w -> rx_ok w (apply_can_action w a).
Proof.
  intros Hwf. pose proof Hwf as (H1 & H2 & H3 & H4 & H5 & H6).
  destruct a as [|id len p|id len d]; simpl.
  - unfold rx_ok, wf, sig, cfg, ring. simpl. repeat split; try assumption; lia.
  - unfold rx_ok, wf, sig, cfg, ring. simpl.
    rewrite lines_of_app, errors_of_app. simpl. rewrite !app_nil_r.
    repeat split; try assumption; try lia.
    apply Forall_app. split; [assumption|]. repeat constructor.
  - now apply rx_ok_refl.
Qed.

Lemma fold_can_actions_ok (acts : list CanManager.can_action) :
  forall w, wf w -> rx_ok w (fold_left apply_can_action acts w).
Proof.
  induction acts as [|a acts IH]; intros w Hwf; simpl.
  - now apply rx_ok_refl.
  - pose proof (apply_can_action_ok a w Hwf) as Ha.
    eapply rx_ok_trans; [exact Ha|]. apply IH. apply Ha.
Qed.

Lemma deliver_frame_ok (l : parse_locals) (w : world) :
  wf w -> lwf l -> rx_ok w (deliver_frame (n l) (data l) w).
Proof.
  intros Hwf (L1 & L2 & L3). pose proof Hwf as (H1 & H2 & H3 & H4 & H5 & H6).
  unfold deliver_frame.
  destruct (CanManager.can_rx_packet _ _ _ _) as [c' acts].
  set (w1 := set_can c' (add_log _ w)).
  assert (Hw1 : rx_ok w w1).
  { unfold w1, rx_ok, wf, sig, cfg, ring. simpl.
    rewrite lines_of_app, errors_of_app. simpl. rewrite !app_nil_r.
    repeat split; try assumption; try lia.
    apply Forall_app. split; [assumption|]. repeat constructor; try lia.
    rewrite length_take. lia. }
  eapply rx_ok_trans; [exact Hw1|]. apply fold_can_actions_ok. apply Hw1.
Qed.

Lemma store_nibble_ok (c : Z) (l : parse_locals) :
  lwf l -> exists l', store_nibble c l = Done l' /\ lwf l'.
Proof.
  intros (L1 & L2 & L3). unfold store_nibble.
  destruct (Z.ltb_spec (n l) 8) as [Hn|Hn].
  - destruct (high_nibble l) eqn:Hh.
    + rewrite wr_chk_done by lia. simpl. eexists. split; [reflexivity|].
      unfold lwf. simpl. rewrite wr_length. repeat split; try assumption; lia.
    + rewrite rd_chk_done by lia. simpl. rewrite wr_chk_done by lia. simpl.
      eexists. split; [reflexivity|].
      unfold lwf. simpl. rewrite wr_length.
      repeat split; try assumption; try lia; try discriminate.
  - eexists. split; [reflexivity|]. exact (conj L1 (conj L2 L3)).
Qed.

Lemma parse_char_ok (c : Z) (w : world) (l : parse_locals) :
  wf w -> lwf l ->
  exists w' l', parse_char c w l = Done (w', l') /\ rx_ok w w' /\ lwf l'.
Proof.
  intros Hwf Hl. pose proof Hl as (L1 & L2 & L3). unfold parse_char.
  destruct ((c =? 13) || (c =? 10)).
  { eexists _, _. split; [reflexivity|]. split.
    - destruct (saw_data l); [now apply deliver_frame_ok|now apply rx_ok_refl].
    - unfold lwf. simpl. repeat split; try assumption; try lia. }
  assert (Hfin : forall w1 l1, rx_ok w w1 -> lwf l1 ->
     exists w' l', (do r <- Done (w1, l1); Done (fst r, set_first_char false (snd r)))
                   = Done (w', l') /\ rx_ok w w' /\ lwf l').
  { intros w1 l1 Hok Hl1. eexists _, _. split; [reflexivity|]. split; assumption. }
  destruct (tx_state w =? TX_ST_AT_CMD).
  { destruct (first_char l).
    - destruct ((c =? ch "O") || (c =? ch "E")).
      + destruct (c =? ch "E").
        * destruct (proc_version_info_ok c true w Hwf) as (w1 & E1 & O1 & _).
          rewrite E1. simpl bind. eexists _, _. split; [reflexivity|].
          split; [exact O1|]. exact Hl.
        * apply Hfin; [now apply rx_ok_refl|exact Hl].
      + destruct (c =? ch "?"); apply Hfin; try (now apply rx_ok_refl); exact Hl.
    - destruct (has_version l).
      + destruct (proc_version_info_ok c false w Hwf) as (w1 & E1 & O1 & _).
        rewrite E1. simpl bind. eexists _, _. split; [reflexivity|].
        split; [exact O1|exact Hl].
      + apply Hfin; [now apply rx_ok_refl|exact Hl]. }
  destruct (tx_state w =? TX_ST_REQ_PKT).
  { destruct (_can_driver_elm327_is_hex_char c).
    - match goal with |- context [store_nibble c ?l1] =>
        destruct (store_nibble_ok c l1) as (l2 & E2 & Hl2) end.
      { destruct (first_char l); exact Hl. }
      rewrite E2. simpl bind. eexists _, _. split; [reflexivity|].
      split; [now apply rx_ok_refl|exact Hl2].
    - destruct (c =? ch " ").
      + destruct (high_nibble l) eqn:Hh; simpl negb; cbv iota.
        * apply Hfin; [now apply rx_ok_refl|exact Hl].
        * apply Hfin; [now apply rx_ok_refl|].
          unfold lwf. simpl. specialize (L3 eq_refl).
          repeat split; try assumption; try lia; try discriminate.
      + destruct (first_char l); apply Hfin; try (now apply rx_ok_refl); exact Hl. }
  apply Hfin; [now apply rx_ok_refl|exact Hl].
Qed.

(** What a whole call on the receiving side guarantees: the pop cursor
    may have moved. *)
Definition rx_done (w w' : world) : Prop :=
  wf w' /\ sig w' = sig w /\ ring w' = ring w.

Lemma advance_pop_ok (w : world) :
  wf w ->
  wf (advance_pop w) /\ sig (advance_pop w) = sig w /\
  ring (advance_pop w) = ring w /\
  rx_buf_pop_index (advance_pop w) = (rx_buf_pop_index w + 1) mod 1024.
Proof.
  intros (H1 & H2 & H3 & H4 & H5 & H6). unfold advance_pop, RX_BUFF_LEN.
  destruct (Z.geb_spec (rx_buf_pop_index w + 1) 1024) as [Hge|Hlt].
  - unfold wf, sig, cfg, ring. simpl.
    replace (rx_buf_pop_index w + 1) with 1024 by lia.
    repeat split; try assumption; lia.
  - unfold wf, sig, cfg, ring. simpl. rewrite Z.mod_small by lia.
    repeat split; try assumption; lia.
Qed.

Lemma finish_parse_ok (w : world) (l : parse_locals) :
  wf w -> rx_done w (finish_parse w l).
Proof.
  intros Hwf. destruct (advance_pop_ok w Hwf) as (A1 & A2 & A3 & _).
  unfold finish_parse. cbv zeta.
  assert (Hset : forall v, rx_done w (set_tx_state v (advance_pop w))).
  { intros v. split; [exact A1|]. split; [exact A2|exact A3]. }
  destruct (tx_state (advance_pop w) =? TX_ST_AT_CMD); [apply Hset|].
  destruct (tx_state (advance_pop w) =? TX_ST_REQ_PKT).
  - destruct (negb (success l)); [apply Hset|].
    split; [exact A1|]. split; [exact A2|exact A3].
  - split; [exact A1|]. split; [exact A2|exact A3].
Qed.

(** The parse loop ends, without a fault, when a ['>'] lies within reach
    of the fuel. *)
Lemma parse_loop_ok (fuel : nat) :
  forall (w : world) (l : parse_locals) (d : nat),
    wf w -> lwf l -> (d < fuel)%nat ->
    rd (rx_buf w) ((rx_buf_pop_index w + Z.of_nat d) mod 1024) = ch ">" ->
    exists w', parse_loop fuel w l = Done w' /\ rx_done w w'.
Proof.
  induction fuel as [|fuel IH]; intros w l d Hwf Hl Hd Hgt; [lia|].
  pose proof Hwf as (H1 & H2 & H3 & H4 & H5 & H6).
  simpl parse_loop. rewrite rd_chk_done by lia. simpl bind.
  destruct (Z.eqb_spec (rd (rx_buf w) (rx_buf_pop_index w)) (ch ">")) as [Hc|Hc].
  - eexists. split; [reflexivity|]. now apply finish_parse_ok.
  - destruct d as [|d].
    { exfalso. apply Hc. rewrite <- Hgt. f_equal.
      rewrite Z.add_0_r, Z.mod_small by lia. reflexivity. }
    destruct (advance_pop_ok w Hwf) as (A1 & A2 & A3 & A4).
    destruct (parse_char_ok (rd (rx_buf w) (rx_buf_pop_index w)) (advance_pop w) l A1 Hl)
      as (w1 & l1 & E1 & (W1 & S1 & R1 & P1) & Hl1).
    rewrite E1. simpl bind.
    destruct (IH w1 l1 d W1 Hl1 ltac:(lia)) as (w2 & E2 & W2 & S2 & R2).
    + assert (Hb : rx_buf w1 = rx_buf w).
      { unfold ring in R1, A3. congruence. }
      rewrite Hb, P1, A4, <- Hgt. f_equal.
      rewrite Zplus_mod_idemp_l. f_equal. lia.
    + exists w2. split; [exact E2|].
      split; [exact W2|]. split; congruence.
Qed.

Lemma push_char_ok (c : Z) (w : world) :
  wf w -> exists w', push_char c w = Done w' /\ wf w' /\ sig w' = sig w.
Proof.
  intros Hwf. pose proof Hwf as (H1 & H2 & H3 & H4 & H5 & H6).
  unfold push_char. rewrite wr_chk_done by lia. simpl bind. cbv zeta.
  set (w1 := set_rx_buf_push_index _ _).
  assert (Hw1 : wf w1 /\ sig w1 = sig w /\
                rx_buf w1 = wr (rx_buf w) (rx_buf_push_index w) c /\
                rx_buf_pop_index w1 = rx_buf_pop_index w).
  { unfold w1, wf, sig, cfg, RX_BUFF_LEN. simpl. rewrite wr_length.
    destruct (Z.geb_spec (rx_buf_push_index w + 1) 1024);
      repeat split; try assumption; lia. }
  destruct Hw1 as (W1 & S1 & B1 & P1).
  destruct (Z.eqb_spec c (ch ">")) as [Hc|Hc].
  - unfold _can_driver_elm327_process_rx_buf, RX_BUFF_LEN.
    set (d := (rx_buf_push_index w - rx_buf_pop_index w) mod 1024).
    assert (Hdr : 0 <= d < 1024) by (apply Z.mod_pos_bound; lia).
    destruct (parse_loop_ok (Z.to_nat 1024) w1 init_locals (Z.to_nat d) W1)
      as (w2 & E2 & W2 & S2 & _).
    + unfold lwf, init_locals. simpl. repeat split; try lia; try discriminate.
    + lia.
    + rewrite B1, P1, Z2Nat.id by lia. unfold d.
      rewrite Zplus_mod_idemp_r.
      replace (rx_buf_pop_index w + (rx_buf_push_index w - rx_buf_pop_index w))
        with (rx_buf_push_index w) by lia.
      rewrite Z.mod_small by lia. unfold rd, wr.
      rewrite list_lookup_insert_eq by lia. simpl. exact Hc.
    + exists w2. split; [exact E2|]. split; [exact W2|congruence].
  - exists w1. split; [reflexivity|]. split; assumption.
Qed.

Lemma rx_data_ok (s : list Z) :
  forall w, wf w ->
    exists w', can_driver_elm327_rx_data s w = Done w' /\ wf w' /\ sig w' = sig w.
Proof.
  induction s as [|c s IH]; intros w Hwf; simpl.
  - exists w. auto.
  - destruct (push_char_ok c w Hwf) as (w1 & E1 & W1 & S1). rewrite E1. simpl bind.
    destruct (IH w1 W1) as (w2 & E2 & W2 & S2).
    exists w2. split; [exact E2|]. split; [exact W2|congruence].
Qed.

Lemma wf_frames (w : world) :
  wf w ->
  Forall (fun f => 0 <= snd (fst f) <= 8 /\ Z.of_nat (length (snd f)) = snd (fst f))
         (frames_of (log w)).
Proof.
  intros (_ & _ & _ & _ & _ & H). induction H as [|e l He Hl IH]; [constructor|].
  change (e :: l) with ([e] ++ l). rewrite frames_of_app.
  apply Forall_app. split; [|exact IH].
  destruct e; simpl; constructor; try constructor; try apply He.
Qed.

(** C10. In a driver state whose buffers have their declared sizes and
    whose indices are inside them, receiving any sequence of characters
    ends without an access outside the parser's 8-byte frame array (or any
    other array of the driver) and without the parse loop running on; every
    frame handed to the ISO-TP layer has a length between 0 and 8; the
    state stays of that kind. Once 8 bytes are stored, a further hex digit
    leaves the byte index and the array as they are. *)
Theorem parser_frames_at_most_8 (s : list Z) (w : world) :
  wf w ->
  (exists w',
     can_driver_elm327_rx_data s w = Done w' /\
     wf w' /\
     Forall (fun f => 0 <= snd (fst f) <= 8 /\
                      Z.of_nat (length (snd f)) = snd (fst f))
            (frames_of (log w'))) /\
  (forall c l, 8 <= n l -> store_nibble c l = Done l).
Proof.
  intros Hwf. split.
  - destruct (rx_data_ok s w Hwf) as (w' & E & W & _).
    exists w'. split; [exact E|]. split; [exact W|now apply wf_frames].
  - intros c l Hn. unfold store_nibble.
    destruct (Z.ltb_spec (n l) 8); [lia|reflexivity].
Qed.

Definition w_parse : world :=
  set_tx_state TX_ST_REQ_PKT
    (set_prev_rsp_id 0x7BB
       (_can_driver_elm327_init 500 true (replicate 1024 0)
          (CanManager.init_state 0x79B 0x7BB))).

Definition long_line : list Z :=
  chars "01 02 03 04 05 06 07 08 09 0A" ++ [0x0D; ch ">"].

Lemma w_parse_wf : wf w_parse.
Proof.
  unfold wf, w_parse. simpl.
  split; [reflexivity|]. split; [lia|]. split; [lia|].
  split; [reflexivity|]. split; [lia|constructor].
Qed.

Lemma parser_frames_at_most_8_witness :
  wf w_parse /\
  (exists w',
     can_driver_elm327_rx_data long_line w_parse = Done w' /\
     wf w' /\
     Forall (fun f => 0 <= snd (fst f) <= 8 /\
                      Z.of_nat (length (snd f)) = snd (fst f))
            (frames_of (log w'))) /\
  (forall c l, 8 <= n l -> store_nibble c l = Done l).
Proof.
  split; [exact w_parse_wf|].
  exact (parser_frames_at_most_8 long_line w_parse w_parse_wf).
Defined.

Example long_line_is_cut_to_8_bytes :
  match can_driver_elm327_rx_data long_line w_parse with
  | Done w' => frames_of (log w') = [(0x7BB, 8, [1; 2; 3; 4; 5; 6; 7; 8])]
  | Fault _ => False
  end.
Proof. vm_compute. reflexivity. Qed.

(** *** The sending side *)

Definition cache (w : world) : Z * Z * Z :=
  (prev_header_size w, prev_req_id w, prev_rsp_id w).

(** What the sending side leaves alone while it waits. *)
Definition tsig (w : world) : (bool * bool * Z * Z * Z * Z * bool) * list string * list Z :=
  (cfg w, lines_of (log w), errors_of (log w)).

Lemma sig_tsig (w w' : world) :
  sig w' = sig w ->
  tsig w' = tsig w /\ clock w' = clock w /\ op_state w' = op_state w.
Proof.
  unfold sig, tsig. intros H.
  pose proof (f_equal (fun x => fst (fst (fst (fst x)))) H) as H1.
  pose proof (f_equal (fun x => snd (fst (fst (fst x)))) H) as H2.
  pose proof (f_equal (fun x => snd (fst (fst x))) H) as H3.
  pose proof (f_equal (fun x => snd (fst x)) H) as H4.
  pose proof (f_equal snd H) as H5. simpl in H1, H2, H3, H4, H5.
  split; [|split; [exact H2|exact H5]]. rewrite H1, H3, H4. reflexivity.
Qed.

(** The receiving side never brings the driver to the connected state. *)
Definition stays_unconnected (w w' : world) : Prop :=
  op_state w' = OP_ST_CONNECTED -> op_state w = OP_ST_CONNECTED.

Ltac splits := repeat match goal with |- _ /\ _ => split end.

Lemma run_async_ok (ev : async_ev) (w : world) :
  wf w ->
  exists w', run_async ev w = Done w' /\ wf w' /\ tsig w' = tsig w /\
             clock w' = clock w /\ stays_unconnected w w'.
Proof.
  intros Hwf. destruct ev as [s| |b]; simpl.
  - destruct (rx_data_ok s w Hwf) as (w' & E & W & S).
    apply sig_tsig in S as (T & C & O).
    exists w'. splits; try assumption. intros H. congruence.
  - eexists. split; [reflexivity|]. unfold can_driver_elm327_tx_failed.
    destruct (_ || _); splits; try exact Hwf; try reflexivity; intros H; exact H.
  - eexists. split; [reflexivity|]. unfold can_driver_elm327_set_connected.
    destruct b; [destruct (Z.eqb_spec (op_state w) OP_ST_DISCONNECTED)|];
      splits; try exact Hwf; try reflexivity; unfold stays_unconnected; simpl;
      try discriminate; auto.
Qed.

Lemma run_asyncs_ok (evs : list async_ev) :
  forall w, wf w ->
    exists w', run_asyncs evs w = Done w' /\ wf w' /\ tsig w' = tsig w /\
               clock w' = clock w /\ stays_unconnected w w'.
Proof.
  induction evs as [|ev evs IH]; intros w Hwf; simpl.
  - exists w. splits; auto. intros H; exact H.
  - destruct (run_async_ok ev w Hwf) as (w1 & E1 & W1 & T1 & C1 & O1).
    rewrite E1. simpl bind.
    destruct (IH w1 W1) as (w2 & E2 & W2 & T2 & C2 & O2).
    exists w2. splits; try assumption; try congruence.
    intros H. apply O1, O2, H.
Qed.

Lemma tsig_inv (w w' : world) :
  tsig w' = tsig w ->
  cfg w' = cfg w /\ lines_of (log w') = lines_of (log w) /\
  errors_of (log w') = errors_of (log w).
Proof.
  unfold tsig. intros H.
  pose proof (f_equal (fun x => fst (fst x)) H) as H1.
  pose proof (f_equal (fun x => snd (fst x)) H) as H2.
  pose proof (f_equal snd H) as H3. simpl in H1, H2, H3. auto.
Qed.

Lemma cfg_inv (w w' : world) :
  cfg w' = cfg w ->
  driver_ok w' = driver_ok w /\ can_500k w' = can_500k w /\
  timeout_msec w' = timeout_msec w /\
  prev_header_size w' = prev_header_size w /\
  prev_req_id w' = prev_req_id w /\ prev_rsp_id w' = prev_rsp_id w /\
  elm327_is_v15 w' = elm327_is_v15 w.
Proof.
  unfold cfg. intros H.
  pose proof (f_equal (fun x => fst (fst (fst (fst (fst (fst x)))))) H) as H1.
  pose proof (f_equal (fun x => snd (fst (fst (fst (fst (fst x)))))) H) as H2.
  pose proof (f_equal (fun x => snd (fst (fst (fst (fst x))))) H) as H3.
  pose proof (f_equal (fun x => snd (fst (fst (fst x)))) H) as H4.
  pose proof (f_equal (fun x => snd (fst (fst x))) H) as H5.
  pose proof (f_equal (fun x => snd (fst x)) H) as H6.
  pose proof (f_equal snd H) as H7. simpl in *. auto 10.
Qed.

(** The header size of a request id, and the lines a request calls for in
    a given driver state: the protocol switch when the header size
    changes, the header commands when the request id changes, the receive
    address when the response id changes, then the request line. *)
Definition header_size_of (req_id : Z) : Z :=
  if req_id >? 0x7FF then HEADER_SIZE_29 else HEADER_SIZE_11.

Definition expected_lines (req_id rsp_id len : Z) (d : list Z) (w : world)
  : list string :=
  (if (prev_header_size w =? HEADER_SIZE_UNDEF)
      || negb (prev_header_size w =? header_size_of req_id)
   then [attp_cmd (header_size_of req_id) w] else [])
  ++ (if negb (req_id =? prev_req_id w)
      then header_cmds req_id (header_size_of req_id) w else [])
  ++ (if negb (rsp_id =? prev_rsp_id w)
      then [String.append "ATCRA" (sprintf_lx rsp_id)] else [])
  ++ [request_line len d w].

(** *** The request line *)

Lemma strip_index_spec (fuel : nat) (d : list Z) :
  forall i,
    -1 <= i -> i < Z.of_nat fuel ->
    let r := strip_index fuel d i in
    -1 <= r <= i /\ (0 <= r -> rd d r <> 0) /\
    forall j, r < j <= i -> rd d j = 0.
Proof.
  induction fuel as [|fuel IH]; intros i Hi Hf; cbv zeta.
  - simpl. split; [lia|]. split; [lia|]. intros j Hj. lia.
  - simpl strip_index. destruct (Z.geb_spec i 0) as [Hge|Hlt].
    + destruct (Z.eqb_spec (rd d i) 0) as [Hz|Hnz]; simpl negb; cbv iota.
      * destruct (IH (i - 1) ltac:(lia) ltac:(lia)) as (R1 & R2 & R3).
        split; [lia|]. split; [exact R2|]. intros j Hj.
        destruct (Z.eq_dec j i) as [->|]; [exact Hz|apply R3; lia].
      * split; [lia|]. split; [intros _; exact Hnz|]. intros j Hj. lia.
    + split; [lia|]. split; [lia|]. intros j Hj. lia.
Qed.

(** The hex encoding of a run of bytes as the specification means it: two
    upper-case hex digits for each byte, the high digit first. *)
Definition hex_digit (v : Z) : ascii :=
  match String.get (Z.to_nat v) "0123456789ABCDEF" with
  | Some c => c
  | None => "0"%char
  end.

Fixpoint hex_encoding (bytes : list Z) : string :=
  match bytes with
  | [] => ""%string
  | b :: rest =>
      String (hex_digit (b / 16)) (String (hex_digit (b mod 16)) (hex_encoding rest))
  end.

Lemma nibble_is_hex_digit (v : Z) :
  0 <= v < 16 -> _can_driver_elm327_nibble_2_ascii v = hex_digit v.
Proof.
  intros H. assert (Hv : v = Z.of_nat (Z.to_nat v)) by lia.
  rewrite Hv. assert (Hk : (Z.to_nat v < 16)%nat) by lia.
  generalize dependent (Z.to_nat v). intros k _ Hk.
  do 16 (destruct k as [|k]; [vm_compute; reflexivity|]). lia.
Qed.

Lemma byte_digits (b : Z) :
  0 <= b < 256 ->
  _can_driver_elm327_nibble_2_ascii (Z.shiftr b 4) = hex_digit (b / 16) /\
  _can_driver_elm327_nibble_2_ascii (Z.land b 0x0F) = hex_digit (b mod 16).
Proof.
  intros H. rewrite Z.shiftr_div_pow2 by lia. change (2 ^ 4) with 16.
  change 0x0F with (Z.ones 4). rewrite Z.land_ones by lia. change (2 ^ 4) with 16.
  split; apply nibble_is_hex_digit.
  - split; [apply Z.div_pos; lia|apply Z.div_lt_upper_bound; lia].
  - apply Z.mod_pos_bound. lia.
Qed.

(** The encoding loop writes the hex encoding of the bytes it walks. *)
Lemma hex_line_encodes (len : nat) (d : list Z) :
  forall i : nat,
    (i + len <= length d)%nat -> Forall (fun b => 0 <= b < 256) d ->
    hex_line len d (Z.of_nat i) = hex_encoding (take len (drop i d)).
Proof.
  induction len as [|len IH]; intros i Hi Hd; [reflexivity|].
  simpl hex_line.
  destruct (d !! i) as [b|] eqn:Hb; [|apply lookup_ge_None in Hb; lia].
  assert (Hrd : rd d (Z.of_nat i) = b) by (unfold rd; rewrite Nat2Z.id, Hb; reflexivity).
  rewrite Hrd. rewrite (drop_S _ _ _ Hb). simpl take. simpl hex_encoding.
  assert (Hbyte : 0 <= b < 256).
  { rewrite Forall_forall in Hd. apply Hd. eapply list_elem_of_lookup_2. exact Hb. }
  destruct (byte_digits b Hbyte) as [-> ->].
  replace (Z.of_nat i + 1) with (Z.of_nat (S i)) by lia.
  rewrite IH by (try assumption; lia). reflexivity.
Qed.

(** The request line is the hex encoding of the payload, up to its last
    byte that is not zero for an adapter that announced version 1.5. *)
Lemma request_line_encodes (len : Z) (d : list Z) (w : world) :
  0 <= len <= Z.of_nat (length d) -> Forall (fun b => 0 <= b < 256) d ->
  exists k,
    request_line len d w = hex_encoding (take (Z.to_nat k) d) /\
    0 <= k <= len /\
    (elm327_is_v15 w = false -> k = len) /\
    (elm327_is_v15 w = true ->
     (0 < k -> rd d (k - 1) <> 0) /\ forall j, k <= j < len -> rd d j = 0).
Proof.
  intros Hlen Hd. unfold request_line.
  destruct (elm327_is_v15 w).
  - destruct (strip_index_spec (Z.to_nat len) d (len - 1) ltac:(lia) ltac:(lia))
      as (R1 & R2 & R3).
    set (r := strip_index (Z.to_nat len) d (len - 1)) in *.
    exists (r + 1). split.
    + change 0 with (Z.of_nat 0). rewrite hex_line_encodes by (try assumption; lia).
      reflexivity.
    + split; [lia|]. split; [discriminate|]. intros _. split.
      * intros Hk. replace (r + 1 - 1) with r by lia. apply R2. lia.
      * intros j Hj. apply R3. lia.
  - exists len. split.
    + change 0 with (Z.of_nat 0). rewrite hex_line_encodes by (try assumption; lia).
      reflexivity.
    + split; [lia|]. split; [reflexivity|discriminate].
Qed.

Section DriverFacts.

Variable E : env.

Lemma delay_tick_ok (w : world) :
  wf w ->
  exists w', delay_tick E w = Done w' /\ wf w' /\ tsig w' = tsig w /\
             clock w' = S (clock w) /\ stays_unconnected w w'.
Proof.
  intros Hwf. unfold delay_tick.
  destruct (run_asyncs_ok (async E (clock w)) w Hwf) as (w1 & E1 & W1 & T1 & C1 & O1).
  rewrite E1. simpl bind.
  eexists. split; [reflexivity|]. split; [exact W1|].
  split; [exact T1|]. split; [simpl; congruence|exact O1].
Qed.

Lemma delay_ticks_ok (k : nat) :
  forall w, wf w ->
    exists w', delay_ticks E k w = Done w' /\ wf w' /\ tsig w' = tsig w /\
               stays_unconnected w w'.
Proof.
  induction k as [|k IH]; intros w Hwf; simpl.
  - exists w. splits; auto. intros H; exact H.
  - destruct (delay_tick_ok w Hwf) as (w1 & E1 & W1 & T1 & _ & O1).
    rewrite E1. simpl bind.
    destruct (IH w1 W1) as (w2 & E2 & W2 & T2 & O2).
    exists w2. splits; try assumption; try congruence. intros H. apply O1, O2, H.
Qed.

(** The wait comes to an end: with the countdown's fuel it leaves the
    loop, in a transmit state other than the one waited on. *)
Lemma spin_ok (fuel : nat) :
  forall (pkt_state to_count : Z) (w : world),
    wf w -> pkt_state <> TX_ST_TIMEOUT ->
    (Z.to_nat (to_count / 10) + 2 <= fuel)%nat
    \/ (tx_state w <> pkt_state /\ (1 <= fuel)%nat) ->
    exists w', spin E fuel pkt_state to_count w = Done w' /\ wf w' /\
               tsig w' = tsig w /\ tx_state w' <> pkt_state /\
               stays_unconnected w w'.
Proof.
  induction fuel as [|fuel IH]; intros pkt T w Hwf Hpkt Hfuel; [lia|].
  simpl spin. destruct (Z.eqb_spec (tx_state w) pkt) as [Heq|Hne].
  - destruct Hfuel as [Hfuel|[Hc _]]; [|contradiction].
    destruct (delay_tick_ok w Hwf) as (w1 & E1 & W1 & T1 & _ & O1).
    rewrite E1. simpl bind.
    destruct (Z.leb_spec (T - 10) 0) as [Hle|Hgt].
    + destruct (IH pkt (T - 10) (set_tx_state TX_ST_TIMEOUT w1))
        as (w2 & E2 & W2 & T2 & N2 & O2).
      * exact W1.
      * exact Hpkt.
      * right. simpl. split; [congruence|lia].
      * exists w2. split; [exact E2|]. split; [exact W2|].
        split; [rewrite T2; exact T1|]. split; [exact N2|].
        intros H. apply O1. apply O2 in H. exact H.
    + destruct (IH pkt (T - 10) w1 W1 Hpkt) as (w2 & E2 & W2 & T2 & N2 & O2).
      * left. assert (T / 10 = (T - 10) / 10 + 1).
        { replace T with ((T - 10) + 1 * 10) at 1 by lia.
          rewrite Z.div_add by lia. reflexivity. }
        assert (0 <= (T - 10) / 10) by (apply Z.div_pos; lia). lia.
      * exists w2. split; [exact E2|]. split; [exact W2|].
        split; [congruence|]. split; [exact N2|].
        intros H. apply O1, O2, H.
  - exists w. splits; try assumption; try reflexivity. intros H; exact H.
Qed.

(** A line send always comes back; it leaves the settings alone, hands
    exactly its line to the interface when there is one, and reports at
    most one timeout, in which case it returns true. *)
Lemma tx_string_ok (pkt_state : Z) (s : string) (w : world) :
  wf w -> pkt_state <> TX_ST_TIMEOUT ->
  exists w' (b t : bool),
    _can_driver_elm327_tx_string E pkt_state s w = Done (w', b) /\
    wf w' /\ cfg w' = cfg w /\ tx_state w' = TX_ST_IDLE /\
    lines_of (log w') = lines_of (log w) ++ (if driver_ok w then [s] else []) /\
    errors_of (log w')
    = errors_of (log w) ++ (if t then [CAN_ERRNO_TIMEOUT] else []) /\
    (t = true -> b = true) /\
    stays_unconnected w w'.
Proof.
  intros Hwf Hpkt. pose proof Hwf as (H1 & H2 & H3 & H4 & H5 & H6).
  unfold _can_driver_elm327_tx_string.
  destruct (driver_ok w) eqn:Hdrv; simpl negb; cbv iota.
  2:{ exists (set_tx_state TX_ST_IDLE w), false, false.
      split; [reflexivity|]. split; [exact Hwf|]. split; [reflexivity|].
      split; [reflexivity|]. simpl. rewrite !app_nil_r.
      splits; try reflexivity; try discriminate. intros H; exact H. }
  cbv zeta.
  assert (Hw0 : wf (add_log (TxLine s) w)).
  { unfold wf. simpl. repeat split; try assumption; try lia.
    apply Forall_app. split; [assumption|]. repeat constructor. }
  destruct (tx_line_ok E (clock w)); simpl negb; cbv iota.
  2:{ exists (set_tx_state TX_ST_IDLE (add_log (TxLine s) w)), false, false.
      split; [reflexivity|]. split; [exact Hw0|]. split; [reflexivity|].
      split; [reflexivity|]. simpl. rewrite lines_of_app, errors_of_app. simpl.
      rewrite !app_nil_r. splits; try reflexivity; try discriminate.
      intros H; exact H. }
  destruct (spin_ok (spin_fuel (timeout_msec w)) pkt_state (timeout_msec w)
              (set_tx_state pkt_state (add_log (TxLine s) w)) Hw0 Hpkt)
    as (w2 & E2 & W2 & T2 & N2 & O2).
  { left. unfold spin_fuel. lia. }
  rewrite E2. simpl bind.
  apply tsig_inv in T2 as (C2 & L2 & R2). simpl in C2, L2, R2.
  rewrite lines_of_app in L2. rewrite errors_of_app in R2. simpl in L2, R2.
  rewrite app_nil_r in R2.
  pose proof W2 as (V1 & V2 & V3 & V4 & V5 & V6).
  destruct (tx_state w2 =? TX_ST_TIMEOUT).
  - eexists _, true, true. split; [reflexivity|].
    split; [|split; [exact C2|split; [reflexivity|]]].
    + unfold wf. simpl. repeat split; try assumption; try lia.
      apply Forall_app. split; [assumption|]. repeat constructor.
    + simpl. rewrite lines_of_app, errors_of_app. simpl. rewrite app_nil_r.
      rewrite L2, R2. splits; auto.
  - destruct (tx_state w2 =? TX_ST_ERROR).
    + eexists _, false, false. split; [reflexivity|].
      split; [exact W2|]. split; [exact C2|]. split; [reflexivity|].
      simpl. rewrite L2, R2, app_nil_r. splits; try reflexivity; try discriminate.
      exact O2.
    + eexists _, true, false. split; [reflexivity|].
      split; [exact W2|]. split; [exact C2|]. split; [reflexivity|].
      simpl. rewrite L2, R2, app_nil_r. splits; try reflexivity. exact O2.
Qed.

(** A run of AT commands hands a prefix of them to the interface, all of
    them when it returns true. *)
Lemma tx_at_cmds_ok (cmds : list string) :
  forall w, wf w -> driver_ok w = true ->
    exists w' (b : bool) (k : nat),
      tx_at_cmds E cmds w = Done (w', b) /\
      wf w' /\ cfg w' = cfg w /\
      lines_of (log w') = lines_of (log w) ++ take k cmds /\
      (b = true -> k = length cmds) /\
      (k <= length cmds)%nat /\
      stays_unconnected w w'.
Proof.
  induction cmds as [|c cmds IH]; intros w Hwf Hdrv; simpl tx_at_cmds.
  - exists w, true, 0%nat. split; [reflexivity|]. split; [exact Hwf|].
    split; [reflexivity|]. simpl. rewrite app_nil_r.
    splits; try reflexivity. intros H; exact H.
  - destruct (tx_string_ok TX_ST_AT_CMD c w Hwf ltac:(discriminate))
      as (w1 & b1 & t1 & E1 & W1 & C1 & _ & L1 & _ & _ & O1).
    rewrite E1. simpl bind. rewrite Hdrv in L1. destruct b1; simpl snd; cbv iota.
    + destruct (IH w1 W1) as (w2 & b2 & k & E2 & W2 & C2 & L2 & Hk & Hk' & O2).
      { apply cfg_inv in C1 as (D1 & _). congruence. }
      exists w2, b2, (S k). simpl fst. split; [exact E2|]. split; [exact W2|].
      split; [congruence|]. split.
      * rewrite L2, L1, <- app_assoc. reflexivity.
      * splits; [intros Hb; simpl; f_equal; now apply Hk|simpl; lia|].
        intros H. apply O1, O2, H.
    + exists w1, false, 1%nat. simpl fst. split; [reflexivity|]. split; [exact W1|].
      split; [exact C1|]. split; [exact L1|].
      splits; [discriminate|simpl; lia|exact O1].
Qed.

Lemma take_app_exact (k : nat) (a b : list string) :
  (k <= length a)%nat -> take k a = take k (a ++ b).
Proof. intros H. rewrite take_app_le by lia. reflexivity. Qed.

(** A request always comes back. The lines it hands to the interface are
    an initial part of the lines the request calls for, all of them when it
    returns true, and then the driver remembers the header size and the two
    ids. *)
Lemma tx_packet_ok (req_id rsp_id len : Z) (d : list Z) (w : world) :
  wf w -> 0 <= len <= 15 ->
  driver_ok w = true -> op_state w = OP_ST_CONNECTED ->
  exists w' (b : bool) (k : nat),
    _can_driver_elm327_tx_packet E req_id rsp_id len d w = Done (w', b) /\
    wf w' /\
    lines_of (log w')
    = lines_of (log w) ++ take k (expected_lines req_id rsp_id len d w) /\
    (b = true -> k = length (expected_lines req_id rsp_id len d w)) /\
    (k <= length (expected_lines req_id rsp_id len d w))%nat /\
    (k = length (expected_lines req_id rsp_id len d w) ->
     driver_ok w' = true /\
     cache w' = (header_size_of req_id, req_id, rsp_id)).
Proof.
  intros Hwf Hlen Hdrv Hop.
  unfold _can_driver_elm327_tx_packet, expected_lines.
  rewrite Hdrv, Hop. simpl negb. simpl orb. cbv iota.
  replace (len <? 0) with false by (symmetry; apply Z.ltb_ge; lia).
  replace (15 <? len) with false by (symmetry; apply Z.ltb_ge; lia).
  simpl orb. cbv iota. cbv zeta. fold (header_size_of req_id).
  set (hs := header_size_of req_id).
  set (LA := if (prev_header_size w =? HEADER_SIZE_UNDEF)
                || negb (prev_header_size w =? hs)
             then [attp_cmd hs w] else []).
  set (LH := if negb (req_id =? prev_req_id w) then header_cmds req_id hs w else []).
  set (LC := if negb (rsp_id =? prev_rsp_id w)
             then [String.append "ATCRA" (sprintf_lx rsp_id)] else []).
  (* the protocol switch *)
  assert (S1 : exists w1 (b1 : bool) (k1 : nat),
     (if (prev_header_size w =? HEADER_SIZE_UNDEF) || negb (prev_header_size w =? hs)
      then tx_at_cmds E [attp_cmd hs (set_prev_header_size hs w)]
                      (set_prev_header_size hs w)
      else Done (w, true)) = Done (w1, b1) /\
     wf w1 /\ driver_ok w1 = true /\ can_500k w1 = can_500k w /\
     elm327_is_v15 w1 = elm327_is_v15 w /\
     prev_req_id w1 = prev_req_id w /\ prev_rsp_id w1 = prev_rsp_id w /\
     lines_of (log w1) = lines_of (log w) ++ take k1 LA /\
     (k1 <= length LA)%nat /\
     (b1 = true -> k1 = length LA /\ prev_header_size w1 = hs)).
  { assert (Hsend : exists w1 (b1 : bool) (k1 : nat),
       tx_at_cmds E [attp_cmd hs (set_prev_header_size hs w)]
                  (set_prev_header_size hs w) = Done (w1, b1) /\
       wf w1 /\ driver_ok w1 = true /\ can_500k w1 = can_500k w /\
       elm327_is_v15 w1 = elm327_is_v15 w /\
       prev_req_id w1 = prev_req_id w /\ prev_rsp_id w1 = prev_rsp_id w /\
       lines_of (log w1) = lines_of (log w) ++ take k1 [attp_cmd hs w] /\
       (k1 <= length [attp_cmd hs w])%nat /\
       (b1 = true -> k1 = length [attp_cmd hs w] /\ prev_header_size w1 = hs)).
    { destruct (tx_at_cmds_ok [attp_cmd hs (set_prev_header_size hs w)]
                  (set_prev_header_size hs w) Hwf Hdrv)
        as (w1 & b1 & k1 & E1 & W1 & C1 & L1 & K1 & B1 & _).
      apply cfg_inv in C1 as (D1 & D2 & _ & D4 & D5 & D6 & D7).
      simpl in D1, D2, D4, D5, D6, D7.
      exists w1, b1, k1. split; [exact E1|]. splits; try assumption; try congruence.
      intros Hb. split; [now apply K1|exact D4]. }
    unfold LA.
    destruct (Z.eqb_spec (prev_header_size w) HEADER_SIZE_UNDEF) as [Hu|Hu]; simpl orb;
      cbv iota; [exact Hsend|].
    destruct (Z.eqb_spec (prev_header_size w) hs) as [He|He]; simpl negb; cbv iota;
      [|exact Hsend].
    exists w, true, 0%nat. split; [reflexivity|]. simpl take. rewrite app_nil_r.
    splits; try assumption; try reflexivity; try (simpl; lia). }
  destruct S1 as (w1 & b1 & k1 & E1 & W1 & D1 & C1 & V1 & Q1 & R1 & L1 & B1 & K1).
  rewrite E1. cbn [bind fst snd].
  destruct b1; simpl negb; cbv iota.
  2:{ exists w1, false, k1. split; [reflexivity|]. split; [exact W1|].
      split; [|split; [discriminate|split; rewrite !length_app; simpl; lia]].
      rewrite L1. f_equal. apply take_app_exact. exact B1. }
  destruct (K1 eq_refl) as [-> P1]. rewrite firstn_all in L1.
  (* the header commands *)
  assert (S2 : exists w2 (b2 : bool) (k2 : nat),
     (if negb (req_id =? prev_req_id w1)
      then do r <- tx_at_cmds E (header_cmds req_id hs w1) w1;
           if snd r then Done (set_prev_req_id req_id (fst r), true)
           else Done (fst r, false)
      else Done (w1, true)) = Done (w2, b2) /\
     wf w2 /\ driver_ok w2 = true /\ elm327_is_v15 w2 = elm327_is_v15 w /\
     prev_rsp_id w2 = prev_rsp_id w /\
     lines_of (log w2) = lines_of (log w1) ++ take k2 LH /\
     (k2 <= length LH)%nat /\
     (b2 = true -> k2 = length LH /\ prev_header_size w2 = hs /\
                   prev_req_id w2 = req_id)).
  { unfold LH. rewrite Q1.
    replace (header_cmds req_id hs w1) with (header_cmds req_id hs w)
      by (unfold header_cmds; rewrite V1; reflexivity).
    destruct (Z.eqb_spec req_id (prev_req_id w)) as [He|He]; simpl negb; cbv iota.
    - exists w1, true, 0%nat. split; [reflexivity|]. simpl take. rewrite app_nil_r.
      splits; try assumption; try reflexivity; try (simpl; lia);
        try (intros _; splits; [reflexivity|exact P1|congruence]).
    - destruct (tx_at_cmds_ok (header_cmds req_id hs w) w1 W1 D1)
        as (w2 & b2 & k2 & E2 & W2 & C2 & L2 & K2 & B2 & _).
      rewrite E2. cbn [bind fst snd].
      apply cfg_inv in C2 as (F1 & F2 & _ & F4 & F5 & F6 & F7).
      destruct b2.
      + exists (set_prev_req_id req_id w2), true, k2. split; [reflexivity|].
        specialize (K2 eq_refl). subst k2.
        splits; try exact W2; try (simpl; congruence); try (simpl; lia);
          try (intros _; splits; [reflexivity|simpl; congruence|reflexivity]).
      + exists w2, false, k2. split; [reflexivity|].
        splits; try exact W2; try congruence; try lia; try discriminate. }
  destruct S2 as (w2 & b2 & k2 & E2 & W2 & D2 & V2 & R2 & L2 & B2 & K2).
  rewrite E2. cbn [bind fst snd].
  destruct b2; simpl negb; cbv iota.
  2:{ exists w2, false, (length LA + k2)%nat. split; [reflexivity|]. split; [exact W2|].
      split; [|split; [discriminate|split; rewrite !length_app; simpl; lia]].
      rewrite L2, L1, <- app_assoc. f_equal.
      rewrite take_app_add'; [|reflexivity].
      f_equal. apply take_app_exact. exact B2. }
  destruct (K2 eq_refl) as (-> & P2 & Q2). rewrite firstn_all in L2.
  (* the receive address *)
  assert (S3 : exists w3 (b3 : bool) (k3 : nat),
     (if negb (rsp_id =? prev_rsp_id w2)
      then do r <- tx_at_cmds E [String.append "ATCRA" (sprintf_lx rsp_id)] w2;
           if snd r then Done (set_prev_rsp_id rsp_id (fst r), true)
           else Done (fst r, false)
      else Done (w2, true)) = Done (w3, b3) /\
     wf w3 /\ driver_ok w3 = true /\ elm327_is_v15 w3 = elm327_is_v15 w /\
     lines_of (log w3) = lines_of (log w2) ++ take k3 LC /\
     (k3 <= length LC)%nat /\
     (b3 = true -> k3 = length LC /\ prev_header_size w3 = hs /\
                   prev_req_id w3 = req_id /\ prev_rsp_id w3 = rsp_id)).
  { unfold LC. rewrite R2.
    destruct (Z.eqb_spec rsp_id (prev_rsp_id w)) as [He|He]; simpl negb; cbv iota.
    - exists w2, true, 0%nat. split; [reflexivity|]. simpl take. rewrite app_nil_r.
      splits; try assumption; try reflexivity; try (simpl; lia);
        try (intros _; splits; [reflexivity|exact P2|exact Q2|congruence]).
    - destruct (tx_at_cmds_ok [String.append "ATCRA" (sprintf_lx rsp_id)] w2 W2 D2)
        as (w3 & b3 & k3 & E3 & W3 & C3 & L3 & K3 & B3 & _).
      rewrite E3. cbn [bind fst snd].
      apply cfg_inv in C3 as (F1 & F2 & _ & F4 & F5 & F6 & F7).
      destruct b3.
      + exists (set_prev_rsp_id rsp_id w3), true, k3. split; [reflexivity|].
        specialize (K3 eq_refl). subst k3.
        splits; try exact W3; try exact L3; try (simpl; congruence); try (simpl; lia);
          try (intros _; splits; [reflexivity|simpl; congruence|simpl; congruence|reflexivity]).
      + exists w3, false, k3. split; [reflexivity|].
        splits; try exact W3; try congruence; try (simpl; lia); try discriminate. }
  destruct S3 as (w3 & b3 & k3 & E3 & W3 & D3 & V3 & L3 & B3 & K3).
  rewrite E3. cbn [bind fst snd].
  destruct b3; simpl negb; cbv iota.
  2:{ exists w3, false, (length LA + (length LH + k3))%nat.
      split; [reflexivity|]. split; [exact W3|].
      split; [|split; [discriminate|split; rewrite !length_app; simpl; lia]].
      rewrite L3, L2, L1, <- !app_assoc. f_equal.
      rewrite take_app_add'; [|reflexivity]. f_equal.
      rewrite take_app_add'; [|reflexivity]. f_equal.
      apply take_app_exact. exact B3. }
  destruct (K3 eq_refl) as (-> & P3 & Q3 & R3). rewrite firstn_all in L3.
  (* the request line *)
  replace (request_line len d w3) with (request_line len d w)
    by (unfold request_line; rewrite V3; reflexivity).
  destruct (tx_string_ok TX_ST_REQ_PKT (request_line len d w) w3 W3 ltac:(discriminate))
    as (w4 & b4 & t4 & E4 & W4 & C4 & _ & L4 & _).
  rewrite E4. rewrite D3 in L4.
  apply cfg_inv in C4 as (F1 & _ & _ & F4 & F5 & F6 & _).
  exists w4, b4, (length (LA ++ LH ++ LC ++ [request_line len d w])).
  split; [reflexivity|]. split; [exact W4|]. split.
  - rewrite firstn_all, L4, L3, L2, L1, <- !app_assoc. reflexivity.
  - split; [reflexivity|]. split; [lia|]. intros _. split; [congruence|].
    unfold cache. congruence.
Qed.

Lemma header_size_of_cases (req_id : Z) :
  header_size_of req_id = HEADER_SIZE_11 \/ header_size_of req_id = HEADER_SIZE_29.
Proof. unfold header_size_of. destruct (_ >? _); auto. Qed.

(** With the header size and both ids remembered, a request goes straight
    to its request line. *)
Lemma tx_packet_hit (req_id rsp_id len : Z) (d : list Z) (w : world) :
  0 <= len <= 15 ->
  driver_ok w = true -> op_state w = OP_ST_CONNECTED ->
  cache w = (header_size_of req_id, req_id, rsp_id) ->
  _can_driver_elm327_tx_packet E req_id rsp_id len d w
  = _can_driver_elm327_tx_string E TX_ST_REQ_PKT (request_line len d w) w.
Proof.
  intros Hlen Hdrv Hop Hc. unfold cache in Hc.
  pose proof (f_equal (fun x => fst (fst x)) Hc) as C1.
  pose proof (f_equal (fun x => snd (fst x)) Hc) as C2.
  pose proof (f_equal snd Hc) as C3. simpl in C1, C2, C3.
  unfold _can_driver_elm327_tx_packet. rewrite Hdrv, Hop. simpl orb. cbv iota.
  replace (len <? 0) with false by (symmetry; apply Z.ltb_ge; lia).
  replace (15 <? len) with false by (symmetry; apply Z.ltb_ge; lia).
  simpl orb. cbv iota zeta. fold (header_size_of req_id).
  rewrite C1, Z.eqb_refl.
  replace (header_size_of req_id =? HEADER_SIZE_UNDEF) with false
    by (destruct (header_size_of_cases req_id) as [-> | ->]; reflexivity).
  cbn [orb negb bind fst snd]. rewrite C2, Z.eqb_refl.
  cbn [orb negb bind fst snd]. rewrite C3, Z.eqb_refl.
  cbn [orb negb bind fst snd]. reflexivity.
Qed.

(** C8. When a request has been transmitted, its lines up to and
    including the request line handed to the interface, and a second
    request with the same request id and the same response id (hence the
    same header size) follows while the driver is connected and its
    settings are as the first request left them, the second request hands
    exactly one line to the interface, and that line is the hex encoding of
    its payload: two upper-case hex digits for each byte, the high digit
    first, for all [len2] bytes, or, for an adapter that announced version
    1.5, for the bytes up to the last one that is not zero. No ATTP, ATSH,
    ATCP, ATFCSH or ATCRA line is sent. *)
Theorem same_ids_send_only_request_line
        (req_id rsp_id len1 len2 : Z) (d1 d2 : list Z) (w w1 w1' : world) (b1 : bool) :
  wf w -> 0 <= len1 <= 15 -> driver_ok w = true -> op_state w = OP_ST_CONNECTED ->
  _can_driver_elm327_tx_packet E req_id rsp_id len1 d1 w = Done (w1, b1) ->
  lines_of (log w1)
  = lines_of (log w) ++ expected_lines req_id rsp_id len1 d1 w ->
  wf w1' -> cfg w1' = cfg w1 -> op_state w1' = OP_ST_CONNECTED ->
  0 <= len2 <= 15 ->
  len2 <= Z.of_nat (length d2) -> Forall (fun b => 0 <= b < 256) d2 ->
  exists w2 b2 k,
    _can_driver_elm327_tx_packet E req_id rsp_id len2 d2 w1' = Done (w2, b2) /\
    lines_of (log w2)
    = lines_of (log w1') ++ [hex_encoding (take (Z.to_nat k) d2)] /\
    hex_encoding (take (Z.to_nat k) d2) = request_line len2 d2 w1' /\
    0 <= k <= len2 /\
    (elm327_is_v15 w1' = false -> k = len2) /\
    (elm327_is_v15 w1' = true ->
     (0 < k -> rd d2 (k - 1) <> 0) /\ forall j, k <= j < len2 -> rd d2 j = 0).
Proof.
  intros Hwf Hl1 Hdrv Hop Hfirst Hlines Hwf' Hcfg Hop' Hl2 Hd2 Hbytes.
  destruct (tx_packet_ok req_id rsp_id len1 d1 w Hwf Hl1 Hdrv Hop)
    as (w' & b & k & E1 & _ & L1 & _ & Hk & Hcache).
  rewrite Hfirst in E1. injection E1 as <- <-.
  rewrite Hlines in L1. apply app_inv_head in L1.
  assert (Hfull : k = length (expected_lines req_id rsp_id len1 d1 w)).
  { apply (f_equal length) in L1. rewrite length_take in L1. lia. }
  destruct (Hcache Hfull) as [Hd1 Hc1].
  apply cfg_inv in Hcfg as (F1 & _ & _ & F4 & F5 & F6 & _).
  assert (Hc' : cache w1' = (header_size_of req_id, req_id, rsp_id)).
  { rewrite <- Hc1. unfold cache. congruence. }
  rewrite (tx_packet_hit req_id rsp_id len2 d2 w1' Hl2 ltac:(congruence) Hop' Hc').
  destruct (tx_string_ok TX_ST_REQ_PKT (request_line len2 d2 w1') w1' Hwf'
              ltac:(discriminate))
    as (w2 & b2 & t2 & E2 & _ & _ & _ & L2 & _).
  destruct (request_line_encodes len2 d2 w1' ltac:(lia) Hbytes)
    as (k2 & Hline & Hk2 & Hplain & Hv15).
  exists w2, b2, k2. split; [exact E2|]. split.
  { rewrite L2, <- Hline. replace (driver_ok w1') with true by congruence. reflexivity. }
  split; [symmetry; exact Hline|]. split; [exact Hk2|]. split; [exact Hplain|exact Hv15].
Qed.

(** The number of 10 ms delays a countdown from [to_count] lasts. *)
Definition countdown_ticks (to_count : Z) : nat :=
  Z.to_nat (Z.max 1 ((to_count + 9) / 10)).

Lemma spin_exit (fuel : nat) (pkt_state to_count : Z) (w : world) :
  tx_state w <> pkt_state -> spin E (S fuel) pkt_state to_count w = Done w.
Proof.
  intros H. simpl. destruct (Z.eqb_spec (tx_state w) pkt_state); [contradiction|].
  reflexivity.
Qed.

(** With nothing arriving, the wait runs the countdown out. *)
Lemma spin_quiet (fuel : nat) :
  forall (pkt_state to_count : Z) (w : world),
    tx_state w = pkt_state -> pkt_state <> TX_ST_TIMEOUT ->
    (forall j, (j < countdown_ticks to_count)%nat -> async E (clock w + j) = []) ->
    (countdown_ticks to_count + 1 <= fuel)%nat ->
    exists w', spin E fuel pkt_state to_count w = Done w' /\
               tx_state w' = TX_ST_TIMEOUT /\
               clock w' = (clock w + countdown_ticks to_count)%nat /\
               log w' = log w /\ cfg w' = cfg w /\ op_state w' = op_state w /\
               (wf w -> wf w').
Proof.
  induction fuel as [|fuel IH]; intros pkt T w Hst Hpkt Hq Hfuel; [lia|].
  simpl spin. rewrite Hst, Z.eqb_refl. unfold delay_tick.
  assert (H0 : async E (clock w) = []).
  { rewrite <- (Hq 0%nat) by (unfold countdown_ticks; lia). f_equal. lia. }
  rewrite H0. simpl run_asyncs. simpl bind.
  destruct (Z.leb_spec (T - 10) 0) as [Hle|Hgt].
  - assert (Hc : countdown_ticks T = 1%nat).
    { unfold countdown_ticks.
      assert ((T + 9) / 10 <= 1).
      { apply Z.lt_succ_r. apply Z.div_lt_upper_bound; lia. }
      lia. }
    destruct fuel as [|fuel]; [lia|].
    rewrite spin_exit by (simpl; congruence).
    eexists. split; [reflexivity|]. simpl. rewrite Hc.
    splits; try reflexivity; try lia. intros H; exact H.
  - assert (Hc : countdown_ticks T = S (countdown_ticks (T - 10))).
    { unfold countdown_ticks.
      assert ((T + 9) / 10 = (T - 10 + 9) / 10 + 1).
      { replace (T + 9) with ((T - 10 + 9) + 1 * 10) by lia.
        rewrite Z.div_add by lia. reflexivity. }
      assert (1 <= (T - 10 + 9) / 10).
      { apply Z.div_le_lower_bound; lia. }
      lia. }
    destruct (IH pkt (T - 10) (set_clock (S (clock w)) w))
      as (w' & E' & S' & C' & L' & G' & O' & W').
    + exact Hst.
    + exact Hpkt.
    + intros j Hj. simpl clock.
      replace (S (clock w) + j)%nat with (clock w + S j)%nat by lia.
      apply Hq. lia.
    + lia.
    + exists w'. split; [exact E'|]. simpl in C', L', G', O'.
      splits; try assumption; try lia.
Qed.

(** C9. A line send whose countdown of 10 x req_timeout_ms runs out with
    nothing arriving reports the timeout upward once and returns true, one
    countdown later; so does a request whose ids are the remembered ones:
    the request returns true although it timed out. Whatever arrives, a
    line send that returns false has reported no timeout. The countdown is
    ten times the request timeout given at initialisation. *)
Theorem timed_out_send_returns_true (pkt_state : Z) (s : string) (w : world) :
  wf w -> driver_ok w = true ->
  pkt_state = TX_ST_AT_CMD \/ pkt_state = TX_ST_REQ_PKT ->
  tx_line_ok E (clock w) = true ->
  (forall j, (j < countdown_ticks (timeout_msec w))%nat ->
             async E (clock w + j) = []) ->
  (exists w',
     _can_driver_elm327_tx_string E pkt_state s w = Done (w', true) /\
     errors_of (log w') = errors_of (log w) ++ [CAN_ERRNO_TIMEOUT] /\
     lines_of (log w') = lines_of (log w) ++ [s] /\
     clock w' = (clock w + countdown_ticks (timeout_msec w))%nat /\
     tx_state w' = TX_ST_IDLE) /\
  (forall req_id rsp_id len d,
     0 <= len <= 15 -> op_state w = OP_ST_CONNECTED ->
     cache w = (header_size_of req_id, req_id, rsp_id) ->
     exists w',
       _can_driver_elm327_tx_packet E req_id rsp_id len d w = Done (w', true) /\
       errors_of (log w') = errors_of (log w) ++ [CAN_ERRNO_TIMEOUT]) /\
  (forall pkt' s' w0 w',
     wf w0 -> pkt' <> TX_ST_TIMEOUT ->
     _can_driver_elm327_tx_string E pkt' s' w0 = Done (w', false) ->
     errors_of (log w') = errors_of (log w0)) /\
  (forall req_timeout can_is_500k garbage c,
     timeout_msec (_can_driver_elm327_init req_timeout can_is_500k garbage c)
     = 10 * req_timeout).
Proof.
  intros Hwf Hdrv Hpkt Hline Hquiet.
  assert (Hsend : forall pkt s0, pkt = TX_ST_AT_CMD \/ pkt = TX_ST_REQ_PKT ->
    exists w',
     _can_driver_elm327_tx_string E pkt s0 w = Done (w', true) /\
     errors_of (log w') = errors_of (log w) ++ [CAN_ERRNO_TIMEOUT] /\
     lines_of (log w') = lines_of (log w) ++ [s0] /\
     clock w' = (clock w + countdown_ticks (timeout_msec w))%nat /\
     tx_state w' = TX_ST_IDLE).
  { intros pkt s0 Hp.
    assert (Hne : pkt <> TX_ST_TIMEOUT) by (destruct Hp; subst; discriminate).
    unfold _can_driver_elm327_tx_string. rewrite Hdrv, Hline. simpl negb. cbv iota zeta.
    destruct (spin_quiet (spin_fuel (timeout_msec w)) pkt (timeout_msec w)
                (set_tx_state pkt (add_log (TxLine s0) w)))
      as (w2 & E2 & S2 & C2 & L2 & _).
    - reflexivity.
    - exact Hne.
    - exact Hquiet.
    - unfold spin_fuel, countdown_ticks.
      assert ((timeout_msec w + 9) / 10 <= timeout_msec w / 10 + 1).
      { replace (timeout_msec w + 9) with (timeout_msec w - 1 + 1 * 10) by lia.
        rewrite Z.div_add by lia.
        assert ((timeout_msec w - 1) / 10 <= timeout_msec w / 10)
          by (apply Z.div_le_mono; lia). lia. }
      lia.
    - rewrite E2. simpl bind. rewrite S2. simpl.
      eexists. split; [reflexivity|]. simpl.
      rewrite lines_of_app, errors_of_app, L2. simpl.
      rewrite lines_of_app, errors_of_app. simpl. rewrite !app_nil_r.
      splits; try reflexivity. exact C2. }
  splits.
  - apply Hsend. exact Hpkt.
  - intros req_id rsp_id len d Hlen Hop Hc.
    rewrite (tx_packet_hit req_id rsp_id len d w Hlen Hdrv Hop Hc).
    destruct (Hsend TX_ST_REQ_PKT (request_line len d w) (or_intror eq_refl))
      as (w' & E' & R' & _).
    exists w'. split; assumption.
  - intros pkt' s' w0 w' Hwf0 Hne Hs.
    destruct (tx_string_ok pkt' s' w0 Hwf0 Hne)
      as (w2 & b2 & t2 & E2 & _ & _ & _ & _ & R2 & Ht & _).
    rewrite Hs in E2. injection E2 as <- <-.
    destruct t2; [specialize (Ht eq_refl); discriminate|].
    rewrite R2, app_nil_r. reflexivity.
  - intros. simpl. lia.
Qed.

(** One pass of the initialisation: it hands an initial part of the
    command sequence to the interface and leaves the remembered header
    size and ids alone; it can only end connected by getting through the
    whole sequence. *)
Lemma init_pass_ok (w : world) :
  wf w -> driver_ok w = true ->
  exists w2 (k : nat),
    init_pass E w = Done w2 /\ wf w2 /\ driver_ok w2 = true /\
    cache w2 = cache w /\
    lines_of (log w2) = lines_of (log w) ++ take k elm327_init_cmd /\
    (op_state w2 = OP_ST_CONNECTED ->
     op_state w = OP_ST_CONNECTED \/ k = length elm327_init_cmd).
Proof.
  intros Hwf Hdrv. pose proof Hwf as (H1 & H2 & H3 & H4 & H5 & H6).
  unfold init_pass. rewrite wr_chk_done by lia. cbn [bind].
  set (w0 := set_elm327_version_string _ w).
  assert (W0 : wf w0).
  { unfold w0, wf. simpl. rewrite wr_length. splits; try assumption; lia. }
  destruct (tx_at_cmds_ok elm327_init_cmd w0 W0 Hdrv)
    as (w1 & b & k & E1 & W1 & C1 & L1 & K1 & _ & O1).
  rewrite E1. cbn [bind fst snd].
  apply cfg_inv in C1 as (D1 & _ & _ & D4 & D5 & D6 & _).
  simpl in D1, D4, D5, D6, L1.
  destruct b.
  - eexists _, k. split; [reflexivity|]. unfold cache. simpl.
    splits; try exact W1; try congruence.
    intros _. right. now apply K1.
  - destruct (delay_ticks_ok 100 w1 W1) as (w2 & E2 & W2 & T2 & O2).
    rewrite E2. apply tsig_inv in T2 as (C2 & L2 & _).
    apply cfg_inv in C2 as (F1 & _ & _ & F4 & F5 & F6 & _).
    exists w2, k. split; [reflexivity|]. unfold cache.
    splits; try exact W2; try congruence.
    intros H. left. apply O2 in H. apply O1 in H. exact H.
Qed.

(** Going down and up again, for every state and every adapter. When the
    stream adapter reports disconnected and then connected, the driver is
    in the initialising state and the remembered header size, request id
    and response id are as before. The next turn of the driver task is an
    initialisation pass, which leaves them alone as well; when it ends
    connected it has handed the whole command sequence to the interface,
    and a request with the remembered ids then sends only its request
    line. *)
Lemma reconnect_keeps_remembered_ids (w : world) :
  wf w -> driver_ok w = true ->
  let w1 := can_driver_elm327_set_connected true
              (can_driver_elm327_set_connected false w) in
  op_state w1 = OP_ST_INIT_ELM327 /\
  cache w1 = cache w /\
  exists w2,
    task_turn E w1 = Done w2 /\ wf w2 /\ driver_ok w2 = true /\
    cache w2 = cache w /\
    (op_state w2 = OP_ST_CONNECTED ->
     lines_of (log w2) = lines_of (log w) ++ elm327_init_cmd /\
     forall req_id rsp_id len d,
       0 <= len <= 15 ->
       cache w = (header_size_of req_id, req_id, rsp_id) ->
       exists w3 (b3 : bool),
         _can_driver_elm327_tx_packet E req_id rsp_id len d w2 = Done (w3, b3) /\
         lines_of (log w3) = lines_of (log w2) ++ [request_line len d w2]).
Proof.
  intros Hwf Hdrv w1.
  assert (Hw1 : w1 = set_op_state OP_ST_INIT_ELM327 (set_op_state OP_ST_DISCONNECTED w))
    by reflexivity.
  assert (W1 : wf w1) by (rewrite Hw1; exact Hwf).
  split; [rewrite Hw1; reflexivity|]. split; [rewrite Hw1; reflexivity|].
  unfold task_turn. replace (op_state w1) with OP_ST_INIT_ELM327 by (rewrite Hw1; reflexivity).
  simpl (_ =? _). cbv iota.
  destruct (init_pass_ok w1 W1) as (w2 & k & E2 & W2 & D2 & C2 & L2 & O2).
  { rewrite Hw1. exact Hdrv. }
  exists w2. split; [exact E2|]. split; [exact W2|]. split; [exact D2|].
  split; [rewrite C2, Hw1; reflexivity|].
  intros Hc. destruct (O2 Hc) as [Hbad|Hk].
  { rewrite Hw1 in Hbad. discriminate. }
  split.
  { rewrite L2, Hk, firstn_all, Hw1. reflexivity. }
  intros req_id rsp_id len d Hlen Hhit.
  assert (Hhit2 : cache w2 = (header_size_of req_id, req_id, rsp_id)).
  { rewrite C2, Hw1. exact Hhit. }
  rewrite (tx_packet_hit req_id rsp_id len d w2 Hlen D2 Hc Hhit2).
  destruct (tx_string_ok TX_ST_REQ_PKT (request_line len d w2) w2 W2 ltac:(discriminate))
    as (w4 & b4 & t4 & E4 & _ & _ & _ & L4 & _).
  exists w4, b4. split; [exact E4|]. rewrite L4, D2. reflexivity.
Qed.

End DriverFacts.

(** *** Scenarios *)

(** An adapter that answers within the first delay after each line: a
    single-frame response to the lines handed over at times 4 and 17, the
    two requests of the scenario below, and [OK] to every other line. And
    an adapter that never answers. *)
Definition E_trip : env :=
  mk_env (fun t => if Nat.eqb t 4 || Nat.eqb t 17
                   then [RxData (chars "03 62 2A F7" ++ [0x0D; ch ">"])]
                   else [RxData (chars "OK" ++ [0x0D; ch ">"])])
         (fun _ => true).

Definition E_silent : env := mk_env (fun _ => []) (fun _ => true).

Definition get {A : Type} (d : A) (r : res A) : A :=
  match r with
  | Done a => a
  | Fault _ => d
  end.

Definition w_boot : world :=
  _can_driver_elm327_init 500 true (replicate 1024 0)
    (CanManager.init_state 0x710 0x77A).

Lemma elm_init_wf (req_timeout : Z) (can_is_500k : bool) (garbage : list Z)
      (c : CanManager.can_state) :
  length garbage = 1024%nat ->
  wf (_can_driver_elm327_init req_timeout can_is_500k garbage c).
Proof.
  intros H. unfold wf. simpl.
  splits; try assumption; try lia; try reflexivity. constructor.
Qed.

Definition w_connected : world := set_op_state OP_ST_CONNECTED w_boot.

Lemma w_connected_wf : wf w_connected.
Proof. apply (elm_init_wf 500 true (replicate 1024 0)). reflexivity. Qed.

Definition req_data : list Z := [0x03; 0x22; 0x2A; 0xF7; 0x00; 0x00; 0x00; 0x00].

Definition first_request : res (world * bool) :=
  _can_driver_elm327_tx_packet E_trip 0x710 0x77A 8 req_data w_connected.

Definition w_after_first : world := fst (get (w_connected, false) first_request).

Example first_request_lines :
  snd (get (w_connected, false) first_request) = true /\
  lines_of (log w_after_first)
  = ["ATTP6"; "ATSH710"; "ATFCSH710"; "ATCRA77a"; "03222AF700000000"]%string /\
  payloads_of (log w_after_first) = [(0x77A, 3, [0x62; 0x2A; 0xF7])] /\
  clock w_after_first = 5%nat.
Proof. vm_compute. repeat split; reflexivity. Qed.

Lemma w_after_first_wf : wf w_after_first.
Proof.
  destruct (tx_packet_ok E_trip 0x710 0x77A 8 req_data w_connected w_connected_wf
              ltac:(lia) eq_refl eq_refl) as (w' & b & k & E1 & W1 & _).
  unfold w_after_first, first_request. rewrite E1. exact W1.
Qed.

Lemma req_data_bytes : Forall (fun b => 0 <= b < 256) req_data.
Proof. unfold req_data. repeat constructor; lia. Qed.

Lemma same_ids_send_only_request_line_witness :
  wf w_connected /\
  exists w2 b2,
    _can_driver_elm327_tx_packet E_trip 0x710 0x77A 8 req_data w_after_first
    = Done (w2, b2) /\
    lines_of (log w2)
    = lines_of (log w_after_first) ++ ["03222AF700000000"%string].
Proof.
  split; [exact w_connected_wf|].
  destruct (same_ids_send_only_request_line E_trip 0x710 0x77A 8 8 req_data req_data
              w_connected w_after_first w_after_first
              (snd (get (w_connected, false) first_request)))
    as (w2 & b2 & k & E2 & L2 & _ & _ & Hk & _).
  - exact w_connected_wf.
  - lia.
  - reflexivity.
  - reflexivity.
  - vm_compute. reflexivity.
  - vm_compute. reflexivity.
  - exact w_after_first_wf.
  - reflexivity.
  - vm_compute. reflexivity.
  - lia.
  - vm_compute. discriminate.
  - exact req_data_bytes.
  - exists w2, b2. split; [exact E2|].
    rewrite L2, (Hk ltac:(vm_compute; reflexivity)). reflexivity.
Defined.

(** An adapter in a car: it acknowledges the four set-up commands and
    answers the request with a two-frame response. *)
Definition E_car : env :=
  mk_env (fun t => if Nat.ltb t 4
                   then [RxData (chars "OK" ++ [0x0D; ch ">"])]
                   else [RxData (chars "10 0A 62 2A F7 01 02 03" ++ [0x0D]
                                 ++ chars "21 04 05 06 07 00 00 00" ++ [0x0D; ch ">"])])
         (fun _ => true).

Example request_and_two_frame_response :
  match can_tx_packet E_car 0x710 0x77A 8 req_data w_connected with
  | Done (w', b) =>
      b = true /\
      lines_of (log w')
      = ["ATTP6"; "ATSH710"; "ATFCSH710"; "ATCRA77a"; "03222AF700000000"]%string /\
      frames_of (log w')
      = [(0x77A, 8, [0x10; 0x0A; 0x62; 0x2A; 0xF7; 0x01; 0x02; 0x03]);
         (0x77A, 8, [0x21; 0x04; 0x05; 0x06; 0x07; 0x00; 0x00; 0x00])] /\
      payloads_of (log w')
      = [(0x77A, 10, [0x62; 0x2A; 0xF7; 0x01; 0x02; 0x03; 0x04; 0x05; 0x06; 0x07])] /\
      errors_of (log w') = [] /\
      clock w' = 5%nat
  | Fault _ => False
  end.
Proof. vm_compute. repeat split; reflexivity. Qed.

Definition w_short : world := set_timeout_msec 30 w_connected.

Lemma timed_out_send_returns_true_witness :
  wf w_short /\ driver_ok w_short = true /\
  exists w',
    _can_driver_elm327_tx_string E_silent TX_ST_REQ_PKT "0322" w_short
    = Done (w', true) /\
    errors_of (log w') = errors_of (log w_short) ++ [CAN_ERRNO_TIMEOUT] /\
    lines_of (log w') = lines_of (log w_short) ++ ["0322"%string] /\
    clock w' = (clock w_short + countdown_ticks (timeout_msec w_short))%nat /\
    tx_state w' = TX_ST_IDLE.
Proof.
  split; [exact w_connected_wf|]. split; [reflexivity|].
  apply (proj1 (timed_out_send_returns_true E_silent TX_ST_REQ_PKT "0322" w_short
                  w_connected_wf eq_refl (or_intror eq_refl) eq_refl
                  (fun j _ => eq_refl))).
Defined.

(** The request of before, after the link has gone down and come up and
    the driver has initialised the adapter again. *)
Definition w_reconnected : world :=
  get w_after_first
      (task_turn E_trip
         (can_driver_elm327_set_connected true
            (can_driver_elm327_set_connected false w_after_first))).

Definition second_request : res (world * bool) :=
  _can_driver_elm327_tx_packet E_trip 0x710 0x77A 8 req_data w_reconnected.

(** The link has come up again and the driver has not yet run. *)
Definition w_link_up_again : world :=
  can_driver_elm327_set_connected true
    (can_driver_elm327_set_connected false w_after_first).

(** C6 fails on the code. After a request with the ids 0x710 and 0x77A the
    link goes down and comes up again: the driver is in the initialising
    state, and the next turn of its task hands the whole initialisation
    sequence, the adapter reset ATZ first, to the interface and ends
    connected. Nothing on the way writes the remembered header size and
    ids, which are still those of the request before the link went down,
    so the same request sent next hands only its request line to the
    interface: neither ATSH nor ATCRA (nor ATTP, nor ATFCSH) goes to the
    adapter that has just been reset. *)
Lemma reconnect_does_not_reset_remembered_ids :
  op_state w_link_up_again = OP_ST_INIT_ELM327 /\
  op_state w_reconnected = OP_ST_CONNECTED /\
  lines_of (log w_reconnected)
  = ["ATTP6"; "ATSH710"; "ATFCSH710"; "ATCRA77a"; "03222AF700000000"]%string
    ++ ["ATZ"; "ATE0"; "ATCAF0"; "ATCFC1"; "ATM0"; "ATL0"; "ATH0"; "ATS1";
        "ATST7D"; "ATFCSH710"; "ATFCSD300000"; "ATFCSM1"]%string /\
  lines_of (log w_reconnected)
  = lines_of (log w_after_first) ++ elm327_init_cmd /\
  clock w_reconnected = 17%nat /\
  snd (get (w_reconnected, false) second_request) = true /\
  prev_header_size w_reconnected = HEADER_SIZE_11 /\
  prev_req_id w_reconnected = 0x710 /\
  prev_rsp_id w_reconnected = 0x77A /\
  lines_of (log (fst (get (w_reconnected, false) second_request)))
  = lines_of (log w_reconnected) ++ ["03222AF700000000"%string] /\
  ~ In "ATSH710"%string
       (skipn (length (lines_of (log w_reconnected)))
              (lines_of (log (fst (get (w_reconnected, false) second_request))))) /\
  ~ In "ATCRA77a"%string
       (skipn (length (lines_of (log w_reconnected)))
              (lines_of (log (fst (get (w_reconnected, false) second_request))))).
Proof.
  vm_compute. splits; try reflexivity.
  - intros [H|[]]. discriminate.
  - intros [H|[]]. discriminate.
Qed.

(** *** Hex digits *)

Lemma nibble_cases (n : Z) :
  exists k : nat, (k < 16)%nat /\ Z.land n 0x0F = Z.of_nat k.
Proof.
  exists (Z.to_nat (Z.land n 0x0F)).
  assert (0 <= Z.land n 0x0F < 16).
  { change 0x0F with (Z.ones 4). rewrite Z.land_ones by lia. apply Z.mod_pos_bound. lia. }
  lia.
Qed.

Lemma nibble_digit_ok (n : Z) :
  _can_driver_elm327_is_hex_char (ch (_can_driver_elm327_nibble_2_ascii n)) = true /\
  _can_driver_elm327_ascii_to_nibble (ch (_can_driver_elm327_nibble_2_ascii n))
  = Z.land n 0x0F.
Proof.
  unfold _can_driver_elm327_nibble_2_ascii.
  destruct (nibble_cases n) as (k & Hk & ->).
  do 16 (destruct k as [|k]; [vm_compute; split; reflexivity|]). lia.
Qed.

(** X11. The two conversions between a nibble and its hex digit undo each
    other: the digit [_can_driver_elm327_nibble_2_ascii] writes for a
    value is a hex character, and [_can_driver_elm327_ascii_to_nibble]
    reads the low four bits of that value back from it. *)
Theorem nibble_digit_round_trip (n : Z) :
  let c := ch (_can_driver_elm327_nibble_2_ascii n) in
  _can_driver_elm327_is_hex_char c = true /\
  _can_driver_elm327_ascii_to_nibble c = Z.land n 0x0F.
Proof. exact (nibble_digit_ok n). Qed.

(** *** Trailing zeros *)

Lemma hex_line_length (len : nat) (d : list Z) :
  forall i, String.length (hex_line len d i) = (2 * len)%nat.
Proof.
  induction len as [|len IH]; intros i; simpl; [reflexivity|].
  rewrite IH. lia.
Qed.

(** X12. For an adapter that has announced version 1.5 the request line stops
    after the last byte that is not zero: it holds two hex digits for each
    byte up to that one and none for the zero bytes that follow, and is
    empty when every byte is zero. For other adapters it holds two digits
    for each of the [len] bytes. *)
Theorem request_line_drops_trailing_zeros (len : Z) (d : list Z) (w : world) :
  0 <= len ->
  exists k,
    request_line len d w = hex_line (Z.to_nat k) d 0 /\
    String.length (request_line len d w) = Z.to_nat (2 * k) /\
    0 <= k <= len /\
    (elm327_is_v15 w = false -> k = len) /\
    (elm327_is_v15 w = true ->
     (0 < k -> rd d (k - 1) <> 0) /\ forall j, k <= j < len -> rd d j = 0).
Proof.
  intros Hlen. unfold request_line.
  destruct (elm327_is_v15 w).
  - destruct (strip_index_spec (Z.to_nat len) d (len - 1) ltac:(lia) ltac:(lia))
      as (R1 & R2 & R3).
    set (r := strip_index (Z.to_nat len) d (len - 1)) in *.
    exists (r + 1). split; [reflexivity|]. rewrite hex_line_length.
    split; [lia|]. split; [lia|]. split; [discriminate|]. intros _. split.
    + intros Hk. replace (r + 1 - 1) with r by lia. apply R2. lia.
    + intros j Hj. apply R3. lia.
  - exists len. split; [reflexivity|]. rewrite hex_line_length.
    split; [lia|]. split; [lia|]. split; [reflexivity|discriminate].
Qed.

Lemma request_line_drops_trailing_zeros_witness :
  exists k,
    request_line 8 req_data (set_elm327_is_v15 true w_connected)
    = hex_line (Z.to_nat k) req_data 0 /\
    String.length (request_line 8 req_data (set_elm327_is_v15 true w_connected))
    = Z.to_nat (2 * k) /\
    0 <= k <= 8.
Proof.
  destruct (request_line_drops_trailing_zeros 8 req_data
              (set_elm327_is_v15 true w_connected) ltac:(lia))
    as (k & H1 & H2 & H3 & _).
  exists k. auto.
Defined.

Example v15_request_line :
  request_line 8 req_data (set_elm327_is_v15 true w_connected) = "03222AF7"%string /\
  request_line 8 req_data w_connected = "03222AF700000000"%string /\
  request_line 3 [0; 0; 0] (set_elm327_is_v15 true w_connected) = ""%string.
Proof. vm_compute. repeat split; reflexivity. Qed.

(** *** Replies as the parser reads them *)

(** [can_driver_elm327_rx_data] for a character other than the prompt:
    the character is stored and the push index moves on. *)
Definition store_char (c : Z) (w : world) : world :=
  set_rx_buf_push_index
    (if rx_buf_push_index w + 1 >=? RX_BUFF_LEN then 0 else rx_buf_push_index w + 1)
    (set_rx_buf (wr (rx_buf w) (rx_buf_push_index w) c) w).

Definition store_chars (cs : list Z) (w : world) : world :=
  fold_left (fun st c => store_char c st) cs w.

(** The parse loop over a run of characters that holds no prompt. *)
Fixpoint parse_chars (cs : list Z) (w : world) (l : parse_locals)
  : res (world * parse_locals) :=
  match cs with
  | [] => Done (w, l)
  | c :: rest =>
      do r <- parse_char c (advance_pop w) l;
      parse_chars rest (fst r) (snd r)
  end.

(** Everything pushed has been parsed. *)
Definition drained (w : world) : Prop :=
  rx_buf_pop_index w = rx_buf_push_index w.

(** The characters the parser will read next. *)
Definition holds (w : world) (cs : list Z) : Prop :=
  forall (i : nat) (c : Z),
    cs !! i = Some c ->
    rd (rx_buf w) ((rx_buf_pop_index w + Z.of_nat i) mod 1024) = c.

Definition is_prompt (c : Z) : bool := c =? ch ">".

Lemma store_char_ok (c : Z) (w : world) :
  wf w ->
  wf (store_char c w) /\
  rx_buf (store_char c w) = wr (rx_buf w) (rx_buf_push_index w) c /\
  rx_buf_push_index (store_char c w) = (rx_buf_push_index w + 1) mod 1024 /\
  rx_buf_pop_index (store_char c w) = rx_buf_pop_index w.
Proof.
  intros (H1 & H2 & H3 & H4 & H5 & H6). unfold store_char, RX_BUFF_LEN, wf. simpl.
  rewrite wr_length.
  destruct (Z.geb_spec (rx_buf_push_index w + 1) 1024) as [Hge|Hlt].
  - replace (rx_buf_push_index w + 1) with 1024 by lia.
    repeat split; try assumption; try lia.
  - rewrite Z.mod_small by lia. repeat split; try assumption; try lia.
Qed.

Lemma push_char_plain (c : Z) (w : world) :
  wf w -> is_prompt c = false -> push_char c w = Done (store_char c w).
Proof.
  intros Hwf Hc. pose proof Hwf as (H1 & H2 & _).
  unfold push_char. rewrite wr_chk_done by lia. simpl bind.
  unfold is_prompt in Hc. rewrite Hc. reflexivity.
Qed.

Lemma push_char_prompt (w : world) :
  wf w ->
  push_char (ch ">") w = _can_driver_elm327_process_rx_buf (store_char (ch ">") w).
Proof.
  intros Hwf. pose proof Hwf as (H1 & H2 & _).
  unfold push_char. rewrite wr_chk_done by lia. reflexivity.
Qed.

Lemma store_chars_snoc (cs : list Z) (c : Z) (w : world) :
  store_chars (cs ++ [c]) w = store_char c (store_chars cs w).
Proof. unfold store_chars. rewrite fold_left_app. reflexivity. Qed.

Lemma store_chars_ok (cs : list Z) (w : world) :
  wf w -> (length cs <= 1024)%nat -> drained w ->
  wf (store_chars cs w) /\
  rx_buf_pop_index (store_chars cs w) = rx_buf_pop_index w /\
  rx_buf_push_index (store_chars cs w)
  = (rx_buf_pop_index w + Z.of_nat (length cs)) mod 1024 /\
  holds (store_chars cs w) cs.
Proof.
  intros Hwf. induction cs as [|c cs IH] using rev_ind; intros Hlen Hdr.
  - simpl. pose proof Hwf as (_ & _ & H3 & _).
    rewrite Z.add_0_r, Z.mod_small by lia.
    split; [exact Hwf|]. split; [reflexivity|]. split; [symmetry; exact Hdr|].
    intros i c Hi. discriminate.
  - rewrite length_app in Hlen. simpl in Hlen.
    destruct (IH ltac:(lia) Hdr) as (W & P & Q & Hh).
    rewrite store_chars_snoc.
    destruct (store_char_ok c _ W) as (W' & B' & Q' & P').
    pose proof W as (L1 & L2 & L3 & _).
    split; [exact W'|]. split; [congruence|]. split.
    + rewrite Q', Q, length_app. simpl. rewrite Zplus_mod_idemp_l. f_equal. lia.
    + intros i x Hi. rewrite B', P', P, Q. unfold rd, wr.
      pose proof Hwf as (_ & _ & H3 & _).
      assert (Hp : 0 <= (rx_buf_pop_index w + Z.of_nat (length cs)) mod 1024 < 1024)
        by (apply Z.mod_pos_bound; lia).
      assert (Hq : 0 <= (rx_buf_pop_index w + Z.of_nat i) mod 1024 < 1024)
        by (apply Z.mod_pos_bound; lia).
      destruct (Nat.eq_dec i (length cs)) as [->|Hne].
      * rewrite list_lookup_insert_eq by lia.
        rewrite lookup_app_r, Nat.sub_diag in Hi by lia. simpl in Hi.
        injection Hi as <-. reflexivity.
      * assert (Hil : (i < length cs)%nat).
        { apply lookup_lt_Some in Hi. rewrite length_app in Hi. simpl in Hi. lia. }
        rewrite lookup_app_l in Hi by lia.
        rewrite list_lookup_insert_ne.
        -- specialize (Hh i x Hi). rewrite P in Hh. exact Hh.
        -- intros Heq. apply Z2Nat.inj in Heq; try lia.
           assert (Hd : (Z.of_nat (length cs) - Z.of_nat i) mod 1024 = 0).
           { replace (Z.of_nat (length cs) - Z.of_nat i)
               with (rx_buf_pop_index w + Z.of_nat (length cs)
                     - (rx_buf_pop_index w + Z.of_nat i)) by lia.
             rewrite Zminus_mod, Heq, Z.sub_diag. reflexivity. }
           rewrite Z.mod_small in Hd by lia. lia.
Qed.

Lemma rx_data_app (a b : list Z) :
  forall w,
    can_driver_elm327_rx_data (a ++ b) w
    = do w1 <- can_driver_elm327_rx_data a w; can_driver_elm327_rx_data b w1.
Proof.
  induction a as [|c a IH]; intros w; simpl; [reflexivity|].
  destruct (push_char c w) as [w1|f]; simpl; [apply IH|reflexivity].
Qed.

Lemma rx_data_plain (cs : list Z) :
  forall w,
    wf w ->
    Forall (fun c => is_prompt c = false) cs ->
    can_driver_elm327_rx_data cs w = Done (store_chars cs w) /\ wf (store_chars cs w).
Proof.
  induction cs as [|c cs IH]; intros w Hwf Hcs; simpl; [auto|].
  pose proof (Forall_inv Hcs) as Hc. pose proof (Forall_inv_tail Hcs) as Hrest.
  simpl in Hc. rewrite push_char_plain by assumption. simpl bind.
  apply IH; [apply (store_char_ok c w Hwf)|exact Hrest].
Qed.

Lemma parse_chars_app (a b : list Z) :
  forall w l,
    parse_chars (a ++ b) w l
    = do r <- parse_chars a w l; parse_chars b (fst r) (snd r).
Proof.
  induction a as [|c a IH]; intros w l; simpl; [reflexivity|].
  destruct (parse_char c (advance_pop w) l) as [[w1 l1]|f]; simpl;
    [apply IH|reflexivity].
Qed.

(** The parse loop comes through any run of characters: the settings,
    the lines sent and the ring are as before, and the pop index has moved
    past the run. *)
Lemma parse_chars_ok (cs : list Z) :
  forall w l,
    wf w -> lwf l ->
    exists w' l',
      parse_chars cs w l = Done (w', l') /\ wf w' /\ lwf l' /\
      sig w' = sig w /\ ring w' = ring w /\
      rx_buf_pop_index w' = (rx_buf_pop_index w + Z.of_nat (length cs)) mod 1024.
Proof.
  induction cs as [|c cs IH]; intros w l Hwf Hl.
  - exists w, l. pose proof Hwf as (_ & _ & H3 & _). simpl.
    rewrite Z.add_0_r, Z.mod_small by lia. auto 10.
  - destruct (advance_pop_ok w Hwf) as (A1 & A2 & A3 & A4).
    destruct (parse_char_ok c (advance_pop w) l A1 Hl)
      as (w1 & l1 & E1 & (W1 & S1 & R1 & P1) & L1).
    destruct (IH w1 l1 W1 L1) as (w2 & l2 & E2 & W2 & L2 & S2 & R2 & P2).
    exists w2, l2. simpl parse_chars. rewrite E1. simpl bind.
    split; [exact E2|]. split; [exact W2|]. split; [exact L2|].
    split; [congruence|]. split; [congruence|].
    rewrite P2, P1, A4, Zplus_mod_idemp_l. f_equal. simpl length. lia.
Qed.

(** When the ring holds a run of characters without a prompt and then a
    prompt, the parse loop is the parse of the run followed by the steps
    after the loop. *)
Lemma parse_loop_reads (cs : list Z) :
  forall (fuel : nat) w l,
    wf w -> lwf l ->
    holds w (cs ++ [ch ">"]) ->
    Forall (fun c => is_prompt c = false) cs ->
    (length cs < fuel)%nat ->
    parse_loop fuel w l
    = do r <- parse_chars cs w l; Done (finish_parse (fst r) (snd r)).
Proof.
  induction cs as [|c cs IH]; intros fuel w l Hwf Hl Hh Hcs Hf;
    (destruct fuel as [|fuel]; [simpl in Hf; lia|]);
    pose proof Hwf as (H1 & H2 & H3 & _);
    simpl parse_loop; rewrite rd_chk_done by lia; simpl bind.
  - pose proof (Hh 0%nat (ch ">") eq_refl) as H0.
    rewrite Z.add_0_r, Z.mod_small in H0 by lia. rewrite H0, Z.eqb_refl.
    reflexivity.
  - pose proof (Hh 0%nat c eq_refl) as H0.
    rewrite Z.add_0_r, Z.mod_small in H0 by lia. rewrite H0.
    pose proof (Forall_inv Hcs) as Hc. pose proof (Forall_inv_tail Hcs) as Hrest.
    simpl in Hc. unfold is_prompt in Hc. rewrite Hc.
    destruct (advance_pop_ok w Hwf) as (A1 & A2 & A3 & A4).
    destruct (parse_char_ok c (advance_pop w) l A1 Hl)
      as (w1 & l1 & E1 & (W1 & S1 & R1 & P1) & L1).
    rewrite E1. simpl bind. apply IH; try assumption.
    + intros i x Hi. specialize (Hh (S i) x Hi).
      assert (Hb : rx_buf w1 = rx_buf w) by (unfold ring in *; congruence).
      rewrite Hb, P1, A4, Zplus_mod_idemp_l.
      replace (rx_buf_pop_index w + 1 + Z.of_nat i)
        with (rx_buf_pop_index w + Z.of_nat (S i)) by lia.
      exact Hh.
    + simpl in Hf. lia.
Qed.

(** A reply that ends with the prompt, received by a driver that has
    parsed everything before it: the characters are stored, and the parse
    loop runs over exactly this reply. *)
Lemma rx_reply (cs : list Z) (w : world) :
  wf w -> drained w ->
  Forall (fun c => is_prompt c = false) cs -> (length cs < 1024)%nat ->
  can_driver_elm327_rx_data (cs ++ [ch ">"]) w
  = do r <- parse_chars cs (store_chars (cs ++ [ch ">"]) w) init_locals;
    Done (finish_parse (fst r) (snd r)).
Proof.
  intros Hwf Hdr Hcs Hlen. rewrite rx_data_app.
  destruct (rx_data_plain cs w Hwf Hcs) as [E W]. rewrite E. simpl bind.
  simpl can_driver_elm327_rx_data. rewrite push_char_prompt by exact W.
  rewrite <- store_chars_snoc.
  destruct (store_chars_ok (cs ++ [ch ">"]) w Hwf) as (W2 & P2 & Q2 & H2);
    [rewrite length_app; simpl; lia|exact Hdr|].
  unfold _can_driver_elm327_process_rx_buf.
  assert (Hl : lwf init_locals).
  { unfold lwf, init_locals. simpl. repeat split; try lia; discriminate. }
  assert (Hf : (length cs < Z.to_nat RX_BUFF_LEN)%nat).
  { change (Z.to_nat RX_BUFF_LEN) with 1024%nat. lia. }
  rewrite (parse_loop_reads cs _ _ init_locals W2 Hl H2 Hcs Hf).
  destruct (parse_chars cs (store_chars (cs ++ [ch ">"]) w) init_locals)
    as [[w1 l1]|]; reflexivity.
Qed.

(** *** A line of data bytes *)

(** A byte as the adapter writes it: two hex digits, followed by a space
    when the adapter separates bytes (ATS1). *)
Definition byte_text (sp : bool) (b : Z) : list Z :=
  [ch (_can_driver_elm327_nibble_2_ascii (Z.shiftr b 4));
   ch (_can_driver_elm327_nibble_2_ascii (Z.land b 0x0F))]
  ++ (if sp then [ch " "] else []).

Definition hex_text (sp : bool) (bs : list Z) : list Z :=
  flat_map (byte_text sp) bs.

Definition advance_pops (k : nat) (w : world) : world :=
  Nat.iter k advance_pop w.

Lemma hex_char_plain (c : Z) :
  _can_driver_elm327_is_hex_char c = true ->
  (c =? 0x0D) || (c =? 0x0A) = false /\ is_prompt c = false /\ (c =? ch " ") = false.
Proof.
  unfold _can_driver_elm327_is_hex_char, is_prompt. intros H.
  change (ch "0") with 48 in H. change (ch "9") with 57 in H.
  change (ch "a") with 97 in H. change (ch "f") with 102 in H.
  change (ch "A") with 65 in H. change (ch "F") with 70 in H.
  change (ch ">") with 62. change (ch " ") with 32.
  assert (Hc : 48 <= c <= 57 \/ 97 <= c <= 102 \/ 65 <= c <= 70) by lia.
  repeat split; lia.
Qed.

Lemma byte_of_nibbles (b : Z) :
  0 <= b < 256 ->
  Z.lor (Z.shiftl (Z.land (Z.shiftr b 4) 0x0F) 4) (Z.land (Z.land b 0x0F) 0x0F) mod 256
  = b.
Proof.
  intros Hb.
  assert (Hk : exists k : nat, (k < 256)%nat /\ b = Z.of_nat k)
    by (exists (Z.to_nat b); lia).
  destruct Hk as (k & Hk & ->).
  do 256 (destruct k as [|k]; [reflexivity|]). lia.
Qed.

Lemma advance_pop_tx_state (w : world) : tx_state (advance_pop w) = tx_state w.
Proof. reflexivity. Qed.

Lemma advance_pops_tx_state (k : nat) (w : world) :
  tx_state (advance_pops k w) = tx_state w.
Proof. induction k as [|k IH]; [reflexivity|]. simpl. exact IH. Qed.

Lemma advance_pops_S (k : nat) (w : world) :
  advance_pops k (advance_pop w) = advance_pops (S k) w.
Proof.
  unfold advance_pops. induction k as [|k IH]; [reflexivity|].
  simpl in *. rewrite IH. reflexivity.
Qed.

Lemma advance_pops_add (j k : nat) (w : world) :
  advance_pops k (advance_pops j w) = advance_pops (j + k) w.
Proof.
  unfold advance_pops. rewrite Nat.add_comm. symmetry. apply Nat.iter_add.
Qed.

(** A hex digit on a request's reply line. *)
Lemma parse_hex_digit (v : Z) (w : world) (l : parse_locals) :
  tx_state w = TX_ST_REQ_PKT -> lwf l -> n l < 8 ->
  let c := ch (_can_driver_elm327_nibble_2_ascii v) in
  let l1 := if first_char l
            then mk_parse_locals (first_char l) (high_nibble l) (has_version l)
                                 true true (n l) (data l)
            else l in
  parse_char c w l
  = Done (w, if high_nibble l
             then mk_parse_locals false false (has_version l) (saw_data l1)
                    (success l1) (n l) (wr (data l) (n l) (Z.land v 0x0F))
             else mk_parse_locals false true (has_version l) (saw_data l1)
                    (success l1) (n l + 1)
                    (wr (data l) (n l)
                        (Z.lor (Z.shiftl (rd (data l) (n l)) 4) (Z.land v 0x0F)
                         mod 256))).
Proof.
  intros Ht (L1 & L2 & L3) Hn. cbv zeta.
  destruct (nibble_digit_ok v) as [Hhex Hval].
  destruct (hex_char_plain _ Hhex) as (P1 & _ & _).
  unfold parse_char. rewrite P1, Ht. simpl (_ =? _). cbv iota. rewrite Hhex.
  unfold store_nibble.
  destruct (first_char l), (high_nibble l); cbn [n high_nibble data first_char
    has_version saw_data success];
    replace (n l <? 8) with true by (symmetry; apply Z.ltb_lt; lia);
    repeat (first [rewrite rd_chk_done by lia | rewrite wr_chk_done by lia];
            simpl bind);
    rewrite Hval; reflexivity.
Qed.

(** One byte of a data line, with or without the space after it. *)
Lemma parse_byte (sp : bool) (b : Z) (w : world) (l : parse_locals) :
  tx_state w = TX_ST_REQ_PKT -> lwf l -> high_nibble l = true -> n l < 8 ->
  0 <= b < 256 ->
  parse_chars (byte_text sp b) w l
  = Done (advance_pops (length (byte_text sp b)) w,
          mk_parse_locals false true (has_version l)
            (saw_data l || first_char l) (success l || first_char l)
            (n l + 1) (wr (data l) (n l) b)).
Proof.
  intros Ht Hl Hh Hn Hb. pose proof Hl as (L1 & L2 & L3).
  unfold byte_text. cbn [app parse_chars].
  rewrite (parse_hex_digit (Z.shiftr b 4) (advance_pop w) l) by assumption.
  rewrite Hh. cbn [bind fst snd].
  set (l1 := mk_parse_locals false false _ _ _ _ _).
  rewrite (parse_hex_digit (Z.land b 0x0F) (advance_pop (advance_pop w)) l1);
    [|exact Ht| |exact Hn].
  2:{ unfold lwf, l1. simpl. rewrite wr_length. repeat split; try lia. }
  cbn [bind fst snd first_char high_nibble n data has_version saw_data success l1].
  assert (Hd : wr (wr (data l) (n l) (Z.land (Z.shiftr b 4) 15)) (n l)
                  (Z.lor (Z.shiftl (rd (wr (data l) (n l) (Z.land (Z.shiftr b 4) 15))
                                       (n l)) 4)
                         (Z.land (Z.land b 15) 15) mod 256)
               = wr (data l) (n l) b).
  { unfold rd, wr. rewrite list_insert_insert_eq.
    rewrite list_lookup_insert_eq by lia. simpl default.
    rewrite byte_of_nibbles by exact Hb. reflexivity. }
  rewrite Hd.
  assert (Hflags : forall (x : bool) (fc : bool),
            (if fc then true else x) = x || fc)
    by (intros [] []; reflexivity).
  destruct sp; cbn [app parse_chars length].
  - unfold parse_char at 1.
    change (ch " " =? 13) with false. change (ch " " =? 10) with false.
    cbn [orb]. cbv iota.
    replace (tx_state (advance_pop (advance_pop (advance_pop w)))) with TX_ST_REQ_PKT
      by (symmetry; exact Ht).
    change (TX_ST_REQ_PKT =? TX_ST_AT_CMD) with false.
    change (TX_ST_REQ_PKT =? TX_ST_REQ_PKT) with true.
    change (_can_driver_elm327_is_hex_char (ch " ")) with false.
    change (ch " " =? ch " ") with true. cbn [negb high_nibble bind fst snd].
    unfold set_first_char. cbn [first_char high_nibble n data has_version saw_data success].
    destruct (first_char l), (saw_data l), (success l); reflexivity.
  - destruct (first_char l), (saw_data l), (success l); reflexivity.
Qed.

(** The locals after the bytes [bs] of a data line. *)
Fixpoint after_bytes (l : parse_locals) (bs : list Z) : parse_locals :=
  match bs with
  | [] => l
  | b :: rest =>
      after_bytes (mk_parse_locals false true (has_version l)
                     (saw_data l || first_char l) (success l || first_char l)
                     (n l + 1) (wr (data l) (n l) b)) rest
  end.

Lemma parse_bytes (sp : bool) (bs : list Z) :
  forall w l,
    tx_state w = TX_ST_REQ_PKT -> lwf l -> high_nibble l = true ->
    n l + Z.of_nat (length bs) <= 8 ->
    Forall (fun b => 0 <= b < 256) bs ->
    parse_chars (hex_text sp bs) w l
    = Done (advance_pops (length (hex_text sp bs)) w, after_bytes l bs).
Proof.
  induction bs as [|b bs IH]; intros w l Ht Hl Hh Hn Hbs; [reflexivity|].
  pose proof Hl as (L1 & L2 & L3). simpl length in Hn.
  pose proof (Forall_inv Hbs) as Hb. pose proof (Forall_inv_tail Hbs) as Hrest.
  simpl in Hb. change (hex_text sp (b :: bs)) with (byte_text sp b ++ hex_text sp bs).
  rewrite parse_chars_app, (parse_byte sp b w l) by (try assumption; lia).
  cbn [bind fst snd]. rewrite IH.
  - rewrite advance_pops_add, length_app. reflexivity.
  - rewrite advance_pops_tx_state. exact Ht.
  - unfold lwf. simpl. rewrite wr_length. repeat split; try lia; discriminate.
  - reflexivity.
  - simpl. lia.
  - exact Hrest.
Qed.

Lemma after_bytes_fields (bs : list Z) :
  forall l,
    lwf l -> n l + Z.of_nat (length bs) <= 8 -> bs <> [] ->
    n (after_bytes l bs) = n l + Z.of_nat (length bs) /\
    saw_data (after_bytes l bs) = saw_data l || first_char l /\
    success (after_bytes l bs) = success l || first_char l /\
    length (data (after_bytes l bs)) = 8%nat /\
    take (Z.to_nat (n l) + length bs) (data (after_bytes l bs))
    = take (Z.to_nat (n l)) (data l) ++ bs.
Proof.
  induction bs as [|b bs IH]; intros l (L1 & L2 & L3) Hn Hne; [contradiction|].
  simpl length in Hn.
  set (l1 := mk_parse_locals false true (has_version l)
               (saw_data l || first_char l) (success l || first_char l)
               (n l + 1) (wr (data l) (n l) b)).
  change (after_bytes l (b :: bs)) with (after_bytes l1 bs).
  assert (Hl1 : lwf l1).
  { unfold lwf, l1. simpl. rewrite wr_length. repeat split; try lia; discriminate. }
  assert (Hn1 : Z.to_nat (n l1) = S (Z.to_nat (n l))) by (unfold l1; simpl; lia).
  assert (Ht1 : take (Z.to_nat (n l1)) (data l1) = take (Z.to_nat (n l)) (data l) ++ [b]).
  { rewrite Hn1. unfold l1. cbn [data]. unfold wr.
    rewrite (take_S_r _ _ b) by (apply list_lookup_insert_eq; lia).
    rewrite take_insert_ge by lia. reflexivity. }
  destruct bs as [|b' bs].
  - change (after_bytes l1 []) with l1. simpl length.
    replace (Z.to_nat (n l) + 1)%nat with (Z.to_nat (n l1)) by lia.
    split; [unfold l1; simpl; lia|]. split; [reflexivity|]. split; [reflexivity|].
    split; [apply Hl1|exact Ht1].
  - destruct (IH l1 Hl1) as (I1 & I2 & I3 & I4 & I5).
    { unfold l1. cbn [n]. lia. }
    { discriminate. }
    rewrite I1, I2, I3.
    split; [unfold l1; cbn [n]; simpl length; lia|].
    split; [unfold l1; cbn [saw_data first_char]; apply orb_false_r|].
    split; [unfold l1; cbn [success first_char]; apply orb_false_r|].
    split; [exact I4|].
    replace (Z.to_nat (n l) + length (b :: b' :: bs))%nat
      with (Z.to_nat (n l1) + length (b' :: bs))%nat by (simpl length; lia).
    rewrite I5, Ht1, <- app_assoc. reflexivity.
Qed.

(** *** What a reply leaves behind *)

Lemma fold_actions_frames (acts : list CanManager.can_action) :
  forall w,
    frames_of (log (fold_left apply_can_action acts w)) = frames_of (log w).
Proof.
  induction acts as [|a acts IH]; intros w; simpl; [reflexivity|].
  rewrite IH. destruct a; simpl; try reflexivity.
  rewrite frames_of_app. simpl. apply app_nil_r.
Qed.

Lemma deliver_frame_frames (len : Z) (d : list Z) (w : world) :
  frames_of (log (deliver_frame len d w))
  = frames_of (log w) ++ [(prev_rsp_id w, len, take (Z.to_nat len) d)].
Proof.
  unfold deliver_frame. destruct (CanManager.can_rx_packet _ _ _ _) as [c' acts].
  rewrite fold_actions_frames. simpl. rewrite frames_of_app. reflexivity.
Qed.

Lemma fold_actions_tx_state (acts : list CanManager.can_action) :
  forall w,
    tx_state (fold_left apply_can_action acts w) = tx_state w \/
    tx_state (fold_left apply_can_action acts w) = TX_ST_IDLE.
Proof.
  induction acts as [|a acts IH]; intros w; simpl; [auto|].
  destruct (IH (apply_can_action w a)) as [H|H]; [|auto].
  rewrite H. destruct a; simpl; auto.
Qed.

Lemma finish_parse_log (w : world) (l : parse_locals) :
  log (finish_parse w l) = log w.
Proof.
  unfold finish_parse. cbv zeta.
  destruct (_ =? TX_ST_AT_CMD); [reflexivity|].
  destruct (_ =? TX_ST_REQ_PKT); [destruct (negb _)|]; reflexivity.
Qed.

Lemma store_chars_fields (cs : list Z) :
  forall w,
    tx_state (store_chars cs w) = tx_state w /\
    log (store_chars cs w) = log w /\
    prev_rsp_id (store_chars cs w) = prev_rsp_id w /\
    sig (store_chars cs w) = sig w.
Proof.
  induction cs as [|c cs IH]; intros w; [auto|].
  destruct (IH (store_char c w)) as (I1 & I2 & I3 & I4).
  change (store_chars (c :: cs) w) with (store_chars cs (store_char c w)).
  rewrite I1, I2, I3, I4. auto.
Qed.

Lemma advance_pops_fields (k : nat) (w : world) :
  log (advance_pops k w) = log w /\
  prev_rsp_id (advance_pops k w) = prev_rsp_id w.
Proof.
  induction k as [|k [I1 I2]]; [auto|]. simpl. auto.
Qed.

(** A reply that ends with the prompt, received by a driver that has
    parsed everything before it, comes through: the parse loop runs over
    this reply and no other character, the driver has again parsed
    everything, and the settings and the lines sent are as before. *)
Lemma rx_reply_ok (cs : list Z) (w : world) :
  wf w -> drained w ->
  Forall (fun c => is_prompt c = false) cs -> (length cs < 1024)%nat ->
  exists w1 l1,
    parse_chars cs (store_chars (cs ++ [ch ">"]) w) init_locals = Done (w1, l1) /\
    can_driver_elm327_rx_data (cs ++ [ch ">"]) w = Done (finish_parse w1 l1) /\
    wf (finish_parse w1 l1) /\ drained (finish_parse w1 l1) /\
    sig (finish_parse w1 l1) = sig w.
Proof.
  intros Hwf Hdr Hcs Hlen.
  destruct (store_chars_ok (cs ++ [ch ">"]) w Hwf) as (W0 & P0 & Q0 & _);
    [rewrite length_app; simpl; lia|exact Hdr|].
  destruct (parse_chars_ok cs (store_chars (cs ++ [ch ">"]) w) init_locals W0)
    as (w1 & l1 & E1 & W1 & L1 & S1 & R1 & P1).
  { unfold lwf, init_locals. simpl. repeat split; try lia; discriminate. }
  exists w1, l1. split; [exact E1|].
  rewrite rx_reply, E1 by assumption. split; [reflexivity|].
  destruct (finish_parse_ok w1 l1 W1) as (F1 & F2 & F3).
  split; [exact F1|]. split.
  - unfold drained.
    assert (Hpush : rx_buf_push_index (finish_parse w1 l1)
                    = rx_buf_push_index (store_chars (cs ++ [ch ">"]) w)).
    { unfold ring in *. congruence. }
    assert (Hpop : rx_buf_pop_index (finish_parse w1 l1)
                   = (rx_buf_pop_index w1 + 1) mod 1024).
    { destruct (advance_pop_ok w1 W1) as (_ & _ & _ & A4). rewrite <- A4.
      unfold finish_parse. cbv zeta.
      destruct (_ =? TX_ST_AT_CMD); [reflexivity|].
      destruct (_ =? TX_ST_REQ_PKT); [destruct (negb _)|]; reflexivity. }
    rewrite Hpush, Hpop, P1, Q0, P0, length_app, Zplus_mod_idemp_l. simpl length.
    f_equal. lia.
  - rewrite F2, S1. apply store_chars_fields.
Qed.

Lemma hex_text_plain (sp : bool) (bs : list Z) :
  Forall (fun c => is_prompt c = false) (hex_text sp bs) /\
  (length (hex_text sp bs) <= 3 * length bs)%nat.
Proof.
  induction bs as [|b bs [IH1 IH2]]; [split; [constructor|simpl; lia]|].
  change (hex_text sp (b :: bs)) with (byte_text sp b ++ hex_text sp bs).
  split.
  - apply Forall_app. split; [|exact IH1]. unfold byte_text.
    repeat constructor;
      try (apply (hex_char_plain _ (proj1 (nibble_digit_ok _)))).
    destruct sp; repeat constructor.
  - rewrite length_app. unfold byte_text. destruct sp; simpl length in *; lia.
Qed.

Lemma deliver_frame_tx_state (len : Z) (d : list Z) (w : world) :
  tx_state (deliver_frame len d w) = tx_state w \/
  tx_state (deliver_frame len d w) = TX_ST_IDLE.
Proof.
  unfold deliver_frame. destruct (CanManager.can_rx_packet _ _ _ _) as [c' acts].
  destruct (fold_actions_tx_state acts (set_can c' (add_log
              (CanRx (prev_rsp_id w) len (take (Z.to_nat len) d)) w))) as [H|H];
    [left|right]; exact H.
Qed.

Lemma store_chars_can (cs : list Z) :
  forall w, can (store_chars cs w) = can w.
Proof.
  induction cs as [|c cs IH]; intros w; [reflexivity|].
  change (store_chars (c :: cs) w) with (store_chars cs (store_char c w)).
  rewrite IH. reflexivity.
Qed.

Lemma advance_pops_can (k : nat) (w : world) : can (advance_pops k w) = can w.
Proof. induction k as [|k IH]; [reflexivity|]. simpl. exact IH. Qed.

(** The world a line of data bytes leaves: the frame is handed over in
    the parser's 8-byte array, from a world whose ISO-TP state and log are
    those before the reply. *)
Lemma data_line_parsed (sp : bool) (bs : list Z) (w : world) :
  wf w -> drained w -> tx_state w = TX_ST_REQ_PKT ->
  bs <> [] -> (length bs <= 8)%nat -> Forall (fun b => 0 <= b < 256) bs ->
  exists W2 d,
    can_driver_elm327_rx_data (hex_text sp bs ++ [0x0D; ch ">"]) w
    = Done (advance_pop (deliver_frame (Z.of_nat (length bs)) d W2)) /\
    take (length bs) d = bs /\
    log W2 = log w /\ prev_rsp_id W2 = prev_rsp_id w /\
    tx_state W2 = TX_ST_REQ_PKT /\ can W2 = can w /\
    wf (advance_pop (deliver_frame (Z.of_nat (length bs)) d W2)) /\
    drained (advance_pop (deliver_frame (Z.of_nat (length bs)) d W2)) /\
    sig (advance_pop (deliver_frame (Z.of_nat (length bs)) d W2)) = sig w.
Proof.
  intros Hwf Hdr Ht Hne Hlen Hbs.
  destruct (hex_text_plain sp bs) as [Hplain Hlen3].
  set (cs := hex_text sp bs ++ [0x0D]).
  assert (Hcs : Forall (fun c => is_prompt c = false) cs).
  { apply Forall_app. split; [exact Hplain|repeat constructor]. }
  assert (Hl : (length cs < 1024)%nat).
  { unfold cs. rewrite length_app. simpl. lia. }
  destruct (rx_reply_ok cs w Hwf Hdr Hcs Hl) as (w1 & l1 & E1 & E2 & W & D & S).
  replace (hex_text sp bs ++ [0x0D; ch ">"]) with (cs ++ [ch ">"])
    by (unfold cs; rewrite <- app_assoc; reflexivity).
  set (W0 := store_chars (cs ++ [ch ">"]) w) in *.
  destruct (store_chars_fields (cs ++ [ch ">"]) w) as (T0 & G0 & R0 & _).
  pose proof (store_chars_can (cs ++ [ch ">"]) w) as C0.
  fold W0 in T0, G0, R0, C0.
  assert (Hinit : lwf init_locals).
  { unfold lwf, init_locals. simpl. repeat split; try lia; discriminate. }
  unfold cs in E1. rewrite parse_chars_app in E1.
  rewrite (parse_bytes sp bs W0 init_locals) in E1;
    [|congruence|exact Hinit|reflexivity|simpl; lia|exact Hbs].
  destruct (after_bytes_fields bs init_locals Hinit ltac:(simpl; lia) Hne)
    as (B1 & B2 & B3 & B4 & B5).
  cbn [bind fst snd parse_chars] in E1. unfold parse_char in E1.
  change ((13 =? 13) || (13 =? 10)) with true in E1. cbv iota in E1.
  rewrite B2 in E1. cbn [init_locals saw_data first_char orb bind fst snd] in E1.
  injection E1 as <- <-.
  set (W2 := advance_pop (advance_pops (length (hex_text sp bs)) W0)) in *.
  assert (G2 : log W2 = log w /\ prev_rsp_id W2 = prev_rsp_id w /\
               tx_state W2 = TX_ST_REQ_PKT /\ can W2 = can w).
  { unfold W2. destruct (advance_pops_fields (length (hex_text sp bs)) W0) as [A1 A2].
    pose proof (advance_pops_can (length (hex_text sp bs)) W0) as A3.
    simpl. rewrite advance_pops_tx_state. split; [congruence|].
    split; [congruence|]. split; congruence. }
  destruct G2 as (G2 & R2 & T2 & C2).
  simpl n in B1. rewrite Z.add_0_l in B1.
  simpl Z.to_nat in B5. simpl in B5.
  set (lf := after_bytes init_locals bs) in *.
  assert (Hfin : finish_parse (deliver_frame (n lf) (data lf) W2)
                   (mk_parse_locals true true false false (success lf) 0 (data lf))
                 = advance_pop (deliver_frame (Z.of_nat (length bs)) (data lf) W2)).
  { unfold finish_parse. cbv zeta. cbn [success]. rewrite B3, B1.
    cbn [init_locals success first_char orb negb]. rewrite advance_pop_tx_state.
    destruct (deliver_frame_tx_state (Z.of_nat (length bs)) (data lf) W2) as [H|H];
      rewrite H, ?T2; reflexivity. }
  rewrite Hfin in *.
  exists W2, (data lf). split; [exact E2|]. split; [exact B5|].
  split; [exact G2|]. split; [exact R2|]. split; [exact T2|]. split; [exact C2|].
  split; [exact W|]. split; [exact D|exact S].
Qed.

(** X13. A reply to a request that is one line of data bytes, as two hex
    digits each with or without a space after them, then a carriage
    return and the prompt: the parser hands exactly one frame to the
    ISO-TP layer, on the response id of the request, holding exactly
    these bytes. Nothing is flagged as an error, and the driver has again
    parsed everything it received. The digits are those the driver itself
    writes in a request line, so what it writes it can read. *)
Theorem data_line_is_received_as_frame (sp : bool) (bs : list Z) (w : world) :
  wf w -> drained w -> tx_state w = TX_ST_REQ_PKT ->
  bs <> [] -> (length bs <= 8)%nat -> Forall (fun b => 0 <= b < 256) bs ->
  exists w',
    can_driver_elm327_rx_data (hex_text sp bs ++ [0x0D; ch ">"]) w = Done w' /\
    frames_of (log w')
    = frames_of (log w) ++ [(prev_rsp_id w, Z.of_nat (length bs), bs)] /\
    wf w' /\ drained w' /\
    (tx_state w' = TX_ST_REQ_PKT \/ tx_state w' = TX_ST_IDLE).
Proof.
  intros Hwf Hdr Ht Hne Hlen Hbs.
  destruct (data_line_parsed sp bs w Hwf Hdr Ht Hne Hlen Hbs)
    as (W2 & d & E2 & Hd & G2 & R2 & T2 & _ & W & D & _).
  eexists. split; [exact E2|]. split; [|split; [exact W|split; [exact D|]]].
  - change (log (advance_pop (deliver_frame (Z.of_nat (length bs)) d W2)))
      with (log (deliver_frame (Z.of_nat (length bs)) d W2)).
    rewrite deliver_frame_frames, G2, R2, Nat2Z.id, Hd. reflexivity.
  - rewrite advance_pop_tx_state.
    destruct (deliver_frame_tx_state (Z.of_nat (length bs)) d W2) as [H|H];
      [left; congruence|right; exact H].
Qed.

Lemma data_line_is_received_as_frame_witness :
  exists w',
    can_driver_elm327_rx_data
      (hex_text true [0x03; 0x62; 0x2A; 0xF7] ++ [0x0D; ch ">"]) w_parse = Done w' /\
    frames_of (log w')
    = frames_of (log w_parse) ++ [(prev_rsp_id w_parse, 4, [0x03; 0x62; 0x2A; 0xF7])] /\
    wf w' /\ drained w' /\
    (tx_state w' = TX_ST_REQ_PKT \/ tx_state w' = TX_ST_IDLE).
Proof.
  apply (data_line_is_received_as_frame true [0x03; 0x62; 0x2A; 0xF7] w_parse).
  - exact w_parse_wf.
  - reflexivity.
  - reflexivity.
  - discriminate.
  - simpl. lia.
  - repeat constructor; lia.
Defined.

(** *** Replies to AT commands *)

(** A character of a reply line: not a line end and not the prompt. *)
Definition in_line (c : Z) : bool :=
  negb ((c =? 0x0D) || (c =? 0x0A)) && negb (is_prompt c).

Lemma store_version_char_keeps (c : Z) (w w' : world) :
  store_version_char c w = Done w' ->
  log w' = log w /\ tx_state w' = tx_state w /\ parse_state w' = parse_state w.
Proof.
  unfold store_version_char. destruct (_ <? _); [|intros H; injection H as <-; auto].
  destruct (wr_chk _ _ _); simpl; [|discriminate]. intros H; injection H as <-; auto.
Qed.

Lemma proc_version_info_keeps (c : Z) (init : bool) (w w' : world) :
  _can_driver_elm327_proc_version_info c init w = Done w' ->
  log w' = log w /\ tx_state w' = tx_state w.
Proof.
  unfold _can_driver_elm327_proc_version_info.
  destruct init; [intros H; injection H as <-; auto|].
  assert (Hfin : forall r,
            (forall w1, r = Done w1 -> log w1 = log w /\ tx_state w1 = tx_state w) ->
            (do w1 <- r;
             do v <- wr_chk (elm327_version_string w1) (ver_index w1) 0;
             Done (set_elm327_version_string v w1)) = Done w' ->
            log w' = log w /\ tx_state w' = tx_state w).
  { intros [w1|f] Hr; simpl bind; [|discriminate].
    destruct (Hr w1 eq_refl) as [H1 H2].
    destruct (wr_chk _ _ _); simpl; [|discriminate].
    intros H; injection H as <-. auto. }
  assert (Hst : forall x w1, store_version_char x w = Done w1 ->
                             log w1 = log w /\ tx_state w1 = tx_state w).
  { intros x w1 E1. destruct (store_version_char_keeps x w w1 E1) as (K1 & K2 & _).
    auto. }
  apply Hfin. intros w1.
  destruct (parse_state w =? 0).
  { destruct (c =? ch "v"); intros H; injection H as <-; auto. }
  destruct (parse_state w =? 1).
  { destruct (is_digit c); [apply Hst|].
    destruct (c =? ch "."); [|intros H; injection H as <-; auto].
    destruct (store_version_char c w) as [w2|] eqn:E2; simpl bind; [|discriminate].
    intros H; injection H as <-. exact (Hst c w2 E2). }
  destruct (parse_state w =? 2).
  { destruct (is_digit c); [apply Hst|intros H; injection H as <-; auto]. }
  intros H; injection H as <-; auto.
Qed.

(** The characters of an AT reply line after the first: they can only
    feed the version string. *)
Lemma parse_at_rest (cs : list Z) :
  forall w l,
    wf w -> lwf l -> tx_state w = TX_ST_AT_CMD -> first_char l = false ->
    forallb in_line cs = true ->
    exists w' l',
      parse_chars cs w l = Done (w', l') /\
      log w' = log w /\ tx_state w' = TX_ST_AT_CMD /\
      first_char l' = false /\ success l' = success l /\ saw_data l' = saw_data l.
Proof.
  induction cs as [|c cs IH]; intros w l Hwf Hl Ht Hf Hcs.
  - exists w, l. simpl. auto 10.
  - simpl in Hcs. apply andb_true_iff in Hcs as [Hc Hrest].
    unfold in_line in Hc. apply andb_true_iff in Hc as [Hc _].
    apply negb_true_iff in Hc.
    destruct (advance_pop_ok w Hwf) as (A1 & _).
    destruct (parse_char_ok c (advance_pop w) l A1 Hl)
      as (w1 & l1 & E1 & (W1 & _) & L1).
    assert (Hstep : log w1 = log w /\ tx_state w1 = TX_ST_AT_CMD /\
                    first_char l1 = false /\ success l1 = success l /\
                    saw_data l1 = saw_data l).
    { revert E1. unfold parse_char. rewrite Hc, advance_pop_tx_state, Ht, Hf.
      change (TX_ST_AT_CMD =? TX_ST_AT_CMD) with true. cbv iota.
      destruct (has_version l).
      - destruct (_can_driver_elm327_proc_version_info c false (advance_pop w))
          as [w2|] eqn:E2; simpl bind; [|discriminate].
        intros H. injection H as <- <-.
        destruct (proc_version_info_keeps c false _ _ E2) as [K1 K2].
        simpl in K1, K2. rewrite K1, K2. auto 10.
      - simpl bind. intros H. injection H as <- <-. simpl. auto 10. }
    destruct Hstep as (S1 & S2 & S3 & S4 & S5).
    destruct (IH w1 l1 W1 L1 S2 S3 Hrest) as (w2 & l2 & E2 & G2 & T2 & F2 & C2 & D2).
    exists w2, l2. simpl parse_chars. rewrite E1. simpl bind.
    split; [exact E2|]. split; [congruence|]. split; [exact T2|].
    split; [exact F2|]. split; congruence.
Qed.

(** The first character of an AT reply decides: [O] (of OK) and [E] (of
    ELM327) mean success. *)
Definition accepts (c : Z) : bool := (c =? ch "O") || (c =? ch "E").

Lemma parse_at_first (c : Z) (w : world) :
  wf w -> tx_state w = TX_ST_AT_CMD -> in_line c = true ->
  exists w' l',
    parse_char c w init_locals = Done (w', l') /\ wf w' /\ lwf l' /\
    log w' = log w /\ tx_state w' = TX_ST_AT_CMD /\
    first_char l' = false /\ success l' = accepts c /\ saw_data l' = false.
Proof.
  intros Hwf Ht Hc. unfold in_line in Hc. apply andb_true_iff in Hc as [Hc _].
  apply negb_true_iff in Hc.
  assert (Hl : lwf init_locals).
  { unfold lwf, init_locals. simpl. repeat split; try lia; discriminate. }
  destruct (parse_char_ok c w init_locals Hwf Hl) as (w1 & l1 & E1 & (W1 & _) & L1).
  exists w1, l1. split; [exact E1|]. split; [exact W1|]. split; [exact L1|].
  revert E1. unfold parse_char, accepts. rewrite Hc, Ht.
  change (TX_ST_AT_CMD =? TX_ST_AT_CMD) with true. cbn [first_char init_locals].
  cbv iota.
  destruct (Z.eqb_spec c (ch "O")) as [HO|HO].
  { subst c. simpl. intros H. injection H as <- <-. auto 10. }
  destruct (Z.eqb_spec c (ch "E")) as [HE|HE].
  { subst c. cbn [orb]. cbv iota.
    destruct (_can_driver_elm327_proc_version_info (ch "E") true w) as [w2|] eqn:E2;
      simpl bind; [|discriminate].
    intros H. injection H as <- <-.
    destruct (proc_version_info_keeps _ _ _ _ E2) as [K1 K2]. simpl.
    repeat split; try reflexivity; congruence. }
  cbn [orb]. cbv iota.
  destruct (c =? ch "?"); simpl bind; intros H; injection H as <- <-; simpl; auto 10.
Qed.

(** A one-line reply to an AT command, received while the command waits:
    the command is marked successful when the line starts with [O] or
    [E], and failed otherwise, whether the line is [?] or anything else;
    nothing is handed to the ISO-TP layer. *)
Lemma at_reply_parsed (c : Z) (rest : list Z) (w : world) :
  wf w -> drained w -> tx_state w = TX_ST_AT_CMD ->
  forallb in_line (c :: rest) = true -> (length rest < 1000)%nat ->
  exists w',
    can_driver_elm327_rx_data (c :: rest ++ [0x0D; ch ">"]) w = Done w' /\
    wf w' /\ drained w' /\ sig w' = sig w /\ log w' = log w /\
    tx_state w' = if accepts c then TX_ST_IDLE else TX_ST_ERROR.
Proof.
  intros Hwf Hdr Ht Hline Hlen.
  set (cs := c :: rest ++ [0x0D]).
  assert (Hcs : Forall (fun x => is_prompt x = false) cs).
  { unfold cs. apply Forall_cons. simpl in Hline.
    apply andb_true_iff in Hline as [Hc Hrest]. split.
    - unfold in_line in Hc. apply andb_true_iff in Hc as [_ Hc].
      now apply negb_true_iff in Hc.
    - apply Forall_app. split; [|repeat constructor].
      apply Forall_forall. intros x Hx.
      apply list_elem_of_In in Hx.
      pose proof (proj1 (forallb_forall in_line rest) Hrest x Hx) as H.
      unfold in_line in H. apply andb_true_iff in H as [_ H].
      now apply negb_true_iff in H. }
  assert (Hl : (length cs < 1024)%nat).
  { unfold cs. simpl. rewrite length_app. simpl. lia. }
  destruct (rx_reply_ok cs w Hwf Hdr Hcs Hl) as (w1 & l1 & E1 & E2 & W & D & S).
  replace (c :: rest ++ [0x0D; ch ">"]) with (cs ++ [ch ">"])
    by (unfold cs; simpl; rewrite <- app_assoc; reflexivity).
  exists (finish_parse w1 l1). split; [exact E2|]. split; [exact W|].
  split; [exact D|]. split; [exact S|].
  set (W0 := store_chars (cs ++ [ch ">"]) w) in *.
  destruct (store_chars_fields (cs ++ [ch ">"]) w) as (T0 & G0 & _ & _).
  fold W0 in T0, G0.
  destruct (store_chars_ok (cs ++ [ch ">"]) w Hwf) as (WW0 & _);
    [rewrite length_app; change (length [ch ">"]) with 1%nat; lia|exact Hdr|].
  fold W0 in WW0.
  simpl in Hline. apply andb_true_iff in Hline as [Hc Hrest].
  destruct (advance_pop_ok W0 WW0) as (A1 & _).
  destruct (parse_at_first c (advance_pop W0) A1 ltac:(simpl; congruence) Hc)
    as (w2 & l2 & P1 & W2 & L2 & G2 & T2 & F2 & S2 & D2).
  destruct (parse_at_rest rest w2 l2 W2 L2 T2 F2 Hrest)
    as (w3 & l3 & P3 & G3 & T3 & F3 & S3 & D3).
  unfold cs in E1. simpl parse_chars in E1. rewrite P1 in E1. simpl bind in E1.
  rewrite parse_chars_app, P3 in E1. cbn [bind fst snd parse_chars] in E1.
  unfold parse_char in E1. change ((13 =? 13) || (13 =? 10)) with true in E1.
  cbv iota in E1. rewrite D3, D2 in E1. cbn [bind fst snd] in E1.
  injection E1 as <- <-.
  split.
  - rewrite finish_parse_log. change (log (advance_pop w3)) with (log w3).
    change (log (advance_pop W0)) with (log W0) in G2. congruence.
  - unfold finish_parse. cbv zeta. rewrite advance_pop_tx_state.
    rewrite advance_pop_tx_state, T3.
    change (TX_ST_AT_CMD =? TX_ST_AT_CMD) with true. cbv iota. cbn [success].
    rewrite S3, S2. destruct (accepts c); reflexivity.
Qed.

(** *** A send that is answered *)

Lemma set_clock_same (w : world) : set_clock (clock w) w = w.
Proof. destruct w. reflexivity. Qed.

Lemma set_clock_twice (a b : nat) (w : world) :
  set_clock a (set_clock b w) = set_clock a w.
Proof. reflexivity. Qed.

Section ReplyFacts.

Variable E : env.

(** While nothing arrives and the countdown has not run out, the wait
    goes on. *)
Lemma spin_wait (m : nat) :
  forall (fuel : nat) (pkt_state to_count : Z) (w : world),
    tx_state w = pkt_state ->
    (forall j, (j < m)%nat -> async E (clock w + j) = []) ->
    10 * Z.of_nat m < to_count ->
    spin E (m + fuel) pkt_state to_count w
    = spin E fuel pkt_state (to_count - 10 * Z.of_nat m)
           (set_clock (clock w + m) w).
Proof.
  induction m as [|m IH]; intros fuel pkt T w Ht Hq HT.
  - simpl. rewrite Nat.add_0_r, set_clock_same, Z.sub_0_r. reflexivity.
  - simpl plus. simpl spin. rewrite Ht, Z.eqb_refl. unfold delay_tick.
    rewrite <- (Nat.add_0_r (clock w)), (Hq 0%nat) by lia. simpl run_asyncs.
    simpl bind. rewrite Nat.add_0_r.
    replace (T - 10 <=? 0) with false by (symmetry; apply Z.leb_gt; lia).
    rewrite IH.
    + simpl clock. rewrite set_clock_twice. f_equal; [lia|f_equal; lia].
    + exact Ht.
    + intros j Hj. simpl clock.
      replace (S (clock w) + j)%nat with (clock w + S j)%nat by lia.
      apply Hq. lia.
    + lia.
Qed.

(** A send whose reply arrives, after [m] delays in which nothing
    arrived, before the last delay of the countdown: it returns at once,
    false when the reply marked it failed and true otherwise, and reports
    no timeout. *)
Lemma tx_string_answered (pkt_state : Z) (s : string) (r : list Z) (m : nat)
      (w w1 : world) :
  driver_ok w = true -> tx_line_ok E (clock w) = true ->
  (forall j, (j < m)%nat -> async E (clock w + j) = []) ->
  async E (clock w + m) = [RxData r] ->
  10 * (Z.of_nat m + 1) < timeout_msec w ->
  can_driver_elm327_rx_data r
    (set_clock (clock w + m) (set_tx_state pkt_state (add_log (TxLine s) w)))
  = Done w1 ->
  tx_state w1 <> pkt_state -> tx_state w1 <> TX_ST_TIMEOUT ->
  _can_driver_elm327_tx_string E pkt_state s w
  = Done (set_tx_state TX_ST_IDLE (set_clock (S (clock w1)) w1),
          negb (tx_state w1 =? TX_ST_ERROR)).
Proof.
  intros Hdrv Hline Hq Hr HT Hrx Hne Hnt.
  unfold _can_driver_elm327_tx_string. rewrite Hdrv, Hline. simpl negb. cbv iota zeta.
  set (w0 := set_tx_state pkt_state (add_log (TxLine s) w)) in *.
  assert (Hfuel : exists f, spin_fuel (timeout_msec w) = (m + S (S f))%nat).
  { unfold spin_fuel.
    assert (Z.of_nat m + 1 <= timeout_msec w / 10)
      by (apply Z.div_le_lower_bound; lia).
    exists (Z.to_nat (timeout_msec w / 10) - m)%nat. lia. }
  destruct Hfuel as [f ->].
  rewrite spin_wait; [|reflexivity|exact Hq|lia].
  change (clock w0) with (clock w).
  set (W := set_clock (clock w + m) w0) in *.
  simpl spin. change (tx_state W) with pkt_state. rewrite Z.eqb_refl.
  unfold delay_tick. change (clock W) with (clock w + m)%nat. rewrite Hr.
  simpl run_asyncs. rewrite Hrx. simpl bind.
  replace (timeout_msec w - 10 * Z.of_nat m - 10 <=? 0) with false
    by (symmetry; apply Z.leb_gt; lia).
  replace (tx_state (set_clock (S (clock w1)) w1) =? pkt_state) with false
    by (symmetry; apply Z.eqb_neq; exact Hne).
  simpl bind.
  change (tx_state (set_clock (S (clock w1)) w1)) with (tx_state w1).
  replace (tx_state w1 =? TX_ST_TIMEOUT) with false
    by (symmetry; apply Z.eqb_neq; exact Hnt).
  destruct (tx_state w1 =? TX_ST_ERROR); reflexivity.
Qed.

(** X14. An AT command whose one-line reply arrives in time: the command
    succeeds exactly when the line starts with [O] (OK) or [E] (ELM327);
    a [?] and any other line make it fail. Either way the send returns as
    soon as the reply is there, having handed over its one line, and
    reports no timeout. *)
Theorem at_command_reply_decides (s : string) (c : Z) (rest : list Z) (m : nat)
        (w : world) :
  wf w -> drained w -> driver_ok w = true -> tx_line_ok E (clock w) = true ->
  (forall j, (j < m)%nat -> async E (clock w + j) = []) ->
  async E (clock w + m) = [RxData (c :: rest ++ [0x0D; ch ">"])] ->
  10 * (Z.of_nat m + 1) < timeout_msec w ->
  forallb in_line (c :: rest) = true -> (length rest < 1000)%nat ->
  exists w',
    _can_driver_elm327_tx_string E TX_ST_AT_CMD s w = Done (w', accepts c) /\
    lines_of (log w') = lines_of (log w) ++ [s] /\
    errors_of (log w') = errors_of (log w) /\
    frames_of (log w') = frames_of (log w) /\
    clock w' = S (clock w + m) /\ tx_state w' = TX_ST_IDLE /\
    wf w' /\ drained w'.
Proof.
  intros Hwf Hdr Hdrv Hline Hq Hr HT Hin Hlen.
  set (W := set_clock (clock w + m) (set_tx_state TX_ST_AT_CMD (add_log (TxLine s) w))).
  assert (HW : wf W).
  { destruct Hwf as (H1 & H2 & H3 & H4 & H5 & H6). unfold W, wf. simpl.
    repeat split; try assumption; try lia.
    apply Forall_app. split; [assumption|repeat constructor]. }
  destruct (at_reply_parsed c rest W HW Hdr eq_refl Hin Hlen)
    as (w1 & E1 & W1 & D1 & S1 & G1 & T1).
  assert (Hb : negb (tx_state w1 =? TX_ST_ERROR) = accepts c).
  { rewrite T1. destruct (accepts c); reflexivity. }
  rewrite (tx_string_answered TX_ST_AT_CMD s _ m w w1 Hdrv Hline Hq Hr HT E1), Hb.
  - eexists. split; [reflexivity|]. simpl. rewrite G1. unfold W. simpl.
    rewrite lines_of_app, errors_of_app, frames_of_app. simpl. rewrite !app_nil_r.
    apply sig_tsig in S1 as (_ & C1 & _). rewrite C1. unfold W. simpl.
    repeat split; try reflexivity; try apply W1. exact D1.
  - rewrite T1. destruct (accepts c); discriminate.
  - rewrite T1. destruct (accepts c); discriminate.
Qed.

End ReplyFacts.

(** *** Replies to a request *)

Lemma store_nibble_keeps (c : Z) (l l' : parse_locals) :
  store_nibble c l = Done l' ->
  first_char l' = first_char l /\ success l' = success l /\
  saw_data l' = saw_data l.
Proof.
  unfold store_nibble. destruct (n l <? 8); [|intros H; injection H as <-; auto].
  destruct (high_nibble l).
  - destruct (wr_chk _ _ _); simpl bind; [|discriminate].
    intros H; injection H as <-. auto.
  - destruct (rd_chk _ _); simpl bind; [|discriminate].
    destruct (wr_chk _ _ _); simpl bind; [|discriminate].
    intros H; injection H as <-. auto.
Qed.

(** The characters of a reply line to a request after the first: hex
    digits among them are stored, and none of them changes what the
    first character decided. *)
Lemma parse_req_rest (cs : list Z) :
  forall w l,
    wf w -> lwf l -> tx_state w = TX_ST_REQ_PKT -> first_char l = false ->
    forallb in_line cs = true ->
    exists w' l',
      parse_chars cs w l = Done (w', l') /\
      log w' = log w /\ tx_state w' = TX_ST_REQ_PKT /\
      first_char l' = false /\ success l' = success l /\ saw_data l' = saw_data l.
Proof.
  induction cs as [|c cs IH]; intros w l Hwf Hl Ht Hf Hcs.
  - exists w, l. simpl. auto 10.
  - simpl in Hcs. apply andb_true_iff in Hcs as [Hc Hrest].
    unfold in_line in Hc. apply andb_true_iff in Hc as [Hc _].
    apply negb_true_iff in Hc.
    destruct (advance_pop_ok w Hwf) as (A1 & _).
    destruct (parse_char_ok c (advance_pop w) l A1 Hl)
      as (w1 & l1 & E1 & (W1 & _) & L1).
    assert (Hstep : log w1 = log w /\ tx_state w1 = TX_ST_REQ_PKT /\
                    first_char l1 = false /\ success l1 = success l /\
                    saw_data l1 = saw_data l).
    { revert E1. unfold parse_char. rewrite Hc, advance_pop_tx_state, Ht, Hf.
      change (TX_ST_REQ_PKT =? TX_ST_AT_CMD) with false.
      change (TX_ST_REQ_PKT =? TX_ST_REQ_PKT) with true. cbv iota.
      destruct (_can_driver_elm327_is_hex_char c).
      - destruct (store_nibble c l) as [l2|] eqn:E2; simpl bind; [|discriminate].
        intros H. injection H as <- <-.
        destruct (store_nibble_keeps c l l2 E2) as (K1 & K2 & K3).
        simpl. auto 10.
      - destruct (c =? ch " "); [destruct (negb (high_nibble l))|];
          simpl bind; intros H; injection H as <- <-; simpl; auto 10. }
    destruct Hstep as (S1 & S2 & S3 & S4 & S5).
    destruct (IH w1 l1 W1 L1 S2 S3 Hrest) as (w2 & l2 & E2 & G2 & T2 & F2 & C2 & D2).
    exists w2, l2. simpl parse_chars. rewrite E1. simpl bind.
    split; [exact E2|]. split; [congruence|]. split; [exact T2|].
    split; [exact F2|]. split; congruence.
Qed.

Lemma parse_req_first (c : Z) (w : world) :
  wf w -> tx_state w = TX_ST_REQ_PKT -> in_line c = true ->
  _can_driver_elm327_is_hex_char c = false ->
  exists l',
    parse_char c w init_locals = Done (w, l') /\ lwf l' /\
    first_char l' = false /\ success l' = false /\ saw_data l' = false.
Proof.
  intros Hwf Ht Hc Hhex. unfold in_line in Hc. apply andb_true_iff in Hc as [Hc _].
  apply negb_true_iff in Hc.
  unfold parse_char. rewrite Hc, Ht, Hhex.
  change (TX_ST_REQ_PKT =? TX_ST_AT_CMD) with false.
  change (TX_ST_REQ_PKT =? TX_ST_REQ_PKT) with true. cbv iota.
  destruct (c =? ch " "); cbn [init_locals high_nibble first_char negb bind fst snd];
    eexists; (split; [reflexivity|]); unfold lwf; simpl;
    repeat split; try lia; try discriminate.
Qed.

(** A one-line reply to a request that does not start with a hex digit,
    received while the request waits: the request is marked failed, and
    nothing is handed to the ISO-TP layer, whatever hex digits the line
    holds further on. *)
Lemma req_reply_rejected (c : Z) (rest : list Z) (w : world) :
  wf w -> drained w -> tx_state w = TX_ST_REQ_PKT ->
  forallb in_line (c :: rest) = true -> (length rest < 1000)%nat ->
  _can_driver_elm327_is_hex_char c = false ->
  exists w',
    can_driver_elm327_rx_data (c :: rest ++ [0x0D; ch ">"]) w = Done w' /\
    wf w' /\ drained w' /\ sig w' = sig w /\ log w' = log w /\
    tx_state w' = TX_ST_ERROR.
Proof.
  intros Hwf Hdr Ht Hline Hlen Hhex.
  set (cs := c :: rest ++ [0x0D]).
  assert (Hcs : Forall (fun x => is_prompt x = false) cs).
  { unfold cs. apply Forall_cons. simpl in Hline.
    apply andb_true_iff in Hline as [Hc Hrest]. split.
    - unfold in_line in Hc. apply andb_true_iff in Hc as [_ Hc].
      now apply negb_true_iff in Hc.
    - apply Forall_app. split; [|repeat constructor].
      apply Forall_forall. intros x Hx.
      apply list_elem_of_In in Hx.
      pose proof (proj1 (forallb_forall in_line rest) Hrest x Hx) as H.
      unfold in_line in H. apply andb_true_iff in H as [_ H].
      now apply negb_true_iff in H. }
  assert (Hl : (length cs < 1024)%nat).
  { unfold cs. simpl. rewrite length_app. simpl. lia. }
  destruct (rx_reply_ok cs w Hwf Hdr Hcs Hl) as (w1 & l1 & E1 & E2 & W & D & S).
  replace (c :: rest ++ [0x0D; ch ">"]) with (cs ++ [ch ">"])
    by (unfold cs; simpl; rewrite <- app_assoc; reflexivity).
  exists (finish_parse w1 l1). split; [exact E2|]. split; [exact W|].
  split; [exact D|]. split; [exact S|].
  set (W0 := store_chars (cs ++ [ch ">"]) w) in *.
  destruct (store_chars_fields (cs ++ [ch ">"]) w) as (T0 & G0 & _ & _).
  fold W0 in T0, G0.
  destruct (store_chars_ok (cs ++ [ch ">"]) w Hwf) as (WW0 & _);
    [rewrite length_app; change (length [ch ">"]) with 1%nat; lia|exact Hdr|].
  fold W0 in WW0.
  simpl in Hline. apply andb_true_iff in Hline as [Hc Hrest].
  destruct (advance_pop_ok W0 WW0) as (A1 & _).
  destruct (parse_req_first c (advance_pop W0) A1 ltac:(simpl; congruence) Hc Hhex)
    as (l2 & P1 & L2 & F2 & S2 & D2).
  destruct (parse_req_rest rest (advance_pop W0) l2 A1 L2 ltac:(simpl; congruence)
              F2 Hrest)
    as (w3 & l3 & P3 & G3 & T3 & F3 & S3 & D3).
  unfold cs in E1. simpl parse_chars in E1. rewrite P1 in E1. simpl bind in E1.
  rewrite parse_chars_app, P3 in E1. cbn [bind fst snd parse_chars] in E1.
  unfold parse_char in E1. change ((13 =? 13) || (13 =? 10)) with true in E1.
  cbv iota in E1. rewrite D3, D2 in E1. cbn [bind fst snd] in E1.
  injection E1 as <- <-.
  split.
  - rewrite finish_parse_log. change (log (advance_pop w3)) with (log w3).
    change (log (advance_pop W0)) with (log W0) in G3. congruence.
  - unfold finish_parse. cbv zeta. rewrite advance_pop_tx_state.
    rewrite advance_pop_tx_state, T3.
    change (TX_ST_REQ_PKT =? TX_ST_AT_CMD) with false.
    change (TX_ST_REQ_PKT =? TX_ST_REQ_PKT) with true. cbv iota. cbn [success].
    rewrite S3, S2. reflexivity.
Qed.

(** What the ISO-TP layer makes of a complete single frame handed over in
    the parser's array: the response is complete and its payload goes to
    the vehicle manager. *)
Lemma deliver_single_frame (payload d : list Z) (w : world) :
  (length payload <= 7)%nat -> Forall (fun b => 0 <= b < 256) payload ->
  take (S (length payload)) d = Z.of_nat (length payload) :: payload ->
  CanManager.cur_rsp_id (can w) = prev_rsp_id w ->
  length (CanManager.data_buf (can w)) = 4096%nat ->
  tx_state (deliver_frame (Z.of_nat (S (length payload))) d w) = TX_ST_IDLE /\
  log (deliver_frame (Z.of_nat (S (length payload))) d w)
  = log w ++ [CanRx (prev_rsp_id w) (Z.of_nat (S (length payload)))
                    (Z.of_nat (length payload) :: payload);
              VmRx (prev_rsp_id w) (Z.of_nat (length payload)) payload].
Proof.
  intros Hlen Hbytes Hd Hid Hbuf.
  set (f := CanManager.mk_frame (prev_rsp_id w) (Z.of_nat (length payload) :: payload)).
  assert (Hpci : Z.land (Z.of_nat (length payload)) 0xF0 = 0).
  { assert (H : (length payload < 8)%nat) by lia. revert H.
    generalize (length payload). intros k Hk.
    do 8 (destruct k as [|k]; [reflexivity|]). lia. }
  assert (Hlow : Z.land (Z.of_nat (length payload)) 0x0F = Z.of_nat (length payload)).
  { assert (H : (length payload < 8)%nat) by lia. revert H.
    generalize (length payload). intros k Hk.
    do 8 (destruct k as [|k]; [reflexivity|]). lia. }
  assert (Hsingle : CanManager.is_single f = true).
  { unfold CanManager.is_single, CanManager.frame_wf,
      CanManager.pci, CanManager.f_len, f.
    cbn [CanManager.f_data forallb length].
    change (rd (Z.of_nat (length payload) :: payload) 0) with (Z.of_nat (length payload)).
    rewrite Hpci. rewrite !andb_true_iff. split; [split; [split|]|reflexivity].
    - unfold is_byte. apply andb_true_iff. split; [apply Z.leb_le|apply Z.ltb_lt]; lia.
    - apply forallb_forall. intros x Hx.
      pose proof (proj1 (Forall_forall _ _) Hbytes x (proj2 (list_elem_of_In _ _) Hx)) as H.
      cbv beta in H. unfold is_byte. apply andb_true_iff. split; [apply Z.leb_le|apply Z.ltb_lt]; lia.
    - apply Z.ltb_lt. lia. }
  assert (Htot : CanManager.frame_total f = Z.of_nat (length payload)).
  { unfold CanManager.frame_total, CanManager.pci,
      CanManager.low_nibble, f. cbn [CanManager.f_data].
    change (rd (Z.of_nat (length payload) :: payload) 0) with (Z.of_nat (length payload)).
    rewrite Hpci, Hlow. reflexivity. }
  assert (Hbs : CanManager.frame_bytes f = payload).
  { unfold CanManager.frame_bytes, CanManager.pci, f.
    cbn [CanManager.f_data].
    change (rd (Z.of_nat (length payload) :: payload) 0) with (Z.of_nat (length payload)).
    rewrite Hpci. reflexivity. }
  pose proof (CanManagerFacts.single_frame_actions f (can w) Hbuf) as Hact.
  unfold deliver_frame. cbv zeta.
  rewrite <- CanManagerFacts.can_rx_packet_take, Nat2Z.id, Hd.
  change (CanManager.can_rx_packet (prev_rsp_id w) (Z.of_nat (S (length payload)))
            (Z.of_nat (length payload) :: payload) (can w))
    with (CanManager.rx_frame f (can w)).
  destruct (CanManager.rx_frame f (can w)) as [c' acts] eqn:Erx.
  cbn [snd] in Hact. rewrite Hact.
  - rewrite Htot, Hbs, Nat2Z.id, Hid, firstn_all. simpl. split; [reflexivity|].
    rewrite <- app_assoc. reflexivity.
  - unfold CanManager.relevant, f. simpl. apply Z.eqb_eq. congruence.
  - exact Hsingle.
  - rewrite Htot, Hbs. lia.
Qed.

Lemma waiting_world_wf (pkt_state : Z) (s : string) (k : nat) (w : world) :
  wf w -> drained w ->
  wf (set_clock k (set_tx_state pkt_state (add_log (TxLine s) w))) /\
  drained (set_clock k (set_tx_state pkt_state (add_log (TxLine s) w))).
Proof.
  intros (H1 & H2 & H3 & H4 & H5 & H6) Hdr. split; [|exact Hdr].
  unfold wf. simpl. repeat split; try assumption; try lia.
  apply Forall_app. split; [assumption|repeat constructor].
Qed.

Lemma returned_world_wf (k : nat) (w : world) :
  wf w -> drained w ->
  wf (set_tx_state TX_ST_IDLE (set_clock k w)) /\
  drained (set_tx_state TX_ST_IDLE (set_clock k w)).
Proof. intros H Hdr. split; [exact H|exact Hdr]. Qed.

Section RequestFacts.

Variable E : env.

(** A send whose reply arrives during the last delay of the countdown:
    the reply is processed, and then the countdown, which has run out,
    marks the send as timed out whatever the reply made of it. *)
Lemma tx_string_late (pkt_state : Z) (s : string) (r : list Z) (m : nat)
      (w w1 : world) :
  driver_ok w = true -> tx_line_ok E (clock w) = true ->
  (forall j, (j < m)%nat -> async E (clock w + j) = []) ->
  async E (clock w + m) = [RxData r] ->
  10 * Z.of_nat m < timeout_msec w <= 10 * (Z.of_nat m + 1) ->
  pkt_state <> TX_ST_TIMEOUT ->
  can_driver_elm327_rx_data r
    (set_clock (clock w + m) (set_tx_state pkt_state (add_log (TxLine s) w)))
  = Done w1 ->
  _can_driver_elm327_tx_string E pkt_state s w
  = Done (set_tx_state TX_ST_IDLE
            (add_log (IfError CAN_ERRNO_TIMEOUT) (set_clock (S (clock w1)) w1)),
          true).
Proof.
  intros Hdrv Hline Hq Hr HT Hp Hrx.
  unfold _can_driver_elm327_tx_string. rewrite Hdrv, Hline. simpl negb. cbv iota zeta.
  set (w0 := set_tx_state pkt_state (add_log (TxLine s) w)) in *.
  assert (Hfuel : exists f, spin_fuel (timeout_msec w) = (m + S (S f))%nat).
  { unfold spin_fuel.
    assert (Z.of_nat m <= timeout_msec w / 10)
      by (apply Z.div_le_lower_bound; lia).
    exists (Z.to_nat (timeout_msec w / 10) - m)%nat. lia. }
  destruct Hfuel as [f ->].
  rewrite spin_wait; [|reflexivity|exact Hq|lia].
  change (clock w0) with (clock w).
  set (W := set_clock (clock w + m) w0) in *.
  simpl spin. change (tx_state W) with pkt_state. rewrite Z.eqb_refl.
  unfold delay_tick. change (clock W) with (clock w + m)%nat. rewrite Hr.
  simpl run_asyncs. rewrite Hrx. simpl bind.
  replace (timeout_msec w - 10 * Z.of_nat m - 10 <=? 0) with true
    by (symmetry; apply Z.leb_le; lia).
  change (tx_state (set_tx_state TX_ST_TIMEOUT (set_clock (S (clock w1)) w1)))
    with TX_ST_TIMEOUT.
  replace (TX_ST_TIMEOUT =? pkt_state) with false
    by (symmetry; apply Z.eqb_neq; congruence).
  simpl bind. reflexivity.
Qed.

(** X15. A request whose one-line reply does not start with a hex digit, as
    [NO DATA] and [?] do not: the send fails as soon as the reply is
    there. Nothing is handed to the ISO-TP layer, although the line may
    hold hex digits further on, and no error is reported to the vehicle
    manager. *)
Theorem non_data_reply_fails_request (line : string) (c : Z) (rest : list Z)
        (m : nat) (w : world) :
  wf w -> drained w -> driver_ok w = true -> tx_line_ok E (clock w) = true ->
  (forall j, (j < m)%nat -> async E (clock w + j) = []) ->
  async E (clock w + m) = [RxData (c :: rest ++ [0x0D; ch ">"])] ->
  10 * (Z.of_nat m + 1) < timeout_msec w ->
  forallb in_line (c :: rest) = true -> (length rest < 1000)%nat ->
  _can_driver_elm327_is_hex_char c = false ->
  exists w',
    _can_driver_elm327_tx_string E TX_ST_REQ_PKT line w = Done (w', false) /\
    log w' = log w ++ [TxLine line] /\
    clock w' = S (clock w + m) /\ tx_state w' = TX_ST_IDLE /\
    wf w' /\ drained w'.
Proof.
  intros Hwf Hdr Hdrv Hline Hq Hr HT Hin Hlen Hhex.
  set (W := set_clock (clock w + m) (set_tx_state TX_ST_REQ_PKT (add_log (TxLine line) w))).
  destruct (waiting_world_wf TX_ST_REQ_PKT line (clock w + m) w Hwf Hdr) as [HW HD].
  fold W in HW, HD.
  destruct (req_reply_rejected c rest W HW HD eq_refl Hin Hlen Hhex)
    as (w1 & E1 & W1 & D1 & S1 & G1 & T1).
  rewrite (tx_string_answered E TX_ST_REQ_PKT line _ m w w1 Hdrv Hline Hq Hr HT E1).
  - rewrite T1. eexists. split; [reflexivity|].
    apply sig_tsig in S1 as (_ & C1 & _).
    destruct (returned_world_wf (S (clock w1)) w1 W1 D1) as [R1 R2].
    split; [exact G1|]. split; [simpl; rewrite C1; reflexivity|].
    split; [reflexivity|]. split; [exact R1|exact R2].
  - rewrite T1. discriminate.
  - rewrite T1. discriminate.
Qed.

(** What a complete single-frame reply leaves behind in the world that
    waits for it. *)
Lemma single_frame_reply_parsed (sp : bool) (payload : list Z) (w : world) :
  wf w -> drained w -> tx_state w = TX_ST_REQ_PKT ->
  (length payload <= 7)%nat -> Forall (fun b => 0 <= b < 256) payload ->
  CanManager.cur_rsp_id (can w) = prev_rsp_id w ->
  length (CanManager.data_buf (can w)) = 4096%nat ->
  exists w',
    can_driver_elm327_rx_data
      (hex_text sp (Z.of_nat (length payload) :: payload) ++ [0x0D; ch ">"]) w
    = Done w' /\
    wf w' /\ drained w' /\ clock w' = clock w /\ tx_state w' = TX_ST_IDLE /\
    log w'
    = log w ++ [CanRx (prev_rsp_id w) (Z.of_nat (S (length payload)))
                      (Z.of_nat (length payload) :: payload);
                VmRx (prev_rsp_id w) (Z.of_nat (length payload)) payload].
Proof.
  intros Hwf Hdr Ht Hlen Hbytes Hid Hbuf.
  destruct (data_line_parsed sp (Z.of_nat (length payload) :: payload) w Hwf Hdr Ht)
    as (W2 & d & E2 & Hd & G2 & R2 & T2 & C2 & W' & D' & S');
    [discriminate|simpl; lia|apply Forall_cons; split; [lia|exact Hbytes]|].
  change (length (Z.of_nat (length payload) :: payload)) with (S (length payload))
    in *.
  destruct (deliver_single_frame payload d W2 Hlen Hbytes Hd) as [F1 F2];
    [congruence|congruence|].
  eexists. split; [exact E2|]. split; [exact W'|]. split; [exact D'|].
  apply sig_tsig in S' as (_ & C1 & _). split; [exact C1|].
  split; [rewrite advance_pop_tx_state; exact F1|].
  change (log (advance_pop (deliver_frame (Z.of_nat (S (length payload))) d W2)))
    with (log (deliver_frame (Z.of_nat (S (length payload))) d W2)).
  rewrite F2, G2, R2. reflexivity.
Qed.

(** X16. A request answered in time by one complete single frame: the send
    returns true as soon as the reply is there, the frame has gone to the
    ISO-TP layer and its payload, the bytes after the length byte, to the
    vehicle manager, once, and no error is reported. *)
Theorem single_frame_reply_completes_request (line : string) (sp : bool)
        (payload : list Z) (m : nat) (w : world) :
  wf w -> drained w -> driver_ok w = true -> tx_line_ok E (clock w) = true ->
  (forall j, (j < m)%nat -> async E (clock w + j) = []) ->
  async E (clock w + m)
  = [RxData (hex_text sp (Z.of_nat (length payload) :: payload) ++ [0x0D; ch ">"])] ->
  10 * (Z.of_nat m + 1) < timeout_msec w ->
  (length payload <= 7)%nat -> Forall (fun b => 0 <= b < 256) payload ->
  CanManager.cur_rsp_id (can w) = prev_rsp_id w ->
  length (CanManager.data_buf (can w)) = 4096%nat ->
  exists w',
    _can_driver_elm327_tx_string E TX_ST_REQ_PKT line w = Done (w', true) /\
    log w'
    = log w ++ [TxLine line;
                CanRx (prev_rsp_id w) (Z.of_nat (S (length payload)))
                      (Z.of_nat (length payload) :: payload);
                VmRx (prev_rsp_id w) (Z.of_nat (length payload)) payload] /\
    clock w' = S (clock w + m) /\ tx_state w' = TX_ST_IDLE /\
    wf w' /\ drained w'.
Proof.
  intros Hwf Hdr Hdrv Hline Hq Hr HT Hlen Hbytes Hid Hbuf.
  set (W := set_clock (clock w + m) (set_tx_state TX_ST_REQ_PKT (add_log (TxLine line) w))).
  destruct (waiting_world_wf TX_ST_REQ_PKT line (clock w + m) w Hwf Hdr) as [HW HD].
  fold W in HW, HD.
  destruct (single_frame_reply_parsed sp payload W HW HD eq_refl Hlen Hbytes Hid Hbuf)
    as (w1 & E1 & W1 & D1 & C1 & T1 & G1).
  rewrite (tx_string_answered E TX_ST_REQ_PKT line _ m w w1 Hdrv Hline Hq Hr HT E1).
  - rewrite T1. eexists. split; [reflexivity|].
    destruct (returned_world_wf (S (clock w1)) w1 W1 D1) as [R1 R2].
    split; [simpl; rewrite G1; unfold W; simpl; rewrite <- app_assoc; reflexivity|].
    split; [simpl; rewrite C1; reflexivity|].
    split; [reflexivity|]. split; [exact R1|exact R2].
  - rewrite T1. discriminate.
  - rewrite T1. discriminate.
Qed.

(** X17. A complete single-frame reply that arrives during the last delay of
    the countdown: its payload goes to the vehicle manager, and the send
    nevertheless reports a timeout, so that the vehicle manager gets both
    the data and the timeout error. *)
Theorem reply_in_last_delay_is_also_a_timeout (line : string) (sp : bool)
        (payload : list Z) (m : nat) (w : world) :
  wf w -> drained w -> driver_ok w = true -> tx_line_ok E (clock w) = true ->
  (forall j, (j < m)%nat -> async E (clock w + j) = []) ->
  async E (clock w + m)
  = [RxData (hex_text sp (Z.of_nat (length payload) :: payload) ++ [0x0D; ch ">"])] ->
  10 * Z.of_nat m < timeout_msec w <= 10 * (Z.of_nat m + 1) ->
  (length payload <= 7)%nat -> Forall (fun b => 0 <= b < 256) payload ->
  CanManager.cur_rsp_id (can w) = prev_rsp_id w ->
  length (CanManager.data_buf (can w)) = 4096%nat ->
  exists w',
    _can_driver_elm327_tx_string E TX_ST_REQ_PKT line w = Done (w', true) /\
    log w'
    = log w ++ [TxLine line;
                CanRx (prev_rsp_id w) (Z.of_nat (S (length payload)))
                      (Z.of_nat (length payload) :: payload);
                VmRx (prev_rsp_id w) (Z.of_nat (length payload)) payload;
                IfError CAN_ERRNO_TIMEOUT] /\
    clock w' = S (clock w + m) /\ tx_state w' = TX_ST_IDLE.
Proof.
  intros Hwf Hdr Hdrv Hline Hq Hr HT Hlen Hbytes Hid Hbuf.
  set (W := set_clock (clock w + m) (set_tx_state TX_ST_REQ_PKT (add_log (TxLine line) w))).
  destruct (waiting_world_wf TX_ST_REQ_PKT line (clock w + m) w Hwf Hdr) as [HW HD].
  fold W in HW, HD.
  destruct (single_frame_reply_parsed sp payload W HW HD eq_refl Hlen Hbytes Hid Hbuf)
    as (w1 & E1 & W1 & D1 & C1 & T1 & G1).
  rewrite (tx_string_late TX_ST_REQ_PKT line _ m w w1 Hdrv Hline Hq Hr HT
             ltac:(discriminate) E1).
  eexists. split; [reflexivity|].
  split; [simpl; rewrite G1; unfold W; simpl; rewrite <- !app_assoc; reflexivity|].
  split; [simpl; rewrite C1; reflexivity|reflexivity].
Qed.

(** X18. An AT command whose reply arrives during the last delay of the
    countdown: the command counts as sent, whether the reply accepted it
    or not, and a timeout is reported. *)
Theorem late_at_reply_is_a_timeout (s : string) (c : Z) (rest : list Z) (m : nat)
        (w : world) :
  wf w -> drained w -> driver_ok w = true -> tx_line_ok E (clock w) = true ->
  (forall j, (j < m)%nat -> async E (clock w + j) = []) ->
  async E (clock w + m) = [RxData (c :: rest ++ [0x0D; ch ">"])] ->
  10 * Z.of_nat m < timeout_msec w <= 10 * (Z.of_nat m + 1) ->
  forallb in_line (c :: rest) = true -> (length rest < 1000)%nat ->
  exists w',
    _can_driver_elm327_tx_string E TX_ST_AT_CMD s w = Done (w', true) /\
    log w' = log w ++ [TxLine s; IfError CAN_ERRNO_TIMEOUT] /\
    clock w' = S (clock w + m) /\ tx_state w' = TX_ST_IDLE.
Proof.
  intros Hwf Hdr Hdrv Hline Hq Hr HT Hin Hlen.
  set (W := set_clock (clock w + m) (set_tx_state TX_ST_AT_CMD (add_log (TxLine s) w))).
  destruct (waiting_world_wf TX_ST_AT_CMD s (clock w + m) w Hwf Hdr) as [HW HD].
  fold W in HW, HD.
  destruct (at_reply_parsed c rest W HW HD eq_refl Hin Hlen)
    as (w1 & E1 & W1 & D1 & S1 & G1 & T1).
  rewrite (tx_string_late TX_ST_AT_CMD s _ m w w1 Hdrv Hline Hq Hr HT
             ltac:(discriminate) E1).
  eexists. split; [reflexivity|].
  apply sig_tsig in S1 as (_ & C1 & _).
  split; [simpl; rewrite G1; unfold W; simpl; rewrite <- !app_assoc; reflexivity|].
  split; [simpl; rewrite C1; reflexivity|reflexivity].
Qed.

End RequestFacts.

(** An adapter that answers once, at delay [t], with the line [reply]. *)
Definition E_once (t : nat) (reply : string) : env :=
  mk_env (fun k => if Nat.eqb k t then [RxData (chars reply ++ [0x0D; ch ">"])] else [])
         (fun _ => true).

Lemma E_once_quiet (t : nat) (reply : string) (k : nat) :
  k <> t -> async (E_once t reply) k = [].
Proof.
  intros H. unfold E_once. simpl. destruct (Nat.eqb_spec k t); [contradiction|reflexivity].
Qed.

Lemma w_after_first_clock : clock w_after_first = 5%nat.
Proof. vm_compute. reflexivity. Qed.

Lemma w_after_first_drained : drained w_after_first.
Proof. vm_compute. reflexivity. Qed.

Lemma at_command_reply_decides_witness :
  exists w',
    _can_driver_elm327_tx_string (E_once 2 "OK") TX_ST_AT_CMD "ATE0" w_connected
    = Done (w', true) /\
    lines_of (log w') = lines_of (log w_connected) ++ ["ATE0"%string] /\
    errors_of (log w') = errors_of (log w_connected) /\
    frames_of (log w') = frames_of (log w_connected) /\
    clock w' = S (clock w_connected + 2) /\ tx_state w' = TX_ST_IDLE /\
    wf w' /\ drained w'.
Proof.
  apply (at_command_reply_decides (E_once 2 "OK") "ATE0" (ch "O") [ch "K"] 2 w_connected).
  - exact w_connected_wf.
  - reflexivity.
  - reflexivity.
  - reflexivity.
  - intros j Hj. apply E_once_quiet. simpl. lia.
  - reflexivity.
  - vm_compute. reflexivity.
  - reflexivity.
  - simpl. lia.
Defined.

Lemma non_data_reply_fails_request_witness :
  exists w',
    _can_driver_elm327_tx_string (E_once 7 "NO DATA") TX_ST_REQ_PKT "03222AF7"
      w_after_first
    = Done (w', false) /\
    log w' = log w_after_first ++ [TxLine "03222AF7"] /\
    clock w' = S (clock w_after_first + 2) /\ tx_state w' = TX_ST_IDLE /\
    wf w' /\ drained w'.
Proof.
  apply (non_data_reply_fails_request (E_once 7 "NO DATA") "03222AF7" (ch "N")
           (chars "O DATA") 2 w_after_first).
  - exact w_after_first_wf.
  - exact w_after_first_drained.
  - vm_compute. reflexivity.
  - reflexivity.
  - intros j Hj. apply E_once_quiet. rewrite w_after_first_clock. lia.
  - rewrite w_after_first_clock. reflexivity.
  - vm_compute. reflexivity.
  - reflexivity.
  - simpl. lia.
  - reflexivity.
Defined.

Lemma single_frame_reply_completes_request_witness :
  exists w',
    _can_driver_elm327_tx_string (E_once 7 "03 62 2A F7 ") TX_ST_REQ_PKT "03222AF7"
      w_after_first
    = Done (w', true) /\
    log w'
    = log w_after_first
      ++ [TxLine "03222AF7";
          CanRx (prev_rsp_id w_after_first) 4 [0x03; 0x62; 0x2A; 0xF7];
          VmRx (prev_rsp_id w_after_first) 3 [0x62; 0x2A; 0xF7]] /\
    clock w' = S (clock w_after_first + 2) /\ tx_state w' = TX_ST_IDLE /\
    wf w' /\ drained w'.
Proof.
  apply (single_frame_reply_completes_request (E_once 7 "03 62 2A F7 ") "03222AF7"
           true [0x62; 0x2A; 0xF7] 2 w_after_first).
  - exact w_after_first_wf.
  - exact w_after_first_drained.
  - vm_compute. reflexivity.
  - reflexivity.
  - intros j Hj. apply E_once_quiet. rewrite w_after_first_clock. lia.
  - rewrite w_after_first_clock. reflexivity.
  - vm_compute. reflexivity.
  - simpl. lia.
  - repeat constructor; lia.
  - vm_compute. reflexivity.
  - vm_compute. reflexivity.
Defined.

Lemma reply_in_last_delay_is_also_a_timeout_witness :
  exists w',
    _can_driver_elm327_tx_string (E_once 504 "03 62 2A F7 ") TX_ST_REQ_PKT "03222AF7"
      w_after_first
    = Done (w', true) /\
    log w'
    = log w_after_first
      ++ [TxLine "03222AF7";
          CanRx (prev_rsp_id w_after_first) 4 [0x03; 0x62; 0x2A; 0xF7];
          VmRx (prev_rsp_id w_after_first) 3 [0x62; 0x2A; 0xF7];
          IfError CAN_ERRNO_TIMEOUT] /\
    clock w' = S (clock w_after_first + 499) /\ tx_state w' = TX_ST_IDLE.
Proof.
  apply (reply_in_last_delay_is_also_a_timeout (E_once 504 "03 62 2A F7 ") "03222AF7"
           true [0x62; 0x2A; 0xF7] 499 w_after_first).
  - exact w_after_first_wf.
  - exact w_after_first_drained.
  - vm_compute. reflexivity.
  - reflexivity.
  - intros j Hj. apply E_once_quiet. rewrite w_after_first_clock. lia.
  - rewrite w_after_first_clock. reflexivity.
  - vm_compute. split; [reflexivity|discriminate].
  - simpl. lia.
  - repeat constructor; lia.
  - vm_compute. reflexivity.
  - vm_compute. reflexivity.
Defined.

Lemma late_at_reply_is_a_timeout_witness :
  exists w',
    _can_driver_elm327_tx_string (E_once 499 "?") TX_ST_AT_CMD "ATXX" w_connected
    = Done (w', true) /\
    log w' = log w_connected ++ [TxLine "ATXX"; IfError CAN_ERRNO_TIMEOUT] /\
    clock w' = S (clock w_connected + 499) /\ tx_state w' = TX_ST_IDLE.
Proof.
  apply (late_at_reply_is_a_timeout (E_once 499 "?") "ATXX" (ch "?") [] 499 w_connected).
  - exact w_connected_wf.
  - reflexivity.
  - reflexivity.
  - reflexivity.
  - intros j Hj. apply E_once_quiet. simpl. lia.
  - reflexivity.
  - vm_compute. split; [reflexivity|discriminate].
  - reflexivity.
  - simpl. lia.
Defined.

(** *** The version in the reply to ATZ *)

(** The statics and the string [_can_driver_elm327_proc_version_info]
    works on: [parse_state], [ver_index], [elm327_version_string]. *)
Definition ver_view (w : world) : Z * Z * list Z :=
  (parse_state w, ver_index w, elm327_version_string w).

Definition ver_store (c : Z) (st : Z * Z * list Z) : Z * Z * list Z :=
  if snd (fst st) <? 5
  then (fst (fst st), snd (fst st) + 1, wr (snd st) (snd (fst st)) c)
  else st.

(** One character, as the state machine takes it. *)
Definition ver_char (c : Z) (st : Z * Z * list Z) : Z * Z * list Z :=
  let st1 :=
    if fst (fst st) =? 0 then
      if c =? ch "v" then (1, snd (fst st), snd st) else st
    else if fst (fst st) =? 1 then
      if is_digit c then ver_store c st
      else if c =? ch "." then
        (2, snd (fst (ver_store c st)), snd (ver_store c st))
      else st
    else if fst (fst st) =? 2 then
      if is_digit c then ver_store c st else st
    else st in
  (fst (fst st1), snd (fst st1), wr (snd st1) (snd (fst st1)) 0).

Lemma proc_version_view (c : Z) (w : world) :
  wf w ->
  exists w',
    _can_driver_elm327_proc_version_info c false w = Done w' /\
    ver_view w' = ver_char c (ver_view w).
Proof.
  intros (_ & _ & _ & H4 & H5 & _).
  unfold _can_driver_elm327_proc_version_info, ver_char, ver_view, ver_store,
    store_version_char, MAX_ELM327_VER_LEN.
  cbn [fst snd].
  destruct (parse_state w =? 0).
  { destruct (c =? ch "v"); simpl bind; rewrite wr_chk_done by (simpl; lia);
      eexists; split; reflexivity. }
  destruct (parse_state w =? 1).
  { destruct (is_digit c).
    - change (6 - 1) with 5. destruct (Z.ltb_spec (ver_index w) 5).
      + rewrite wr_chk_done by lia. simpl bind.
        rewrite wr_chk_done by (simpl; rewrite wr_length; lia).
        eexists; split; reflexivity.
      + simpl bind. rewrite wr_chk_done by lia. eexists; split; reflexivity.
    - destruct (c =? ch ".").
      + change (6 - 1) with 5. destruct (Z.ltb_spec (ver_index w) 5).
        * rewrite wr_chk_done by lia. simpl bind.
          rewrite wr_chk_done by (simpl; rewrite wr_length; lia).
          eexists; split; reflexivity.
        * simpl bind. rewrite wr_chk_done by (simpl; lia).
          eexists; split; reflexivity.
      + simpl bind. rewrite wr_chk_done by lia. eexists; split; reflexivity. }
  destruct (parse_state w =? 2).
  { destruct (is_digit c).
    - change (6 - 1) with 5. destruct (Z.ltb_spec (ver_index w) 5).
      + rewrite wr_chk_done by lia. simpl bind.
        rewrite wr_chk_done by (simpl; rewrite wr_length; lia).
        eexists; split; reflexivity.
      + simpl bind. rewrite wr_chk_done by lia. eexists; split; reflexivity.
    - simpl bind. rewrite wr_chk_done by lia. eexists; split; reflexivity. }
  simpl bind. rewrite wr_chk_done by lia. eexists; split; reflexivity.
Qed.

Lemma set_first_char_same (l : parse_locals) :
  first_char l = false -> set_first_char false l = l.
Proof. destruct l. simpl. intros ->. reflexivity. Qed.

(** The characters of the line after its first, [E]: each goes through
    the version state machine and nowhere else. *)
Lemma parse_version_chars (cs : list Z) :
  forall w l,
    wf w -> lwf l -> tx_state w = TX_ST_AT_CMD ->
    first_char l = false -> has_version l = true ->
    forallb in_line cs = true ->
    exists w',
      parse_chars cs w l = Done (w', l) /\
      ver_view w' = fold_left (fun st c => ver_char c st) cs (ver_view w) /\
      wf w' /\ tx_state w' = TX_ST_AT_CMD /\ log w' = log w.
Proof.
  induction cs as [|c cs IH]; intros w l Hwf Hl Ht Hf Hv Hcs.
  - exists w. simpl. auto.
  - simpl in Hcs. apply andb_true_iff in Hcs as [Hc Hrest].
    unfold in_line in Hc. apply andb_true_iff in Hc as [Hc _].
    apply negb_true_iff in Hc.
    destruct (advance_pop_ok w Hwf) as (A1 & _).
    destruct (proc_version_view c (advance_pop w) A1) as (w1 & E1 & V1).
    destruct (proc_version_info_ok c false (advance_pop w) A1)
      as (w1' & E1' & (W1 & _) & T1).
    rewrite E1 in E1'. injection E1' as <-.
    destruct (proc_version_info_keeps c false _ _ E1) as [K1 _].
    assert (Hstep : parse_char c (advance_pop w) l = Done (w1, l)).
    { unfold parse_char. rewrite Hc, advance_pop_tx_state, Ht, Hf, Hv.
      change (TX_ST_AT_CMD =? TX_ST_AT_CMD) with true. cbv iota.
      rewrite E1. simpl bind. cbn [fst snd].
      rewrite set_first_char_same by exact Hf. reflexivity. }
    rewrite advance_pop_tx_state in T1.
    destruct (IH w1 l W1 Hl ltac:(congruence) Hf Hv Hrest)
      as (w2 & E2 & V2 & W2 & T2 & G2).
    exists w2. simpl parse_chars. rewrite Hstep. simpl bind. cbn [fst snd].
    split; [exact E2|]. split.
    + rewrite V2, V1. reflexivity.
    + split; [exact W2|]. split; [exact T2|].
      rewrite G2, K1. reflexivity.
Qed.

(** The state machine in state [p] with the string [content] collected
    and terminated. *)
Definition ver_is (st : Z * Z * list Z) (p : Z) (content : list Z) : Prop :=
  fst (fst st) = p /\ snd (fst st) = Z.of_nat (length content) /\
  length (snd st) = 6%nat /\ take (length content) (snd st) = content /\
  rd (snd st) (Z.of_nat (length content)) = 0 /\ (length content <= 5)%nat.

Lemma rd_wr_same (a : list Z) (i v : Z) :
  0 <= i < Z.of_nat (length a) -> rd (wr a i v) i = v.
Proof.
  intros H. unfold rd, wr. rewrite list_lookup_insert_eq by lia. reflexivity.
Qed.

Lemma take_wr_above (a : list Z) (k : nat) (v : Z) :
  take k (wr a (Z.of_nat k) v) = take k a.
Proof. unfold wr. rewrite Nat2Z.id. apply take_insert_ge. lia. Qed.

Lemma ver_terminate (p : Z) (content : list Z) (v : list Z) :
  length v = 6%nat -> take (length content) v = content ->
  (length content <= 5)%nat ->
  ver_is (p, Z.of_nat (length content), wr v (Z.of_nat (length content)) 0) p content.
Proof.
  intros Hl Ht Hc. unfold ver_is. cbn [fst snd].
  rewrite wr_length, take_wr_above, rd_wr_same by lia. auto 10.
Qed.

(** Before the [v]: nothing is collected. *)
Definition ver_idle (st : Z * Z * list Z) : Prop :=
  fst (fst st) = 0 /\ snd (fst st) = 0 /\ length (snd st) = 6%nat.

Lemma ver_before_v (pre : list Z) :
  forall st,
    ver_idle st ->
    forallb (fun c => negb (c =? ch "v")) pre = true ->
    ver_idle (fold_left (fun st c => ver_char c st) pre st).
Proof.
  induction pre as [|c pre IH]; intros st Hst Hpre; [exact Hst|].
  simpl in Hpre. apply andb_true_iff in Hpre as [Hc Hrest].
  apply negb_true_iff in Hc. simpl. apply IH; [|exact Hrest].
  destruct st as [[p i] v]. destruct Hst as (H1 & H2 & H3).
  cbn [fst snd] in *. subst p i. unfold ver_char, ver_idle. cbn [fst snd].
  change (0 =? 0) with true. cbv iota. rewrite Hc. cbn [fst snd].
  rewrite wr_length. auto.
Qed.

Lemma ver_store_digit (c p : Z) (content v : list Z) :
  length v = 6%nat -> take (length content) v = content ->
  (length content < 5)%nat ->
  ver_store c (p, Z.of_nat (length content), v)
  = (p, Z.of_nat (length (content ++ [c])), wr v (Z.of_nat (length content)) c) /\
  take (length (content ++ [c])) (wr v (Z.of_nat (length content)) c) = content ++ [c].
Proof.
  intros Hl Ht Hc. unfold ver_store. cbn [fst snd].
  replace (Z.of_nat (length content) <? 5) with true by (symmetry; apply Z.ltb_lt; lia).
  rewrite length_app. simpl length. split.
  - do 2 f_equal. lia.
  - replace (length content + 1)%nat with (S (length content)) by lia.
    rewrite (take_S_r _ _ c).
    + rewrite take_wr_above, Ht. reflexivity.
    + unfold wr. rewrite Nat2Z.id. apply list_lookup_insert_eq. lia.
Qed.

(** Digits, in state 1 or 2, are collected while there is room. *)
Lemma ver_digits (ds : list Z) :
  forall st p content,
    ver_is st p content -> p = 1 \/ p = 2 ->
    forallb is_digit ds = true -> (length content + length ds <= 5)%nat ->
    ver_is (fold_left (fun st c => ver_char c st) ds st) p (content ++ ds).
Proof.
  induction ds as [|d ds IH]; intros st p content Hst Hp Hds Hlen.
  - rewrite app_nil_r. exact Hst.
  - simpl in Hds. apply andb_true_iff in Hds as [Hd Hrest]. simpl in Hlen.
    simpl fold_left.
    replace (content ++ d :: ds) with ((content ++ [d]) ++ ds)
      by (rewrite <- app_assoc; reflexivity).
    apply IH; [|exact Hp|exact Hrest|rewrite length_app; simpl; lia].
    destruct st as [[p0 i] v]. destruct Hst as (H1 & H2 & H3 & H4 & H5 & H6).
    cbn [fst snd] in *. subst p0 i.
    destruct (ver_store_digit d p content v H3 H4 ltac:(lia)) as [S1 S2].
    unfold ver_char. cbn [fst snd].
    destruct Hp as [-> | ->].
    + change (1 =? 0) with false. change (1 =? 1) with true. cbv iota.
      rewrite Hd, S1. cbn [fst snd].
      apply ver_terminate; [rewrite wr_length; exact H3|exact S2|].
      rewrite length_app. simpl. lia.
    + change (2 =? 0) with false. change (2 =? 1) with false.
      change (2 =? 2) with true. cbv iota.
      rewrite Hd, S1. cbn [fst snd].
      apply ver_terminate; [rewrite wr_length; exact H3|exact S2|].
      rewrite length_app. simpl. lia.
Qed.

(** After the minor number: what is not a digit is skipped. *)
Lemma ver_after (tail : list Z) :
  forall st content,
    ver_is st 2 content ->
    forallb (fun c => negb (is_digit c)) tail = true ->
    ver_is (fold_left (fun st c => ver_char c st) tail st) 2 content.
Proof.
  induction tail as [|c tail IH]; intros st content Hst Htail; [exact Hst|].
  simpl in Htail. apply andb_true_iff in Htail as [Hc Hrest].
  apply negb_true_iff in Hc. simpl. apply IH; [|exact Hrest].
  destruct st as [[p i] v]. destruct Hst as (H1 & H2 & H3 & H4 & H5 & H6).
  cbn [fst snd] in *. subst p i. unfold ver_char. cbn [fst snd].
  change (2 =? 0) with false. change (2 =? 1) with false.
  change (2 =? 2) with true. cbv iota. rewrite Hc. cbn [fst snd].
  apply ver_terminate; assumption.
Qed.

(** The whole line after its first character. *)
Lemma ver_line (pre maj mnr tail : list Z) (v : list Z) :
  length v = 6%nat ->
  forallb (fun c => negb (c =? ch "v")) pre = true ->
  forallb is_digit maj = true -> forallb is_digit mnr = true ->
  forallb (fun c => negb (is_digit c)) tail = true ->
  (length maj + length mnr < 5)%nat ->
  ver_is (fold_left (fun st c => ver_char c st)
            (pre ++ [ch "v"] ++ maj ++ [ch "."] ++ mnr ++ tail) (0, 0, v))
         2 (maj ++ [ch "."] ++ mnr).
Proof.
  intros Hl Hpre Hmaj Hmnr Htail Hlen.
  rewrite !fold_left_app.
  apply ver_after; [|exact Htail].
  replace (maj ++ [ch "."] ++ mnr) with ((maj ++ [ch "."]) ++ mnr)
    by (rewrite <- app_assoc; reflexivity).
  apply ver_digits; [|right; reflexivity|exact Hmnr|rewrite length_app; simpl; lia].
  assert (H0 : ver_idle (0, 0, v)) by (unfold ver_idle; auto).
  pose proof (ver_before_v pre _ H0 Hpre) as H1.
  set (st1 := fold_left (fun st c => ver_char c st) pre (0, 0, v)) in *.
  assert (H2 : ver_is (fold_left (fun st c => ver_char c st) [ch "v"] st1) 1 []).
  { destruct st1 as [[p i1] v1]. destruct H1 as (A1 & A2 & A3).
    cbn [fst snd] in *. subst p i1. simpl fold_left. unfold ver_char. cbn [fst snd].
    change (0 =? 0) with true. cbv iota. rewrite Z.eqb_refl. cbn [fst snd].
    apply (ver_terminate 1 [] v1); [exact A3|reflexivity|simpl; lia]. }
  pose proof (ver_digits maj _ 1 [] H2 (or_introl eq_refl) Hmaj ltac:(simpl; lia)) as H3.
  simpl app in H3.
  set (st3 := fold_left (fun st c => ver_char c st) maj
                (fold_left (fun st c => ver_char c st) [ch "v"] st1)) in *.
  destruct st3 as [[p i3] v3]. destruct H3 as (B1 & B2 & B3 & B4 & B5 & B6).
  cbn [fst snd] in *. subst p i3. simpl fold_left. unfold ver_char. cbn [fst snd].
  change (1 =? 0) with false. change (1 =? 1) with true. cbv iota.
  change (is_digit (ch ".")) with false. cbv iota. rewrite Z.eqb_refl.
  destruct (ver_store_digit (ch ".") 1 maj v3 B3 B4 ltac:(lia)) as [S1 S2].
  rewrite S1. cbn [fst snd].
  apply ver_terminate; [rewrite wr_length; exact B3|exact S2|].
  rewrite length_app. simpl. lia.
Qed.

Lemma digit_nonzero (c : Z) : is_digit c = true -> c <> 0.
Proof.
  unfold is_digit. intros H. apply andb_true_iff in H as [H _].
  apply Z.geb_le in H. change (ch "0") with 48 in H. lia.
Qed.

Lemma version_chars_nonzero (maj mnr : list Z) :
  forallb is_digit maj = true -> forallb is_digit mnr = true ->
  Forall (fun c => c <> 0) (maj ++ [ch "."] ++ mnr).
Proof.
  intros Hmaj Hmnr.
  assert (Hd : forall ds, forallb is_digit ds = true -> Forall (fun c => c <> 0) ds).
  { induction ds as [|d ds IH]; intros Hds; [constructor|].
    simpl in Hds. apply andb_true_iff in Hds as [H1 H2].
    constructor; [exact (digit_nonzero d H1)|exact (IH H2)]. }
  apply Forall_app. split; [exact (Hd maj Hmaj)|].
  constructor; [discriminate|exact (Hd mnr Hmnr)].
Qed.

(** [strcmp(elm327_version_string, "1.5") == 0] holds exactly when the
    characters collected are [1.5]. *)
Lemma collected_is_1_5 (v content : list Z) :
  length v = 6%nat -> take (length content) v = content ->
  rd v (Z.of_nat (length content)) = 0 -> (length content <= 5)%nat ->
  Forall (fun c => c <> 0) content ->
  (version_is_1_5 v = true <-> content = [ch "1"; ch "."; ch "5"]).
Proof.
  intros Hl Ht H0 Hc Hnz.
  destruct v as [|a0 [|a1 [|a2 [|a3 [|a4 [|a5 [|]]]]]]]; try discriminate.
  unfold version_is_1_5.
  change (rd [a0; a1; a2; a3; a4; a5] 0) with a0.
  change (rd [a0; a1; a2; a3; a4; a5] 1) with a1.
  change (rd [a0; a1; a2; a3; a4; a5] 2) with a2.
  change (rd [a0; a1; a2; a3; a4; a5] 3) with a3.
  rewrite !andb_true_iff, !Z.eqb_eq.
  change (ch "1") with 49. change (ch ".") with 46. change (ch "5") with 53.
  destruct content as [|c0 [|c1 [|c2 [|c3 [|c4 [|c5 ?]]]]]];
    simpl in Hc; try lia; vm_compute in H0; simpl in Ht;
    inversion Ht; subst; clear Ht;
    repeat match goal with
           | H : Forall _ (_ :: _) |- _ => inversion H; clear H; subst
           end;
    (split; [intros (((E0 & E1) & E2) & E3)|intros E; inversion E; subst]);
    first [ congruence | lia | auto ].
Qed.

Lemma finish_parse_version (w : world) (l : parse_locals) :
  elm327_version_string (finish_parse w l) = elm327_version_string w.
Proof.
  unfold finish_parse. cbv zeta.
  destruct (_ =? TX_ST_AT_CMD); [reflexivity|].
  destruct (_ =? TX_ST_REQ_PKT); [destruct (negb _)|]; reflexivity.
Qed.

Lemma in_line_plain (cs : list Z) :
  forallb in_line cs = true -> Forall (fun x => is_prompt x = false) cs.
Proof.
  intros H. apply Forall_forall. intros x Hx. apply list_elem_of_In in Hx.
  pose proof (proj1 (forallb_forall in_line cs) H x Hx) as Hi.
  unfold in_line in Hi. apply andb_true_iff in Hi as [_ Hi].
  now apply negb_true_iff in Hi.
Qed.

(** X29. The reply to ATZ. A line made of [E], text that holds no [v], a
    [v], a major number, a point, a minor number and text that holds no
    digit, with fewer than five digits in the two numbers together (as
    [ELM327 v1.5]), is accepted, and leaves exactly the major number, the
    point and the minor number, terminated, in [elm327_version_string]:
    digits before the [v], as the 327 of the name, are not taken for the
    version. The string then compares equal to ["1.5"] exactly when these
    characters are 1.5. A line with a [v] before the one of the version, or
    with a digit after the minor number, is not of this form. *)
Theorem version_reply_is_recorded (pre maj mnr tail : list Z) (w : world) :
  wf w -> drained w -> tx_state w = TX_ST_AT_CMD ->
  forallb in_line (pre ++ [ch "v"] ++ maj ++ [ch "."] ++ mnr ++ tail) = true ->
  forallb (fun c => negb (c =? ch "v")) pre = true ->
  forallb is_digit maj = true -> forallb is_digit mnr = true ->
  forallb (fun c => negb (is_digit c)) tail = true ->
  (length maj + length mnr < 5)%nat -> (length pre + length tail < 1000)%nat ->
  exists w',
    can_driver_elm327_rx_data
      (ch "E" :: (pre ++ [ch "v"] ++ maj ++ [ch "."] ++ mnr ++ tail)
       ++ [0x0D; ch ">"]) w
    = Done w' /\
    take (length (maj ++ [ch "."] ++ mnr)) (elm327_version_string w')
    = maj ++ [ch "."] ++ mnr /\
    rd (elm327_version_string w') (Z.of_nat (length (maj ++ [ch "."] ++ mnr))) = 0 /\
    (version_is_1_5 (elm327_version_string w') = true
     <-> maj ++ [ch "."] ++ mnr = [ch "1"; ch "."; ch "5"]) /\
    tx_state w' = TX_ST_IDLE /\ log w' = log w /\ wf w' /\ drained w'.
Proof.
  intros Hwf Hdr Ht Hline Hpre Hmaj Hmnr Htail Hlen Hlong.
  set (rest := pre ++ [ch "v"] ++ maj ++ [ch "."] ++ mnr ++ tail) in *.
  set (cs := ch "E" :: rest ++ [0x0D]).
  assert (Hcs : Forall (fun x => is_prompt x = false) cs).
  { unfold cs. constructor; [reflexivity|]. apply Forall_app. split.
    - exact (in_line_plain rest Hline).
    - repeat constructor. }
  assert (Hl : (length cs < 1024)%nat).
  { unfold cs. change (length (ch "E" :: rest ++ [13])) with (S (length (rest ++ [13]))).
    unfold rest. rewrite !length_app. simpl length. lia. }
  destruct (rx_reply_ok cs w Hwf Hdr Hcs Hl) as (w1 & l1 & E1 & E2 & W & D & S).
  replace (ch "E" :: rest ++ [0x0D; ch ">"]) with (cs ++ [ch ">"])
    by (unfold cs; simpl; rewrite <- app_assoc; reflexivity).
  exists (finish_parse w1 l1). split; [exact E2|].
  set (W0 := store_chars (cs ++ [ch ">"]) w) in *.
  destruct (store_chars_fields (cs ++ [ch ">"]) w) as (T0 & G0 & _ & _).
  fold W0 in T0, G0.
  destruct (store_chars_ok (cs ++ [ch ">"]) w Hwf) as (WW0 & _);
    [rewrite length_app; change (length [ch ">"]) with 1%nat; lia|exact Hdr|].
  fold W0 in WW0.
  destruct (advance_pop_ok W0 WW0) as (A1 & _).
  (* the first character *)
  set (wE := set_ver_index 0 (set_parse_state 0 (advance_pop W0))).
  set (lE := mk_parse_locals false true true false true 0 (replicate 8 0)).
  assert (PE : parse_char (ch "E") (advance_pop W0) init_locals = Done (wE, lE)).
  { unfold parse_char. rewrite advance_pop_tx_state, T0, Ht. reflexivity. }
  assert (WE : wf wE).
  { destruct (proc_version_info_ok (ch "E") true (advance_pop W0) A1)
      as (w' & E' & (Wok & _) & _).
    injection E' as <-. exact Wok. }
  assert (LE : lwf lE).
  { unfold lwf, lE. simpl. repeat split; try lia; discriminate. }
  (* the rest of the line *)
  destruct (parse_version_chars rest wE lE WE LE ltac:(simpl; congruence)
              eq_refl eq_refl Hline)
    as (w2 & P2 & V2 & W2 & T2 & G2).
  unfold cs in E1. simpl parse_chars in E1. rewrite PE in E1. simpl bind in E1.
  cbn [fst snd] in E1. rewrite parse_chars_app, P2 in E1.
  cbn [bind fst snd parse_chars] in E1. unfold parse_char in E1.
  change ((13 =? 13) || (13 =? 10)) with true in E1. cbv iota in E1.
  cbn [lE saw_data bind fst snd] in E1. injection E1 as <- <-.
  (* the version string *)
  pose proof (ver_line pre maj mnr tail (elm327_version_string W0)
                (proj1 (proj2 (proj2 (proj2 WW0)))) Hpre Hmaj Hmnr Htail Hlen) as Hline2.
  fold rest in Hline2.
  change (0, 0, elm327_version_string W0) with (ver_view wE) in Hline2.
  rewrite <- V2 in Hline2. destruct Hline2 as (_ & _ & Q3 & Q4 & Q5 & Q6).
  cbn [ver_view fst snd] in Q3, Q4, Q5.
  rewrite finish_parse_version.
  change (elm327_version_string (advance_pop w2)) with (elm327_version_string w2).
  split; [exact Q4|]. split; [exact Q5|]. split.
  { apply collected_is_1_5; try assumption.
    apply version_chars_nonzero; assumption. }
  split.
  { unfold finish_parse. cbv zeta. rewrite advance_pop_tx_state.
    rewrite advance_pop_tx_state, T2.
    change (TX_ST_AT_CMD =? TX_ST_AT_CMD) with true. reflexivity. }
  split.
  { rewrite finish_parse_log. change (log (advance_pop w2)) with (log w2).
    rewrite G2. unfold wE. simpl. exact G0. }
  split; [exact W|exact D].
Qed.

Lemma version_reply_is_recorded_witness :
  exists w',
    can_driver_elm327_rx_data
      (ch "E" :: (chars "LM327 " ++ [ch "v"] ++ [ch "1"] ++ [ch "."] ++ [ch "5"] ++ [])
       ++ [0x0D; ch ">"])
      (set_tx_state TX_ST_AT_CMD w_connected)
    = Done w' /\
    take (length ([ch "1"] ++ [ch "."] ++ [ch "5"])) (elm327_version_string w')
    = [ch "1"] ++ [ch "."] ++ [ch "5"] /\
    rd (elm327_version_string w')
       (Z.of_nat (length ([ch "1"] ++ [ch "."] ++ [ch "5"]))) = 0 /\
    (version_is_1_5 (elm327_version_string w') = true
     <-> [ch "1"] ++ [ch "."] ++ [ch "5"] = [ch "1"; ch "."; ch "5"]) /\
    tx_state w' = TX_ST_IDLE /\
    log w' = log (set_tx_state TX_ST_AT_CMD w_connected) /\ wf w' /\ drained w'.
Proof.
  apply (version_reply_is_recorded (chars "LM327 ") [ch "1"] [ch "5"] []
           (set_tx_state TX_ST_AT_CMD w_connected)).
  - exact w_connected_wf.
  - reflexivity.
  - reflexivity.
  - reflexivity.
  - reflexivity.
  - reflexivity.
  - reflexivity.
  - reflexivity.
  - simpl. lia.
  - simpl. lia.
Defined.

(** Lines that are not of that form: the first [v] opens the version
    wherever it stands, and every later digit is taken into it. *)
Definition recorded_version (s : string) : list Z :=
  match can_driver_elm327_rx_data (chars s ++ [0x0D; ch ">"])
          (set_tx_state TX_ST_AT_CMD w_connected) with
  | Done w' => elm327_version_string w'
  | Fault _ => []
  end.

Example version_reply_with_other_text :
  recorded_version "ELM327 v1.5" = chars "1.5" ++ [0; 0; 0] /\
  recorded_version "ELM327 v1.5 rev2" = chars "1.52" ++ [0; 0] /\
  recorded_version "ELM327 rev3 v1.5" = chars "31.5" ++ [0; 0].
Proof. vm_compute. repeat split; reflexivity. Qed.

End Elm327Facts.

Module VmDispatchFacts.
Import VmDispatch.

(** The response and the request mask that wait for the next [vm_eval]. *)
Definition waiting_rx (s : vm_state) : option (Z * Z * list Z) :=
  if rx_data_valid s
  then Some (rx_id s, rx_data_len s, take (Z.to_nat (rx_data_len s)) (rx_data_buf s))
  else None.

Definition waiting_mask (s : vm_state) : option Z :=
  if update_req_mask_flag s then Some (new_req_mask s) else None.

(** The first response and the last request mask among some inputs. *)
Fixpoint first_rx (ins : list vm_input) : option (Z * Z * list Z) :=
  match ins with
  | [] => None
  | In_rx_data id len data :: _ => Some (id, len, take (Z.to_nat len) data)
  | _ :: rest => first_rx rest
  end.

Fixpoint last_mask (ins : list vm_input) : option Z :=
  match ins with
  | [] => None
  | In_set_request_item_mask mask :: rest =>
      match last_mask rest with
      | Some m => Some m
      | None => Some mask
      end
  | _ :: rest => last_mask rest
  end.

Definition errors_in (ins : list vm_input) : list Z :=
  flat_map (fun i => match i with In_note_error e => [e] | _ => [] end) ins.

(** A response that is there to be copied and fits [rx_data_buf]. *)
Definition input_ok (i : vm_input) : Prop :=
  match i with
  | In_rx_data _ len data => 0 <= len <= 4096 /\ len <= Z.of_nat (length data)
  | _ => True
  end.

Definition or_else {A : Type} (a b : option A) : option A :=
  match a with
  | Some x => Some x
  | None => b
  end.

Lemma memcpy_take (dst src : list Z) (n : Z) :
  0 <= n <= Z.of_nat (length src) -> n <= Z.of_nat (length dst) ->
  exists b, memcpy dst src n = Some b /\ length b = length dst /\
            take (Z.to_nat n) b = take (Z.to_nat n) src.
Proof.
  intros H1 H2. unfold memcpy.
  replace (0 <=? n) with true by (symmetry; apply Z.leb_le; lia).
  replace (n <=? Z.of_nat (length src)) with true by (symmetry; apply Z.leb_le; lia).
  replace (n <=? Z.of_nat (length dst)) with true by (symmetry; apply Z.leb_le; lia).
  eexists. split; [reflexivity|]. split.
  - rewrite length_app, length_take, length_drop. lia.
  - rewrite take_app_le by (rewrite length_take; lia).
    rewrite take_take. f_equal. lia.
Qed.

Lemma vm_feed_selected (v : vehicle_config_t) (ins : list vm_input) :
  forall s,
    cur_vehicleP s = Some v -> length (rx_data_buf s) = 4096%nat ->
    Forall input_ok ins ->
    exists s',
      vm_feed ins s = Some (s', map (Fcn_note_can_error v) (errors_in ins)) /\
      cur_vehicleP s' = Some v /\ length (rx_data_buf s') = 4096%nat /\
      waiting_rx s' = or_else (waiting_rx s) (first_rx ins) /\
      waiting_mask s' = or_else (last_mask ins) (waiting_mask s).
Proof.
  induction ins as [|i ins IH]; intros s Hv Hlen Hok.
  - exists s. simpl. repeat split; try assumption.
    destruct (waiting_rx s); reflexivity.
  - inversion Hok as [|? ? Hi Hrest]; subst.
    destruct i as [id len data|errno|mask]; simpl vm_feed; unfold vm_input_step.
    + unfold vm_rx_data. rewrite Hv.
      destruct (rx_data_valid s) eqn:Hval; simpl negb; cbv iota.
      * destruct (IH s Hv Hlen Hrest) as (s' & E & V & L & R & M).
        rewrite E. exists s'. simpl. repeat split; try assumption.
        rewrite R. unfold waiting_rx. rewrite Hval. reflexivity.
      * simpl in Hi. destruct Hi as [Hi1 Hi2].
        destruct (memcpy_take (rx_data_buf s) data len) as (b & Eb & Lb & Tb);
          [lia|lia|].
        rewrite Eb.
        destruct (IH (mk_vm_state (Some v) (update_req_mask_flag s)
                        (new_req_mask s) true len b id))
          as (s' & E & V & L & R & M); try assumption; try reflexivity.
        { simpl. congruence. }
        rewrite E. exists s'. simpl. split; [reflexivity|].
        split; [exact V|]. split; [exact L|]. split; [|exact M].
        rewrite R. unfold waiting_rx. rewrite Hval. simpl. rewrite Tb. reflexivity.
    + unfold vm_note_error. rewrite Hv.
      destruct (IH s Hv Hlen Hrest) as (s' & E & V & L & R & M).
      rewrite E. exists s'. simpl. repeat split; assumption.
    + destruct (IH (vm_set_request_item_mask mask s) Hv Hlen Hrest)
        as (s' & E & V & L & R & M).
      rewrite E. exists s'. simpl. repeat split; try assumption.
      rewrite M. unfold waiting_mask. simpl. destruct (last_mask ins); reflexivity.
Qed.

Definition opt_list {A B : Type} (f : A -> B) (o : option A) : list B :=
  match o with
  | Some a => [f a]
  | None => []
  end.

Lemma vm_eval_calls (v : vehicle_config_t) (s : vm_state) :
  cur_vehicleP s = Some v ->
  snd (vm_eval s)
  = opt_list (fun r => Fcn_rx_data v (fst (fst r)) (snd (fst r)) (snd r)) (waiting_rx s)
    ++ opt_list (Fcn_set_req_mask v) (waiting_mask s)
    ++ [Fcn_eval v] /\
  cur_vehicleP (fst (vm_eval s)) = Some v /\
  rx_data_buf (fst (vm_eval s)) = rx_data_buf s /\
  waiting_rx (fst (vm_eval s)) = None /\
  waiting_mask (fst (vm_eval s)) = None.
Proof.
  intros Hv. unfold vm_eval, waiting_rx, waiting_mask. rewrite Hv.
  destruct (rx_data_valid s) eqn:H1, (update_req_mask_flag s) eqn:H2; simpl;
    rewrite ?H1, ?H2; simpl; rewrite ?H1, ?H2; auto.
Qed.

(** X19. The vehicle manager between two evaluations. With a vehicle selected
    and nothing waiting: whatever responses, errors and request masks
    arrive, in whatever order, every error is passed on to the vehicle at
    once; the next [vm_eval] hands the vehicle the first response that
    arrived (later ones are dropped, the buffer having one place), then
    the last request mask that was set (earlier ones are overwritten),
    then evaluates; and after it nothing is waiting. *)
Theorem vm_eval_after_inputs (v : vehicle_config_t) (ins : list vm_input)
        (s : vm_state) :
  cur_vehicleP s = Some v -> length (rx_data_buf s) = 4096%nat ->
  rx_data_valid s = false -> update_req_mask_flag s = false ->
  Forall input_ok ins ->
  exists s',
    vm_feed ins s = Some (s', map (Fcn_note_can_error v) (errors_in ins)) /\
    snd (vm_eval s')
    = opt_list (fun r => Fcn_rx_data v (fst (fst r)) (snd (fst r)) (snd r))
               (first_rx ins)
      ++ opt_list (Fcn_set_req_mask v) (last_mask ins)
      ++ [Fcn_eval v] /\
    rx_data_valid (fst (vm_eval s')) = false /\
    update_req_mask_flag (fst (vm_eval s')) = false /\
    snd (vm_eval (fst (vm_eval s'))) = [Fcn_eval v].
Proof.
  intros Hv Hlen Hval Hflag Hok.
  destruct (vm_feed_selected v ins s Hv Hlen Hok) as (s' & E & V & L & R & M).
  exists s'. split; [exact E|].
  destruct (vm_eval_calls v s' V) as (C1 & C2 & C3 & C4 & C5).
  assert (R' : waiting_rx s' = first_rx ins).
  { rewrite R. unfold waiting_rx. rewrite Hval. reflexivity. }
  assert (M' : waiting_mask s' = last_mask ins).
  { rewrite M. unfold waiting_mask. rewrite Hflag. destruct (last_mask ins); reflexivity. }
  rewrite C1, R', M'. split; [reflexivity|].
  assert (F1 : rx_data_valid (fst (vm_eval s')) = false).
  { unfold waiting_rx in C4.
    destruct (rx_data_valid (fst (vm_eval s'))); [discriminate|reflexivity]. }
  assert (F2 : update_req_mask_flag (fst (vm_eval s')) = false).
  { unfold waiting_mask in C5.
    destruct (update_req_mask_flag (fst (vm_eval s'))); [discriminate|reflexivity]. }
  split; [exact F1|]. split; [exact F2|].
  destruct (vm_eval_calls v (fst (vm_eval s')) C2) as (D1 & _).
  rewrite D1, C4, C5. reflexivity.
Qed.

Definition s_meb : vm_state := set_cur_vehicleP (Some vehicle_vw_meb_awd) vm_boot.

Definition ins_scenario : list vm_input :=
  [In_set_request_item_mask DB_ITEM_SPEED;
   In_rx_data 0x18DAF101 3 [0x41; 0x0D; 0x32];
   In_note_error CAN_ERRNO_TIMEOUT;
   In_rx_data 0x77A 4 [0x62; 0x2A; 0xF7; 0x01];
   In_set_request_item_mask DB_ITEM_AUX_KW].

Lemma vm_eval_after_inputs_witness :
  exists s',
    vm_feed ins_scenario s_meb
    = Some (s', [Fcn_note_can_error vehicle_vw_meb_awd CAN_ERRNO_TIMEOUT]) /\
    snd (vm_eval s')
    = [Fcn_rx_data vehicle_vw_meb_awd 0x18DAF101 3 [0x41; 0x0D; 0x32];
       Fcn_set_req_mask vehicle_vw_meb_awd DB_ITEM_AUX_KW;
       Fcn_eval vehicle_vw_meb_awd] /\
    rx_data_valid (fst (vm_eval s')) = false /\
    update_req_mask_flag (fst (vm_eval s')) = false /\
    snd (vm_eval (fst (vm_eval s'))) = [Fcn_eval vehicle_vw_meb_awd].
Proof.
  apply (vm_eval_after_inputs vehicle_vw_meb_awd ins_scenario s_meb);
    try reflexivity.
  repeat constructor; simpl; lia.
Defined.

(** *** Selecting the vehicle *)

Lemma vm_init_loop_state (can_init : Z -> Z -> bool -> bool)
      (l : list vehicle_config_t) (nm : string) (t : Z) (s : vm_state) :
  let s' := fst (fst (vm_init_loop can_init l nm t s)) in
  update_req_mask_flag s' = update_req_mask_flag s /\
  new_req_mask s' = new_req_mask s /\
  rx_data_valid s' = rx_data_valid s /\
  rx_data_len s' = rx_data_len s /\
  rx_data_buf s' = rx_data_buf s /\
  rx_id s' = rx_id s.
Proof.
  induction l as [|v l IH]; simpl; [auto 10|].
  destruct (String.eqb (name v) nm); [|exact IH].
  destruct (can_init _ _ _); simpl; auto 10.
Qed.

(** X20. Every name that [vm_get_vehicle_name] offers for an index below
    [vm_get_num_vehicles] is accepted by [vm_init]: it selects the vehicle
    at that index, opens the CAN interface with that vehicle's timeout and
    bit rate, initialises the vehicle when the interface opened, and
    returns what [can_init] returned. The vehicle stays selected when the
    interface did not open. *)
Theorem vm_init_accepts_listed_names (can_init : Z -> Z -> bool -> bool)
        (n : Z) (nm : string) (if_type : Z) (s : vm_state) :
  vm_get_vehicle_name n = Some nm ->
  exists v,
    0 <= n < vm_get_num_vehicles /\
    vehicle_listP !! Z.to_nat n = Some v /\ name v = nm /\
    let ok := can_init if_type (req_timeout_msec v) (can_is_500k v) in
    vm_init can_init nm if_type s
    = (set_cur_vehicleP (Some v) s,
       Can_init if_type (req_timeout_msec v) (can_is_500k v)
         :: (if ok then [Fcn_init v] else []),
       ok).
Proof.
  unfold vm_get_vehicle_name, vm_get_num_vehicles, NUM_VEHICLES. intros H.
  destruct (Z.geb_spec n 0) as [H0|H0]; [|discriminate].
  destruct (Z.ltb_spec n 3) as [H3|H3]; [|discriminate]. simpl in H.
  assert (Hn : n = 0 \/ n = 1 \/ n = 2) by lia.
  destruct Hn as [-> | [-> | ->]]; simpl in H; injection H as <-;
    eexists; (split; [lia|]); (split; [reflexivity|]); (split; [reflexivity|]);
    cbv zeta; unfold vm_init; simpl; destruct (can_init _ _ _); reflexivity.
Qed.

Lemma vm_init_accepts_listed_names_witness :
  exists v,
    0 <= 1 < vm_get_num_vehicles /\
    vehicle_listP !! Z.to_nat 1 = Some v /\ name v = "VW MEB AWD"%string /\
    vm_init (fun _ _ _ => false) "VW MEB AWD" 0 vm_boot
    = (set_cur_vehicleP (Some v) vm_boot,
       [Can_init 0 (req_timeout_msec v) (can_is_500k v)], false).
Proof.
  exact (vm_init_accepts_listed_names (fun _ _ _ => false) 1 "VW MEB AWD" 0 vm_boot
           eq_refl).
Defined.

(** A name that no vehicle has is refused without a call and without a
    change. *)
Lemma vm_init_unknown_name (can_init : Z -> Z -> bool -> bool) (nm : string)
      (if_type : Z) (s : vm_state) :
  forallb (fun v => negb (String.eqb (name v) nm)) vehicle_listP = true ->
  vm_init can_init nm if_type s = (s, [], false).
Proof.
  unfold vm_init. induction vehicle_listP as [|v l IH]; simpl; [reflexivity|].
  intros H. apply andb_true_iff in H as [H1 H2]. apply negb_true_iff in H1.
  rewrite H1. exact (IH H2).
Qed.

(** *** Before a vehicle is selected *)

Lemma vm_feed_unselected (ins : list vm_input) :
  forall s,
    cur_vehicleP s = None ->
    exists s',
      vm_feed ins s = Some (s', []) /\ cur_vehicleP s' = None /\
      waiting_rx s' = waiting_rx s /\
      waiting_mask s' = or_else (last_mask ins) (waiting_mask s).
Proof.
  induction ins as [|i ins IH]; intros s Hv.
  - exists s. simpl. auto.
  - destruct i as [id len data|errno|mask]; simpl vm_feed; unfold vm_input_step.
    + unfold vm_rx_data. rewrite Hv.
      destruct (IH s Hv) as (s' & E & V & R & M). rewrite E. exists s'. auto.
    + unfold vm_note_error. rewrite Hv.
      destruct (IH s Hv) as (s' & E & V & R & M). rewrite E. exists s'. auto.
    + destruct (IH (vm_set_request_item_mask mask s) Hv) as (s' & E & V & R & M).
      rewrite E. exists s'. split; [reflexivity|]. split; [exact V|].
      split; [exact R|]. rewrite M. unfold waiting_mask. simpl.
      destruct (last_mask ins); reflexivity.
Qed.

(** X21. While no vehicle is selected, responses and errors are dropped, not
    kept, and [vm_eval] does nothing; a request mask, however, is kept.
    Once [vm_init] has selected a vehicle, the first [vm_eval] hands it the
    last request mask set before the selection, and no response. *)
Theorem inputs_before_selection (can_init : Z -> Z -> bool -> bool)
        (ins : list vm_input) (nm : string) (if_type : Z) (s : vm_state) :
  cur_vehicleP s = None ->
  rx_data_valid s = false -> update_req_mask_flag s = false ->
  exists s1,
    vm_feed ins s = Some (s1, []) /\
    vm_eval s1 = (s1, []) /\
    forall v,
      cur_vehicleP (fst (fst (vm_init can_init nm if_type s1))) = Some v ->
      snd (vm_eval (fst (fst (vm_init can_init nm if_type s1))))
      = opt_list (Fcn_set_req_mask v) (last_mask ins) ++ [Fcn_eval v].
Proof.
  intros Hv Hval Hflag.
  destruct (vm_feed_unselected ins s Hv) as (s1 & E & V & R & M).
  exists s1. split; [exact E|]. split.
  { unfold vm_eval. rewrite V. reflexivity. }
  intros v Hsel. destruct (vm_eval_calls v _ Hsel) as (C1 & _). rewrite C1.
  destruct (vm_init_loop_state can_init vehicle_listP nm if_type s1)
    as (I1 & I2 & I3 & I4 & I5 & I6).
  fold (vm_init can_init nm if_type s1) in I1, I2, I3, I4, I5, I6.
  assert (R2 : waiting_rx (fst (fst (vm_init can_init nm if_type s1))) = None).
  { unfold waiting_rx in *. rewrite I3. rewrite Hval in R.
    destruct (rx_data_valid s1); [discriminate|reflexivity]. }
  assert (M2 : waiting_mask (fst (fst (vm_init can_init nm if_type s1)))
               = last_mask ins).
  { unfold waiting_mask in *. rewrite I1, I2, M, Hflag.
    destruct (last_mask ins); reflexivity. }
  rewrite R2, M2. reflexivity.
Qed.

Lemma inputs_before_selection_witness :
  exists s1,
    vm_feed ins_scenario vm_boot = Some (s1, []) /\
    vm_eval s1 = (s1, []) /\
    forall v,
      cur_vehicleP (fst (fst (vm_init (fun _ _ _ => true) "VW MEB AWD" 1 s1))) = Some v ->
      snd (vm_eval (fst (fst (vm_init (fun _ _ _ => true) "VW MEB AWD" 1 s1))))
      = opt_list (Fcn_set_req_mask v) (last_mask ins_scenario) ++ [Fcn_eval v].
Proof.
  exact (inputs_before_selection (fun _ _ _ => true) ins_scenario "VW MEB AWD" 1
           vm_boot eq_refl eq_refl eq_refl).
Defined.

End VmDispatchFacts.

Module DecodeFacts.
Import Decode.

(** Rational numbers as values: exact arithmetic, for examples. *)
#[export] Instance q_float : FloatOps QArith_base.Q := {|
  of_int := fun n => QArith_base.Qmake n 1;
  lit := fun q => q;
  fadd := QArith_base.Qplus;
  fsub := QArith_base.Qminus;
  fmul := QArith_base.Qmult;
  fdiv := QArith_base.Qdiv;
  fneg := QArith_base.Qopp;
  flt := fun a b => negb (QArith_base.Qle_bool b a)
|}.

Lemma q_flt_spec (a b : QArith_base.Q) :
  flt a b = true <-> QArith_base.Qlt a b.
Proof.
  simpl. rewrite negb_true_iff. split.
  - intros Hle. apply QArith_base.Qnot_le_lt. intros Hba.
    apply QArith_base.Qle_bool_iff in Hba. congruence.
  - intros Hlt. destruct (QArith_base.Qle_bool b a) eqn:E; [|reflexivity].
    apply QArith_base.Qle_bool_iff in E.
    exfalso. exact (QArith_base.Qlt_not_le _ _ Hlt E).
Qed.

Lemma q_flt_irrefl (a : QArith_base.Q) : flt a a = false.
Proof.
  destruct (flt a a) eqn:E; [|reflexivity].
  apply q_flt_spec in E. exfalso. exact (QArith_base.Qlt_irrefl _ E).
Qed.

Lemma q_flt_trans (a b c : QArith_base.Q) :
  flt a b = true -> flt b c = true -> flt a c = true.
Proof.
  rewrite !q_flt_spec. apply QArith_base.Qlt_trans.
Qed.

End DecodeFacts.

Module VwMebRxFacts.
Import VehicleManager VwMeb VehicleManagerFacts VwMebFacts Decode VwMebRx DecodeFacts.

Section RxFacts.

Context {V : Type} `{FloatOps V}.

(** The response to a request of the full list is decoded under the index
    of that request. *)
Lemma rx_of_response (i : nat) (r : can_request_t) (payload : list Z) (len : Z)
      (s : rx_state) :
  req_full_listP !! i = Some r ->
  rd (data r) 0 < len ->
  _vw_meb_rx_data (V := V) (rsp_id r) len (echo r ++ payload) s
  = Some (decode_response (Z.of_nat i) len (echo r ++ payload)
            (mk_rx_state (VwMeb._vw_meb_rx_data (mgmt s)) (in_reverse s))).
Proof.
  intros Hi Hlen. unfold _vw_meb_rx_data.
  rewrite (meb_resolves i r payload len Hi Hlen). reflexivity.
Qed.

(** Only a gear-position response of the expected length changes
    [in_reverse]. *)
Lemma decode_in_reverse (n len : Z) (data : list Z) (s1 : rx_state) :
  in_reverse (fst (decode_response (V := V) n len data s1))
  = if (n =? UDS_GEAR_POSITION) && (len =? 5)
    then rd data 4 =? GEAR_REVERSE else in_reverse s1.
Proof.
  unfold decode_response.
  destruct (Z.eqb_spec n UDS_GEAR_POSITION) as [->|Hn].
  - eval_eqb. destruct (len =? 5); reflexivity.
  - cbn [andb].
    repeat match goal with
           | |- context [if ?c then _ else _] => destruct c
           end; reflexivity.
Qed.

(** A response other than the one decoded under index [k] with length
    [expected]. *)
Definition other_than (k expected : Z) (r : Z * Z * list Z) : bool :=
  match vm_get_resp_index (fst (fst r)) (snd (fst r)) (snd r) NUM_UDS_REQ_ITEMS
                          req_full_listP with
  | Some n => negb ((n =? k) && (snd (fst r) =? expected))
  | None => false
  end.

Lemma rx_run_app (a b : list (Z * Z * list Z)) :
  forall s,
    rx_run (V := V) (a ++ b) s
    = match rx_run a s with
      | Some (s1, o1) =>
          match rx_run b s1 with
          | Some (s2, o2) => Some (s2, o1 ++ o2)
          | None => None
          end
      | None => None
      end.
Proof.
  induction a as [|[[id len] d] a IH]; intros s; simpl.
  - destruct (rx_run b s) as [[s2 o2]|]; reflexivity.
  - destruct (_vw_meb_rx_data id len d s) as [[s1 out]|]; [|reflexivity].
    rewrite IH. destruct (rx_run a s1) as [[s2 o1]|]; [|reflexivity].
    destruct (rx_run b s2) as [[s3 o2]|]; reflexivity.
Qed.

Lemma rx_run_keeps_reverse (mid : list (Z * Z * list Z)) :
  forall s,
    Forall (fun r => other_than UDS_GEAR_POSITION 5 r = true) mid ->
    exists s' outs,
      rx_run (V := V) mid s = Some (s', outs) /\ in_reverse s' = in_reverse s /\
      length outs = length mid.
Proof.
  induction mid as [|[[id len] d] mid IH]; intros s Hmid.
  - exists s, []. auto.
  - pose proof (Forall_inv Hmid) as Hr. pose proof (Forall_inv_tail Hmid) as Hrest.
    unfold other_than in Hr. cbn [fst snd] in Hr.
    simpl rx_run. unfold _vw_meb_rx_data.
    destruct (vm_get_resp_index id len d NUM_UDS_REQ_ITEMS req_full_listP) as [n|];
      [|discriminate].
    set (s1 := mk_rx_state (VwMeb._vw_meb_rx_data (mgmt s)) (in_reverse s)).
    pose proof (decode_in_reverse n len d s1) as Hrev.
    apply negb_true_iff in Hr. rewrite Hr in Hrev.
    destruct (decode_response n len d s1) as [s2 out].
    destruct (IH s2 Hrest) as (s' & outs & E & R & L).
    exists s', (out :: outs). rewrite E. split; [reflexivity|].
    split; [rewrite R; exact Hrev|]. simpl. rewrite L. reflexivity.
Qed.

(** X22. The sign of the torque follows the gear: a torque response is
    published negated exactly when the last gear-position response
    before it reported reverse, whatever other responses came in
    between. *)
Theorem meb_torque_sign_follows_gear (front : bool) (x g hi lo : Z)
        (mid : list (Z * Z * list Z)) (s : rx_state) :
  Forall (fun r => other_than UDS_GEAR_POSITION 5 r = true) mid ->
  exists s' outs,
    rx_run (V := V)
      (response req_gear_pos [x; g] :: mid
       ++ [response (if front then req_front_torque else req_rear_torque) [hi; lo]])
      s
    = Some (s', outs) /\
    last outs
    = Some [(if front then DB_ITEM_FRONT_TORQUE else DB_ITEM_REAR_TORQUE,
             torque (g =? GEAR_REVERSE) (to_int16 (Z.lor (Z.shiftl hi 8) lo)))].
Proof.
  intros Hmid.
  change (response req_gear_pos [x; g] :: mid ++ ?t)
    with ([response req_gear_pos [x; g]] ++ mid ++ t).
  rewrite rx_run_app.
  assert (Hg : rx_run (V := V) [response req_gear_pos [x; g]] s
               = Some (mk_rx_state (VwMeb._vw_meb_rx_data (mgmt s)) (g =? GEAR_REVERSE),
                       [[]])).
  { unfold response. cbn [rx_run].
    change (Z.of_nat (length (echo req_gear_pos ++ [x; g]))) with 5.
    rewrite (rx_of_response 9 req_gear_pos [x; g] 5 s eq_refl)
      by (vm_compute; reflexivity).
    unfold decode_response. eval_eqb. reflexivity. }
  rewrite Hg. cbv beta iota.
  destruct (rx_run_keeps_reverse mid
              (mk_rx_state (VwMeb._vw_meb_rx_data (mgmt s)) (g =? GEAR_REVERSE)) Hmid)
    as (s1 & outs & E & R & L).
  rewrite rx_run_app, E. cbv beta iota. cbn [in_reverse] in R.
  assert (Ht : rx_run (V := V)
                 [response (if front then req_front_torque else req_rear_torque)
                           [hi; lo]] s1
               = Some (mk_rx_state (VwMeb._vw_meb_rx_data (mgmt s1)) (in_reverse s1),
                       [[(if front then DB_ITEM_FRONT_TORQUE else DB_ITEM_REAR_TORQUE,
                          torque (g =? GEAR_REVERSE)
                                 (to_int16 (Z.lor (Z.shiftl hi 8) lo)))]])).
  { unfold response. cbn [rx_run]. destruct front.
    - change (Z.of_nat (length (echo req_front_torque ++ [hi; lo]))) with 5.
      rewrite (rx_of_response 7 req_front_torque [hi; lo] 5 s1 eq_refl)
        by (vm_compute; reflexivity).
      unfold decode_response. eval_eqb. cbn [in_reverse]. rewrite R. reflexivity.
    - change (Z.of_nat (length (echo req_rear_torque ++ [hi; lo]))) with 5.
      rewrite (rx_of_response 8 req_rear_torque [hi; lo] 5 s1 eq_refl)
        by (vm_compute; reflexivity).
      unfold decode_response. eval_eqb. cbn [in_reverse]. rewrite R. reflexivity. }
  rewrite Ht. cbv beta iota. eexists _, _. split; [reflexivity|].
  rewrite app_assoc, last_snoc. reflexivity.
Qed.

End RxFacts.

Section SourceFacts.

Context {V : Type} `{FloatOps V}.

(** X23. Every item the vehicle declares has a source: whenever the request
    mask holds a declared item, the list [_vw_meb_set_req_mask] compiles
    holds, below [num_req_entries], a request whose response, of the
    length the decoder expects, publishes that item, whatever the data
    bytes are. *)
Theorem meb_supported_item_has_a_source (mask b : Z) (s0 : meb_state) :
  0 <= b -> Z.testbit meb_items b = true -> Z.testbit mask b = true ->
  length (req_listP s0) = 11%nat ->
  exists (i j : nat) (r : can_request_t) (k : nat),
    req_full_listP !! i = Some r /\
    Z.of_nat j < num_req_entries (_vw_meb_set_req_mask mask s0) /\
    req_listP (_vw_meb_set_req_mask mask s0) !! j = Some (Some r) /\
    forall (payload : list Z) (s : rx_state),
      length payload = k ->
      exists s' pubs,
        _vw_meb_rx_data (V := V) (rsp_id r)
          (Z.of_nat (length (echo r ++ payload))) (echo r ++ payload) s
        = Some (s', pubs) /\
        In (Z.shiftl 1 b) (map fst pubs).
Proof.
  intros Hb Hitem Hmask Hlen0.
  assert (Hsrc : forall (i : nat) (r : can_request_t) (k : nat) (m : Z),
             req_full_listP !! i = Some r ->
             nth i (required_req mask) false = vm_mask_check mask m ->
             Z.testbit m b = true ->
             rd (data r) 0 < Z.of_nat (length (echo r) + k) ->
             (forall data s1,
                 In (Z.shiftl 1 b)
                    (map fst (snd (decode_response (V := V) (Z.of_nat i)
                                     (Z.of_nat (length (echo r) + k)) data s1)))) ->
             exists (i j : nat) (r : can_request_t) (k : nat),
               req_full_listP !! i = Some r /\
               Z.of_nat j < num_req_entries (_vw_meb_set_req_mask mask s0) /\
               req_listP (_vw_meb_set_req_mask mask s0) !! j = Some (Some r) /\
               forall (payload : list Z) (s : rx_state),
                 length payload = k ->
                 exists s' pubs,
                   _vw_meb_rx_data (V := V) (rsp_id r)
                     (Z.of_nat (length (echo r ++ payload))) (echo r ++ payload) s
                   = Some (s', pubs) /\
                   In (Z.shiftl 1 b) (map fst pubs)).
  { intros i r k m Hi Hreq Hm Hlen Hdec.
    assert (Hin : In r (scheduled mask)).
    { apply (required_is_packed (required_req mask) req_full_listP i r); [|exact Hi].
      rewrite Hreq. apply (mask_check_bit mask m b Hb Hmask Hm). }
    destruct (compiled_entry mask s0 r Hlen0 Hin) as (j & Hj & Hr).
    exists i, j, r, k.
    split; [exact Hi|]. split; [exact Hj|]. split; [exact Hr|].
    intros payload s Hk. rewrite length_app, Hk.
    rewrite (rx_of_response i r payload _ s Hi Hlen).
    destruct (decode_response (V := V) (Z.of_nat i)
                (Z.of_nat (length (echo r) + k)) (echo r ++ payload)
                (mk_rx_state (VwMeb._vw_meb_rx_data (mgmt s)) (in_reverse s)))
      as [s' pubs] eqn:E.
    exists s', pubs. split; [reflexivity|].
    pose proof (Hdec (echo r ++ payload)
                  (mk_rx_state (VwMeb._vw_meb_rx_data (mgmt s)) (in_reverse s)))
      as Hd.
    rewrite E in Hd. exact Hd. }
  assert (Hrange : 0 <= meb_items < 2 ^ 21) by (vm_compute; split; [intros X; discriminate X|reflexivity]).
  destruct (bit_cases meb_items b Hrange Hb Hitem)
    as [->|[->|[->|[->|[->|[->|[->|[->|[->|[->|[->|[->|[->|[->|[->|[->|[->|[->|[->|[->|
        ->]]]]]]]]]]]]]]]]]]]];
    try (vm_compute in Hitem; discriminate).
  - apply (Hsrc 6%nat req_hv_batt_volt 2%nat (Z.lor DB_ITEM_HV_BATT_V DB_ITEM_AUX_KW));
      try reflexivity.
    intros data s1. unfold decode_response. eval_eqb. simpl. auto.
  - apply (Hsrc 3%nat req_hv_batt_current 5%nat DB_ITEM_HV_BATT_I); try reflexivity.
    intros data s1. unfold decode_response. eval_eqb. simpl. auto.
  - apply (Hsrc 4%nat req_hv_batt_min_t 4%nat DB_ITEM_HV_BATT_MIN_T); try reflexivity.
    intros data s1. unfold decode_response. eval_eqb. simpl. auto.
  - apply (Hsrc 5%nat req_hv_batt_max_t 4%nat DB_ITEM_HV_BATT_MAX_T); try reflexivity.
    intros data s1. unfold decode_response. eval_eqb. simpl. auto.
  - apply (Hsrc 0%nat req_12v_batt_info 23%nat (Z.lor DB_ITEM_LV_BATT_V DB_ITEM_LV_BATT_I));
      try reflexivity.
    intros data s1. unfold decode_response. eval_eqb. simpl. auto.
  - apply (Hsrc 0%nat req_12v_batt_info 23%nat (Z.lor DB_ITEM_LV_BATT_V DB_ITEM_LV_BATT_I));
      try reflexivity.
    intros data s1. unfold decode_response. eval_eqb. simpl. auto.
  - apply (Hsrc 2%nat req_aux_power 2%nat DB_ITEM_AUX_KW); try reflexivity.
    intros data s1. unfold decode_response. eval_eqb. simpl. auto.
  - apply (Hsrc 7%nat req_front_torque 2%nat DB_ITEM_FRONT_TORQUE); try reflexivity.
    intros data s1. unfold decode_response. eval_eqb. simpl. auto.
  - apply (Hsrc 8%nat req_rear_torque 2%nat DB_ITEM_REAR_TORQUE); try reflexivity.
    intros data s1. unfold decode_response. eval_eqb. simpl. auto.
  - apply (Hsrc 10%nat req_speed 1%nat DB_ITEM_SPEED); try reflexivity.
    intros data s1. unfold decode_response. eval_eqb. simpl. auto.
  - apply (Hsrc 1%nat req_gps_info 30%nat DB_ITEM_GPS_ELEVATION); try reflexivity.
    intros data s1. unfold decode_response. eval_eqb. simpl. auto.
Qed.

(** X24. Every response handed to the decoder, whether or not it matches a
    request and whatever its length, counts as the response to the
    request in flight; what it publishes are items the vehicle declares,
    and the other request management variables are left alone. *)
Theorem meb_any_response_counts (id len : Z) (data : list Z) (s s' : rx_state)
        (pubs : list (Z * V)) :
  _vw_meb_rx_data id len data s = Some (s', pubs) ->
  mgmt s' = VwMeb._vw_meb_rx_data (mgmt s) /\
  saw_response (mgmt s') = true /\
  Forall (fun p => Z.land (fst p) meb_items = fst p) pubs.
Proof.
  unfold _vw_meb_rx_data.
  destruct (vm_get_resp_index id len data NUM_UDS_REQ_ITEMS req_full_listP) as [n|];
    [|discriminate].
  intros E. injection E as E. revert E. unfold decode_response.
  repeat match goal with
         | |- context [if ?c then _ else _] => destruct c
         end;
    intros E; injection E as <- <-; (split; [reflexivity|]); (split; [reflexivity|]);
    repeat constructor.
Qed.

End SourceFacts.

Definition rx0 : rx_state := mk_rx_state meb_init false.

Lemma meb_torque_sign_follows_gear_witness :
  exists s' outs,
    rx_run (V := QArith_base.Q)
      (response req_gear_pos [0x00; 0x07] :: [response req_speed [50]]
       ++ [response req_front_torque [0x00; 0x64]])
      rx0
    = Some (s', outs) /\
    last outs
    = Some [(DB_ITEM_FRONT_TORQUE,
             torque (0x07 =? GEAR_REVERSE) (to_int16 (Z.lor (Z.shiftl 0x00 8) 0x64)))].
Proof.
  apply (meb_torque_sign_follows_gear true 0x00 0x07 0x00 0x64
           [response req_speed [50]] rx0).
  repeat constructor.
Defined.

Lemma meb_supported_item_has_a_source_witness :
  exists (i j : nat) (r : can_request_t) (k : nat),
    req_full_listP !! i = Some r /\
    Z.of_nat j < num_req_entries (_vw_meb_set_req_mask DB_ITEM_AUX_KW meb_init) /\
    req_listP (_vw_meb_set_req_mask DB_ITEM_AUX_KW meb_init) !! j = Some (Some r) /\
    forall (payload : list Z) (s : rx_state),
      length payload = k ->
      exists s' pubs,
        _vw_meb_rx_data (V := QArith_base.Q) (rsp_id r)
          (Z.of_nat (length (echo r ++ payload))) (echo r ++ payload) s
        = Some (s', pubs) /\
        In (Z.shiftl 1 8) (map fst pubs).
Proof.
  apply (meb_supported_item_has_a_source DB_ITEM_AUX_KW 8 meb_init).
  - lia.
  - reflexivity.
  - reflexivity.
  - reflexivity.
Defined.

Lemma meb_any_response_counts_witness :
  mgmt (mk_rx_state (VwMeb._vw_meb_rx_data meb_init) false)
  = VwMeb._vw_meb_rx_data (mgmt rx0) /\
  saw_response (mgmt (mk_rx_state (VwMeb._vw_meb_rx_data meb_init) false)) = true /\
  Forall (fun p : Z * QArith_base.Q => Z.land (fst p) meb_items = fst p) [].
Proof.
  apply (meb_any_response_counts 0x77A 3 [0x7F; 0x22; 0x31] rx0).
  reflexivity.
Defined.

End VwMebRxFacts.

Module LeafZe1Facts.
Import VehicleManager VehicleManagerFacts VwMebFacts Decode LeafZe1 DecodeFacts.

(** *** Responses to the requests of the full list *)

Lemma leaf_heads_short : Forall (fun e => rd (data e) 0 <= 3) req_full_listP.
Proof. repeat constructor; vm_compute; discriminate. Qed.

Lemma leaf_long_response (id len : Z) (d : list Z) :
  4 <= len ->
  vm_get_resp_index id len d NUM_UDS_REQ_ITEMS req_full_listP
  = vm_get_resp_index id 4 d NUM_UDS_REQ_ITEMS req_full_listP.
Proof.
  intros Hlen. unfold vm_get_resp_index.
  replace (len <? 2) with false by (symmetry; apply Z.ltb_ge; lia).
  change (4 <? 2) with false. cbv iota.
  destruct (rd d 0 =? 127); [reflexivity|].
  apply scan_long_response.
  change (take (Z.to_nat NUM_UDS_REQ_ITEMS) req_full_listP) with req_full_listP.
  eapply Forall_impl; [exact leaf_heads_short|]. simpl. intros e He. lia.
Qed.

Lemma leaf_resolves (i : nat) (r : can_request_t) (payload : list Z) (len : Z) :
  req_full_listP !! i = Some r ->
  rd (data r) 0 < len ->
  vm_get_resp_index (rsp_id r) len (echo r ++ payload) NUM_UDS_REQ_ITEMS
                    req_full_listP
  = Some (Z.of_nat i).
Proof.
  intros Hi Hlen.
  destruct (Z.le_gt_cases 4 len) as [Hlong|Hshort].
  - rewrite leaf_long_response by exact Hlong.
    do 9 (destruct i as [|i]; [injection Hi as <-; vm_compute; reflexivity|]).
    destruct i; discriminate.
  - do 9 (destruct i as [|i];
          [injection Hi as <-;
           match type of Hlen with
           | ?b < _ => let v := eval vm_compute in b in change b with v in Hlen
           end;
           first [ exfalso; lia
                 | assert (len = 3) by lia; subst len; vm_compute; reflexivity ]|]).
    destruct i; discriminate.
Qed.

(** X25. No two requests of the Leaf's full list can be confused: a positive
    response to the request at index [i], received on that request's
    response id and long enough to hold the echoed bytes and one more,
    resolves to [i], whatever data follows the echoed bytes. *)
Theorem leaf_response_resolves_to_its_request (i : nat) (r : can_request_t)
        (payload : list Z) (len : Z) :
  req_full_listP !! i = Some r ->
  rd (data r) 0 < len ->
  vm_get_resp_index (rsp_id r) len (echo r ++ payload) NUM_UDS_REQ_ITEMS
                    req_full_listP
  = Some (Z.of_nat i).
Proof. exact (leaf_resolves i r payload len). Qed.

Lemma leaf_response_resolves_to_its_request_witness :
  vm_get_resp_index 0x7BB 31 ([0x61; 0x04] ++ replicate 29 0x10) NUM_UDS_REQ_ITEMS
                    req_full_listP
  = Some 7.
Proof.
  apply (leaf_response_resolves_to_its_request 7 req_hv_batt_temp (replicate 29 0x10) 31
           eq_refl).
  vm_compute. reflexivity.
Defined.

(** The requests a mask calls for, in the order of the full list. *)
Definition leaf_scheduled (mask : Z) : list can_request_t :=
  map snd (List.filter fst (zip (required_req mask) req_full_listP)).

(** The data items the Leaf declares. *)
Definition leaf_items : Z :=
  VmDispatch.supported_item_mask VmDispatch.vehicle_leaf_ze1.

(** A response other than the one decoded under index [k] with length
    [expected]. *)
Definition leaf_other_than (k expected : Z) (r : Z * Z * list Z) : bool :=
  match vm_get_resp_index (fst (fst r)) (snd (fst r)) (snd r) NUM_UDS_REQ_ITEMS
                          req_full_listP with
  | Some n => negb ((n =? k) && (snd (fst r) =? expected))
  | None => false
  end.

Section LeafFacts.

Context {V : Type} `{FloatOps V}.

Lemma leaf_rx_of_response (i : nat) (r : can_request_t) (payload : list Z) (len : Z)
      (s : leaf_state V) :
  req_full_listP !! i = Some r ->
  rd (data r) 0 < len ->
  _leaf_ze1_rx_data (rsp_id r) len (echo r ++ payload) s
  = Some (decode_response (Z.of_nat i) len (echo r ++ payload) (set_saw_response s)).
Proof.
  intros Hi Hlen. unfold _leaf_ze1_rx_data.
  rewrite (leaf_resolves i r payload len Hi Hlen). reflexivity.
Qed.

(** *** The compiled request list *)

Lemma leaf_set_req_mask_compiled (mask : Z) (s : leaf_state V) :
  length (req_listP s) = 9%nat ->
  num_req_entries (_leaf_ze1_set_req_mask mask s)
  = Z.of_nat (length (leaf_scheduled mask)) /\
  req_listP (_leaf_ze1_set_req_mask mask s)
  = map Some (leaf_scheduled mask)
    ++ drop (length (leaf_scheduled mask)) (req_listP s).
Proof.
  intros Hlen. unfold _leaf_ze1_set_req_mask.
  pose proof (build_list_spec (zip (required_req mask) req_full_listP) 0 (req_listP s))
    as Hb.
  change (Z.of_nat 0) with 0 in Hb. cbv zeta in Hb. rewrite Hb.
  2:{ rewrite Hlen. simpl. lia. }
  simpl. fold (leaf_scheduled mask). split; reflexivity.
Qed.

(** A request the mask calls for is an entry of the list
    [_leaf_ze1_set_req_mask] compiles, below [num_req_entries]. *)
Lemma leaf_compiled_entry (mask : Z) (s : leaf_state V) (r : can_request_t) :
  length (req_listP s) = 9%nat -> In r (leaf_scheduled mask) ->
  exists j : nat,
    Z.of_nat j < num_req_entries (_leaf_ze1_set_req_mask mask s) /\
    req_listP (_leaf_ze1_set_req_mask mask s) !! j = Some (Some r).
Proof.
  intros Hlen Hin. destruct (leaf_set_req_mask_compiled mask s Hlen) as [Hn Hl].
  apply list_elem_of_In, list_elem_of_lookup_1 in Hin as [j Hj].
  exists j. pose proof (lookup_lt_Some _ _ _ Hj) as Hlt.
  split; [lia|]. rewrite Hl, lookup_app_l by (rewrite length_map; exact Hlt).
  rewrite list_lookup_fmap, Hj. reflexivity.
Qed.

(** *** Battery temperatures *)

(** With [<] irreflexive and transitive, the nested comparisons pick the
    least and the greatest of sensors 0, 1 and 3. *)
Lemma find_extremes (t : list V) :
  (forall a, flt a a = false) ->
  (forall a b c, flt a b = true -> flt b c = true -> flt a c = true) ->
  let ts := [temp_at t 0; temp_at t 1; temp_at t 3] in
  In (find_min t) ts /\ In (find_max t) ts /\
  Forall (fun x => flt x (find_min t) = false /\ flt (find_max t) x = false) ts.
Proof.
  intros Hirr Htr. cbv zeta.
  assert (Hasym : forall a b, flt a b = true -> flt b a = false).
  { intros a b Hab. destruct (flt b a) eqn:Hba; [|reflexivity].
    rewrite <- (Hirr a). symmetry. exact (Htr a b a Hab Hba). }
  assert (Hno : forall a b c, flt a b = true -> flt c b = false -> flt c a = false).
  { intros a b c Hab Hcb. destruct (flt c a) eqn:Hca; [|reflexivity].
    rewrite <- Hcb. symmetry. exact (Htr c a b Hca Hab). }
  assert (Hno' : forall a b c, flt a b = true -> flt a c = false -> flt b c = false).
  { intros a b c Hab Hac. destruct (flt b c) eqn:Hbc; [|reflexivity].
    rewrite <- Hac. symmetry. exact (Htr a b c Hab Hbc). }
  unfold find_min, find_max.
  set (t0 := temp_at t 0). set (t1 := temp_at t 1). set (t3 := temp_at t 3).
  split; [|split].
  - destruct (flt t1 t0); [destruct (flt t3 t1)|destruct (flt t3 t0)]; simpl; auto.
  - destruct (flt t0 t1); [destruct (flt t1 t3)|destruct (flt t0 t3)]; simpl; auto.
  - assert (Hmin : forall x, In x [t0; t1; t3] ->
                             flt x (if flt t1 t0
                                    then if flt t3 t1 then t3 else t1
                                    else if flt t3 t0 then t3 else t0) = false).
    { intros x Hx.
      destruct (flt t1 t0) eqn:E10; [destruct (flt t3 t1) eqn:E31
                                    |destruct (flt t3 t0) eqn:E30];
        destruct Hx as [<-|[<-|[<-|[]]]]; eauto. }
    assert (Hmax : forall x, In x [t0; t1; t3] ->
                             flt (if flt t0 t1
                                  then if flt t1 t3 then t3 else t1
                                  else if flt t0 t3 then t3 else t0) x = false).
    { intros x Hx.
      destruct (flt t0 t1) eqn:E01; [destruct (flt t1 t3) eqn:E13
                                    |destruct (flt t0 t3) eqn:E03];
        destruct Hx as [<-|[<-|[<-|[]]]]; eauto. }
    repeat constructor; first [apply Hmin | apply Hmax]; simpl; auto.
Qed.

End LeafFacts.

Section LeafFacts2.

Context {V : Type} `{FloatOps V}.

(** X26. A battery temperature response: the three sensors the ZE1 has are
    converted and stored, the fourth entry of [hv_batt_t] is left as it
    was and takes no part, and what is published as minimum and maximum
    are the least and the greatest of the three, for any [<] that is
    irreflexive and transitive. *)
Theorem leaf_battery_temperature_extremes (payload : list Z) (s : leaf_state V) :
  (forall a, flt a a = false) ->
  (forall a b c, flt a b = true -> flt b c = true -> flt a c = true) ->
  length (hv_batt_t s) = 4%nat ->
  length payload = 29%nat ->
  let data := echo req_hv_batt_temp ++ payload in
  let ts := [batt_temp_c data 2; batt_temp_c data 5; batt_temp_c data 11] in
  exists s' lo hi,
    _leaf_ze1_rx_data (rsp_id req_hv_batt_temp) 31 data s
    = Some (s', [(DB_ITEM_HV_BATT_MIN_T, lo); (DB_ITEM_HV_BATT_MAX_T, hi)]) /\
    In lo ts /\ In hi ts /\
    Forall (fun x => flt x lo = false /\ flt hi x = false) ts /\
    hv_batt_t s'
    = [batt_temp_c data 2; batt_temp_c data 5; temp_at (hv_batt_t s) 2;
       batt_temp_c data 11].
Proof.
  intros Hirr Htr Hlen Hpay. cbv zeta.
  set (data := echo req_hv_batt_temp ++ payload).
  rewrite (leaf_rx_of_response 7 req_hv_batt_temp payload 31 s eq_refl)
    by (vm_compute; reflexivity).
  fold data. unfold decode_response. eval_eqb.
  cbn [hv_batt_t set_saw_response].
  destruct (hv_batt_t s) as [|a0 [|a1 [|a2 [|a3 [|]]]]] eqn:Et; try discriminate.
  set (t := <[3%nat:=batt_temp_c data 11]>
              (<[1%nat:=batt_temp_c data 5]>
                 (<[0%nat:=batt_temp_c data 2]> [a0; a1; a2; a3]))).
  assert (Ht : t = [batt_temp_c data 2; batt_temp_c data 5; a2; batt_temp_c data 11])
    by reflexivity.
  destruct (find_extremes t Hirr Htr) as (Hlo & Hhi & Hall).
  rewrite Ht in Hlo, Hhi, Hall at 1.
  exists (set_hv_batt_t t (set_saw_response s)), (find_min t), (find_max t).
  split; [reflexivity|].
  change (temp_at [batt_temp_c data 2; batt_temp_c data 5; a2; batt_temp_c data 11] 0)
    with (batt_temp_c data 2) in *.
  change (temp_at [batt_temp_c data 2; batt_temp_c data 5; a2; batt_temp_c data 11] 1)
    with (batt_temp_c data 5) in *.
  change (temp_at [batt_temp_c data 2; batt_temp_c data 5; a2; batt_temp_c data 11] 3)
    with (batt_temp_c data 11) in *.
  split; [exact Hlo|]. split; [exact Hhi|]. split; [exact Hall|].
  exact Ht.
Qed.

(** *** Auxiliary power *)

(** Only a response decoded as low-voltage (or as AC) auxiliary power
    changes the stored part. *)
Lemma decode_aux_parts (n len : Z) (data : list Z) (s1 : leaf_state V) :
  lv_aux_kw (fst (decode_response n len data s1))
  = (if (n =? UDS_LV_AUX_PWR) && (len =? 4)
     then fmul (of_int (rd data 3)) (lit (dec 1 10)) else lv_aux_kw s1) /\
  ac_aux_kw (fst (decode_response n len data s1))
  = (if (n =? UDS_AC_AUX_PWR) && (len =? 4)
     then fmul (of_int (rd data 3)) (lit (dec 250 1000)) else ac_aux_kw s1).
Proof.
  unfold decode_response.
  destruct (Z.eqb_spec n UDS_LV_AUX_PWR) as [->|Hn].
  { eval_eqb. destruct (len =? 4); split; reflexivity. }
  destruct (Z.eqb_spec n UDS_AC_AUX_PWR) as [->|Hn'].
  { eval_eqb. destruct (len =? 4); split; reflexivity. }
  cbn [andb].
  repeat match goal with
         | |- context [if ?c then _ else _] => destruct c
         end; split; reflexivity.
Qed.

Lemma leaf_rx_run_app (a b : list (Z * Z * list Z)) :
  forall s : leaf_state V,
    rx_run (a ++ b) s
    = match rx_run a s with
      | Some (s1, o1) =>
          match rx_run b s1 with
          | Some (s2, o2) => Some (s2, o1 ++ o2)
          | None => None
          end
      | None => None
      end.
Proof.
  induction a as [|[[id len] d] a IH]; intros s; simpl.
  - destruct (rx_run b s) as [[s2 o2]|]; reflexivity.
  - destruct (_leaf_ze1_rx_data id len d s) as [[s1 out]|]; [|reflexivity].
    rewrite IH. destruct (rx_run a s1) as [[s2 o1]|]; [|reflexivity].
    destruct (rx_run b s2) as [[s3 o2]|]; reflexivity.
Qed.

Lemma leaf_rx_run_keeps_aux (mid : list (Z * Z * list Z)) :
  forall s : leaf_state V,
    Forall (fun r => leaf_other_than UDS_LV_AUX_PWR 4 r = true /\
                     leaf_other_than UDS_AC_AUX_PWR 4 r = true) mid ->
    exists s' outs,
      rx_run mid s = Some (s', outs) /\
      lv_aux_kw s' = lv_aux_kw s /\ ac_aux_kw s' = ac_aux_kw s.
Proof.
  induction mid as [|[[id len] d] mid IH]; intros s Hmid.
  - exists s, []. auto.
  - pose proof (Forall_inv Hmid) as [Hr1 Hr2].
    pose proof (Forall_inv_tail Hmid) as Hrest.
    unfold leaf_other_than in Hr1, Hr2. cbn [fst snd] in Hr1, Hr2.
    simpl rx_run. unfold _leaf_ze1_rx_data.
    destruct (vm_get_resp_index id len d NUM_UDS_REQ_ITEMS req_full_listP) as [n|];
      [|discriminate].
    destruct (decode_aux_parts n len d (set_saw_response s)) as [Hlv Hac].
    apply negb_true_iff in Hr1, Hr2. rewrite Hr1 in Hlv. rewrite Hr2 in Hac.
    destruct (decode_response n len d (set_saw_response s)) as [s2 out].
    destruct (IH s2 Hrest) as (s' & outs & E & L & A).
    exists s', (out :: outs). rewrite E. split; [reflexivity|].
    split; [rewrite L; exact Hlv|rewrite A; exact Hac].
Qed.

(** X27. Auxiliary power is the sum of two readings that arrive in separate
    responses, and each response publishes the sum of its own reading and
    the other one as last received: first with the AC part left from
    before, then, after any responses of other kinds, with both parts
    fresh. *)
Theorem leaf_aux_power_is_sum_of_parts (a b : Z) (mid : list (Z * Z * list Z))
        (s : leaf_state V) :
  Forall (fun r => leaf_other_than UDS_LV_AUX_PWR 4 r = true /\
                   leaf_other_than UDS_AC_AUX_PWR 4 r = true) mid ->
  exists s' outs,
    rx_run (response req_lv_aux_pwr [a] :: mid ++ [response req_ac_aux_pwr [b]]) s
    = Some (s', outs) /\
    head outs
    = Some [(DB_ITEM_AUX_KW,
             fadd (fmul (of_int a) (lit (dec 1 10))) (ac_aux_kw s))] /\
    last outs
    = Some [(DB_ITEM_AUX_KW,
             fadd (fmul (of_int a) (lit (dec 1 10)))
                  (fmul (of_int b) (lit (dec 250 1000))))].
Proof.
  intros Hmid.
  change (response req_lv_aux_pwr [a] :: mid ++ ?t)
    with ([response req_lv_aux_pwr [a]] ++ mid ++ t).
  rewrite leaf_rx_run_app.
  set (s1 := set_lv_aux_kw (fmul (of_int a) (lit (dec 1 10))) (set_saw_response s)).
  assert (Hg : rx_run [response req_lv_aux_pwr [a]] s
               = Some (s1, [[(DB_ITEM_AUX_KW,
                              fadd (fmul (of_int a) (lit (dec 1 10))) (ac_aux_kw s))]])).
  { unfold response. cbn [rx_run].
    change (Z.of_nat (length (echo req_lv_aux_pwr ++ [a]))) with 4.
    rewrite (leaf_rx_of_response 3 req_lv_aux_pwr [a] 4 s eq_refl)
      by (vm_compute; reflexivity).
    unfold decode_response. eval_eqb. reflexivity. }
  rewrite Hg. cbv beta iota.
  destruct (leaf_rx_run_keeps_aux mid s1 Hmid) as (s2 & outs & E & L & A).
  rewrite leaf_rx_run_app, E. cbv beta iota.
  assert (Ht : rx_run [response req_ac_aux_pwr [b]] s2
               = Some (set_ac_aux_kw (fmul (of_int b) (lit (dec 250 1000)))
                         (set_saw_response s2),
                       [[(DB_ITEM_AUX_KW,
                          fadd (fmul (of_int a) (lit (dec 1 10)))
                               (fmul (of_int b) (lit (dec 250 1000))))]])).
  { unfold response. cbn [rx_run].
    change (Z.of_nat (length (echo req_ac_aux_pwr ++ [b]))) with 4.
    rewrite (leaf_rx_of_response 4 req_ac_aux_pwr [b] 4 s2 eq_refl)
      by (vm_compute; reflexivity).
    unfold decode_response. eval_eqb.
    cbn [lv_aux_kw ac_aux_kw set_ac_aux_kw set_saw_response]. rewrite L.
    reflexivity. }
  rewrite Ht. cbv beta iota. eexists _, _. split; [reflexivity|].
  split; [reflexivity|].
  rewrite app_assoc, last_snoc. reflexivity.
Qed.

(** *** Declared items and their sources *)

(** X28. Every item the Leaf declares has a source: whenever the request mask
    holds a declared item, the list [_leaf_ze1_set_req_mask] compiles
    holds, below [num_req_entries], a request whose response, of the
    length the decoder expects, publishes that item, whatever the data
    bytes are. *)
Theorem leaf_supported_item_has_a_source (mask b : Z) (s0 : leaf_state V) :
  0 <= b -> Z.testbit leaf_items b = true -> Z.testbit mask b = true ->
  length (req_listP s0) = 9%nat ->
  exists (i j : nat) (r : can_request_t) (k : nat),
    req_full_listP !! i = Some r /\
    Z.of_nat j < num_req_entries (_leaf_ze1_set_req_mask mask s0) /\
    req_listP (_leaf_ze1_set_req_mask mask s0) !! j = Some (Some r) /\
    forall (payload : list Z) (s : leaf_state V),
      length payload = k ->
      exists s' pubs,
        _leaf_ze1_rx_data (rsp_id r)
          (Z.of_nat (length (echo r ++ payload))) (echo r ++ payload) s
        = Some (s', pubs) /\
        In (Z.shiftl 1 b) (map fst pubs).
Proof.
  intros Hb Hitem Hmask Hlen0.
  assert (Hsrc : forall (i : nat) (r : can_request_t) (k : nat) (m : Z),
             req_full_listP !! i = Some r ->
             nth i (required_req mask) false = vm_mask_check mask m ->
             Z.testbit m b = true ->
             rd (data r) 0 < Z.of_nat (length (echo r) + k) ->
             (forall data (s1 : leaf_state V),
                 In (Z.shiftl 1 b)
                    (map fst (snd (decode_response (Z.of_nat i)
                                     (Z.of_nat (length (echo r) + k)) data s1)))) ->
             exists (i j : nat) (r : can_request_t) (k : nat),
               req_full_listP !! i = Some r /\
               Z.of_nat j < num_req_entries (_leaf_ze1_set_req_mask mask s0) /\
               req_listP (_leaf_ze1_set_req_mask mask s0) !! j = Some (Some r) /\
               forall (payload : list Z) (s : leaf_state V),
                 length payload = k ->
                 exists s' pubs,
                   _leaf_ze1_rx_data (rsp_id r)
                     (Z.of_nat (length (echo r ++ payload))) (echo r ++ payload) s
                   = Some (s', pubs) /\
                   In (Z.shiftl 1 b) (map fst pubs)).
  { intros i r k m Hi Hreq Hm Hlen Hdec.
    assert (Hin : In r (leaf_scheduled mask)).
    { apply (required_is_packed (required_req mask) req_full_listP i r); [|exact Hi].
      rewrite Hreq. apply (mask_check_bit mask m b Hb Hmask Hm). }
    destruct (leaf_compiled_entry mask s0 r Hlen0 Hin) as (j & Hj & Hr).
    exists i, j, r, k.
    split; [exact Hi|]. split; [exact Hj|]. split; [exact Hr|].
    intros payload s Hk. rewrite length_app, Hk.
    rewrite (leaf_rx_of_response i r payload _ s Hi Hlen).
    destruct (decode_response (Z.of_nat i) (Z.of_nat (length (echo r) + k))
                (echo r ++ payload) (set_saw_response s)) as [s' pubs] eqn:E.
    exists s', pubs. split; [reflexivity|].
    pose proof (Hdec (echo r ++ payload) (set_saw_response s)) as Hd.
    rewrite E in Hd. exact Hd. }
  assert (Hrange : 0 <= leaf_items < 2 ^ 21)
    by (vm_compute; split; [intros X; discriminate X|reflexivity]).
  destruct (bit_cases leaf_items b Hrange Hb Hitem)
    as [->|[->|[->|[->|[->|[->|[->|[->|[->|[->|[->|[->|[->|[->|[->|[->|[->|[->|[->|[->|
        ->]]]]]]]]]]]]]]]]]]]];
    try (vm_compute in Hitem; discriminate).
  - apply (Hsrc 6%nat req_hv_batt_info 51%nat (Z.lor DB_ITEM_HV_BATT_V DB_ITEM_HV_BATT_I));
      try reflexivity.
    intros data s1. unfold decode_response. eval_eqb. simpl. auto.
  - apply (Hsrc 6%nat req_hv_batt_info 51%nat (Z.lor DB_ITEM_HV_BATT_V DB_ITEM_HV_BATT_I));
      try reflexivity.
    intros data s1. unfold decode_response. eval_eqb. simpl. auto.
  - apply (Hsrc 7%nat req_hv_batt_temp 29%nat
             (Z.lor DB_ITEM_HV_BATT_MIN_T DB_ITEM_HV_BATT_MAX_T)); try reflexivity.
    intros data s1. unfold decode_response. eval_eqb. simpl. auto.
  - apply (Hsrc 7%nat req_hv_batt_temp 29%nat
             (Z.lor DB_ITEM_HV_BATT_MIN_T DB_ITEM_HV_BATT_MAX_T)); try reflexivity.
    intros data s1. unfold decode_response. eval_eqb. simpl. auto.
  - apply (Hsrc 1%nat req_12v_batt_v 1%nat DB_ITEM_LV_BATT_V); try reflexivity.
    intros data s1. unfold decode_response. eval_eqb. simpl. auto.
  - apply (Hsrc 2%nat req_12v_batt_i 2%nat DB_ITEM_LV_BATT_I); try reflexivity.
    intros data s1. unfold decode_response. eval_eqb. simpl. auto.
  - apply (Hsrc 3%nat req_lv_aux_pwr 1%nat DB_ITEM_AUX_KW); try reflexivity.
    intros data s1. unfold decode_response. eval_eqb. simpl. auto.
  - apply (Hsrc 8%nat req_torque 2%nat DB_ITEM_FRONT_TORQUE); try reflexivity.
    intros data s1. unfold decode_response. eval_eqb. simpl. auto.
  - apply (Hsrc 5%nat req_speed 2%nat DB_ITEM_SPEED); try reflexivity.
    intros data s1. unfold decode_response. eval_eqb. simpl. auto.
Qed.

End LeafFacts2.

Definition leaf0 : leaf_state QArith_base.Q := leaf_boot.

Definition temp_payload : list Z :=
  [0x02; 0x10; 0x00; 0x02; 0x30; 0x00; 0x00; 0x00; 0x00; 0x01; 0xF0]
  ++ replicate 18 0.

Lemma leaf_battery_temperature_extremes_witness :
  let data := echo req_hv_batt_temp ++ temp_payload in
  let ts := [batt_temp_c (V := QArith_base.Q) data 2; batt_temp_c data 5;
             batt_temp_c data 11] in
  exists s' lo hi,
    _leaf_ze1_rx_data (rsp_id req_hv_batt_temp) 31 data leaf0
    = Some (s', [(DB_ITEM_HV_BATT_MIN_T, lo); (DB_ITEM_HV_BATT_MAX_T, hi)]) /\
    In lo ts /\ In hi ts /\
    Forall (fun x => flt x lo = false /\ flt hi x = false) ts /\
    hv_batt_t s'
    = [batt_temp_c data 2; batt_temp_c data 5; temp_at (hv_batt_t leaf0) 2;
       batt_temp_c data 11].
Proof.
  apply (leaf_battery_temperature_extremes temp_payload leaf0).
  - exact q_flt_irrefl.
  - exact q_flt_trans.
  - reflexivity.
  - reflexivity.
Defined.

Lemma leaf_aux_power_is_sum_of_parts_witness :
  exists s' outs,
    rx_run (response req_lv_aux_pwr [12] :: [response req_speed [0x01; 0xF4]]
            ++ [response req_ac_aux_pwr [8]]) leaf0
    = Some (s', outs) /\
    head outs
    = Some [(DB_ITEM_AUX_KW,
             fadd (fmul (of_int 12) (lit (dec 1 10))) (ac_aux_kw leaf0))] /\
    last outs
    = Some [(DB_ITEM_AUX_KW,
             fadd (fmul (of_int 12) (lit (dec 1 10)))
                  (fmul (of_int 8) (lit (dec 250 1000))))].
Proof.
  apply (leaf_aux_power_is_sum_of_parts 12 8 [response req_speed [0x01; 0xF4]] leaf0).
  repeat constructor.
Defined.

Lemma leaf_supported_item_has_a_source_witness :
  exists (i j : nat) (r : can_request_t) (k : nat),
    req_full_listP !! i = Some r /\
    Z.of_nat j < num_req_entries (_leaf_ze1_set_req_mask DB_ITEM_HV_BATT_MAX_T leaf0) /\
    req_listP (_leaf_ze1_set_req_mask DB_ITEM_HV_BATT_MAX_T leaf0) !! j
    = Some (Some r) /\
    forall (payload : list Z) (s : leaf_state QArith_base.Q),
      length payload = k ->
      exists s' pubs,
        _leaf_ze1_rx_data (rsp_id r)
          (Z.of_nat (length (echo r ++ payload))) (echo r ++ payload) s
        = Some (s', pubs) /\
        In (Z.shiftl 1 3) (map fst pubs).
Proof.
  apply (leaf_supported_item_has_a_source DB_ITEM_HV_BATT_MAX_T 3 leaf0).
  - lia.
  - reflexivity.
  - reflexivity.
  - reflexivity.
Defined.

(** The example response, computed with exact arithmetic: the sensors
    read raw 528, 560 and 496, that is 18.9, about 15.8 and 22.1 degrees
    Celsius. *)
Example leaf_temperature_example :
  match _leaf_ze1_rx_data (V := QArith_base.Q) (rsp_id req_hv_batt_temp) 31
          (echo req_hv_batt_temp ++ temp_payload) leaf0 with
  | Some (_, [(_, lo); (_, hi)]) =>
      QArith_base.Qle_bool (QArith_base.Qmake 158 10) lo = true /\
      QArith_base.Qle_bool lo (QArith_base.Qmake 159 10) = true /\
      QArith_base.Qeq_bool hi (QArith_base.Qmake 221 10) = true
  | _ => False
  end.
Proof. vm_compute. repeat split. Qed.

End LeafZe1Facts.
